(** * Dynantic: a shallow embedding of the serializer, the builders and the
    error translator, with the properties of the specification.

    The Python sources are embedded as functions over a model of the Python
    values they handle.  Exceptions are explicit: a fallible function returns
    [result A], which is either [Ok a] or [Raise e].  Dictionaries whose
    iteration order is observable (the order in which field errors are
    raised) are association lists in insertion order; the placeholder tables
    of the builders are finite maps. *)

From Stdlib Require Import ZArith NArith List String Ascii Bool Lia DecimalString DecimalNat.
From stdpp Require Import base option list strings gmap.

Set Warnings "-register-all".

Open Scope string_scope.
Open Scope list_scope.
Open Scope Z_scope.

(** ** Results and exceptions-as-values *)

Module Res.

Inductive result (E A : Type) : Type :=
  | Ok (a : A)
  | Raise (e : E).
Arguments Ok {E A} a.
Arguments Raise {E A} e.

Definition bind {E A B} (r : result E A) (k : A -> result E B) : result E B :=
  match r with
  | Ok a => k a
  | Raise e => Raise e
  end.

Definition is_ok {E A} (r : result E A) : bool :=
  match r with Ok _ => true | Raise _ => false end.

(** [[f(x) for x in xs]], stopping at the first exception. *)
Definition mapM {E A B} (f : A -> result E B) : list A -> result E (list B) :=
  fix go (xs : list A) : result E (list B) :=
    match xs with
    | [] => Ok []
    | x :: xs' =>
        match f x with
        | Raise e => Raise e
        | Ok y =>
            match go xs' with
            | Raise e => Raise e
            | Ok ys => Ok (y :: ys)
            end
        end
    end.

(** [{k: f(v) for k, v in items}], stopping at the first exception. *)
Definition mapM_items {E K A B} (f : A -> result E B)
    : list (K * A) -> result E (list (K * B)) :=
  fix go (kvs : list (K * A)) : result E (list (K * B)) :=
    match kvs with
    | [] => Ok []
    | (k, v) :: kvs' =>
        match f v with
        | Raise e => Raise e
        | Ok y =>
            match go kvs' with
            | Raise e => Raise e
            | Ok ys => Ok ((k, y) :: ys)
            end
        end
    end.

End Res.
Export Res.

Notation "'try!' x <- c1 ; c2" := (Res.bind c1 (fun x => c2))
  (at level 10, x name, c1 at level 100, c2 at level 200).

(** ** Python values *)

Module Py.

(** Number of decimal digits of a coefficient ([len(self._int)]). *)
Definition ndigits (c : N) : Z := Z.of_nat (Init.Decimal.nb_digits (N.to_uint c)).

(** [decimal.Decimal]: sign, coefficient, exponent, or a special value. *)
Inductive Decimal : Type :=
  | DFinite (neg : bool) (coef : N) (exp : Z)
  | DInfinity (neg : bool)
  | DNaN.

(** [Decimal(z)] for a Python int. *)
Definition Decimal_of_int (z : Z) : Decimal := DFinite (z <? 0) (Z.abs_N z) 0.

(** Adjusted exponent: the exponent of the most significant digit. *)
Definition adjusted (c : N) (e : Z) : Z := ndigits c + e - 1.

Definition is_zero (d : Decimal) : bool :=
  match d with
  | DFinite _ c _ => (c =? 0)%N
  | _ => false
  end.

(** [int(d)] for a finite decimal: truncation towards zero. *)
Definition Decimal_to_int (d : Decimal) : Z :=
  match d with
  | DFinite s c e =>
      let m := if 0 <=? e then Z.of_N c * 10 ^ e else Z.of_N c / 10 ^ (- e) in
      if s then - m else m
  | _ => 0
  end.

(** The platform's binary floating point numbers.  A float is observed
    through [Decimal(str(x))] and produced by [float(d)]. *)
Class PyFloat : Type := {
    pyfloat : Type;
    float_to_decimal : pyfloat -> Decimal;
    decimal_to_float : Decimal -> pyfloat;
  }.

(** [float(Decimal(str(x))) == x]: the shortest-repr guarantee of floats. *)
Definition float_repr_roundtrip `{PyFloat} : Prop :=
  forall x : pyfloat, decimal_to_float (float_to_decimal x) = x.

(** A [datetime], observed through the three methods the serializer calls. *)
Record datetime : Type := {
    utcoffset : option Z;        (* [value.utcoffset()], in microseconds *)
    isoformat_naive : string;    (* [value.replace(tzinfo=None).isoformat()] *)
    isoformat : string;          (* [value.isoformat()] *)
  }.

Section Values.
Context `{PyFloat}.

Inductive pyval : Type :=
  | PNone
  | PBool (b : bool)
  | PInt (z : Z)
  | PFloat (x : pyfloat)
  | PDecimal (d : Decimal)
  | PStr (s : string)
  | PBytes (b : list ascii)
  | PBinary (b : list ascii)          (* boto3.dynamodb.types.Binary *)
  | PDatetime (dt : datetime)
  | PDate (iso : string)              (* a date, by its [isoformat()] *)
  | PUUID (text : string)             (* a UUID, by its [str()] *)
  | PEnum (cls : string) (mixed : bool) (value : pyval)
      (* a member of the Enum class [cls], by its [.value]; [mixed] when
         the class also derives from int, float or str (IntEnum, StrEnum,
         [class F(float, Enum)]), so that the member is such a value too *)
  | PSet (frozen : bool) (elems : list pyval)
  | PList (elems : list pyval)
  | PTuple (elems : list pyval)
  | PDict (items : list (string * pyval))
  | PObject (cls : string).           (* an instance of any other class *)

(** Induction principle that reaches into the nested lists. *)
Section Ind.
Variable P : pyval -> Prop.
Hypothesis HNone : P PNone.
Hypothesis HBool : forall b, P (PBool b).
Hypothesis HInt : forall z, P (PInt z).
Hypothesis HFloat : forall x, P (PFloat x).
Hypothesis HDecimal : forall d, P (PDecimal d).
Hypothesis HStr : forall s, P (PStr s).
Hypothesis HBytes : forall b, P (PBytes b).
Hypothesis HBinary : forall b, P (PBinary b).
Hypothesis HDatetime : forall dt, P (PDatetime dt).
Hypothesis HDate : forall s, P (PDate s).
Hypothesis HUUID : forall s, P (PUUID s).
Hypothesis HEnum : forall c m v, P v -> P (PEnum c m v).
Hypothesis HSet : forall fr xs, Forall P xs -> P (PSet fr xs).
Hypothesis HList : forall xs, Forall P xs -> P (PList xs).
Hypothesis HTuple : forall xs, Forall P xs -> P (PTuple xs).
Hypothesis HDict : forall kvs, Forall (fun kv => P (snd kv)) kvs -> P (PDict kvs).
Hypothesis HObject : forall c, P (PObject c).

Fixpoint pyval_nested_ind (v : pyval) : P v :=
  let fix go (xs : list pyval) : Forall P xs :=
    match xs with
    | [] => List.Forall_nil P
    | x :: xs' => @List.Forall_cons _ P x xs' (pyval_nested_ind x) (go xs')
    end in
  let fix go_items (kvs : list (string * pyval)) : Forall (fun kv => P (snd kv)) kvs :=
    match kvs with
    | [] => List.Forall_nil _
    | kv :: kvs' => @List.Forall_cons _ _ kv kvs' (pyval_nested_ind (snd kv)) (go_items kvs')
    end in
  match v with
  | PNone => HNone
  | PBool b => HBool b
  | PInt z => HInt z
  | PFloat x => HFloat x
  | PDecimal d => HDecimal d
  | PStr s => HStr s
  | PBytes b => HBytes b
  | PBinary b => HBinary b
  | PDatetime dt => HDatetime dt
  | PDate s => HDate s
  | PUUID s => HUUID s
  | PEnum c m v' => HEnum c m v' (pyval_nested_ind v')
  | PSet fr xs => HSet fr xs (go xs)
  | PList xs => HList xs (go xs)
  | PTuple xs => HTuple xs (go xs)
  | PDict kvs => HDict kvs (go_items kvs)
  | PObject c => HObject c
  end.
End Ind.

(** The int, float or str that a member of a mixed enum class also is. *)
Definition mixin_data (mixed : bool) (value : pyval) : option pyval :=
  if mixed then
    match value with
    | PInt _ | PFloat _ | PStr _ => Some value
    | _ => None
    end
  else None.

(** [bool(v)]: Python truthiness.  [Enum] defines no [__bool__]: a member
    is truthy, unless the type mixed in decides. *)
Definition truthy (v : pyval) : bool :=
  match v with
  | PNone => false
  | PBool b => b
  | PInt z => negb (z =? 0)
  | PFloat x => negb (is_zero (float_to_decimal x))
  | PDecimal d => negb (is_zero d)
  | PStr s => negb (String.eqb s "")
  | PBytes b | PBinary b => match b with [] => false | _ => true end
  | PSet _ xs | PList xs | PTuple xs => match xs with [] => false | _ => true end
  | PDict kvs => match kvs with [] => false | _ => true end
  | PEnum _ mixed value =>
      match mixin_data mixed value with
      | Some (PInt z) => negb (z =? 0)
      | Some (PFloat x) => negb (is_zero (float_to_decimal x))
      | Some (PStr s) => negb (String.eqb s "")
      | _ => true
      end
  | PDatetime _ | PDate _ | PUUID _ | PObject _ => true
  end.

(** [type(v).__name__] *)
Definition type_name (v : pyval) : string :=
  match v with
  | PNone => "NoneType"
  | PBool _ => "bool"
  | PInt _ => "int"
  | PFloat _ => "float"
  | PDecimal _ => "Decimal"
  | PStr _ => "str"
  | PBytes _ => "bytes"
  | PBinary _ => "Binary"
  | PDatetime _ => "datetime"
  | PDate _ => "date"
  | PUUID _ => "UUID"
  | PEnum cls _ _ => cls
  | PSet false _ => "set"
  | PSet true _ => "frozenset"
  | PList _ => "list"
  | PTuple _ => "tuple"
  | PDict _ => "dict"
  | PObject c => c
  end.

(** Whether [hash(v)] succeeds: lists, dicts and mutable sets are
    unhashable, a tuple is hashable when its elements are. *)
Fixpoint hashable (v : pyval) : bool :=
  match v with
  | PList _ | PDict _ | PSet false _ => false
  | PTuple xs => forallb hashable xs
  | _ => true
  end.

End Values.

(** [repr(v)] and [str(v)], which only appear inside error messages. *)
Class PyText `{PyFloat} : Type := {
    py_repr : pyval -> string;
    py_str : pyval -> string;
  }.

End Py.
Export Py.

(** ** exceptions.py: the error taxonomy and the translation scope *)

Module Exceptions.

(** [e.response["Error"]] of a botocore [ClientError]: both entries may be
    missing ([None] also stands for a missing ["Error"] entry). *)
Record ErrorResponse : Type := {
    Code : option string;
    Message : option string;
  }.

Section Exn.
Context `{PyFloat}.

(** The classes deriving from [DynanticError], with their own attributes. *)
Inductive DynanticClass : Type :=
  | DynanticError_cls
  | TableNotFoundError_cls (table_name : string)
  | ItemNotFoundError_cls (key : list (string * pyval))
  | ConditionalCheckFailedError_cls (condition : option string)
  | ProvisionedThroughputExceededError_cls
  | ItemCollectionSizeLimitError_cls
  | TransactionConflictError_cls
  | RequestTimeoutError_cls
  | ValidationError_cls (field : option string) (value : option pyval)
  | DynamoSerializationError_cls.

Inductive exn : Type :=
  | TypeError (msg : string)
  | ValueError (msg : string)
  | DecimalException (signal : string)       (* decimal.InvalidOperation, Rounded, ... *)
  | PydanticValidationError (msg : string)   (* pydantic.ValidationError *)
  | AttributeError (attribute : string)      (* the attribute that is missing *)
  | ClientError (response : ErrorResponse) (text : string)   (* botocore *)
  | BotoCoreError (text : string)            (* transport failures without a fault code *)
  | Dynantic (cls : DynanticClass) (message : string) (original_error : option exn).

(** [str(e)] *)
Definition exn_str (e : exn) : string :=
  match e with
  | TypeError m | ValueError m | DecimalException m | PydanticValidationError m => m
  | AttributeError attribute => attribute
  | ClientError _ t | BotoCoreError t => t
  | Dynantic _ m _ => m
  end.

(** [isinstance(e, DynanticError)] *)
Definition is_DynanticError (e : exn) : bool :=
  match e with Dynantic _ _ _ => true | _ => false end.

(** [isinstance(e, ClientError)]: the transport's native fault type. *)
Definition is_ClientError (e : exn) : bool :=
  match e with ClientError _ _ => true | _ => false end.

Definition DynanticError (message : string) (original_error : option exn) : exn :=
  Dynantic DynanticError_cls message original_error.

Definition TableNotFoundError (table_name : string) (original_error : option exn) : exn :=
  Dynantic (TableNotFoundError_cls table_name)
           ("Table '" +:+ table_name +:+ "' not found") original_error.

Definition ConditionalCheckFailedError
    (condition : option string) (original_error : option exn) : exn :=
  let msg := "Conditional check failed" in
  let msg := match condition with
             | Some c => if negb (c =? "")%string then msg +:+ ": " +:+ c else msg
             | None => msg
             end in
  Dynantic (ConditionalCheckFailedError_cls condition) msg original_error.

Definition ProvisionedThroughputExceededError (message : string) (original_error : option exn) : exn :=
  Dynantic ProvisionedThroughputExceededError_cls message original_error.

Definition ItemCollectionSizeLimitError (message : string) (original_error : option exn) : exn :=
  Dynantic ItemCollectionSizeLimitError_cls message original_error.

Definition TransactionConflictError (message : string) (original_error : option exn) : exn :=
  Dynantic TransactionConflictError_cls message original_error.

Definition RequestTimeoutError (message : string) (original_error : option exn) : exn :=
  Dynantic RequestTimeoutError_cls message original_error.

Definition ValidationError (message : string) (field : option string)
    (value : option pyval) (original_error : option exn) : exn :=
  Dynantic (ValidationError_cls field value) message original_error.

Definition DynamoSerializationError (message : string) (original_error : option exn) : exn :=
  Dynantic DynamoSerializationError_cls message original_error.

Definition code_in (error_code : string) (codes : list string) : bool :=
  existsb (String.eqb error_code) codes.

(** [table_name or "unknown"] *)
Definition table_or_unknown (table_name : option string) : string :=
  match table_name with
  | Some t => if (t =? "")%string then "unknown" else t
  | None => "unknown"
  end.

(** The [except ClientError as e] clause of [handle_dynamo_errors]: the
    exception raised in place of a [ClientError] [e]. *)
Definition translate_client_error
    (table_name : option string) (response : ErrorResponse) (text : string) : exn :=
  let e := ClientError response text in
  let error_code := default "Unknown" (Code response) in
  let error_message := default (exn_str e) (Message response) in
  if (error_code =? "ResourceNotFoundException")%string then
    TableNotFoundError (table_or_unknown table_name) (Some e)
  else if (error_code =? "ConditionalCheckFailedException")%string then
    ConditionalCheckFailedError None (Some e)
  else if code_in error_code ["ProvisionedThroughputExceededException";
                              "ThrottlingException"; "RequestLimitExceeded"] then
    ProvisionedThroughputExceededError error_message (Some e)
  else if code_in error_code ["ValidationException"; "SerializationException"] then
    ValidationError error_message None None (Some e)
  else if (error_code =? "ItemCollectionSizeLimitExceededException")%string then
    ItemCollectionSizeLimitError error_message (Some e)
  else if (error_code =? "TransactionConflictException")%string then
    TransactionConflictError error_message (Some e)
  else if code_in error_code ["RequestTimeout"; "RequestTimeoutException"] then
    RequestTimeoutError error_message (Some e)
  else
    DynanticError ("DynamoDB error (" +:+ error_code +:+ "): " +:+ error_message) (Some e).

(** What leaves a [with handle_dynamo_errors(table_name):] block when [e]
    is raised inside it: only [ClientError] is caught. *)
Definition escaping (table_name : option string) (e : exn) : exn :=
  match e with
  | ClientError response text => translate_client_error table_name response text
  | _ => e
  end.

(** [with handle_dynamo_errors(table_name): body] *)
Definition handle_dynamo_errors {A} (table_name : option string)
    (body : result exn A) : result exn A :=
  match body with
  | Ok a => Ok a
  | Raise e => Raise (escaping table_name e)
  end.

End Exn.

End Exceptions.
Export Exceptions.

(** ** serializer.py, over a model of boto3's TypeSerializer/TypeDeserializer *)

Module Serializer.

(** The wire representation: one tagged value per attribute.  The text of a
    number ([{"N": "10.5"}]) is kept as the decimal it denotes: boto3 writes
    it with [str(Decimal)] and reads it back with [Decimal(str)], which is
    the identity on a decimal the numeric context accepts. *)
Inductive wire : Type :=
  | WNULL (b : bool)
  | WBOOL (b : bool)
  | WN (d : Decimal)
  | WS (s : string)
  | WB (b : list ascii)
  | WSS (xs : list string)
  | WNS (xs : list Decimal)
  | WBS (xs : list (list ascii))
  | WL (xs : list wire)
  | WM (kvs : list (string * wire)).

(** boto3's [DYNAMODB_CONTEXT]: 38 digits, exponents in [-128, 126], with
    traps on Clamped, Overflow, Inexact, Rounded and Underflow. *)
Definition prec : Z := 38.
Definition Emax : Z := 126.
Definition Emin : Z := -128.
Definition Etiny : Z := Emin - prec + 1.

(** [DYNAMODB_CONTEXT.create_decimal(d)] returns [d] unchanged, or raises
    one of the trapped signals; this is the test for "unchanged". *)
Definition context_accepts (d : Decimal) : bool :=
  match d with
  | DFinite _ c e =>
      if (c =? 0)%N then (Etiny <=? e) && (e <=? Emax)
      else (ndigits c <=? prec) && (adjusted c e <=? Emax) && (Etiny <=? e)
  | DInfinity _ | DNaN => true
  end.

(** Precision of the default [decimal] context, under which
    [_restore_to_python] evaluates [value % 1]. *)
Definition default_prec : Z := 28.

Definition dquote : string := String (ascii_of_nat 34) EmptyString.

Section WithRuntime.
Context `{F : PyFloat} `{T : !PyText}.

Abbreviation exn := (@exn F).
Abbreviation res := (result exn).

Definition create_decimal (d : Decimal) : res Decimal :=
  if context_accepts d then Ok d else Raise (DecimalException "DYNAMODB_CONTEXT trap").

(** The number a value denotes when [isinstance(v, (int, Decimal))]. *)
Definition as_number (v : pyval) : option Decimal :=
  match v with
  | PBool b => Some (Decimal_of_int (if b then 1 else 0))
  | PInt z | PEnum _ true (PInt z) => Some (Decimal_of_int z)
  | PDecimal d => Some d
  | _ => None
  end.

(** The text a value is when [isinstance(v, str)]. *)
Definition as_text (v : pyval) : option string :=
  match v with
  | PStr s | PEnum _ true (PStr s) => Some s
  | _ => None
  end.

(** Python's [==] between two numbers of [as_number]. *)
Definition Decimal_num_eqb (a b : Decimal) : bool :=
  match a, b with
  | DFinite s c e, DFinite s' c' e' =>
      let m := Z.min e e' in
      let x := Z.of_N c * 10 ^ (e - m) in
      let y := Z.of_N c' * 10 ^ (e' - m) in
      if (x =? 0) && (y =? 0) then true
      else Bool.eqb s s' && (x =? y)
  | DInfinity s, DInfinity s' => Bool.eqb s s'
  | _, _ => false
  end.

Definition bytes_eqb (a b : list ascii) : bool :=
  (string_of_list_ascii a =? string_of_list_ascii b)%string.

(** Equality of two members of a set, for the members a set that boto3
    accepts can hold (numbers, text, binary).  Any other pair counts as
    distinct: such members are left as they are by
    [_prepare_for_dynamo], and were distinct in the set they come from. *)
Definition member_eqb (a b : pyval) : bool :=
  match as_number a, as_number b with
  | Some x, Some y => Decimal_num_eqb x y
  | _, _ =>
      match as_text a, as_text b with
      | Some x, Some y => (x =? y)%string
      | _, _ =>
          match a, b with
          | (PBytes x | PBinary x), (PBytes y | PBinary y) => bytes_eqb x y
          | PNone, PNone => true
          | _, _ => false
          end
      end
  end.

(** [s.add(x)] on the members [s] of a set, kept in insertion order. *)
Definition set_add (s : list pyval) (x : pyval) : res (list pyval) :=
  if negb (hashable x) then
    Raise (TypeError ("unhashable type: '" +:+ type_name x +:+ "'"))
  else if existsb (member_eqb x) s then Ok s
  else Ok (s ++ [x]).

(** [set(xs)] *)
Fixpoint set_of_list (s : list pyval) (xs : list pyval) : res (list pyval) :=
  match xs with
  | [] => Ok s
  | x :: xs' => try! s' <- set_add s x; set_of_list s' xs'
  end.

(** *** boto3.dynamodb.types.TypeSerializer *)

(** [_is_number(value)]: a float is refused with a [TypeError]. *)
Definition _is_number (v : pyval) : res bool :=
  match v with
  | PBool _ | PInt _ | PDecimal _ | PEnum _ true (PInt _) => Ok true
  | PFloat _ | PEnum _ true (PFloat _) =>
      Raise (TypeError "Float types are not supported. Use Decimal types instead.")
  | _ => Ok false
  end.

Definition _is_string (v : pyval) : res bool :=
  match v with PStr _ | PEnum _ true (PStr _) => Ok true | _ => Ok false end.

Definition _is_binary (v : pyval) : res bool :=
  match v with PBytes _ | PBinary _ => Ok true | _ => Ok false end.

(** [False not in map(type_validator, value)] *)
Fixpoint all_valid (type_validator : pyval -> res bool) (xs : list pyval) : res bool :=
  match xs with
  | [] => Ok true
  | x :: xs' =>
      try! ok <- type_validator x;
      if ok then all_valid type_validator xs' else Ok false
  end.

Definition _is_type_set (v : pyval) (type_validator : pyval -> res bool) : res bool :=
  match v with
  | PSet _ xs => all_valid type_validator xs
  | _ => Ok false
  end.

Definition _serialize_n (d : Decimal) : res Decimal :=
  try! number <- create_decimal d;
  match number with
  | DInfinity false | DNaN => Raise (TypeError "Infinity and NaN not supported")
  | _ => Ok number
  end.

Definition member_number (v : pyval) : res Decimal :=
  match as_number v with
  | Some d => _serialize_n d
  | None => Raise (TypeError "not a number")
  end.

Definition member_string (v : pyval) : res string :=
  match as_text v with
  | Some s => Ok s
  | None => Raise (TypeError "not a string")
  end.

Definition member_binary (v : pyval) : res (list ascii) :=
  match v with PBytes b | PBinary b => Ok b | _ => Raise (TypeError "not binary") end.

Definition unsupported_type (v : pyval) : exn :=
  TypeError ("Unsupported type " +:+ dquote +:+ "<class '" +:+ type_name v +:+ "'>"
             +:+ dquote +:+ " for value " +:+ dquote +:+ py_str v +:+ dquote).

(** [TypeSerializer.serialize]: the first matching type, in boto3's order
    null, boolean, number, string, binary, number set, string set, binary
    set, map, list.  A member of a mixed enum class is met by the test of
    the type mixed in. *)
Fixpoint serialize (value : pyval) : res wire :=
  match value with
  | PNone => Ok (WNULL true)
  | PBool b => Ok (WBOOL b)
  | PInt z => try! n <- _serialize_n (Decimal_of_int z); Ok (WN n)
  | PDecimal d => try! n <- _serialize_n d; Ok (WN n)
  | PFloat _ => Raise (TypeError "Float types are not supported. Use Decimal types instead.")
  | PStr s => Ok (WS s)
  | PBytes b | PBinary b => Ok (WB b)
  | PSet _ xs =>
      try! ns <- _is_type_set value _is_number;
      if ns then try! l <- mapM member_number xs; Ok (WNS l)
      else
        try! ss <- _is_type_set value _is_string;
        if ss then try! l <- mapM member_string xs; Ok (WSS l)
        else
          try! bs <- _is_type_set value _is_binary;
          if bs then try! l <- mapM member_binary xs; Ok (WBS l)
          else Raise (unsupported_type value)
  | PDict kvs => try! m <- mapM_items serialize kvs; Ok (WM m)
  | PList xs | PTuple xs => try! l <- mapM serialize xs; Ok (WL l)
  | PEnum _ mixed x =>
      match mixin_data mixed x with
      | Some (PInt z) => try! n <- _serialize_n (Decimal_of_int z); Ok (WN n)
      | Some (PFloat _) =>
          Raise (TypeError "Float types are not supported. Use Decimal types instead.")
      | Some (PStr s) => Ok (WS s)
      | _ => Raise (unsupported_type value)
      end
  | PDatetime _ | PDate _ | PUUID _ | PObject _ => Raise (unsupported_type value)
  end.

(** *** boto3.dynamodb.types.TypeDeserializer *)

Definition _deserialize_n (d : Decimal) : res pyval :=
  try! n <- create_decimal d; Ok (PDecimal n).

Fixpoint deserialize (value : wire) : res pyval :=
  match value with
  | WNULL _ => Ok PNone
  | WBOOL b => Ok (PBool b)
  | WN d => _deserialize_n d
  | WS s => Ok (PStr s)
  | WB b => Ok (PBinary b)
  | WNS xs => try! l <- mapM _deserialize_n xs; try! s <- set_of_list [] l; Ok (PSet false s)
  | WSS xs => try! s <- set_of_list [] (map PStr xs); Ok (PSet false s)
  | WBS xs => try! s <- set_of_list [] (map PBinary xs); Ok (PSet false s)
  | WL xs => try! l <- mapM deserialize xs; Ok (PList l)
  | WM kvs => try! m <- mapM_items deserialize kvs; Ok (PDict m)
  end.

(** *** class DynamoSerializer *)

(** [{self._prepare_for_dynamo(v) for v in value}] *)
Definition set_comprehension (f : pyval -> res pyval) : list pyval -> list pyval -> res (list pyval) :=
  fix go (s : list pyval) (xs : list pyval) : res (list pyval) :=
    match xs with
    | [] => Ok s
    | v :: xs' =>
        match f v with
        | Raise e => Raise e
        | Ok x =>
            match set_add s x with
            | Raise e => Raise e
            | Ok s' => go s' xs'
            end
        end
    end.

Definition datetime_text (dt : datetime) : string :=
  match utcoffset dt with
  | Some 0 => isoformat_naive dt +:+ "Z"
  | _ => isoformat dt
  end.

(** The tests of [_prepare_for_dynamo], in its order.  A member of an
    enum class that mixes float in meets the float test first:
    [Decimal(str(value))] is then applied to the text [Enum.__str__] gives,
    the qualified name of the member, which is no number. *)
Fixpoint _prepare_for_dynamo (value : pyval) : res pyval :=
  match value with
  | PFloat x => Ok (PDecimal (float_to_decimal x))
  | PDatetime dt => Ok (PStr (datetime_text dt))
  | PDate iso => Ok (PStr iso)
  | PUUID text => Ok (PStr text)
  | PEnum _ mixed v =>
      match mixin_data mixed v with
      | Some (PFloat _) => Raise (DecimalException "InvalidOperation")
      | _ => Ok v
      end
  | PBytes b => Ok (PBytes b)
  | PSet _ xs => try! s <- set_comprehension _prepare_for_dynamo [] xs; Ok (PSet false s)
  | PList xs => try! l <- mapM _prepare_for_dynamo xs; Ok (PList l)
  | PDict kvs => try! m <- mapM_items _prepare_for_dynamo kvs; Ok (PDict m)
  | _ => Ok value
  end.

(** [isinstance(v, (set, frozenset)) and len(v) == 0] *)
Definition is_empty_set (v : pyval) : bool :=
  match v with PSet _ [] => true | _ => false end.

(** [result[k] = v] on a dict kept in insertion order. *)
Fixpoint dict_set {V} (result : list (string * V)) (k : string) (v : V) : list (string * V) :=
  match result with
  | [] => [(k, v)]
  | (k', v') :: rest =>
      if (k' =? k)%string then (k, v) :: rest else (k', v') :: dict_set rest k v
  end.

Fixpoint dict_get {V} (d : list (string * V)) (k : string) : option V :=
  match d with
  | [] => None
  | (k', v) :: rest => if (k' =? k)%string then Some v else dict_get rest k
  end.

(** The [try: ... except TypeError] around [self._serializer.serialize]. *)
Definition serialize_or (v : pyval) (wrap : exn -> exn) : res wire :=
  match serialize v with
  | Ok w => Ok w
  | Raise (TypeError m) => Raise (wrap (TypeError m))
  | Raise e => Raise e
  end.

Definition field_error (k : string) (v : pyval) (e : exn) : exn :=
  DynamoSerializationError
    ("Failed to serialize field '" +:+ k +:+ "'. value=" +:+ py_repr v
     +:+ " error=" +:+ exn_str e) (Some e).

(** The loop of [to_dynamo] over [clean_data.items()]. *)
Fixpoint to_dynamo_loop (clean_data : list (string * pyval))
    (result : list (string * wire)) : res (list (string * wire)) :=
  match clean_data with
  | [] => Ok result
  | (k, v) :: rest =>
      try! serialized <- serialize_or v (field_error k v);
      if negb (is_empty_set v)
      then to_dynamo_loop rest (dict_set result k serialized)
      else to_dynamo_loop rest result
  end.

(** [to_dynamo]: [data] is a dict, so [_prepare_for_dynamo(data)] is its
    dict branch, written here on the items. *)
Definition to_dynamo (data : list (string * pyval)) : res (list (string * wire)) :=
  try! clean_data <- mapM_items _prepare_for_dynamo data;
  to_dynamo_loop clean_data [].

Definition to_dynamo_value (value : pyval) : res wire :=
  try! clean_value <- _prepare_for_dynamo value;
  serialize_or clean_value (fun e =>
    DynamoSerializationError
      ("Failed to serialize value '" +:+ py_str value +:+ "'. error=" +:+ exn_str e)
      (Some e)).

(** [value % 1 == 0] under the default context: the quotient must fit in
    [default_prec] digits, else [decimal.InvalidOperation] is raised. *)
Definition mod1_is_zero (d : Decimal) : res bool :=
  match d with
  | DNaN => Ok false
  | DInfinity _ => Raise (DecimalException "InvalidOperation")
  | DFinite _ c e =>
      if (c =? 0)%N then Ok true
      else if default_prec <=? adjusted c e then Raise (DecimalException "InvalidOperation")
      else if 0 <=? e then Ok true
      else Ok (Z.of_N c mod 10 ^ (- e) =? 0)
  end.

Fixpoint _restore_to_python (value : pyval) : res pyval :=
  match value with
  | PDecimal d =>
      try! whole <- mod1_is_zero d;
      if whole then Ok (PInt (Decimal_to_int d)) else Ok (PFloat (decimal_to_float d))
  | PList xs => try! l <- mapM _restore_to_python xs; Ok (PList l)
  | PDict kvs => try! m <- mapM_items _restore_to_python kvs; Ok (PDict m)
  | _ => Ok value
  end.

Definition from_dynamo (item : list (string * wire)) : res (list (string * pyval)) :=
  try! python_data <- mapM_items deserialize item;
  mapM_items _restore_to_python python_data.

Definition serialize_cursor (last_evaluated_key : list (string * wire)) :=
  from_dynamo last_evaluated_key.

Definition deserialize_cursor (cursor : list (string * pyval)) :=
  to_dynamo cursor.

End WithRuntime.

End Serializer.

(** ** config.py: model metadata *)

Module Config.

Record GSIDefinition : Type := {
    gsi_index_name : string;
    gsi_pk_name : string;
    gsi_pk_type : string;
    gsi_sk_name : option string;
    gsi_sk_type : string;
    gsi_projection_type : string;
  }.

(** [ModelOptions].  Classes are referred to by their name: the entity
    registry maps a discriminator value to the name of the entity class. *)
Record ModelOptions : Type := {
    table_name : string;
    pk_name : string;
    sk_name : option string;
    region : string;
    gsi_definitions : gmap string GSIDefinition;
    discriminator_field : option string;
    entity_registry : gmap string string;
    registry_object : string;     (* which dict [entity_registry] is: the
                                     class it was created for *)
    is_base_entity : bool;
    parent_model : option string;
    discriminator_value : option string;
  }.

Definition get_gsi (m : ModelOptions) (index_name : string) : option GSIDefinition :=
  gsi_definitions m !! index_name.

Definition has_gsi (m : ModelOptions) (index_name : string) : bool :=
  bool_decide (is_Some (gsi_definitions m !! index_name)).

Definition is_polymorphic (m : ModelOptions) : bool :=
  bool_decide (is_Some (discriminator_field m)).

(** Truthiness of an optional string ([None] and [""] are falsy). *)
Definition str_truthy (s : option string) : bool :=
  match s with
  | Some t => negb (t =? "")%string
  | None => false
  end.

Definition with_registry (m : ModelOptions) (registry : gmap string string)
    (parent : option string) (value : option string) : ModelOptions :=
  {| table_name := table_name m; pk_name := pk_name m; sk_name := sk_name m;
     region := region m; gsi_definitions := gsi_definitions m;
     discriminator_field := discriminator_field m;
     entity_registry := registry;
     registry_object := registry_object m;
     is_base_entity := is_base_entity m;
     parent_model := parent;
     discriminator_value := value |}.

Section WithRuntime.
Context `{F : PyFloat}.

(** [register_entity]: the registry after the insertion. *)
Definition register_entity (m : ModelOptions) (discriminator_value : string)
    (entity_class : string) : result exn (gmap string string) :=
  match entity_registry m !! discriminator_value with
  | Some existing =>
      Raise (ValueError ("Discriminator value '" +:+ discriminator_value
                         +:+ "' is already registered to " +:+ existing
                         +:+ ", cannot register " +:+ entity_class))
  | None => Ok (<[discriminator_value := entity_class]> (entity_registry m))
  end.

(** The key of the registry a value is equal to: text, or a member of an
    enum class that mixes str in. *)
Definition registry_key (v : pyval) : option string :=
  match v with
  | PStr s | PEnum _ true (PStr s) => Some s
  | _ => None
  end.

(** [self.entity_registry.get(discriminator_value)]: the key is hashed
    first, which raises [TypeError] for a list, a dict or a set. *)
Definition get_entity_class (m : ModelOptions) (discriminator_value : pyval)
    : result exn (option string) :=
  if negb (hashable discriminator_value) then
    Raise (TypeError ("unhashable type: '" +:+ type_name discriminator_value +:+ "'"))
  else
    match registry_key discriminator_value with
    | Some s => Ok (entity_registry m !! s)
    | None => Ok None
    end.
End WithRuntime.

End Config.

(** ** conditions.py *)

Module Conditions.

Section WithRuntime.
Context `{F : PyFloat} `{T : !PyText}.

(** boto3's condition objects: composites and attribute comparisons. *)
Inductive Boto3Condition : Type :=
  | Boto3And (a b : Boto3Condition)
  | Boto3Or (a b : Boto3Condition)
  | Boto3Not (a : Boto3Condition)
  | Boto3Comparison (attr : string) (operator : string) (operands : list pyval).

(** What a caller passes where a condition is expected. *)
Inductive Condition : Type :=
  | DynCondition (raw : Boto3Condition)
  | Boto3ConditionBase (raw : Boto3Condition)
  | NotACondition (v : pyval).

(** The result of boto3's [ConditionExpressionBuilder.build_expression]. *)
Record BuiltConditionExpression : Type := {
    condition_expression : string;
    attribute_name_placeholders : list (string * string);
    attribute_value_placeholders : list (string * pyval);
  }.

Record ConditionParams : Type := {
    ConditionExpression : string;
    ExpressionAttributeNames : option (gmap string string);
    ExpressionAttributeValues : option (gmap string Serializer.wire);
  }.

Definition not_a_condition (v : pyval) : exn :=
  TypeError ("Expected DynCondition or boto3 ConditionBase, got " +:+ type_name v).

Definition _extract_raw (condition : Condition) : result exn Boto3Condition :=
  match condition with
  | DynCondition raw => Ok raw
  | Boto3ConditionBase raw => Ok raw
  | NotACondition v => Raise (not_a_condition v)
  end.

(** Returns the raw condition a [DynCondition] wraps. *)
Definition wrap_condition (condition : Condition) : result exn Boto3Condition :=
  match condition with
  | DynCondition raw => Ok raw
  | Boto3ConditionBase raw => Ok raw
  | NotACondition v => Raise (not_a_condition v)
  end.

(** [DynCondition.__and__] *)
Definition and_ (self : Boto3Condition) (other : Condition) : result exn Boto3Condition :=
  try! other_raw <- _extract_raw other; Ok (Boto3And self other_raw).

(** boto3's [ConditionExpressionBuilder], an external collaborator. *)
Class ConditionExpressionBuilder : Type := {
    build_expression : Boto3Condition -> result exn BuiltConditionExpression;
  }.

Section Compile.
Context `{B : ConditionExpressionBuilder}.

Fixpoint serialize_values (vs : list (string * pyval))
    (acc : gmap string Serializer.wire) : result exn (gmap string Serializer.wire) :=
  match vs with
  | [] => Ok acc
  | (placeholder, value) :: rest =>
      try! w <- Serializer.to_dynamo_value value;
      serialize_values rest (<[placeholder := w]> acc)
  end.

Definition compile_condition (condition : Condition) : result exn ConditionParams :=
  try! boto3_condition <- _extract_raw condition;
  try! expression <- build_expression boto3_condition;
  let names :=
    match attribute_name_placeholders expression with
    | [] => None
    | l => Some (list_to_map l)
    end in
  try! values <-
    match attribute_value_placeholders expression with
    | [] => Ok None
    | l => try! m <- serialize_values l ∅; Ok (Some m)
    end;
  Ok {| ConditionExpression := condition_expression expression;
        ExpressionAttributeNames := names;
        ExpressionAttributeValues := values |}.
End Compile.

End WithRuntime.

End Conditions.

(** ** base.py: model classes and polymorphic item resolution *)

Module Base.

(** A pydantic [FieldInfo], as far as the update actions read it; the
    type annotations are those of the validation layer. *)
Record FieldInfo (annotation_t : Type) : Type := {
    alias : option string;
    annotation : annotation_t;
  }.
Arguments alias {annotation_t} _.
Arguments annotation {annotation_t} _.

(** A model class: its name, its metadata and its declared fields. *)
Record ModelClass (annotation_t : Type) : Type := {
    __name__ : string;
    __mro__ : list string;         (* the names of the classes it inherits from *)
    _meta : Config.ModelOptions;
    model_fields : list (string * FieldInfo annotation_t);
  }.
Arguments __name__ {annotation_t} _.
Arguments __mro__ {annotation_t} _.
Arguments _meta {annotation_t} _.
Arguments model_fields {annotation_t} _.

(** The metadata the metaclass gives a class that inherits from a
    polymorphic base without a [Meta] of its own. *)
Definition inherited_meta {annotation_t} (base : ModelClass annotation_t)
    : Config.ModelOptions :=
  let m := _meta base in
  {| Config.table_name := Config.table_name m; Config.pk_name := Config.pk_name m;
     Config.sk_name := Config.sk_name m; Config.region := Config.region m;
     Config.gsi_definitions := Config.gsi_definitions m;
     Config.discriminator_field := Config.discriminator_field m;
     Config.entity_registry := Config.entity_registry m;
     Config.registry_object := Config.registry_object m;
     Config.is_base_entity := false;
     Config.parent_model := Some (__name__ base);
     Config.discriminator_value := None |}.

Section WithRuntime.
Context `{F : PyFloat}.

(** A model instance: its concrete class and its validated fields. *)
Record Instance : Type := {
    instance_of : string;
    fields : list (string * pyval);
  }.

(** The declarative validation layer (pydantic), an external
    collaborator: validation of the keyword arguments of a model class,
    and [TypeAdapter(annotation).validate_python(value)]. *)
Class ValidationLayer : Type := {
    annotation_t : Type;
    str_annotation : annotation_t;     (* the annotation [str] *)
    validate_model : string -> list (string * pyval) -> result exn (list (string * pyval));
    validate_python : annotation_t -> pyval -> result exn pyval;
  }.

Context `{V : ValidationLayer}.

(** The call of a class on the keyword arguments [raw_data]. *)
Definition instantiate (cls : string) (raw_data : list (string * pyval))
    : result exn Instance :=
  try! validated <- validate_model cls raw_data;
  Ok {| instance_of := cls; fields := validated |}.

(** [raw_data.get(field)] *)
Definition raw_get (raw_data : list (string * pyval)) (field : string) : pyval :=
  default PNone (Serializer.dict_get raw_data field).

(** [issubclass(subclass, cls)]: the class itself, or one that has [cls]
    among the classes it inherits from. *)
Definition issubclass (subclass cls : ModelClass annotation_t) : bool :=
  (__name__ subclass =? __name__ cls)%string
  || existsb (String.eqb (__name__ cls)) (__mro__ subclass).

(** The replacement of the discriminator field of a registered class by
    [FieldInfo(annotation=str, default=discriminator_value)], when the
    class has the field. *)
Definition inject_discriminator (discriminator_field : option string)
    (fields : list (string * FieldInfo annotation_t))
    : list (string * FieldInfo annotation_t) :=
  if Config.str_truthy discriminator_field
     && bool_decide (is_Some (Serializer.dict_get fields (default "" discriminator_field)))
  then Serializer.dict_set fields (default "" discriminator_field)
         {| alias := None; annotation := str_annotation |}
  else fields.

(** The class [c] once it is registered under [discriminator_value] on
    [cls], with [registry] as the content of the dict its [_meta] holds. *)
Definition registered (cls : ModelClass annotation_t) (discriminator_value : string)
    (registry : gmap string string) (c : ModelClass annotation_t)
    : ModelClass annotation_t :=
  {| __name__ := __name__ c; __mro__ := __mro__ c;
     _meta := Config.with_registry (_meta c) registry
                (Some (__name__ cls)) (Some discriminator_value);
     model_fields :=
       inject_discriminator (Config.discriminator_field (_meta cls)) (model_fields c) |}.

(** [cls.register(discriminator_value)(subclass)]: the base and the
    subclass as they are after the registration.  The entry is written
    into the dict of the base; the subclass sees it when its [_meta] holds
    the same dict, as it does for a class declared without a [Meta] of its
    own, and keeps its own dict otherwise.  A class registered on itself
    is one object, base and subclass at once. *)
Definition register (cls : ModelClass annotation_t) (discriminator_value : string)
    (subclass : ModelClass annotation_t)
    : result exn (ModelClass annotation_t * ModelClass annotation_t) :=
  if negb (Config.is_polymorphic (_meta cls)) then
    Raise (ValueError ("Cannot register entities on " +:+ __name__ cls
                       +:+ ": it does not have a Discriminator() field"))
  else if negb (issubclass subclass cls) then
    Raise (ValueError (__name__ subclass +:+ " must inherit from " +:+ __name__ cls
                       +:+ " to be registered"))
  else
    try! registry <-
      Config.register_entity (_meta cls) discriminator_value (__name__ subclass);
    let same := (__name__ subclass =? __name__ cls)%string in
    let shared :=
      same || (Config.registry_object (_meta subclass)
               =? Config.registry_object (_meta cls))%string in
    Ok (if same then registered cls discriminator_value registry cls
        else {| __name__ := __name__ cls; __mro__ := __mro__ cls;
                _meta := Config.with_registry (_meta cls) registry
                           (Config.parent_model (_meta cls))
                           (Config.discriminator_value (_meta cls));
                model_fields := model_fields cls |},
        registered cls discriminator_value
          (if shared then registry else Config.entity_registry (_meta subclass))
          subclass).

Definition _deserialize_item (cls : ModelClass annotation_t)
    (raw_data : list (string * pyval)) : result exn Instance :=
  let config := _meta cls in
  if Config.is_base_entity config && Config.str_truthy (Config.discriminator_field config) then
    let discriminator_value :=
      raw_get raw_data (default "" (Config.discriminator_field config)) in
    if truthy discriminator_value then
      try! entity_class <- Config.get_entity_class config discriminator_value;
      match entity_class with
      | Some entity => instantiate entity raw_data
      | None => instantiate (__name__ cls) raw_data
      end
    else instantiate (__name__ cls) raw_data
  else instantiate (__name__ cls) raw_data.

End WithRuntime.

End Base.

(** ** The paginated read loop of query.py and scan.py

    Both [DynamoQueryBuilder.__iter__] and [DynamoScanBuilder.__iter__] end
    with the same two nested loops over the pages of [paginator.paginate].  The
    generator is modelled by the sequence of its observable events, in
    order: a page fetched from the transport, an item yielded to the
    consumer, an exception.  A consumer that stops pulling has seen a prefix
    of the sequence; nothing after that prefix has happened. *)

Module Iteration.

Section WithRuntime.
Context `{F : PyFloat} `{T : !PyText} `{V : !Base.ValidationLayer}.

Abbreviation item := (list (string * Serializer.wire)).

(** What the transport's page iterator delivers for one fetch. *)
Inductive page_event : Type :=
  | Page (Items : list item)
  | PageRaises (e : exn).

Inductive event (K : Type) : Type :=
  | PageRequest (kwargs : K)
  | Yield (x : Base.Instance)
  | Raises (e : exn).
Arguments PageRequest {K} kwargs.
Arguments Yield {K} x.
Arguments Raises {K} e.

(** Truthiness of [self.limit_val]. *)
Definition limit_truthy (limit_val : option Z) : bool :=
  match limit_val with
  | Some n => negb (n =? 0)
  | None => false
  end.

(** [self.limit_val and count >= self.limit_val] *)
Definition limit_reached (limit_val : option Z) (count : Z) : bool :=
  match limit_val with
  | Some n => negb (n =? 0) && (n <=? count)
  | None => false
  end.

Section Loop.
Context {K : Type}.
Variable model_cls : Base.ModelClass Base.annotation_t.
Variable limit_val : option Z.

Definition scope_table : option string :=
  Some (Config.table_name (Base._meta model_cls)).

(** [for item in page["Items"]: ...].  Returns the events and, when the
    page was exhausted without [return] or exception, the new count. *)
Fixpoint items_loop (items : list item) (count : Z) : list (event K) * option Z :=
  match items with
  | [] => ([], Some count)
  | it :: rest =>
      match (try! raw_data <- Serializer.from_dynamo it;
             Base._deserialize_item model_cls raw_data) with
      | Raise e => ([Raises (escaping scope_table e)], None)
      | Ok x =>
          let count := count + 1 in
          if limit_reached limit_val count then ([Yield x], None)
          else
            let (evs, r) := items_loop rest count in
            (Yield x :: evs, r)
      end
  end.

(** [for page in paginator.paginate(...): ...] inside
    [with handle_dynamo_errors(...)]. *)
Fixpoint pages_loop (kwargs : K) (pages : list page_event) (count : Z) : list (event K) :=
  match pages with
  | [] => []
  | PageRaises e :: _ => [PageRequest kwargs; Raises (escaping scope_table e)]
  | Page items :: rest =>
      let (evs, r) := items_loop items count in
      PageRequest kwargs ::
        evs ++ match r with
               | Some count' => pages_loop kwargs rest count'
               | None => []
               end
  end.
End Loop.

(** [list(self)]: the items yielded, or the exception that ends the
    iteration. *)
Fixpoint collect {K} (evs : list (event K)) : result exn (list Base.Instance) :=
  match evs with
  | [] => Ok []
  | PageRequest _ :: rest => collect rest
  | Yield x :: rest => try! xs <- collect rest; Ok (x :: xs)
  | Raises e :: _ => Raise e
  end.

(** [next(iter(self))], with [StopIteration] mapped to [None]. *)
Fixpoint next_or_none {K} (evs : list (event K)) : result exn (option Base.Instance) :=
  match evs with
  | [] => Ok None
  | PageRequest _ :: rest => next_or_none rest
  | Yield x :: _ => Ok (Some x)
  | Raises e :: _ => Raise e
  end.

Definition yields {K} (evs : list (event K)) : list Base.Instance :=
  omap (fun ev => match ev with Yield x => Some x | _ => None end) evs.

Definition requests {K} (evs : list (event K)) : list K :=
  omap (fun ev => match ev with PageRequest k => Some k | _ => None end) evs.

(** [" AND ".join(parts)] *)
Fixpoint join_and (parts : list string) : string :=
  match parts with
  | [] => ""
  | [p] => p
  | p :: rest => p +:+ " AND " +:+ join_and rest
  end.

End WithRuntime.

Arguments PageRequest {F K} kwargs.
Arguments Yield {F K} x.
Arguments Raises {F K} e.

End Iteration.

(** ** pagination.py *)

Module Pagination.

(** [PageResult[T]], with cursors of type [C]: the cursor is [None] when
    the store reported no further page. *)
Record PageResult (T C : Type) : Type := {
    items : list T;
    last_evaluated_key : option C;
    count : Z;
  }.
Arguments items {T C} _.
Arguments last_evaluated_key {T C} _.
Arguments count {T C} _.

(** [self.last_evaluated_key is not None] *)
Definition has_more {T C} (self : PageResult T C) : bool :=
  match last_evaluated_key self with
  | Some _ => true
  | None => false
  end.

(** Truthiness of an optional dict ([None] and [{}] are falsy). *)
Definition dict_truthy {A} (d : option (list A)) : bool :=
  match d with
  | Some (_ :: _) => true
  | _ => false
  end.

End Pagination.

(** ** query.py: DynamoQueryBuilder *)

Module Query.
Import Iteration.

(** The keyword arguments of the transport's [query] operation. *)
Record QueryKwargs : Type := {
    TableName : string;
    KeyConditionExpression : string;
    ExpressionAttributeValues : gmap string Serializer.wire;
    ExpressionAttributeNames : gmap string string;
    ScanIndexForward : bool;
    Limit : option Z;
    IndexName : option string;
    FilterExpression : option string;
  }.

Section WithRuntime.
Context `{F : PyFloat} `{T : !PyText} `{V : !Base.ValidationLayer}
  `{B : !Conditions.ConditionExpressionBuilder}.

Abbreviation model_class := (Base.ModelClass Base.annotation_t).

(** The state of a builder.  [config], [client] and [serializer] are
    determined by [model_cls]. *)
Record DynamoQueryBuilder : Type := {
    model_cls : model_class;
    pk_val : pyval;
    sk_condition : option string;
    limit_val : option Z;
    scan_forward : bool;
    index_name : option string;
    filter_conditions : list string;
    filter_values : gmap string Serializer.wire;
    filter_names : gmap string string;
    user_filter_condition : option Conditions.Boto3Condition;
    pk_name : string;
    sk_name : option string;
    expression_values : gmap string Serializer.wire;
    expression_names : gmap string string;
  }.

Definition config (self : DynamoQueryBuilder) : Config.ModelOptions :=
  Base._meta (model_cls self).

Definition gsi_not_defined (index_name : string) (cls : model_class) : exn :=
  ValueError ("GSI '" +:+ index_name +:+ "' is not defined on model " +:+ Base.__name__ cls).

Definition _add_discriminator_filter (self : DynamoQueryBuilder)
    : result exn DynamoQueryBuilder :=
  match Config.discriminator_field (config self), Config.discriminator_value (config self) with
  | Some disc_field, Some disc_value =>
      try! w <- Serializer.to_dynamo_value (PStr disc_value);
      Ok {| model_cls := model_cls self; pk_val := pk_val self;
            sk_condition := sk_condition self; limit_val := limit_val self;
            scan_forward := scan_forward self; index_name := index_name self;
            filter_conditions := filter_conditions self ++ ["#disc = :disc_val"];
            filter_values := <[":disc_val" := w]> (filter_values self);
            filter_names := <["#disc" := disc_field]> (filter_names self);
            user_filter_condition := user_filter_condition self;
            pk_name := pk_name self; sk_name := sk_name self;
            expression_values := expression_values self;
            expression_names := expression_names self |}
  | _, _ => Ok self
  end.

(** [DynamoQueryBuilder.__init__] *)
Definition __init__ (cls : model_class) (pk : pyval) (index : option string)
    : result exn DynamoQueryBuilder :=
  let config := Base._meta cls in
  try! keys <-
    (if Config.str_truthy index then
       match Config.get_gsi config (default "" index) with
       | None => Raise (gsi_not_defined (default "" index) cls)
       | Some gsi => Ok (Config.gsi_pk_name gsi, Config.gsi_sk_name gsi)
       end
     else Ok (Config.pk_name config, Config.sk_name config));
  try! w <- Serializer.to_dynamo_value pk;
  let self :=
    {| model_cls := cls; pk_val := pk; sk_condition := None; limit_val := None;
       scan_forward := true; index_name := index;
       filter_conditions := []; filter_values := ∅; filter_names := ∅;
       user_filter_condition := None;
       pk_name := fst keys; sk_name := snd keys;
       expression_values := {[":pk" := w]};
       expression_names := {["#pk" := fst keys]} |} in
  if Config.str_truthy (Config.discriminator_value config)
     && Config.str_truthy (Config.discriminator_field config)
  then _add_discriminator_filter self
  else Ok self.

Definition _serialize_query_value (value : pyval) : pyval :=
  match value with
  | PDatetime dt => PStr (isoformat dt)
  | PDate iso => PStr iso
  | PUUID text => PStr text
  | PEnum _ _ v => v
  | _ => value
  end.

(** The common shape of the sort-key methods: check that the key set has
    a sort key, set the condition, the ["#sk"] name and the values. *)
Fixpoint put_values (vs : list (string * pyval)) (m : gmap string Serializer.wire)
    : result exn (gmap string Serializer.wire) :=
  match vs with
  | [] => Ok m
  | (ph, v) :: rest =>
      try! w <- Serializer.to_dynamo_value (_serialize_query_value v);
      put_values rest (<[ph := w]> m)
  end.

Definition sort_key_condition (self : DynamoQueryBuilder) (condition : string)
    (vs : list (string * pyval)) : result exn DynamoQueryBuilder :=
  if negb (Config.str_truthy (sk_name self)) then
    Raise (ValueError "Index does not have a Sort Key defined.")
  else
    try! values <- put_values vs (expression_values self);
    Ok {| model_cls := model_cls self; pk_val := pk_val self;
          sk_condition := Some condition; limit_val := limit_val self;
          scan_forward := scan_forward self; index_name := index_name self;
          filter_conditions := filter_conditions self;
          filter_values := filter_values self; filter_names := filter_names self;
          user_filter_condition := user_filter_condition self;
          pk_name := pk_name self; sk_name := sk_name self;
          expression_values := values;
          expression_names := <["#sk" := default "" (sk_name self)]> (expression_names self) |}.

Definition starts_with self prefix := sort_key_condition self "begins_with(#sk, :sk)" [(":sk", prefix)].
Definition between self low high :=
  sort_key_condition self "#sk BETWEEN :low AND :high" [(":low", low); (":high", high)].
Definition gt self val := sort_key_condition self "#sk > :sk" [(":sk", val)].
Definition lt self val := sort_key_condition self "#sk < :sk" [(":sk", val)].
Definition ge self val := sort_key_condition self "#sk >= :sk" [(":sk", val)].
Definition le self val := sort_key_condition self "#sk <= :sk" [(":sk", val)].
Definition eq self val := sort_key_condition self "#sk = :sk" [(":sk", val)].
Definition ne self val := sort_key_condition self "#sk <> :sk" [(":sk", val)].

Definition limit (self : DynamoQueryBuilder) (count : Z) : DynamoQueryBuilder :=
  {| model_cls := model_cls self; pk_val := pk_val self;
     sk_condition := sk_condition self; limit_val := Some count;
     scan_forward := scan_forward self; index_name := index_name self;
     filter_conditions := filter_conditions self;
     filter_values := filter_values self; filter_names := filter_names self;
     user_filter_condition := user_filter_condition self;
     pk_name := pk_name self; sk_name := sk_name self;
     expression_values := expression_values self;
     expression_names := expression_names self |}.

Definition reverse (self : DynamoQueryBuilder) : DynamoQueryBuilder :=
  {| model_cls := model_cls self; pk_val := pk_val self;
     sk_condition := sk_condition self; limit_val := limit_val self;
     scan_forward := false; index_name := index_name self;
     filter_conditions := filter_conditions self;
     filter_values := filter_values self; filter_names := filter_names self;
     user_filter_condition := user_filter_condition self;
     pk_name := pk_name self; sk_name := sk_name self;
     expression_values := expression_values self;
     expression_names := expression_names self |}.

Definition filter (self : DynamoQueryBuilder) (condition : Conditions.Condition)
    : result exn DynamoQueryBuilder :=
  try! new_condition <- Conditions.wrap_condition condition;
  try! combined <-
    match user_filter_condition self with
    | Some existing => Conditions.and_ existing (Conditions.DynCondition new_condition)
    | None => Ok new_condition
    end;
  Ok {| model_cls := model_cls self; pk_val := pk_val self;
        sk_condition := sk_condition self; limit_val := limit_val self;
        scan_forward := scan_forward self; index_name := index_name self;
        filter_conditions := filter_conditions self;
        filter_values := filter_values self; filter_names := filter_names self;
        user_filter_condition := Some combined;
        pk_name := pk_name self; sk_name := sk_name self;
        expression_values := expression_values self;
        expression_names := expression_names self |}.

Definition using_index (self : DynamoQueryBuilder) (index : string)
    : result exn DynamoQueryBuilder :=
  match Config.get_gsi (config self) index with
  | None => Raise (gsi_not_defined index (model_cls self))
  | Some gsi =>
      let pk := Config.gsi_pk_name gsi in
      let sk := Config.gsi_sk_name gsi in
      let names := <["#pk" := pk]> (expression_names self) in
      let names :=
        if Config.str_truthy sk && bool_decide (is_Some (names !! "#sk"))
        then <["#sk" := default "" sk]> names
        else names in
      Ok {| model_cls := model_cls self; pk_val := pk_val self;
            sk_condition := sk_condition self; limit_val := limit_val self;
            scan_forward := scan_forward self; index_name := Some index;
            filter_conditions := filter_conditions self;
            filter_values := filter_values self; filter_names := filter_names self;
            user_filter_condition := user_filter_condition self;
            pk_name := pk; sk_name := sk;
            expression_values := expression_values self;
            expression_names := names |}
  end.

(** *** Execution *)

(** The filter expression and the merged placeholder tables: the
    discriminator filter first, then the compiled user filter, whose
    placeholders are written over the tables ([dict.update]). *)
Definition filter_params (self : DynamoQueryBuilder)
    (all_names : gmap string string) (all_values : gmap string Serializer.wire)
    : result exn (option string * gmap string string * gmap string Serializer.wire) :=
  match filter_conditions self, user_filter_condition self with
  | [], None => Ok (None, all_names, all_values)
  | parts, None => Ok (Some (join_and parts), all_names, all_values)
  | parts, Some condition =>
      try! user_filter_params <-
        Conditions.compile_condition (Conditions.DynCondition condition);
      let filter_parts := parts ++ [Conditions.ConditionExpression user_filter_params] in
      let all_names :=
        match Conditions.ExpressionAttributeNames user_filter_params with
        | Some names => names ∪ all_names
        | None => all_names
        end in
      let all_values :=
        match Conditions.ExpressionAttributeValues user_filter_params with
        | Some values => values ∪ all_values
        | None => all_values
        end in
      Ok (Some (join_and filter_parts), all_names, all_values)
  end.

(** The arguments [__iter__] passes to the paginator. *)
Definition iter_kwargs (self : DynamoQueryBuilder) : result exn QueryKwargs :=
  let key_expr :=
    if Config.str_truthy (sk_condition self)
    then "#pk = :pk" +:+ " AND " +:+ default "" (sk_condition self)
    else "#pk = :pk" in
  let all_values := filter_values self ∪ expression_values self in
  let all_names := filter_names self ∪ expression_names self in
  try! fp <- filter_params self all_names all_values;
  Ok {| TableName := Config.table_name (config self);
        KeyConditionExpression := key_expr;
        ExpressionAttributeValues := snd fp;
        ExpressionAttributeNames := snd (fst fp);
        ScanIndexForward := scan_forward self;
        Limit := if limit_truthy (limit_val self) then limit_val self else None;
        IndexName := if Config.str_truthy (index_name self) then index_name self else None;
        FilterExpression := fst (fst fp) |}.

Section Execution.
(** The transport: the pages [get_paginator("query").paginate] delivers
    for given arguments, one per fetch. *)
Variable paginate : QueryKwargs -> list page_event.

(** [__iter__], as the sequence of events of the generator. *)
Definition __iter__ (self : DynamoQueryBuilder) : list (event QueryKwargs) :=
  match iter_kwargs self with
  | Raise e => [Raises e]
  | Ok kwargs => pages_loop (model_cls self) (limit_val self) kwargs (paginate kwargs) 0
  end.

Definition all (self : DynamoQueryBuilder) : result exn (list Base.Instance) :=
  collect (__iter__ self).

Definition first (self : DynamoQueryBuilder) : result exn (option Base.Instance) :=
  let self := match limit_val self with
              | None => limit self 1
              | Some _ => self
              end in
  next_or_none (__iter__ self).

Definition one (self : DynamoQueryBuilder) : result exn Base.Instance :=
  try! x <- first self;
  match x with
  | None => Raise (ValueError "No items found for this query")
  | Some x => Ok x
  end.
End Execution.

(** *** A single page *)

(** The keyword arguments of one [query] call: those of the paginated
    read, and the start key when a cursor is given. *)
Record PageKwargs : Type := {
    request_kwargs : QueryKwargs;
    ExclusiveStartKey : option (list (string * Serializer.wire));
  }.

(** The response of one [query] call, as far as [page] reads it. *)
Record QueryResponse : Type := {
    Items : option (list (list (string * Serializer.wire)));
    LastEvaluatedKey : option (list (string * Serializer.wire));
  }.

Abbreviation cursor := (list (string * pyval)).

(** Everything [page] does before the request.  The arguments are built
    by the statements [__iter__] starts with, repeated in [page]; the
    start key is encoded when the cursor is truthy (the source does so
    twice, with the same result). *)
Definition page_kwargs (self : DynamoQueryBuilder) (start_key : option cursor)
    : result exn PageKwargs :=
  try! kwargs <- iter_kwargs self;
  try! key <-
    (if Pagination.dict_truthy start_key
     then try! k <- Serializer.to_dynamo (default [] start_key); Ok (Some k)
     else Ok None);
  Ok {| request_kwargs := kwargs; ExclusiveStartKey := key |}.

(** What [page] makes of the response: the items, then the cursor. *)
Definition page_result (self : DynamoQueryBuilder) (response : QueryResponse)
    : result exn (Pagination.PageResult Base.Instance cursor) :=
  try! items <-
    mapM (fun it => try! raw_data <- Serializer.from_dynamo it;
                    Base._deserialize_item (model_cls self) raw_data)
         (default [] (Items response));
  let raw_key := LastEvaluatedKey response in
  try! cursor <-
    (if Pagination.dict_truthy raw_key
     then try! c <- Serializer.from_dynamo (default [] raw_key); Ok (Some c)
     else Ok None);
  Ok {| Pagination.items := items;
        Pagination.last_evaluated_key := cursor;
        Pagination.count := Z.of_nat (length items) |}.

Section Paging.
(** The transport's [query] operation. *)
Variable query : PageKwargs -> result exn QueryResponse.

Definition page (self : DynamoQueryBuilder) (start_key : option cursor)
    : result exn (Pagination.PageResult Base.Instance cursor) :=
  try! kwargs <- page_kwargs self start_key;
  try! response <-
    handle_dynamo_errors (Some (Config.table_name (config self))) (query kwargs);
  page_result self response.
End Paging.

End WithRuntime.

End Query.

(** ** scan.py: DynamoScanBuilder *)

Module Scan.
Import Iteration.

(** The keyword arguments of the transport's [scan] operation. *)
Record ScanKwargs : Type := {
    TableName : string;
    IndexName : option string;
    Limit : option Z;
    FilterExpression : option string;
    ExpressionAttributeNames : option (gmap string string);
    ExpressionAttributeValues : option (gmap string Serializer.wire);
  }.

Section WithRuntime.
Context `{F : PyFloat} `{T : !PyText} `{V : !Base.ValidationLayer}
  `{B : !Conditions.ConditionExpressionBuilder}.

Abbreviation model_class := (Base.ModelClass Base.annotation_t).

Record DynamoScanBuilder : Type := {
    model_cls : model_class;
    limit_val : option Z;
    index_name : option string;
    filter_conditions : list string;
    filter_values : gmap string Serializer.wire;
    filter_names : gmap string string;
    user_filter_condition : option Conditions.Boto3Condition;
  }.

Definition config (self : DynamoScanBuilder) : Config.ModelOptions :=
  Base._meta (model_cls self).

Definition _add_discriminator_filter (self : DynamoScanBuilder)
    : result exn DynamoScanBuilder :=
  match Config.discriminator_field (config self), Config.discriminator_value (config self) with
  | Some disc_field, Some disc_value =>
      try! w <- Serializer.to_dynamo_value (PStr disc_value);
      Ok {| model_cls := model_cls self; limit_val := limit_val self;
            index_name := index_name self;
            filter_conditions := filter_conditions self ++ ["#disc = :disc_val"];
            filter_values := <[":disc_val" := w]> (filter_values self);
            filter_names := <["#disc" := disc_field]> (filter_names self);
            user_filter_condition := user_filter_condition self |}
  | _, _ => Ok self
  end.

Definition __init__ (cls : model_class) (index : option string)
    : result exn DynamoScanBuilder :=
  let config := Base._meta cls in
  if Config.str_truthy index && negb (Config.has_gsi config (default "" index)) then
    Raise (Query.gsi_not_defined (default "" index) cls)
  else
    let self :=
      {| model_cls := cls; limit_val := None; index_name := index;
         filter_conditions := []; filter_values := ∅; filter_names := ∅;
         user_filter_condition := None |} in
    if Config.str_truthy (Config.discriminator_value config)
       && Config.str_truthy (Config.discriminator_field config)
    then _add_discriminator_filter self
    else Ok self.

Definition limit (self : DynamoScanBuilder) (count : Z) : DynamoScanBuilder :=
  {| model_cls := model_cls self; limit_val := Some count; index_name := index_name self;
     filter_conditions := filter_conditions self; filter_values := filter_values self;
     filter_names := filter_names self;
     user_filter_condition := user_filter_condition self |}.

Definition using_index (self : DynamoScanBuilder) (index : string)
    : result exn DynamoScanBuilder :=
  if negb (Config.has_gsi (config self) index) then
    Raise (Query.gsi_not_defined index (model_cls self))
  else
    Ok {| model_cls := model_cls self; limit_val := limit_val self;
          index_name := Some index;
          filter_conditions := filter_conditions self; filter_values := filter_values self;
          filter_names := filter_names self;
          user_filter_condition := user_filter_condition self |}.

Definition filter (self : DynamoScanBuilder) (condition : Conditions.Condition)
    : result exn DynamoScanBuilder :=
  try! new_condition <- Conditions.wrap_condition condition;
  try! combined <-
    match user_filter_condition self with
    | Some existing => Conditions.and_ existing (Conditions.DynCondition new_condition)
    | None => Ok new_condition
    end;
  Ok {| model_cls := model_cls self; limit_val := limit_val self;
        index_name := index_name self;
        filter_conditions := filter_conditions self; filter_values := filter_values self;
        filter_names := filter_names self;
        user_filter_condition := Some combined |}.

(** The arguments [__iter__] passes to the paginator: the placeholder
    tables are only sent along with a filter expression. *)
Definition iter_kwargs (self : DynamoScanBuilder) : result exn ScanKwargs :=
  let index := if Config.str_truthy (index_name self) then index_name self else None in
  let lim := if limit_truthy (limit_val self) then limit_val self else None in
  let table := Config.table_name (config self) in
  match filter_conditions self, user_filter_condition self with
  | [], None =>
      Ok {| TableName := table; IndexName := index; Limit := lim;
            FilterExpression := None;
            ExpressionAttributeNames := None; ExpressionAttributeValues := None |}
  | parts, None =>
      Ok {| TableName := table; IndexName := index; Limit := lim;
            FilterExpression := Some (join_and parts);
            ExpressionAttributeNames := Some (filter_names self);
            ExpressionAttributeValues := Some (filter_values self) |}
  | parts, Some condition =>
      try! user_filter_params <-
        Conditions.compile_condition (Conditions.DynCondition condition);
      let filter_parts := parts ++ [Conditions.ConditionExpression user_filter_params] in
      let all_names :=
        match Conditions.ExpressionAttributeNames user_filter_params with
        | Some names => names ∪ filter_names self
        | None => filter_names self
        end in
      let all_values :=
        match Conditions.ExpressionAttributeValues user_filter_params with
        | Some values => values ∪ filter_values self
        | None => filter_values self
        end in
      Ok {| TableName := table; IndexName := index; Limit := lim;
            FilterExpression := Some (join_and filter_parts);
            ExpressionAttributeNames := Some all_names;
            ExpressionAttributeValues := Some all_values |}
  end.

Section Execution.
(** The transport: the pages [get_paginator("scan").paginate] delivers. *)
Variable paginate : ScanKwargs -> list page_event.

Definition __iter__ (self : DynamoScanBuilder) : list (event ScanKwargs) :=
  match iter_kwargs self with
  | Raise e => [Raises e]
  | Ok kwargs => pages_loop (model_cls self) (limit_val self) kwargs (paginate kwargs) 0
  end.

Definition all (self : DynamoScanBuilder) : result exn (list Base.Instance) :=
  collect (__iter__ self).

Definition first (self : DynamoScanBuilder) : result exn (option Base.Instance) :=
  let self := match limit_val self with
              | None => limit self 1
              | Some _ => self
              end in
  next_or_none (__iter__ self).

Definition one (self : DynamoScanBuilder) : result exn Base.Instance :=
  try! x <- first self;
  match x with
  | None => Raise (ValueError "No items found for this scan")
  | Some x => Ok x
  end.
End Execution.

(** *** A single page *)

Record PageKwargs : Type := {
    request_kwargs : ScanKwargs;
    ExclusiveStartKey : option (list (string * Serializer.wire));
  }.

(** The response of one [scan] call, as far as [page] reads it. *)
Record ScanResponse : Type := {
    Items : option (list (list (string * Serializer.wire)));
    LastEvaluatedKey : option (list (string * Serializer.wire));
  }.

Abbreviation cursor := (list (string * pyval)).

(** Everything [page] does before the request: the arguments of
    [__iter__], built by the same statements, and the start key. *)
Definition page_kwargs (self : DynamoScanBuilder) (start_key : option cursor)
    : result exn PageKwargs :=
  try! kwargs <- iter_kwargs self;
  try! key <-
    (if Pagination.dict_truthy start_key
     then try! k <- Serializer.to_dynamo (default [] start_key); Ok (Some k)
     else Ok None);
  Ok {| request_kwargs := kwargs; ExclusiveStartKey := key |}.

(** The part of [page] after the request, which [DynamoModel.scan_page]
    repeats: the items, then the cursor. *)
Definition page_result (cls : model_class) (response : ScanResponse)
    : result exn (Pagination.PageResult Base.Instance cursor) :=
  try! items <-
    mapM (fun it => try! raw_data <- Serializer.from_dynamo it;
                    Base._deserialize_item cls raw_data)
         (default [] (Items response));
  let raw_key := LastEvaluatedKey response in
  try! cursor <-
    (if Pagination.dict_truthy raw_key
     then try! c <- Serializer.from_dynamo (default [] raw_key); Ok (Some c)
     else Ok None);
  Ok {| Pagination.items := items;
        Pagination.last_evaluated_key := cursor;
        Pagination.count := Z.of_nat (length items) |}.

Section Paging.
(** The transport's [scan] operation. *)
Variable scan : PageKwargs -> result exn ScanResponse.

Definition page (self : DynamoScanBuilder) (start_key : option cursor)
    : result exn (Pagination.PageResult Base.Instance cursor) :=
  try! kwargs <- page_kwargs self start_key;
  try! response <-
    handle_dynamo_errors (Some (Config.table_name (config self))) (scan kwargs);
  page_result (model_cls self) response.
End Paging.

End WithRuntime.

End Scan.

(** ** updates.py: update actions and UpdateBuilder *)

Module Updates.

Inductive ActionKind : Type := Set_ | Remove | Add | Delete.

(** The [Literal] type of the return-values mode. *)
Inductive ReturnValues : Type := NONE | ALL_OLD | UPDATED_OLD | ALL_NEW | UPDATED_NEW.

(** Decimal text of a placeholder counter. *)
Definition counter_text (n : nat) : string := NilEmpty.string_of_uint (Nat.to_uint n).

(** [", ".join(clauses)] *)
Fixpoint join_comma (clauses : list string) : string :=
  match clauses with
  | [] => ""
  | [c] => c
  | c :: rest => c +:+ ", " +:+ join_comma rest
  end.

(** [" ".join(parts)] *)
Fixpoint join_space (parts : list string) : string :=
  match parts with
  | [] => ""
  | [p] => p
  | p :: rest => p +:+ " " +:+ join_space rest
  end.

Section WithRuntime.
Context `{F : PyFloat} `{T : !PyText} `{V : !Base.ValidationLayer}
  `{B : !Conditions.ConditionExpressionBuilder}.

Abbreviation model_class := (Base.ModelClass Base.annotation_t).
Abbreviation item := (list (string * Serializer.wire)).

(** An update action: its class, the attribute name and the value
    ([None] for a [Remove]). *)
Record UpdateAction : Type := {
    kind : ActionKind;
    field_name : string;
    value : pyval;
  }.

(** [UpdateAction._get_field_info]: the first declared field whose alias,
    or else name, is the attribute name. *)
Fixpoint find_field (fields : list (string * Base.FieldInfo Base.annotation_t))
    (name : string) : option (Base.FieldInfo Base.annotation_t) :=
  match fields with
  | [] => None
  | (declared, field) :: rest =>
      let dynamo_name := if Config.str_truthy (Base.alias field)
                         then default "" (Base.alias field) else declared in
      if (dynamo_name =? name)%string then Some field else find_field rest name
  end.

Definition _get_field_info (self : UpdateAction) (cls : model_class) :=
  find_field (Base.model_fields cls) (field_name self).

(** [TypeAdapter(field.annotation).validate_python(value)] inside
    [try: ... except ValidationError as e: raise ValueError(...)]. *)
Definition validate_against (self : UpdateAction)
    (field : Base.FieldInfo Base.annotation_t) : result exn pyval :=
  match Base.validate_python (Base.annotation field) (value self) with
  | Ok v => Ok v
  | Raise (PydanticValidationError m) =>
      Raise (ValueError ("Validation failed for field '" +:+ field_name self +:+ "': " +:+ m))
  | Raise e => Raise e
  end.

(** [isinstance(v, (int, float, Decimal))]: also a member of an enum
    class that mixes int or float in. *)
Definition is_number (v : pyval) : bool :=
  match v with
  | PBool _ | PInt _ | PFloat _ | PDecimal _ => true
  | PEnum _ true (PInt _) | PEnum _ true (PFloat _) => true
  | _ => false
  end.

(** [isinstance(v, (set, frozenset))] *)
Definition is_set (v : pyval) : bool :=
  match v with PSet _ _ => true | _ => false end.

Definition add_type_error (self : UpdateAction) (validated_value : pyval) : exn :=
  ValueError ("Invalid type for ADD operation on field '" +:+ field_name self +:+ "'. "
              +:+ "DynamoDB ADD supports only Numbers and Sets. "
              +:+ "Got: " +:+ type_name validated_value).

Definition add_value_error (self : UpdateAction) : exn :=
  ValueError ("Invalid value for ADD operation. "
              +:+ "DynamoDB ADD supports only Numbers and Sets. "
              +:+ "Got: " +:+ type_name (value self)).

(** [action.validate(model_cls)], by the class of the action. *)
Definition validate (self : UpdateAction) (cls : model_class) : result exn pyval :=
  match kind self with
  | Set_ =>
      match value self with
      | PNone => Ok PNone
      | _ =>
          match _get_field_info self cls with
          | Some field => validate_against self field
          | None => Ok (value self)
          end
      end
  | Remove => Ok PNone
  | Add =>
      match _get_field_info self cls with
      | Some field =>
          try! validated_value <- validate_against self field;
          if negb (is_number validated_value || is_set validated_value)
          then Raise (add_type_error self validated_value)
          else Ok validated_value
      | None =>
          if negb (is_number (value self) || is_set (value self))
          then Raise (add_value_error self)
          else Ok (value self)
      end
  | Delete =>
      match _get_field_info self cls with
      | Some field => validate_against self field
      | None => Ok (value self)
      end
  end.

Record UpdateBuilder : Type := {
    model_cls : model_class;
    pk : pyval;
    sk : pyval;                    (* [None] when not given *)
    actions : list UpdateAction;
    _condition : option Conditions.Condition;
    _return_values : ReturnValues;
  }.

Definition __init__ (cls : model_class) (pk sk : pyval) : UpdateBuilder :=
  {| model_cls := cls; pk := pk; sk := sk; actions := [];
     _condition := None; _return_values := NONE |}.

Definition with_actions (self : UpdateBuilder) (l : list UpdateAction) : UpdateBuilder :=
  {| model_cls := model_cls self; pk := pk self; sk := sk self; actions := l;
     _condition := _condition self; _return_values := _return_values self |}.

Definition append_action (self : UpdateBuilder) (a : UpdateAction) : UpdateBuilder :=
  with_actions self (actions self ++ [a]).

Definition set (self : UpdateBuilder) (field : string) (v : pyval) :=
  append_action self {| kind := Set_; field_name := field; value := v |}.
Definition remove (self : UpdateBuilder) (field : string) :=
  append_action self {| kind := Remove; field_name := field; value := PNone |}.
Definition add (self : UpdateBuilder) (field : string) (v : pyval) :=
  append_action self {| kind := Add; field_name := field; value := v |}.
Definition delete (self : UpdateBuilder) (field : string) (v : pyval) :=
  append_action self {| kind := Delete; field_name := field; value := v |}.

Definition condition (self : UpdateBuilder) (c : option Conditions.Condition) : UpdateBuilder :=
  {| model_cls := model_cls self; pk := pk self; sk := sk self; actions := actions self;
     _condition := c; _return_values := _return_values self |}.

Definition return_values (self : UpdateBuilder) (rv : ReturnValues) : UpdateBuilder :=
  {| model_cls := model_cls self; pk := pk self; sk := sk self; actions := actions self;
     _condition := _condition self; _return_values := rv |}.

(** The four groups of validated actions, each in chaining order. *)
Record Groups : Type := {
    set_actions : list UpdateAction;
    remove_actions : list UpdateAction;
    add_actions : list UpdateAction;
    delete_actions : list UpdateAction;
  }.

(** The first loop of [_compile]: validate, turn a [Set] to [None] into a
    [Remove], store the validated value, and group. *)
Fixpoint group_actions (cls : model_class) (l : list UpdateAction) (g : Groups)
    : result exn Groups :=
  match l with
  | [] => Ok g
  | action :: rest =>
      try! validated_value <- validate action cls;
      let stored := {| kind := kind action; field_name := field_name action;
                       value := validated_value |} in
      let g' :=
        match kind action, validated_value with
        | Set_, PNone =>
            {| set_actions := set_actions g;
               remove_actions := remove_actions g ++
                 [{| kind := Remove; field_name := field_name action; value := PNone |}];
               add_actions := add_actions g; delete_actions := delete_actions g |}
        | Set_, _ =>
            {| set_actions := set_actions g ++ [stored];
               remove_actions := remove_actions g;
               add_actions := add_actions g; delete_actions := delete_actions g |}
        | Remove, _ =>
            {| set_actions := set_actions g;
               remove_actions := remove_actions g ++ [stored];
               add_actions := add_actions g; delete_actions := delete_actions g |}
        | Add, _ =>
            {| set_actions := set_actions g; remove_actions := remove_actions g;
               add_actions := add_actions g ++ [stored];
               delete_actions := delete_actions g |}
        | Delete, _ =>
            {| set_actions := set_actions g; remove_actions := remove_actions g;
               add_actions := add_actions g;
               delete_actions := delete_actions g ++ [stored] |}
        end in
      group_actions cls rest g'
  end.

(** The placeholder tables and counters threaded through the clauses. *)
Record Placeholders : Type := {
    names : gmap string string;
    values : gmap string Serializer.wire;
    name_counter : nat;
    value_counter : nat;
  }.

Definition get_name_ph (st : Placeholders) (name : string) : string * Placeholders :=
  let ph := "#u_n" +:+ counter_text (name_counter st) in
  (ph, {| names := <[ph := name]> (names st); values := values st;
          name_counter := S (name_counter st); value_counter := value_counter st |}).

Definition get_value_ph (st : Placeholders) (val : pyval)
    : result exn (string * Placeholders) :=
  let ph := ":u_v" +:+ counter_text (value_counter st) in
  try! w <- Serializer.to_dynamo_value val;
  Ok (ph, {| names := names st; values := <[ph := w]> (values st);
             name_counter := name_counter st; value_counter := S (value_counter st) |}).

(** The clauses of one group: [name value] pairs joined by [sep], or
    names alone for REMOVE. *)
Fixpoint clauses_of (with_value : bool) (sep : string) (l : list UpdateAction)
    (st : Placeholders) : result exn (list string * Placeholders) :=
  match l with
  | [] => Ok ([], st)
  | a :: rest =>
      let (n, st1) := get_name_ph st (field_name a) in
      try! c <-
        (if with_value then
           try! vp <- get_value_ph st1 (value a);
           Ok (n +:+ sep +:+ fst vp, snd vp)
         else Ok (n, st1));
      try! r <- clauses_of with_value sep rest (snd c);
      Ok (fst c :: fst r, snd r)
  end.

Definition clause_part (keyword : string) (with_value : bool) (sep : string)
    (l : list UpdateAction) (parts : list string) (st : Placeholders)
    : result exn (list string * Placeholders) :=
  match l with
  | [] => Ok (parts, st)
  | _ =>
      try! r <- clauses_of with_value sep l st;
      Ok (parts ++ [keyword +:+ " " +:+ join_comma (fst r)], snd r)
  end.

Record Compiled : Type := {
    UpdateExpression : string;
    ConditionExpression : option string;
    ExpressionAttributeNames : option (gmap string string);
    ExpressionAttributeValues : option (gmap string Serializer.wire);
  }.

(** Truthiness of [self._condition]. *)
Definition condition_truthy (c : option Conditions.Condition) : bool :=
  match c with
  | None => false
  | Some (Conditions.NotACondition v) => truthy v
  | Some _ => true
  end.

Definition non_empty {A} (m : gmap string A) : option (gmap string A) :=
  if bool_decide (m = ∅) then None else Some m.

Definition _compile (self : UpdateBuilder) : result exn Compiled :=
  match actions self with
  | [] => Raise (ValueError "No update actions specified")
  | _ =>
      try! g <- group_actions (model_cls self) (actions self)
                  {| set_actions := []; remove_actions := [];
                     add_actions := []; delete_actions := [] |};
      let st := {| names := ∅; values := ∅; name_counter := 0; value_counter := 0 |} in
      try! r1 <- clause_part "SET" true " = " (set_actions g) [] st;
      try! r2 <- clause_part "REMOVE" false "" (remove_actions g) (fst r1) (snd r1);
      try! r3 <- clause_part "ADD" true " " (add_actions g) (fst r2) (snd r2);
      try! r4 <- clause_part "DELETE" true " " (delete_actions g) (fst r3) (snd r3);
      let update_expression := join_space (fst r4) in
      let st := snd r4 in
      match (if condition_truthy (_condition self) then _condition self else None) with
      | Some c =>
          try! cond_params <- Conditions.compile_condition c;
          let names :=
            match Conditions.ExpressionAttributeNames cond_params with
            | Some m => m ∪ names st
            | None => names st
            end in
          let values :=
            match Conditions.ExpressionAttributeValues cond_params with
            | Some m => m ∪ values st
            | None => values st
            end in
          Ok {| UpdateExpression := update_expression;
                ConditionExpression := Some (Conditions.ConditionExpression cond_params);
                ExpressionAttributeNames := non_empty names;
                ExpressionAttributeValues := non_empty values |}
      | None =>
          Ok {| UpdateExpression := update_expression;
                ConditionExpression := None;
                ExpressionAttributeNames := non_empty (names st);
                ExpressionAttributeValues := non_empty (values st) |}
      end
  end.

(** The parameters of the transport's [update_item] operation. *)
Record UpdateItemParams : Type := {
    compiled : Compiled;
    TableName : string;
    Key : item;
    ReturnValues_ : ReturnValues;
  }.

(** The response of [update_item]: the returned attributes, when the
    store sent any, and the rest of the response. *)
Record Response : Type := {
    Attributes : option item;
    metadata : list (string * pyval);
  }.

Inductive Returned : Type :=
  | ReturnsModel (x : Base.Instance)
  | ReturnsResponse (response : Response).

Section Execution.
(** The transport's [update_item] operation. *)
Variable update_item : UpdateItemParams -> result exn Response.

(** The key of the item: the partition key, and the sort key when it was
    given and the schema has one. *)
Definition key_dict (self : UpdateBuilder) : list (string * pyval) :=
  let meta := Base._meta (model_cls self) in
  let key_dict := [(Config.pk_name meta, pk self)] in
  if truthy (sk self) && Config.str_truthy (Config.sk_name meta)
  then Serializer.dict_set key_dict (default "" (Config.sk_name meta)) (sk self)
  else key_dict.

(** Everything [execute] does before the request: the key, then the
    compilation of the actions. *)
Definition prepare_request (self : UpdateBuilder) : result exn UpdateItemParams :=
  try! dynamo_key <- Serializer.to_dynamo (key_dict self);
  try! params <- _compile self;
  Ok {| compiled := params;
        TableName := Config.table_name (Base._meta (model_cls self));
        Key := dynamo_key; ReturnValues_ := _return_values self |}.

(** What [execute] returns once the store has answered. *)
Definition returned (self : UpdateBuilder) (response : Response) : result exn Returned :=
  match _return_values self, Attributes response with
  | ALL_NEW, Some attributes =>
      try! raw_data <- Serializer.from_dynamo attributes;
      try! x <- Base._deserialize_item (model_cls self) raw_data;
      Ok (ReturnsModel x)
  | _, _ => Ok (ReturnsResponse response)
  end.

(** [execute]: the outcome, and the requests sent to the transport. *)
Definition execute (self : UpdateBuilder)
    : result exn Returned * list UpdateItemParams :=
  match prepare_request self with
  | Raise e => (Raise e, [])
  | Ok params =>
      let table := Some (Config.table_name (Base._meta (model_cls self))) in
      match handle_dynamo_errors table (update_item params) with
      | Raise e => (Raise e, [params])
      | Ok response => (returned self response, [params])
      end
  end.
End Execution.

End WithRuntime.

End Updates.

(** ** base.py: the class methods of DynamoModel that build requests *)

Module Model.

(** The parameters of the transport's [get_item] operation. *)
Record GetItemParams : Type := {
    get_TableName : string;
    get_Key : list (string * Serializer.wire);
  }.

(** The response of [get_item]: the item, when there is one. *)
Record GetItemResponse : Type := {
    Item : option (list (string * Serializer.wire));
  }.

Section WithRuntime.
Context `{F : PyFloat} `{T : !PyText} `{V : !Base.ValidationLayer}
  `{B : !Conditions.ConditionExpressionBuilder}.

Abbreviation model_class := (Base.ModelClass Base.annotation_t).
Abbreviation item := (list (string * Serializer.wire)).
Abbreviation cursor := (list (string * pyval)).

(** The parameters of the transport's [delete_item] operation: the
    compiled condition is merged into them when one is given. *)
Record DeleteItemParams : Type := {
    delete_TableName : string;
    delete_Key : item;
    delete_condition : option Conditions.ConditionParams;
  }.

(** The key dictionary [get] and [delete] build: the partition key, and
    the sort key when it is truthy and the schema has one. *)
Definition key_dict (cls : model_class) (pk sk : pyval) : list (string * pyval) :=
  let config := Base._meta cls in
  let key_dict := [(Config.pk_name config, pk)] in
  if truthy sk && Config.str_truthy (Config.sk_name config)
  then Serializer.dict_set key_dict (default "" (Config.sk_name config)) sk
  else key_dict.

(** Everything [get] does before the request. *)
Definition get_params (cls : model_class) (pk sk : pyval) : result exn GetItemParams :=
  try! dynamo_key <- Serializer.to_dynamo (key_dict cls pk sk);
  Ok {| get_TableName := Config.table_name (Base._meta cls); get_Key := dynamo_key |}.

(** Everything [delete] does before the request. *)
Definition delete_params (cls : model_class) (pk sk : pyval)
    (condition : option Conditions.Condition) : result exn DeleteItemParams :=
  try! dynamo_key <- Serializer.to_dynamo (key_dict cls pk sk);
  try! condition_params <-
    match condition with
    | Some c => try! p <- Conditions.compile_condition c; Ok (Some p)
    | None => Ok None
    end;
  Ok {| delete_TableName := Config.table_name (Base._meta cls);
        delete_Key := dynamo_key;
        delete_condition := condition_params |}.

(** [DynamoModel.query] *)
Definition query (cls : model_class) (pk_val : pyval) : result exn Query.DynamoQueryBuilder :=
  Query.__init__ cls pk_val None.

(** [DynamoModel.query_index].  The index names of the message are
    listed in the order of the finite map. *)
Definition query_index (cls : model_class) (index_name : string) (pk_val : pyval)
    : result exn Query.DynamoQueryBuilder :=
  if negb (Config.has_gsi (Base._meta cls) index_name) then
    Raise (ValueError
             ("GSI '" +:+ index_name +:+ "' is not defined on model " +:+ Base.__name__ cls
              +:+ ". " +:+ "Available GSIs: "
              +:+ py_repr (PList (PStr <$> (map_to_list (Config.gsi_definitions (Base._meta cls))).*1))))
  else Query.__init__ cls pk_val (Some index_name).

(** [DynamoModel.scan] *)
Definition scan (cls : model_class) (index_name : option string)
    : result exn Scan.DynamoScanBuilder :=
  Scan.__init__ cls index_name.

(** [DynamoModel.update] *)
Definition update (cls : model_class) (pk sk : pyval) : Updates.UpdateBuilder :=
  Updates.__init__ cls pk sk.

(** Everything [scan_page] does before the request. *)
Definition scan_page_kwargs (cls : model_class) (limit : option Z)
    (start_key : option cursor) (index_name : option string) : result exn Scan.PageKwargs :=
  let config := Base._meta cls in
  if Config.str_truthy index_name && negb (Config.has_gsi config (default "" index_name)) then
    Raise (Query.gsi_not_defined (default "" index_name) cls)
  else
    try! filter <-
      (if Config.str_truthy (Config.discriminator_value config)
          && Config.str_truthy (Config.discriminator_field config)
       then
         try! w <- Serializer.to_dynamo_value
                     (PStr (default "" (Config.discriminator_value config)));
         Ok (Some "#disc = :disc_val",
             Some ({["#disc" := default "" (Config.discriminator_field config)]}
                     : gmap string string),
             Some ({[":disc_val" := w]} : gmap string Serializer.wire))
       else Ok (None, None, None));
    try! key <-
      (if Pagination.dict_truthy start_key
       then try! k <- Serializer.to_dynamo (default [] start_key); Ok (Some k)
       else Ok None);
    Ok {| Scan.request_kwargs :=
            {| Scan.TableName := Config.table_name config;
               Scan.IndexName := if Config.str_truthy index_name then index_name else None;
               Scan.Limit := if Iteration.limit_truthy limit then limit else None;
               Scan.FilterExpression := fst (fst filter);
               Scan.ExpressionAttributeNames := snd (fst filter);
               Scan.ExpressionAttributeValues := snd filter |};
          Scan.ExclusiveStartKey := key |}.

Section Transport.
Variable client_get_item : GetItemParams -> result exn GetItemResponse.
Variable client_scan : Scan.PageKwargs -> result exn Scan.ScanResponse.
Variable client_update_item : Updates.UpdateItemParams -> result exn Updates.Response.

(** [DynamoModel.get] *)
Definition get (cls : model_class) (pk sk : pyval) : result exn (option Base.Instance) :=
  try! params <- get_params cls pk sk;
  try! response <-
    handle_dynamo_errors (Some (Config.table_name (Base._meta cls))) (client_get_item params);
  match Item response with
  | None => Ok None
  | Some it =>
      try! raw_data <- Serializer.from_dynamo it;
      try! x <- Base._deserialize_item cls raw_data;
      Ok (Some x)
  end.

(** [DynamoModel.scan_page] *)
Definition scan_page (cls : model_class) (limit : option Z)
    (start_key : option cursor) (index_name : option string)
    : result exn (Pagination.PageResult Base.Instance cursor) :=
  try! kwargs <- scan_page_kwargs cls limit start_key index_name;
  try! response <-
    handle_dynamo_errors (Some (Config.table_name (Base._meta cls))) (client_scan kwargs);
  Scan.page_result cls response.

(** [DynamoModel.update_item]: the outcome, and the requests sent. *)
Definition update_item (cls : model_class) (key : list (string * pyval))
    (actions : list Updates.UpdateAction) (condition : option Conditions.Condition)
    (return_values : Updates.ReturnValues)
    : result exn Updates.Returned * list Updates.UpdateItemParams :=
  let meta := Base._meta cls in
  let pk := Base.raw_get key (Config.pk_name meta) in
  if negb (truthy pk) then
    (Raise (ValueError ("Key missing partition key '" +:+ Config.pk_name meta +:+ "'")), [])
  else
    let sk := if Config.str_truthy (Config.sk_name meta)
              then Base.raw_get key (default "" (Config.sk_name meta))
              else PNone in
    let builder := Updates.__init__ cls pk sk in
    let builder := Updates.with_actions builder actions in
    let builder := if Updates.condition_truthy condition
                   then Updates.condition builder condition
                   else builder in
    let builder := Updates.return_values builder return_values in
    Updates.execute client_update_item builder.
End Transport.

End WithRuntime.

End Model.

(** ** fields.py: the field markers *)

Module Fields.

(** [json_schema_extra] as the field functions fill it: the flags that
    the metaclass reads.  A flag that is absent or false reads as
    [false]; the GSI entries hold the index name. *)
Record Extra : Type := {
    _dynamo_pk : bool;
    _dynamo_sk : bool;
    _dynamo_discriminator : bool;
    _dynamo_gsi_pk : option string;
    _dynamo_gsi_sk : option string;
  }.

(** The default [{}] of [kwargs.pop("json_schema_extra", {})]. *)
Definition no_extra : Extra :=
  {| _dynamo_pk := false; _dynamo_sk := false; _dynamo_discriminator := false;
     _dynamo_gsi_pk := None; _dynamo_gsi_sk := None |}.

(** Each function sets its flag in the [json_schema_extra] it is given,
    and passes it on to [Field]. *)
Definition Key (json_schema_extra : Extra) : Extra :=
  {| _dynamo_pk := true; _dynamo_sk := _dynamo_sk json_schema_extra;
     _dynamo_discriminator := _dynamo_discriminator json_schema_extra;
     _dynamo_gsi_pk := _dynamo_gsi_pk json_schema_extra;
     _dynamo_gsi_sk := _dynamo_gsi_sk json_schema_extra |}.

Definition SortKey (json_schema_extra : Extra) : Extra :=
  {| _dynamo_pk := _dynamo_pk json_schema_extra; _dynamo_sk := true;
     _dynamo_discriminator := _dynamo_discriminator json_schema_extra;
     _dynamo_gsi_pk := _dynamo_gsi_pk json_schema_extra;
     _dynamo_gsi_sk := _dynamo_gsi_sk json_schema_extra |}.

Definition GSIKey (index_name : string) (json_schema_extra : Extra) : Extra :=
  {| _dynamo_pk := _dynamo_pk json_schema_extra; _dynamo_sk := _dynamo_sk json_schema_extra;
     _dynamo_discriminator := _dynamo_discriminator json_schema_extra;
     _dynamo_gsi_pk := Some index_name;
     _dynamo_gsi_sk := _dynamo_gsi_sk json_schema_extra |}.

Definition GSISortKey (index_name : string) (json_schema_extra : Extra) : Extra :=
  {| _dynamo_pk := _dynamo_pk json_schema_extra; _dynamo_sk := _dynamo_sk json_schema_extra;
     _dynamo_discriminator := _dynamo_discriminator json_schema_extra;
     _dynamo_gsi_pk := _dynamo_gsi_pk json_schema_extra;
     _dynamo_gsi_sk := Some index_name |}.

Definition Discriminator (json_schema_extra : Extra) : Extra :=
  {| _dynamo_pk := _dynamo_pk json_schema_extra; _dynamo_sk := _dynamo_sk json_schema_extra;
     _dynamo_discriminator := true;
     _dynamo_gsi_pk := _dynamo_gsi_pk json_schema_extra;
     _dynamo_gsi_sk := _dynamo_gsi_sk json_schema_extra |}.

End Fields.

(** ** base.py: the metaclass

    [DynamoMeta.__new__].  The class is given by its name, its bases, its
    inner [Meta] and the [json_schema_extra] of its fields, in the order of
    [model_fields]; the result is the [_meta] attached to the class.  The
    body of the class is taken not to assign the marker names of
    [register] itself. *)

Module Metaclass.

(** The inner [class Meta], as [hasattr] and [getattr] see it. *)
Record MetaClass : Type := {
    meta_table_name : option string;
    meta_region : option string;
  }.

(** A base class: its name, its [_meta] when it has one, and whether the
    marker [_pending_parent_model] is found on it, which [register] leaves
    on every class it registers, for good. *)
Record BaseClass : Type := {
    base_name : string;
    base_meta : option Config.ModelOptions;
    base_pending : bool;
  }.

(** The state of the loop over the fields.  [gsi_keys] maps an index name
    to its ["pk"] and ["sk"] entries, in insertion order. *)
Record Scanned : Type := {
    pk_name : option string;
    sk_name : option string;
    discriminator_field : option string;
    gsi_keys : list (string * (option string * option string));
  }.

Section WithRuntime.
Context `{F : PyFloat}.

Definition only_one (name : string) (what : string) : exn :=
  ValueError ("Model " +:+ name +:+ " can have only one " +:+ what).

(** [gsi_keys[index_name]["pk"] = field_name], after the two checks. *)
Definition set_gsi_pk (name index_name field_name : string)
    (gsi_keys : list (string * (option string * option string)))
    : result exn (list (string * (option string * option string))) :=
  let keys := default (None, None) (Serializer.dict_get gsi_keys index_name) in
  match fst keys with
  | Some _ =>
      Raise (ValueError ("GSI '" +:+ index_name +:+ "' in model " +:+ name
                         +:+ " can have only one partition key"))
  | None => Ok (Serializer.dict_set gsi_keys index_name (Some field_name, snd keys))
  end.

Definition set_gsi_sk (name index_name field_name : string)
    (gsi_keys : list (string * (option string * option string)))
    : result exn (list (string * (option string * option string))) :=
  let keys := default (None, None) (Serializer.dict_get gsi_keys index_name) in
  match snd keys with
  | Some _ =>
      Raise (ValueError ("GSI '" +:+ index_name +:+ "' in model " +:+ name
                         +:+ " can have only one sort key"))
  | None => Ok (Serializer.dict_set gsi_keys index_name (fst keys, Some field_name))
  end.

(** The body of the loop over [model_fields.items()]. *)
Definition scan_field (name : string) (st : Scanned) (field_name : string)
    (extra : Fields.Extra) : result exn Scanned :=
  try! keys <-
    (if Fields._dynamo_pk extra then
       match pk_name st with
       | Some _ => Raise (only_one name "field defined with Key()")
       | None => Ok (Some field_name, sk_name st)
       end
     else if Fields._dynamo_sk extra then
       match sk_name st with
       | Some _ => Raise (only_one name "field defined with SortKey()")
       | None => Ok (pk_name st, Some field_name)
       end
     else Ok (pk_name st, sk_name st));
  try! disc <-
    (if Fields._dynamo_discriminator extra then
       match discriminator_field st with
       | Some _ => Raise (only_one name "Discriminator() field")
       | None => Ok (Some field_name)
       end
     else Ok (discriminator_field st));
  try! gsi1 <-
    match Fields._dynamo_gsi_pk extra with
    | Some index_name => set_gsi_pk name index_name field_name (gsi_keys st)
    | None => Ok (gsi_keys st)
    end;
  try! gsi2 <-
    match Fields._dynamo_gsi_sk extra with
    | Some index_name => set_gsi_sk name index_name field_name gsi1
    | None => Ok gsi1
    end;
  Ok {| pk_name := fst keys; sk_name := snd keys; discriminator_field := disc;
        gsi_keys := gsi2 |}.

Fixpoint scan_fields (name : string) (model_fields : list (string * Fields.Extra))
    (st : Scanned) : result exn Scanned :=
  match model_fields with
  | [] => Ok st
  | (field_name, extra) :: rest =>
      try! st' <- scan_field name st field_name extra;
      scan_fields name rest st'
  end.

(** The first base that has a [_meta] satisfying [test]. *)
Fixpoint first_base (test : Config.ModelOptions -> bool) (bases : list BaseClass)
    : option (BaseClass * Config.ModelOptions) :=
  match bases with
  | [] => None
  | base :: rest =>
      match base_meta base with
      | Some m => if test m then Some (base, m) else first_base test rest
      | None => first_base test rest
      end
  end.

(** The keys after the loop: without a key of its own, the class takes
    the partition key of the first base that has a [_meta], and its sort
    key unless it declares one. *)
Definition inherit_keys (bases : list BaseClass) (st : Scanned)
    : option string * option string :=
  if negb (Config.str_truthy (pk_name st)) then
    match first_base (fun _ => true) bases with
    | Some (_, m) =>
        (Some (Config.pk_name m),
         match sk_name st with
         | None => Config.sk_name m
         | Some s => Some s
         end)
    | None => (pk_name st, sk_name st)
    end
  else (pk_name st, sk_name st).

(** The loop over [gsi_keys.items()]. *)
Fixpoint build_gsi_definitions (name : string)
    (gsi_keys : list (string * (option string * option string)))
    (gsi_definitions : gmap string Config.GSIDefinition)
    : result exn (gmap string Config.GSIDefinition) :=
  match gsi_keys with
  | [] => Ok gsi_definitions
  | (index_name, (None, _)) :: _ =>
      Raise (ValueError ("GSI '" +:+ index_name +:+ "' in model " +:+ name
                         +:+ " must have a partition key "
                         +:+ "defined with GSIKey(index_name='" +:+ index_name +:+ "')"))
  | (index_name, (Some pk, sk)) :: rest =>
      build_gsi_definitions name rest
        (<[index_name :=
             {| Config.gsi_index_name := index_name; Config.gsi_pk_name := pk;
                Config.gsi_pk_type := "S"; Config.gsi_sk_name := sk;
                Config.gsi_sk_type := "S"; Config.gsi_projection_type := "ALL" |}]>
           gsi_definitions)
  end.

(** The configuration copied from a base, for a class without [Meta]. *)
Definition inherit_options (m : Config.ModelOptions) (is_base_entity : bool)
    (parent_model : option string) : Config.ModelOptions :=
  {| Config.table_name := Config.table_name m; Config.pk_name := Config.pk_name m;
     Config.sk_name := Config.sk_name m; Config.region := Config.region m;
     Config.gsi_definitions := Config.gsi_definitions m;
     Config.discriminator_field := Config.discriminator_field m;
     Config.entity_registry := Config.entity_registry m;
     Config.registry_object := Config.registry_object m;
     Config.is_base_entity := is_base_entity;
     Config.parent_model := parent_model;
     Config.discriminator_value := None |}.

(** Steps 3 to 5, for a class with a [Meta] that has a [table_name]. *)
Definition declared_options (name : string) (bases : list BaseClass)
    (table_name : string) (region : option string)
    (model_fields : list (string * Fields.Extra)) : result exn Config.ModelOptions :=
  try! st <- scan_fields name model_fields
               {| pk_name := None; sk_name := None; discriminator_field := None;
                  gsi_keys := [] |};
  let keys := inherit_keys bases st in
  if negb (Config.str_truthy (fst keys)) then
    Raise (ValueError ("Model " +:+ name
                       +:+ " must have exactly one field defined with Key()"))
  else
    try! gsi_definitions <- build_gsi_definitions name (gsi_keys st) ∅;
    Ok {| Config.table_name := table_name;
          Config.pk_name := default "" (fst keys);
          Config.sk_name := snd keys;
          Config.region := default "us-east-1" region;
          Config.gsi_definitions := gsi_definitions;
          Config.discriminator_field := discriminator_field st;
          Config.entity_registry := ∅;
          Config.registry_object := name;
          Config.is_base_entity := bool_decide (is_Some (discriminator_field st));
          Config.parent_model := None;
          Config.discriminator_value := None |}.

(** [DynamoMeta.__new__]: the [_meta] of the new class, [None] for
    [DynamoModel] itself, which gets none.  When a base carries the marker
    [_pending_parent_model], [getattr] finds it on the new class, and the
    [delattr] that follows the assignment of [_meta] raises: the marker is
    no attribute of the new class itself. *)
Definition __new__ (name : string) (bases : list BaseClass) (Meta : option MetaClass)
    (model_fields : list (string * Fields.Extra)) : result exn (option Config.ModelOptions) :=
  if (name =? "DynamoModel")%string then Ok None
  else if existsb base_pending bases then Raise (AttributeError "_pending_parent_model")
  else
    match Meta with
    | None =>
        match first_base Config.is_base_entity bases with
        | Some (polymorphic_base, base_meta) =>
            Ok (Some (inherit_options base_meta false (Some (base_name polymorphic_base))))
        | None =>
            match first_base (fun _ => true) bases with
            | Some (_, base_meta) =>
                Ok (Some (inherit_options base_meta (Config.is_base_entity base_meta) None))
            | None =>
                Raise (ValueError ("Model " +:+ name
                                   +:+ " is missing a 'class Meta' with 'table_name'."))
            end
        end
    | Some meta_cls =>
        match meta_table_name meta_cls with
        | None =>
            Raise (ValueError ("Model " +:+ name
                               +:+ " is missing a 'table_name' in class Meta."))
        | Some table_name =>
            try! m <- declared_options name bases table_name (meta_region meta_cls)
                        model_fields;
            Ok (Some m)
        end
    end.

End WithRuntime.

End Metaclass.

(** ** A reference environment

    Concrete collaborators on which the embedding can be run: floats that
    are exactly their shortest decimal text, a strict fragment of the
    validation layer, a one-comparison expression builder, and a few model
    classes in the style of the test suite. *)

Module Reference.

Definition decimal_floats : PyFloat :=
  {| pyfloat := Decimal; float_to_decimal := fun d => d; decimal_to_float := fun d => d |}.

Definition type_tags : @PyText decimal_floats :=
  {| py_repr := fun v => "<" +:+ type_name v +:+ ">";
     py_str := fun v => "<" +:+ type_name v +:+ ">" |}.

(** Field types of the example models. *)
Inductive annotation : Type := int_t | float_t | str_t | set_str_t | list_str_t.

(** A strict fragment of [validate_python]: a value of the declared type
    is accepted unchanged, text that is no number is refused for [int]. *)
Definition strict_validate_python (a : annotation) (v : @pyval decimal_floats)
    : result (@exn decimal_floats) (@pyval decimal_floats) :=
  match a, v with
  | int_t, PInt _ | float_t, PFloat _ | str_t, PStr _
  | set_str_t, PSet _ _ | list_str_t, PList _ => Ok v
  | _, _ => Raise (PydanticValidationError "1 validation error: invalid input type")
  end.

(** Model construction accepts a field map that has the primary key. *)
Definition validate_has_key (key : string) (cls : string)
    (raw : list (string * @pyval decimal_floats))
    : result (@exn decimal_floats) (list (string * @pyval decimal_floats)) :=
  match Serializer.dict_get raw key with
  | Some _ => Ok raw
  | None => Raise (PydanticValidationError ("1 validation error for " +:+ cls +:+ ": Field required"))
  end.

Definition strict_layer : @Base.ValidationLayer decimal_floats :=
  {| Base.annotation_t := annotation;
     Base.str_annotation := str_t;
     Base.validate_model := validate_has_key "pk";
     Base.validate_python := strict_validate_python |}.

(** An expression builder that knows one comparison, [attr = value]. *)
Definition equality_builder : @Conditions.ConditionExpressionBuilder decimal_floats :=
  {| Conditions.build_expression := fun c =>
       match c with
       | Conditions.Boto3Comparison attr "=" [v] =>
           Ok {| Conditions.condition_expression := "#n0 = :v0";
                 Conditions.attribute_name_placeholders := [("#n0", attr)];
                 Conditions.attribute_value_placeholders := [(":v0", v)] |}
       | _ => Raise (BotoCoreError "unsupported condition")
       end |}.

Definition field (a : annotation) : Base.FieldInfo annotation :=
  {| Base.alias := None; Base.annotation := a |}.

Definition by_date : Config.GSIDefinition :=
  {| Config.gsi_index_name := "DateIndex"; Config.gsi_pk_name := "day";
     Config.gsi_pk_type := "S"; Config.gsi_sk_name := Some "hour";
     Config.gsi_sk_type := "S"; Config.gsi_projection_type := "ALL" |}.

(** A table of messages: key [pk], sort key [sent_at], one index. *)
Definition Message : Base.ModelClass annotation :=
  {| Base.__name__ := "Message"; Base.__mro__ := ["DynamoModel"];
     Base._meta :=
       {| Config.table_name := "messages"; Config.pk_name := "pk";
          Config.sk_name := Some "sent_at"; Config.region := "us-east-1";
          Config.gsi_definitions := {["DateIndex" := by_date]};
          Config.discriminator_field := None; Config.entity_registry := ∅;
          Config.registry_object := "Message";
          Config.is_base_entity := false; Config.parent_model := None;
          Config.discriminator_value := None |};
     Base.model_fields :=
       [("pk", field str_t); ("sent_at", field str_t); ("day", field str_t);
        ("hour", field str_t); ("views", field int_t); ("body", field str_t);
        ("tags", field set_str_t)] |}.

(** A polymorphic base, as declared (empty registry). *)
Definition MyTable : Base.ModelClass annotation :=
  {| Base.__name__ := "MyTable"; Base.__mro__ := ["DynamoModel"];
     Base._meta :=
       {| Config.table_name := "test"; Config.pk_name := "pk";
          Config.sk_name := None; Config.region := "us-east-1";
          Config.gsi_definitions := ∅;
          Config.discriminator_field := Some "entity_type"; Config.entity_registry := ∅;
          Config.registry_object := "MyTable";
          Config.is_base_entity := true; Config.parent_model := None;
          Config.discriminator_value := None |};
     Base.model_fields := [("pk", field str_t); ("entity_type", field str_t)] |}.

(** A class that inherits from [MyTable], before its registration. *)
Definition subclass_of_MyTable (name : string) (own : list (string * Base.FieldInfo annotation))
    : Base.ModelClass annotation :=
  {| Base.__name__ := name; Base.__mro__ := ["MyTable"; "DynamoModel"];
     Base._meta := Base.inherited_meta MyTable;
     Base.model_fields := Base.model_fields MyTable ++ own |}.

Definition stored (pk : string) (entity_type : string) : list (string * Serializer.wire) :=
  [("pk", Serializer.WS pk); ("entity_type", Serializer.WS entity_type)].

Definition message (pk : string) (sent_at : string) : list (string * Serializer.wire) :=
  [("pk", Serializer.WS pk); ("sent_at", Serializer.WS sent_at)].

#[local] Existing Instance decimal_floats.
#[local] Existing Instance type_tags.
#[local] Existing Instance strict_layer.
#[local] Existing Instance equality_builder.

(** Four stored messages of one room, delivered in two pages. *)
Definition two_pages : list Iteration.page_event :=
  [Iteration.Page [message "general" "09:00"; message "general" "10:00";
                   message "general" "11:00"];
   Iteration.Page [message "general" "12:00"]].

(** [Message.query("general")], as [__init__] leaves it. *)
Definition room_query : Query.DynamoQueryBuilder :=
  {| Query.model_cls := Message; Query.pk_val := PStr "general";
     Query.sk_condition := None; Query.limit_val := None;
     Query.scan_forward := true; Query.index_name := None;
     Query.filter_conditions := []; Query.filter_values := ∅; Query.filter_names := ∅;
     Query.user_filter_condition := None;
     Query.pk_name := "pk"; Query.sk_name := Some "sent_at";
     Query.expression_values := {[":pk" := Serializer.WS "general"]};
     Query.expression_names := {["#pk" := "pk"]} |}.

(** [Message.scan()], as [__init__] leaves it. *)
Definition table_scan : Scan.DynamoScanBuilder :=
  {| Scan.model_cls := Message; Scan.limit_val := None; Scan.index_name := None;
     Scan.filter_conditions := []; Scan.filter_values := ∅; Scan.filter_names := ∅;
     Scan.user_filter_condition := None |}.

(** Two subtypes of [MyTable], as declared and as registered under
    ["USER"] and ["ORDER"]. *)
Definition User_declared : Base.ModelClass annotation :=
  subclass_of_MyTable "User" [("name", field str_t)].

Definition Order_declared : Base.ModelClass annotation :=
  subclass_of_MyTable "Order" [("amount", field float_t)].

Definition User : Base.ModelClass annotation :=
  {| Base.__name__ := "User"; Base.__mro__ := ["MyTable"; "DynamoModel"];
     Base._meta := Config.with_registry (Base.inherited_meta MyTable)
                     {["USER" := "User"]} (Some "MyTable") (Some "USER");
     Base.model_fields := Base.model_fields MyTable ++ [("name", field str_t)] |}.

Definition MyTable_with_User : Base.ModelClass annotation :=
  {| Base.__name__ := "MyTable"; Base.__mro__ := ["DynamoModel"];
     Base._meta := Config.with_registry (Base._meta MyTable)
                     {["USER" := "User"]} None None;
     Base.model_fields := Base.model_fields MyTable |}.

Definition MyTable_with_both : Base.ModelClass annotation :=
  {| Base.__name__ := "MyTable"; Base.__mro__ := ["DynamoModel"];
     Base._meta := Config.with_registry (Base._meta MyTable)
                     (<["ORDER" := "Order"]> {["USER" := "User"]}) None None;
     Base.model_fields := Base.model_fields MyTable |}.

(** [User.query("123")], as [__init__] leaves it. *)
Definition user_query : Query.DynamoQueryBuilder :=
  {| Query.model_cls := User; Query.pk_val := PStr "123";
     Query.sk_condition := None; Query.limit_val := None;
     Query.scan_forward := true; Query.index_name := None;
     Query.filter_conditions := ["#disc = :disc_val"];
     Query.filter_values := {[":disc_val" := Serializer.WS "USER"]};
     Query.filter_names := {["#disc" := "entity_type"]};
     Query.user_filter_condition := None;
     Query.pk_name := "pk"; Query.sk_name := None;
     Query.expression_values := {[":pk" := Serializer.WS "123"]};
     Query.expression_names := {["#pk" := "pk"]} |}.

(** A page mixing a user and an order under one partition key, as a store
    that ignored the filter would deliver it. *)
Definition mixed_page : list Iteration.page_event :=
  [Iteration.Page [stored "123" "USER"; stored "123" "ORDER"]].

(** [Message.update("general", "09:00").add("views", 1)] *)
Definition bump_views : Updates.UpdateBuilder :=
  Updates.add (Updates.__init__ Message (PStr "general") (PStr "09:00")) "views" (PInt 1).

(** A response carrying the attributes of the updated item. *)
Definition updated_message : Updates.Response :=
  {| Updates.Attributes :=
       Some [("pk", Serializer.WS "general"); ("sent_at", Serializer.WS "09:00");
             ("views", Serializer.WN (DFinite false 8 0))];
     Updates.metadata := [] |}.

(** [Message.update("general", "09:00").set("views", "abc").add("body", "x")] *)
Definition bad_set_then_add : Updates.UpdateBuilder :=
  Updates.add
    (Updates.set (Updates.__init__ Message (PStr "general") (PStr "09:00")) "views" (PStr "abc"))
    "body" (PStr "x").

(** [Message.update("general", "09:00").add("body", "x")]: an increment of
    a text field, whose declared type accepts the value. *)
Definition add_to_text : Updates.UpdateBuilder :=
  Updates.add (Updates.__init__ Message (PStr "general") (PStr "09:00")) "body" (PStr "x").

Definition instance_of_message (sent_at : string) : Base.Instance :=
  {| Base.instance_of := "Message";
     Base.fields := [("pk", PStr "general"); ("sent_at", PStr sent_at)] |}.

End Reference.

(** ** The vocabulary of the specification *)

Module Spec.

(** The closed taxonomy of typed errors a transport fault is mapped to. *)
Inductive Taxonomy : Type :=
  | TableNotFound | ConditionalCheckFailed | ProvisionedThroughputExceeded
  | Validation | ItemCollectionSizeLimit | TransactionConflict | RequestTimeout
  | GenericLibraryError.

(** The recognized fault codes. *)
Definition fault_codes : list (string * Taxonomy) :=
  [("ResourceNotFoundException", TableNotFound);
   ("ConditionalCheckFailedException", ConditionalCheckFailed);
   ("ProvisionedThroughputExceededException", ProvisionedThroughputExceeded);
   ("ThrottlingException", ProvisionedThroughputExceeded);
   ("RequestLimitExceeded", ProvisionedThroughputExceeded);
   ("ValidationException", Validation);
   ("SerializationException", Validation);
   ("ItemCollectionSizeLimitExceededException", ItemCollectionSizeLimit);
   ("TransactionConflictException", TransactionConflict);
   ("RequestTimeout", RequestTimeout);
   ("RequestTimeoutException", RequestTimeout)].

(** A dict without the key [k]. *)
Fixpoint without {V} (d : list (string * V)) (k : string) : list (string * V) :=
  match d with
  | [] => []
  | (k', v) :: rest =>
      if (k' =? k)%string then without rest k else (k', v) :: without rest k
  end.

Fixpoint recognized (code : string) (table : list (string * Taxonomy)) : option Taxonomy :=
  match table with
  | [] => None
  | (c, t) :: rest => if (code =? c)%string then Some t else recognized code rest
  end.

Section WithRuntime.
Context `{F : PyFloat}.

(** The taxonomy class of an exception, when it is a typed library error
    the translator can produce. *)
Definition taxonomy_of (e : exn) : option Taxonomy :=
  match e with
  | Dynantic DynanticError_cls _ _ => Some GenericLibraryError
  | Dynantic (TableNotFoundError_cls _) _ _ => Some TableNotFound
  | Dynantic (ConditionalCheckFailedError_cls _) _ _ => Some ConditionalCheckFailed
  | Dynantic ProvisionedThroughputExceededError_cls _ _ => Some ProvisionedThroughputExceeded
  | Dynantic (ValidationError_cls _ _) _ _ => Some Validation
  | Dynantic ItemCollectionSizeLimitError_cls _ _ => Some ItemCollectionSizeLimit
  | Dynantic TransactionConflictError_cls _ _ => Some TransactionConflict
  | Dynantic RequestTimeoutError_cls _ _ => Some RequestTimeout
  | _ => None
  end.

(** [e.__cause__] / [e.original_error] *)
Definition cause (e : exn) : option exn :=
  match e with
  | Dynantic _ _ original => original
  | _ => None
  end.

Definition message_of (e : exn) : string := exn_str e.

(** The entries bound to [k] are all empty sets. *)
Definition only_empty_at (k : string) (d : list (string * pyval)) : Prop :=
  forall v, In (k, v) d -> Serializer.is_empty_set v = true.

Section Limits.
Context `{V : !Base.ValidationLayer} {K : Type}.
Import Iteration.

(** Number of items yielded by a sequence of events. *)
Definition yielded (evs : list (event K)) : Z := Z.of_nat (length (yields evs)).

(** Once [count] plus the items yielded so far reaches [n], the sequence
    has ended: nothing at all happens after the n-th item. *)
Definition stops_at (n count : Z) (evs : list (event K)) : Prop :=
  forall pre post, evs = pre ++ post -> n <= count + yielded pre -> post = [].

(** An iteration limited to [n] items: at most [n] items are yielded,
    nothing happens after the n-th, so every page request comes before
    it, and the list a full drain returns has at most [n] items. *)
Definition limited (n : Z) (evs : list (event K)) : Prop :=
  yielded evs <= n
  /\ stops_at n 0 evs
  /\ (forall pre kwargs post, evs = pre ++ PageRequest kwargs :: post -> yielded pre < n)
  /\ (forall xs, collect evs = Ok xs -> Z.of_nat (length xs) <= n).

(** The instance an item of a page is turned into. *)
Definition materialize (cls : Base.ModelClass Base.annotation_t)
    (it : list (string * Serializer.wire)) : result exn Base.Instance :=
  try! raw_data <- Serializer.from_dynamo it;
  Base._deserialize_item cls raw_data.

(** All the items of pages that were all delivered, or [None] if a fetch
    raises. *)
Fixpoint all_items (pages : list page_event) : option (list (list (string * Serializer.wire))) :=
  match pages with
  | [] => Some []
  | Page items :: rest =>
      match all_items rest with
      | Some l => Some (items ++ l)
      | None => None
      end
  | PageRaises _ :: _ => None
  end.
End Limits.

Section RoundTrip.
Import Serializer.

(** A number both directions accept: finite, within the numeric context of
    the wire, and small enough for [value % 1] to be defined on decode. *)
Definition number_ok (d : Decimal) : bool :=
  match d with
  | DFinite _ c e =>
      context_accepts d && ((c =? 0)%N || (adjusted c e <? default_prec))
  | _ => false
  end.

(** The decimal has a zero fractional part. *)
Definition whole (d : Decimal) : bool :=
  match d with
  | DFinite _ c e => (c =? 0)%N || (0 <=? e) || (Z.of_N c mod 10 ^ (- e) =? 0)
  | _ => false
  end.

(** The members of a set of text, none of them seen before. *)
Fixpoint fresh_texts (seen : list string) (xs : list pyval) : bool :=
  match xs with
  | [] => true
  | PStr t :: rest => negb (existsb (String.eqb t) seen) && fresh_texts (seen ++ [t]) rest
  | _ => false
  end.

(** The values whose type survives the wire: None, booleans, integers and
    floats within the numeric limits, text, lists and string-keyed maps of
    such values, and sets of text. *)
Fixpoint plain (v : pyval) : bool :=
  match v with
  | PNone | PBool _ | PStr _ => true
  | PInt z => number_ok (Decimal_of_int z)
  | PFloat x => number_ok (float_to_decimal x)
  | PList xs => forallb plain xs
  | PDict kvs => forallb (fun kv => plain (snd kv)) kvs
  | PSet false xs => fresh_texts [] xs
  | _ => false
  end.

(** The documented asymmetry: a float with a zero fractional part comes
    back as the integer it denotes. *)
Fixpoint narrow (v : pyval) : pyval :=
  match v with
  | PFloat x =>
      if whole (float_to_decimal x) then PInt (Decimal_to_int (float_to_decimal x))
      else PFloat x
  | PList xs => PList (map narrow xs)
  | PDict kvs => PDict (map (fun kv => (fst kv, narrow (snd kv))) kvs)
  | _ => v
  end.

(** No float of the value has a zero fractional part. *)
Fixpoint no_whole_float (v : pyval) : bool :=
  match v with
  | PFloat x => negb (whole (float_to_decimal x))
  | PList xs => forallb no_whole_float xs
  | PDict kvs => forallb (fun kv => no_whole_float (snd kv)) kvs
  | _ => true
  end.

(** The stages of the round trip of a plain value: as prepared, as
    encoded, as decoded by the transport. *)
Fixpoint prepared (v : pyval) : pyval :=
  match v with
  | PFloat x => PDecimal (float_to_decimal x)
  | PList xs => PList (map prepared xs)
  | PDict kvs => PDict (map (fun kv => (fst kv, prepared (snd kv))) kvs)
  | _ => v
  end.

Definition text_of (v : pyval) : string :=
  match v with PStr s => s | _ => "" end.

Fixpoint encoded (v : pyval) : wire :=
  match v with
  | PBool b => WBOOL b
  | PInt z => WN (Decimal_of_int z)
  | PFloat x => WN (float_to_decimal x)
  | PStr s => WS s
  | PList xs => WL (map encoded xs)
  | PDict kvs => WM (map (fun kv => (fst kv, encoded (snd kv))) kvs)
  | PSet _ [] => WNS []
  | PSet _ xs => WSS (map text_of xs)
  | _ => WNULL true
  end.

Fixpoint decoded (v : pyval) : pyval :=
  match v with
  | PInt z => PDecimal (Decimal_of_int z)
  | PFloat x => PDecimal (float_to_decimal x)
  | PList xs => PList (map decoded xs)
  | PDict kvs => PDict (map (fun kv => (fst kv, decoded (snd kv))) kvs)
  | _ => v
  end.

End RoundTrip.

(** A discriminator value the registry has no entity for. *)
Definition unregistered (config : Config.ModelOptions) (v : pyval) : Prop :=
  forall s, Config.registry_key v = Some s -> Config.entity_registry config !! s = None.

(** The schema is a polymorphic base with a discriminator field. *)
Definition polymorphic_base (config : Config.ModelOptions) : bool :=
  Config.is_base_entity config && Config.str_truthy (Config.discriminator_field config).

(** A query builder on which no limit was set. *)
Definition query_without_limit `{V : !Base.ValidationLayer}
    (self : Query.DynamoQueryBuilder) : Query.DynamoQueryBuilder :=
  {| Query.model_cls := Query.model_cls self; Query.pk_val := Query.pk_val self;
     Query.sk_condition := Query.sk_condition self; Query.limit_val := None;
     Query.scan_forward := Query.scan_forward self; Query.index_name := Query.index_name self;
     Query.filter_conditions := Query.filter_conditions self;
     Query.filter_values := Query.filter_values self;
     Query.filter_names := Query.filter_names self;
     Query.user_filter_condition := Query.user_filter_condition self;
     Query.pk_name := Query.pk_name self; Query.sk_name := Query.sk_name self;
     Query.expression_values := Query.expression_values self;
     Query.expression_names := Query.expression_names self |}.

(** Two query builders agree on everything but the active index, the
    resolved key field names and the name placeholders. *)
Definition same_outside_keys `{V : !Base.ValidationLayer}
    (a b : Query.DynamoQueryBuilder) : Prop :=
  Query.model_cls b = Query.model_cls a
  /\ Query.pk_val b = Query.pk_val a
  /\ Query.sk_condition b = Query.sk_condition a
  /\ Query.limit_val b = Query.limit_val a
  /\ Query.scan_forward b = Query.scan_forward a
  /\ Query.filter_conditions b = Query.filter_conditions a
  /\ Query.filter_values b = Query.filter_values a
  /\ Query.filter_names b = Query.filter_names a
  /\ Query.user_filter_condition b = Query.user_filter_condition a
  /\ Query.expression_values b = Query.expression_values a.

(** A scan builder on which no limit was set. *)
Definition scan_without_limit `{V : !Base.ValidationLayer}
    (self : Scan.DynamoScanBuilder) : Scan.DynamoScanBuilder :=
  {| Scan.model_cls := Scan.model_cls self; Scan.limit_val := None;
     Scan.index_name := Scan.index_name self;
     Scan.filter_conditions := Scan.filter_conditions self;
     Scan.filter_values := Scan.filter_values self;
     Scan.filter_names := Scan.filter_names self;
     Scan.user_filter_condition := Scan.user_filter_condition self |}.

End WithRuntime.

End Spec.

(** ** Further notions, for the properties beyond the specification *)

Module Derived.

Section Encoding.
Context `{F : PyFloat} `{T : !PyText}.
Import Serializer.

(** An attribute of a primary key as the store returns it: text, binary,
    or an integer written without exponent and without a negative zero,
    within the limits of both directions. *)
Definition key_attribute (w : wire) : bool :=
  match w with
  | WS _ | WB _ => true
  | WN (DFinite s c e) =>
      (e =? 0) && negb (s && (c =? 0)%N) && Spec.number_ok (DFinite s c e)
  | _ => false
  end.

(** The Python value a key attribute is decoded to. *)
Definition key_value (w : wire) : pyval :=
  match w with
  | WS s => PStr s
  | WB b => PBinary b
  | WN d => PInt (Decimal_to_int d)
  | _ => PNone
  end.

(** The fields [to_dynamo] leaves out: those whose prepared value is an
    empty set, which is an empty set or an enum member holding one. *)
Definition dropped (v : pyval) : bool :=
  match v with
  | PSet _ [] | PEnum _ _ (PSet _ []) => true
  | _ => false
  end.

(** A set attribute without members, which the store refuses. *)
Definition empty_set_attribute (w : wire) : bool :=
  match w with
  | WNS [] | WSS [] | WBS [] => true
  | _ => false
  end.

(** The exceptions the encoding direction can end with: a [TypeError] of
    the wire encoder wrapped in a [DynamoSerializationError], the
    [TypeError] of an unhashable member met while a set is rebuilt, or a
    signal of the decimal context. *)
Inductive encoding_error : exn -> Prop :=
  | wrapped_type_error message m :
      encoding_error (DynamoSerializationError message (Some (TypeError m)))
  | unhashable_member x :
      encoding_error (TypeError ("unhashable type: '" +:+ type_name x +:+ "'"))
  | decimal_signal signal :
      encoding_error (DecimalException signal).

(** What the wire encoder raises: a [TypeError], or a signal of its
    decimal context. *)
Definition encoder_error (e : exn) : Prop :=
  (exists m, e = TypeError m) \/ (exists signal, e = DecimalException signal).

Definition decimal_error (e : exn) : Prop := exists signal, e = DecimalException signal.

End Encoding.

Section Filters.
Context `{F : PyFloat} `{T : !PyText} `{V : !Base.ValidationLayer}
  `{B : !Conditions.ConditionExpressionBuilder}.

(** [self.filter(c1).filter(c2)...] on a query builder. *)
Fixpoint query_filters (self : Query.DynamoQueryBuilder) (cs : list Conditions.Condition)
    : result exn Query.DynamoQueryBuilder :=
  match cs with
  | [] => Ok self
  | c :: rest => try! q <- Query.filter self c; query_filters q rest
  end.

(** [self.filter(c1).filter(c2)...] on a scan builder. *)
Fixpoint scan_filters (self : Scan.DynamoScanBuilder) (cs : list Conditions.Condition)
    : result exn Scan.DynamoScanBuilder :=
  match cs with
  | [] => Ok self
  | c :: rest => try! q <- Scan.filter self c; scan_filters q rest
  end.

(** A query builder whose user filter is [c], all else as in [self]. *)
Definition query_with_filter (self : Query.DynamoQueryBuilder) (c : Conditions.Boto3Condition)
    : Query.DynamoQueryBuilder :=
  {| Query.model_cls := Query.model_cls self; Query.pk_val := Query.pk_val self;
     Query.sk_condition := Query.sk_condition self; Query.limit_val := Query.limit_val self;
     Query.scan_forward := Query.scan_forward self; Query.index_name := Query.index_name self;
     Query.filter_conditions := Query.filter_conditions self;
     Query.filter_values := Query.filter_values self;
     Query.filter_names := Query.filter_names self;
     Query.user_filter_condition := Some c;
     Query.pk_name := Query.pk_name self; Query.sk_name := Query.sk_name self;
     Query.expression_values := Query.expression_values self;
     Query.expression_names := Query.expression_names self |}.

(** A scan builder whose user filter is [c], all else as in [self]. *)
Definition scan_with_filter (self : Scan.DynamoScanBuilder) (c : Conditions.Boto3Condition)
    : Scan.DynamoScanBuilder :=
  {| Scan.model_cls := Scan.model_cls self; Scan.limit_val := Scan.limit_val self;
     Scan.index_name := Scan.index_name self;
     Scan.filter_conditions := Scan.filter_conditions self;
     Scan.filter_values := Scan.filter_values self;
     Scan.filter_names := Scan.filter_names self;
     Scan.user_filter_condition := Some c |}.

End Filters.

Section Chains.
Context `{F : PyFloat} `{T : !PyText} `{V : !Base.ValidationLayer}
  `{B : !Conditions.ConditionExpressionBuilder}.

(** The sort-key methods of the query builder that take one bound. *)
Definition one_bound_methods
    : list (Query.DynamoQueryBuilder -> pyval -> result exn Query.DynamoQueryBuilder) :=
  [Query.starts_with; Query.gt; Query.lt; Query.ge; Query.le; Query.eq; Query.ne].

(** A call of a chaining method of the query builder. *)
Inductive call : Type :=
  | StartsWith (prefix : pyval)
  | Between (low high : pyval)
  | Gt (val : pyval)
  | Lt (val : pyval)
  | Ge (val : pyval)
  | Le (val : pyval)
  | Eq (val : pyval)
  | Ne (val : pyval)
  | Limit (count : Z)
  | Reverse
  | Filter (condition : Conditions.Condition)
  | UsingIndex (index_name : string).

Definition apply_call (self : Query.DynamoQueryBuilder) (c : call)
    : result exn Query.DynamoQueryBuilder :=
  match c with
  | StartsWith prefix => Query.starts_with self prefix
  | Between low high => Query.between self low high
  | Gt val => Query.gt self val
  | Lt val => Query.lt self val
  | Ge val => Query.ge self val
  | Le val => Query.le self val
  | Eq val => Query.eq self val
  | Ne val => Query.ne self val
  | Limit count => Ok (Query.limit self count)
  | Reverse => Ok (Query.reverse self)
  | Filter condition => Query.filter self condition
  | UsingIndex index_name => Query.using_index self index_name
  end.

(** A chain of calls, each on the builder the previous one returned. *)
Fixpoint chain (self : Query.DynamoQueryBuilder) (calls : list call)
    : result exn Query.DynamoQueryBuilder :=
  match calls with
  | [] => Ok self
  | c :: rest => try! q <- apply_call self c; chain q rest
  end.

(** The key names of a builder are those of the table, or those of one of
    the indexes of the schema. *)
Definition keys_of_schema (q : Query.DynamoQueryBuilder) : Prop :=
  let config := Base._meta (Query.model_cls q) in
  (Query.pk_name q = Config.pk_name config /\ Query.sk_name q = Config.sk_name config)
  \/ exists index gsi,
       Config.get_gsi config index = Some gsi
       /\ Query.pk_name q = Config.gsi_pk_name gsi
       /\ Query.sk_name q = Config.gsi_sk_name gsi.

(** What every chain of calls keeps of a builder: the class and the
    partition key value, the binding of ["#pk"] to the partition key name
    and of [":pk"] to the encoded value, key names of the schema, and the
    discriminator filter. *)
Definition well_keyed (q0 q : Query.DynamoQueryBuilder) : Prop :=
  Query.model_cls q = Query.model_cls q0
  /\ Query.pk_val q = Query.pk_val q0
  /\ Query.expression_names q !! "#pk" = Some (Query.pk_name q)
  /\ Query.expression_values q !! ":pk" = Query.expression_values q0 !! ":pk"
  /\ keys_of_schema q
  /\ Query.filter_conditions q = Query.filter_conditions q0
  /\ Query.filter_names q = Query.filter_names q0
  /\ Query.filter_values q = Query.filter_values q0.

(** The value placeholders the text of a sort-key condition mentions
    are bound in [values]: [":low"] and [":high"] for BETWEEN, [":sk"] for
    the other conditions. *)
Definition bounds_bound (condition : string) (values : gmap string Serializer.wire) : Prop :=
  if (condition =? "#sk BETWEEN :low AND :high")%string
  then is_Some (values !! ":low") /\ is_Some (values !! ":high")
  else is_Some (values !! ":sk").

(** The placeholders of the sort-key condition of a builder, when it has
    one, are bound in its tables. *)
Definition sort_key_bound (q : Query.DynamoQueryBuilder) : Prop :=
  match Query.sk_condition q with
  | None => True
  | Some condition =>
      condition <> ""
      /\ is_Some (Query.expression_names q !! "#sk")
      /\ bounds_bound condition (Query.expression_values q)
  end.

End Chains.

Section Clauses.
Context `{F : PyFloat} `{T : !PyText} `{V : !Base.ValidationLayer}
  `{B : !Conditions.ConditionExpressionBuilder}.
Import Updates.

(** The clause of the update expression a validated action goes to: its
    own, but REMOVE for a [Set] whose validated value is [None]. *)
Definition clause_of (k : ActionKind) (validated_value : pyval) : ActionKind :=
  match k, validated_value with
  | Set_, PNone => Remove
  | _, _ => k
  end.

(** The clause an action goes to, when its validation succeeds. *)
Definition clause (cls : Base.ModelClass Base.annotation_t) (a : UpdateAction)
    : option ActionKind :=
  match validate a cls with
  | Ok v => Some (clause_of (kind a) v)
  | Raise _ => None
  end.

(** [g] with [a] appended to the group of clause [k]. *)
Definition put (k : ActionKind) (a : UpdateAction) (g : Groups) : Groups :=
  match k with
  | Set_ =>
      {| set_actions := set_actions g ++ [a]; remove_actions := remove_actions g;
         add_actions := add_actions g; delete_actions := delete_actions g |}
  | Remove =>
      {| set_actions := set_actions g; remove_actions := remove_actions g ++ [a];
         add_actions := add_actions g; delete_actions := delete_actions g |}
  | Add =>
      {| set_actions := set_actions g; remove_actions := remove_actions g;
         add_actions := add_actions g ++ [a]; delete_actions := delete_actions g |}
  | Delete =>
      {| set_actions := set_actions g; remove_actions := remove_actions g;
         add_actions := add_actions g; delete_actions := delete_actions g ++ [a] |}
  end.

(** The action as the grouping loop stores it. *)
Definition stored (a : UpdateAction) (validated_value : pyval) : UpdateAction :=
  match kind a, validated_value with
  | Set_, PNone => {| kind := Remove; field_name := field_name a; value := PNone |}
  | _, _ => {| kind := kind a; field_name := field_name a; value := validated_value |}
  end.

End Clauses.

Section Placeholders.
Context `{F : PyFloat} `{T : !PyText} `{V : !Base.ValidationLayer}
  `{B : !Conditions.ConditionExpressionBuilder}.
Import Updates.

(** The placeholders [get_name_ph] and [get_value_ph] hand out. *)
Definition name_placeholder (i : nat) : string := "#u_n" +:+ counter_text i.
Definition value_placeholder (i : nat) : string := ":u_v" +:+ counter_text i.

(** The table [m] binds exactly the placeholders [ph 0], [ph 1], ... of
    the elements of [l], the i-th placeholder to the i-th element. *)
Definition numbered {A} (ph : nat -> string) (m : gmap string A) (l : list A) : Prop :=
  size m = length l
  /\ forall k x, m !! k = Some x <-> exists i, k = ph i /\ l !! i = Some x.

(** The actions in the order of the clauses, and those that carry a
    value (every clause but REMOVE). *)
Definition named (g : Groups) : list UpdateAction :=
  set_actions g ++ remove_actions g ++ add_actions g ++ delete_actions g.

Definition valued (g : Groups) : list UpdateAction :=
  set_actions g ++ add_actions g ++ delete_actions g.

(** The texts of one clause whose first action takes the name
    placeholder [n] and the value placeholder [v]. *)
Definition clause_texts (with_value : bool) (sep : string) (l : list UpdateAction)
    (n v : nat) : list string :=
  imap (fun i _ =>
          if with_value
          then name_placeholder (n + i) +:+ sep +:+ value_placeholder (v + i)
          else name_placeholder (n + i)) l.

Definition part (keyword : string) (with_value : bool) (sep : string)
    (l : list UpdateAction) (n v : nat) : list string :=
  match l with
  | [] => []
  | _ => [keyword +:+ " " +:+ join_comma (clause_texts with_value sep l n v)]
  end.

(** The update expression of grouped actions, in closed form. *)
Definition update_expression (g : Groups) : string :=
  let s := length (set_actions g) in
  let r := length (remove_actions g) in
  let a := length (add_actions g) in
  join_space (part "SET" true " = " (set_actions g) 0 0
              ++ part "REMOVE" false "" (remove_actions g) s s
              ++ part "ADD" true " " (add_actions g) (s + r) s
              ++ part "DELETE" true " " (delete_actions g) (s + r + a) (s + a)).

(** The placeholder state holds the tables of the names [ns] and of the
    encoded values [ws] handed out so far. *)
Definition tables_of (st : Placeholders) (ns : list string) (ws : list Serializer.wire)
    : Prop :=
  name_counter st = length ns
  /\ value_counter st = length ws
  /\ numbered name_placeholder (names st) ns
  /\ numbered value_placeholder (values st) ws.

End Placeholders.

End Derived.

(** ** Sample class statements *)

Module Samples.
#[local] Existing Instance Reference.decimal_floats.
#[local] Existing Instance Reference.type_tags.
#[local] Existing Instance Reference.strict_layer.
#[local] Existing Instance Reference.equality_builder.

(** [class Invoice(DynamoModel)], with [Meta.table_name = "invoices"]:
    a key, a sort key, one index with both keys, and a plain field. *)
Definition Invoice_fields : list (string * Fields.Extra) :=
  [("invoice_id", Fields.Key Fields.no_extra);
   ("issued", Fields.SortKey Fields.no_extra);
   ("customer", Fields.GSIKey "ByCustomer" Fields.no_extra);
   ("total", Fields.GSISortKey "ByCustomer" Fields.no_extra);
   ("note", Fields.no_extra)].

Definition Invoice_Meta : Metaclass.MetaClass :=
  {| Metaclass.meta_table_name := Some "invoices"; Metaclass.meta_region := None |}.

(** [DynamoModel] as a base: it has no [_meta]. *)
Definition DynamoModel : Metaclass.BaseClass :=
  {| Metaclass.base_name := "DynamoModel"; Metaclass.base_meta := None;
     Metaclass.base_pending := false |}.

Definition by_customer : Config.GSIDefinition :=
  {| Config.gsi_index_name := "ByCustomer"; Config.gsi_pk_name := "customer";
     Config.gsi_pk_type := "S"; Config.gsi_sk_name := Some "total";
     Config.gsi_sk_type := "S"; Config.gsi_projection_type := "ALL" |}.

(** The [_meta] the metaclass attaches to [Invoice]. *)
Definition Invoice_options : Config.ModelOptions :=
  {| Config.table_name := "invoices"; Config.pk_name := "invoice_id";
     Config.sk_name := Some "issued"; Config.region := "us-east-1";
     Config.gsi_definitions := {["ByCustomer" := by_customer]};
     Config.discriminator_field := None; Config.entity_registry := ∅;
     Config.registry_object := "Invoice";
     Config.is_base_entity := false; Config.parent_model := None;
     Config.discriminator_value := None |}.

(** [Reference.MyTable] as a base of a class statement. *)
Definition MyTable_base : Metaclass.BaseClass :=
  {| Metaclass.base_name := "MyTable";
     Metaclass.base_meta := Some (Base._meta Reference.MyTable);
     Metaclass.base_pending := false |}.

(** The fault of a request on a table that does not exist. *)
Definition missing_table : @exn Reference.decimal_floats :=
  ClientError {| Exceptions.Code := Some "ResourceNotFoundException";
                 Exceptions.Message := Some "Requested resource not found" |}
              "An error occurred".

(** The response to a query for two messages, with more to come. *)
Definition first_page : Query.QueryResponse :=
  {| Query.Items := Some [Reference.message "general" "09:00";
                          Reference.message "general" "10:00"];
     Query.LastEvaluatedKey := Some (Reference.message "general" "10:00") |}.


(** [Message.update("general", "09:00").add("views", 1).set("body", "x").remove("tags")] *)
Definition three_clauses : Updates.UpdateBuilder :=
  Updates.remove
    (Updates.set
       (Updates.add (Updates.__init__ Reference.Message (PStr "general") (PStr "09:00"))
                    "views" (PInt 1))
       "body" (PStr "x"))
    "tags".

(** [class Admin(MyTable)] with a [Meta] of its own and no field of its
    own.  Its fields are those of the base; pydantic rebuilds them from
    the class attributes, which the metaclass has replaced on the base, so
    that none of them carries a marker any more. *)
Definition Admin_fields : list (string * Fields.Extra) :=
  [("pk", Fields.no_extra); ("entity_type", Fields.no_extra)].

Definition Admin_Meta : Metaclass.MetaClass :=
  {| Metaclass.meta_table_name := Some "test"; Metaclass.meta_region := None |}.

(** The [_meta] the metaclass attaches to [Admin]: the partition key of
    the base, no discriminator field, and a registry of its own. *)
Definition Admin_options : Config.ModelOptions :=
  {| Config.table_name := "test"; Config.pk_name := "pk";
     Config.sk_name := None; Config.region := "us-east-1";
     Config.gsi_definitions := ∅;
     Config.discriminator_field := None; Config.entity_registry := ∅;
     Config.registry_object := "Admin";
     Config.is_base_entity := false; Config.parent_model := None;
     Config.discriminator_value := None |}.

Definition Admin_declared : Base.ModelClass Reference.annotation :=
  {| Base.__name__ := "Admin"; Base.__mro__ := ["MyTable"; "DynamoModel"];
     Base._meta := Admin_options;
     Base.model_fields := Base.model_fields Reference.MyTable |}.

(** [Admin] and [MyTable] once [Admin] is registered under ["ADMIN"]: the
    entry is in the registry of the base, not in that of [Admin]. *)
Definition Admin : Base.ModelClass Reference.annotation :=
  {| Base.__name__ := "Admin"; Base.__mro__ := ["MyTable"; "DynamoModel"];
     Base._meta := Config.with_registry Admin_options ∅ (Some "MyTable") (Some "ADMIN");
     Base.model_fields := Base.model_fields Reference.MyTable |}.



(** [MyTable] registered on itself under ["BASE"]. *)
Definition MyTable_on_itself : Base.ModelClass Reference.annotation :=
  {| Base.__name__ := "MyTable"; Base.__mro__ := ["DynamoModel"];
     Base._meta := Config.with_registry (Base._meta Reference.MyTable)
                     {["BASE" := "MyTable"]} (Some "MyTable") (Some "BASE");
     Base.model_fields := Base.model_fields Reference.MyTable |}.

(** The registered [User] as a base of a class statement: it carries the
    marker of its registration. *)
Definition User_base : Metaclass.BaseClass :=
  {| Metaclass.base_name := "User";
     Metaclass.base_meta := Some (Base._meta Reference.User);
     Metaclass.base_pending := true |}.

End Samples.

(** * Properties *)

(** Case analysis on the variables a goal still matches on: the flag and
    the value of an enum member, after the destruction of a value. *)
Ltac by_enum_case :=
  repeat match goal with
         | |- context [match ?y with _ => _ end] => is_var y; destruct y
         end.

(** ** Error translation *)

Section ErrorTranslation.
Context `{F : PyFloat}.

Lemma translate_is_typed table response text :
  is_DynanticError (translate_client_error table response text) = true
  /\ Spec.cause (translate_client_error table response text)
     = Some (ClientError response text).
Proof.
  unfold translate_client_error, code_in; simpl.
  repeat match goal with
         | |- context [if ?b then _ else _] => destruct b
         end; split; reflexivity.
Qed.

(** C9 (amended).  A botocore [ClientError], the transport fault that
    carries a fault code, never leaves the error-translation scope it is
    raised in: the caller receives a typed library error whose cause is
    the original fault.  A recognized fault code gives the class of the
    taxonomy listed for it; any other code gives the generic library
    error, whose message is made of the fault code and the original
    message.  No other exception is caught. *)
Theorem C9_transport_faults_are_translated :
  forall (A : Type) (table : option string) (response : ErrorResponse) (text : string),
    let fault := ClientError response text in
    let code := default "Unknown" (Code response) in
    let message := default text (Message response) in
    exists e : exn,
      @handle_dynamo_errors F A table (Raise fault) = Raise e
      /\ is_DynanticError e = true
      /\ is_ClientError e = false
      /\ Spec.cause e = Some fault
      /\ (forall t, Spec.recognized code Spec.fault_codes = Some t ->
                    Spec.taxonomy_of e = Some t)
      /\ (Spec.recognized code Spec.fault_codes = None ->
          e = DynanticError ("DynamoDB error (" +:+ code +:+ "): " +:+ message) (Some fault)).
Proof.
  intros A table response text fault code message.
  exists (translate_client_error table response text).
  split; [reflexivity|].
  destruct (translate_is_typed table response text) as [Ht Hc].
  split; [exact Ht|]. split.
  { destruct (translate_client_error table response text); simpl in *; congruence. }
  split; [exact Hc|].
  unfold translate_client_error, code_in, Spec.recognized, Spec.fault_codes.
  fold fault. simpl exn_str. fold code. fold message. simpl existsb.
  repeat match goal with
         | |- context [(code =? ?c)%string] => destruct (code =? c)%string
         end; simpl; split; intros; congruence.
Qed.

End ErrorTranslation.

Section ErrorTranslationExamples.
#[local] Existing Instance Reference.decimal_floats.

Example missing_table_is_typed :
  handle_dynamo_errors (A := unit) (Some "users")
    (Raise (ClientError {| Code := Some "ResourceNotFoundException";
                           Message := Some "Requested resource not found" |}
                        "An error occurred"))
  = Raise (Dynantic (TableNotFoundError_cls "users") "Table 'users' not found"
             (Some (ClientError {| Code := Some "ResourceNotFoundException";
                                   Message := Some "Requested resource not found" |}
                                "An error occurred"))).
Proof. reflexivity. Qed.

Example unknown_code_is_wrapped :
  Spec.message_of
    (escaping None (ClientError {| Code := Some "UnknownErrorCode";
                                   Message := Some "Something unexpected happened" |}
                                "An error occurred"))
  = "DynamoDB error (UnknownErrorCode): Something unexpected happened".
Proof. reflexivity. Qed.

(** An exception that is not a [ClientError] leaves the scope as it is. *)
Example other_exceptions_pass :
  handle_dynamo_errors (A := unit) None (Raise (ValueError "bad")) = Raise (ValueError "bad").
Proof. reflexivity. Qed.

(** C9, as stated, fails for a transport fault without a fault code: a
    time-out of the connection is no [ClientError], is not caught, and
    reaches the caller as the transport raised it. *)
Lemma C9_counterexample :
  handle_dynamo_errors (A := unit) (Some "users")
    (Raise (BotoCoreError "Connect timeout on endpoint URL"))
  = Raise (BotoCoreError "Connect timeout on endpoint URL")
  /\ is_DynanticError (BotoCoreError "Connect timeout on endpoint URL") = false
  /\ Spec.taxonomy_of (BotoCoreError "Connect timeout on endpoint URL") = None.
Proof. repeat split. Qed.

Lemma C9_witness :
  exists e : exn,
    handle_dynamo_errors (A := unit) (Some "users")
      (Raise (ClientError {| Code := Some "ThrottlingException";
                             Message := Some "Rate limit exceeded" |} "An error occurred"))
    = Raise e
    /\ Spec.taxonomy_of e = Some Spec.ProvisionedThroughputExceeded.
Proof.
  destruct (C9_transport_faults_are_translated unit (Some "users")
              {| Code := Some "ThrottlingException"; Message := Some "Rate limit exceeded" |}
              "An error occurred") as [e [H1 [_ [_ [_ [H2 _]]]]]].
  exists e. split; [exact H1|]. apply H2. reflexivity.
Defined.

End ErrorTranslationExamples.

(** ** Serializer: empty sets *)

Section EmptySets.
Context `{F : PyFloat} `{T : !PyText}.
Import Serializer.

Lemma prepare_empty_set fr : _prepare_for_dynamo (PSet fr []) = Ok (PSet false []).
Proof. reflexivity. Qed.

Lemma serialize_empty_set : serialize (PSet false []) = Ok (WNS []).
Proof. reflexivity. Qed.

Lemma dict_get_set {V} (d : list (string * V)) k1 k2 v :
  dict_get (dict_set d k1 v) k2
  = if (k1 =? k2)%string then Some v else dict_get d k2.
Proof.
  induction d as [|[k' v'] d IH]; simpl.
  - reflexivity.
  - destruct (k' =? k1)%string eqn:E1; simpl.
    + apply String.eqb_eq in E1; subst k'.
      destruct (k1 =? k2)%string; reflexivity.
    + destruct (k' =? k2)%string eqn:E2.
      * apply String.eqb_eq in E2; subst k'.
        rewrite String.eqb_sym, E1. reflexivity.
      * exact IH.
Qed.

Lemma without_absent {V} (d : list (string * V)) k :
  ~ In k (map fst d) -> Spec.without d k = d.
Proof.
  induction d as [|[k' v] d IH]; simpl; intros Hn; [reflexivity|].
  destruct (k' =? k)%string eqn:E.
  - apply String.eqb_eq in E. tauto.
  - f_equal. apply IH. tauto.
Qed.

Lemma dict_get_without {V} (d : list (string * V)) k :
  dict_get (Spec.without d k) k = None.
Proof.
  induction d as [|[k' v] d IH]; simpl; [reflexivity|].
  destruct (k' =? k)%string eqn:E; [exact IH|].
  simpl. rewrite E. exact IH.
Qed.

Lemma only_empty_at_cons k k' v d :
  Spec.only_empty_at k ((k', v) :: d) -> Spec.only_empty_at k d.
Proof. intros H v' Hin. apply H. right. exact Hin. Qed.

Lemma unique_binding (d : list (string * pyval)) k v :
  List.NoDup (map fst d) -> In (k, v) d ->
  forall v', In (k, v') d -> v' = v.
Proof.
  induction d as [|[k0 v0] d IH]; simpl; intros Hnd Hin v' Hin'; [tauto|].
  apply List.NoDup_cons_iff in Hnd. destruct Hnd as [Hnotin Hnd].
  destruct Hin as [Heq|Hin], Hin' as [Heq'|Hin'].
  - congruence.
  - inversion Heq; subst. exfalso. apply Hnotin.
    apply in_map_iff. exists (k, v'). split; [reflexivity|exact Hin'].
  - inversion Heq'; subst. exfalso. apply Hnotin.
    apply in_map_iff. exists (k, v). split; [reflexivity|exact Hin].
  - eapply IH; eassumption.
Qed.

(** Preparing the dict without [k] is preparing the dict, then dropping
    [k]: an empty set never fails to prepare. *)
Lemma prepare_without k (data : list (string * pyval)) :
  Spec.only_empty_at k data ->
  mapM_items _prepare_for_dynamo (Spec.without data k)
  = match mapM_items _prepare_for_dynamo data with
    | Ok clean => Ok (Spec.without clean k)
    | Raise e => Raise e
    end
  /\ forall clean, mapM_items _prepare_for_dynamo data = Ok clean -> Spec.only_empty_at k clean.
Proof.
  induction data as [|[k' v] data IH]; intros Hk.
  - split; [reflexivity|]. intros clean Hc. inversion Hc. intros v H. inversion H.
  - destruct (IH (only_empty_at_cons _ _ _ _ Hk)) as [IH1 IH2].
    cbn [mapM_items Spec.without].
    destruct (k' =? k)%string eqn:E.
    + apply String.eqb_eq in E; subst k'.
      assert (Hv : is_empty_set v = true) by (apply Hk; left; reflexivity).
      destruct v as [| | | | | | | | | | | |fr [|x xs]| | | |]; try discriminate Hv.
      rewrite prepare_empty_set.
      fold (@mapM_items exn string pyval pyval _prepare_for_dynamo) in *.
      destruct (mapM_items _prepare_for_dynamo data) as [clean|e] eqn:Ec.
      * split.
        -- rewrite IH1. simpl. rewrite String.eqb_refl. reflexivity.
        -- intros clean' Hc. inversion Hc; subst clean'.
           intros v' [Heq|Hin]; [inversion Heq; reflexivity|].
           eapply IH2; [reflexivity|exact Hin].
      * split; [exact IH1|]. intros clean' Hc. discriminate Hc.
    + fold (@mapM_items exn string pyval pyval _prepare_for_dynamo) in *.
      cbn [mapM_items].
      fold (@mapM_items exn string pyval pyval _prepare_for_dynamo) in *.
      destruct (_prepare_for_dynamo v) as [c|e]; [|split; [reflexivity|discriminate]].
      rewrite IH1.
      destruct (mapM_items _prepare_for_dynamo data) as [clean|e] eqn:Ec.
      * split.
        -- simpl. rewrite E. reflexivity.
        -- intros clean' Hc. inversion Hc; subst clean'.
           intros v' [Heq|Hin].
           ++ inversion Heq; subst. rewrite String.eqb_refl in E. discriminate.
           ++ eapply IH2; [reflexivity|exact Hin].
      * split; [reflexivity|discriminate].
Qed.

Lemma serialize_or_empty_set fr wrap : serialize_or (PSet fr []) wrap = Ok (WNS []).
Proof. reflexivity. Qed.

Lemma loop_without k (clean : list (string * pyval)) :
  Spec.only_empty_at k clean ->
  forall result, to_dynamo_loop clean result = to_dynamo_loop (Spec.without clean k) result.
Proof.
  induction clean as [|[k' v] clean IH]; intros Hk result; [reflexivity|].
  specialize (IH (only_empty_at_cons _ _ _ _ Hk)).
  cbn [to_dynamo_loop Spec.without].
  destruct (k' =? k)%string eqn:E.
  - apply String.eqb_eq in E; subst k'.
    assert (Hv : is_empty_set v = true) by (apply Hk; left; reflexivity).
    destruct v as [| | | | | | | | | | | |fr [|x xs]| | | |]; try discriminate Hv.
    rewrite serialize_or_empty_set. simpl. apply IH.
  - cbn [to_dynamo_loop].
    destruct (serialize_or v (field_error k' v)) as [w|e]; simpl; [|reflexivity].
    destruct (negb (is_empty_set v)); apply IH.
Qed.

Lemma mapM_items_keys {A B} (f : A -> result exn B) (d : list (string * A)) c :
  mapM_items f d = Ok c -> map fst c = map fst d.
Proof.
  revert c. induction d as [|[k v] d IH]; intros c H; simpl in H.
  - inversion H. reflexivity.
  - destruct (f v); [|discriminate].
    fold (@mapM_items exn string A B f) in H.
    destruct (mapM_items f d) eqn:E; [|discriminate].
    inversion H; subst. simpl. f_equal. apply IH. reflexivity.
Qed.

Lemma loop_keys k (clean : list (string * pyval)) :
  ~ In k (map fst clean) ->
  forall result w,
    dict_get result k = None ->
    to_dynamo_loop clean result = Ok w -> dict_get w k = None.
Proof.
  induction clean as [|[k' v] clean IH]; intros Hn result w Hr H; simpl in H.
  - inversion H; subst. exact Hr.
  - simpl in Hn.
    destruct (serialize_or v (field_error k' v)) as [x|e]; simpl in H; [|discriminate].
    destruct (negb (is_empty_set v)).
    + eapply IH; [tauto| |exact H].
      rewrite dict_get_set. destruct (k' =? k)%string eqn:E; [|exact Hr].
      apply String.eqb_eq in E. tauto.
    + eapply IH; [tauto|exact Hr|exact H].
Qed.

Lemma without_keys {V} (d : list (string * V)) k : ~ In k (map fst (Spec.without d k)).
Proof.
  induction d as [|[k' v] d IH]; simpl; [tauto|].
  destruct (k' =? k)%string eqn:E; [exact IH|].
  simpl. intros [Heq|Hin]; [|tauto].
  subst. rewrite String.eqb_refl in E. discriminate.
Qed.

(** C5.  A field bound to an empty set is dropped by [to_dynamo]: encoding
    the item is encoding the item without that field (so the field raises
    no error of its own), and an encoded item has no entry for it. *)
Theorem C5_empty_set_field_is_dropped :
  forall (data : list (string * pyval)) (k : string) (frozen : bool),
    List.NoDup (map fst data) ->
    In (k, PSet frozen []) data ->
    to_dynamo data = to_dynamo (Spec.without data k)
    /\ forall w, to_dynamo data = Ok w -> dict_get w k = None.
Proof.
  intros data k fr Hnd Hin.
  assert (Hk : Spec.only_empty_at k data).
  { intros v Hv. rewrite (unique_binding data k (PSet fr []) Hnd Hin v Hv). reflexivity. }
  destruct (prepare_without k data Hk) as [Hp Hclean].
  assert (Heq : to_dynamo data = to_dynamo (Spec.without data k)).
  { unfold to_dynamo. rewrite Hp.
    destruct (mapM_items _prepare_for_dynamo data) as [clean|e] eqn:E; simpl; [|reflexivity].
    apply loop_without. apply Hclean. reflexivity. }
  split; [exact Heq|].
  intros w Hw. rewrite Heq in Hw. unfold to_dynamo in Hw.
  destruct (mapM_items _prepare_for_dynamo (Spec.without data k)) as [clean|e] eqn:E;
    simpl in Hw; [|discriminate].
  apply (loop_keys k clean) with (result := []); [|reflexivity|exact Hw].
  rewrite (mapM_items_keys _ _ _ E). apply without_keys.
Qed.

End EmptySets.

Section EmptySetsExamples.
#[local] Existing Instance Reference.decimal_floats.
#[local] Existing Instance Reference.type_tags.
Import Serializer.

(** The item of the test suite: [{"tags": set(), "active": True}]. *)
Example empty_set_filtered_out :
  to_dynamo [("tags", PSet false []); ("active", PBool true)] = Ok [("active", WBOOL true)].
Proof. reflexivity. Qed.

Example only_an_empty_set : to_dynamo [("tags", PSet false [])] = Ok [].
Proof. reflexivity. Qed.

Lemma C5_witness :
  List.NoDup (map fst [("tags", PSet false []); ("active", PBool true)])
  /\ In ("tags", PSet false []) [("tags", PSet false []); ("active", PBool true)]
  /\ to_dynamo [("tags", PSet false []); ("active", PBool true)]
     = to_dynamo [("active", PBool true)].
Proof.
  assert (Hnd : List.NoDup (map fst [("tags", @PSet Reference.decimal_floats false []);
                                     ("active", PBool true)])).
  { simpl. constructor.
    - simpl. intros [H|[]]. discriminate H.
    - constructor; [simpl; tauto|constructor]. }
  assert (Hin : In ("tags", PSet false [])
                   [("tags", @PSet Reference.decimal_floats false []); ("active", PBool true)]).
  { left. reflexivity. }
  split; [exact Hnd|]. split; [exact Hin|].
  exact (proj1 (C5_empty_set_field_is_dropped _ "tags" false Hnd Hin)).
Defined.
End EmptySetsExamples.

(** ** Iteration under a limit *)

Section LimitedIteration.
Context `{F : PyFloat} `{T : !PyText} `{V : !Base.ValidationLayer}
  `{B : !Conditions.ConditionExpressionBuilder}.
Import Iteration.

Section Loop.
Context {K : Type}.
Variable cls : Base.ModelClass Base.annotation_t.

Lemma yielded_nil : Spec.yielded (@nil (event K)) = 0.
Proof. reflexivity. Qed.

Lemma yielded_yield x (evs : list (event K)) :
  Spec.yielded (Yield x :: evs) = 1 + Spec.yielded evs.
Proof.
  change (Z.of_nat (S (length (yields evs))) = 1 + Z.of_nat (length (yields evs))).
  lia.
Qed.

Lemma yielded_request k (evs : list (event K)) :
  Spec.yielded (PageRequest k :: evs) = Spec.yielded evs.
Proof. reflexivity. Qed.

Lemma yielded_raises e (evs : list (event K)) :
  Spec.yielded (Raises e :: evs) = Spec.yielded evs.
Proof. reflexivity. Qed.

Lemma yielded_app (a b : list (event K)) :
  Spec.yielded (a ++ b) = Spec.yielded a + Spec.yielded b.
Proof.
  unfold Spec.yielded, yields. rewrite omap_app, length_app. lia.
Qed.

Lemma yielded_nonneg (evs : list (event K)) : 0 <= Spec.yielded evs.
Proof. unfold Spec.yielded. lia. Qed.

Lemma stops_at_nil n count : Spec.stops_at n count (@nil (event K)).
Proof.
  intros pre post H _. symmetry in H. apply app_eq_nil in H. tauto.
Qed.

Lemma stops_at_last n count (ev : event K) :
  count < n -> Spec.stops_at n count [ev].
Proof.
  intros Hc pre post H Hn. destruct pre as [|e pre].
  - rewrite yielded_nil in Hn. lia.
  - simpl in H. inversion H as [[He Hrest]].
    symmetry in Hrest. apply app_eq_nil in Hrest. tauto.
Qed.

Lemma stops_at_yield n count x (evs : list (event K)) :
  count < n -> Spec.stops_at n (count + 1) evs -> Spec.stops_at n count (Yield x :: evs).
Proof.
  intros Hc Hs pre post H Hn. destruct pre as [|e pre].
  - rewrite yielded_nil in Hn. lia.
  - simpl in H. inversion H as [[He Hrest]]. subst e.
    apply (Hs pre post Hrest). rewrite yielded_yield in Hn. lia.
Qed.

Lemma stops_at_request n count k (evs : list (event K)) :
  count < n -> Spec.stops_at n count evs -> Spec.stops_at n count (PageRequest k :: evs).
Proof.
  intros Hc Hs pre post H Hn. destruct pre as [|e pre].
  - rewrite yielded_nil in Hn. lia.
  - simpl in H. inversion H as [[He Hrest]]. subst e.
    apply (Hs pre post Hrest). rewrite yielded_request in Hn. exact Hn.
Qed.

Lemma stops_at_app n count (evs1 evs2 : list (event K)) :
  Spec.stops_at n count evs1 ->
  count + Spec.yielded evs1 < n ->
  Spec.stops_at n (count + Spec.yielded evs1) evs2 ->
  Spec.stops_at n count (evs1 ++ evs2).
Proof.
  intros H1 Hlt H2 pre post H Hn.
  apply List.app_eq_app in H. destruct H as [l [[Ha Hb]|[Ha Hb]]].
  - (* the cut falls inside [evs1] *)
    assert (Hl : l = []) by (apply (H1 pre l Ha Hn)).
    subst l. rewrite app_nil_r in Ha. subst pre. lia.
  - (* the cut falls after [evs1] *)
    subst pre. apply (H2 l post Hb).
    rewrite yielded_app in Hn. lia.
Qed.

Lemma items_loop_limited n items :
  1 <= n ->
  forall count evs r,
    count < n ->
    @items_loop F V K cls (Some n) items count = (evs, r) ->
    count + Spec.yielded evs <= n
    /\ Spec.stops_at n count evs
    /\ match r with
       | Some c => c = count + Spec.yielded evs /\ c < n
       | None => True
       end.
Proof.
  intros Hn. induction items as [|it rest IH]; intros count evs r Hc H; simpl in H.
  - inversion H; subst. rewrite yielded_nil.
    repeat split; [lia|apply stops_at_nil|lia|exact Hc].
  - match type of H with
    | context [match ?m with Ok _ => _ | Raise _ => _ end] => destruct m as [x|e]
    end.
    + unfold limit_reached in H.
      replace (n =? 0) with false in H by (symmetry; apply Z.eqb_neq; lia).
      simpl in H. destruct (n <=? count + 1) eqn:Hle.
      * inversion H; subst. rewrite yielded_yield, yielded_nil.
        repeat split; [lia|apply stops_at_last; exact Hc].
      * apply Z.leb_gt in Hle.
        destruct (items_loop cls (Some n) rest (count + 1)) as [evs' r'] eqn:E.
        inversion H; subst.
        destruct (IH (count + 1) evs' r Hle E) as [Hy [Hs Hr]].
        rewrite yielded_yield.
        repeat split; [lia|apply stops_at_yield; assumption|].
        destruct r as [c|]; [|exact I]. destruct Hr as [Hr1 Hr2]. split; lia.
    + inversion H; subst. rewrite yielded_raises, yielded_nil.
      repeat split; [lia|apply stops_at_last; exact Hc].
Qed.

Lemma pages_loop_limited n (kwargs : K) pages :
  1 <= n ->
  forall count,
    count < n ->
    count + Spec.yielded (pages_loop cls (Some n) kwargs pages count) <= n
    /\ Spec.stops_at n count (pages_loop cls (Some n) kwargs pages count).
Proof.
  intros Hn. induction pages as [|[items|e] rest IH]; intros count Hc; simpl.
  - rewrite yielded_nil. split; [lia|apply stops_at_nil].
  - destruct (items_loop cls (Some n) items count) as [evs r] eqn:E.
    destruct (items_loop_limited n items Hn count evs r Hc E) as [Hy [Hs Hr]].
    rewrite yielded_request, yielded_app.
    destruct r as [c|].
    + destruct Hr as [Hr1 Hr2]. destruct (IH c Hr2) as [IHy IHs].
      split; [lia|].
      apply stops_at_request; [exact Hc|].
      apply stops_at_app; [exact Hs|lia|]. rewrite <- Hr1. exact IHs.
    + rewrite yielded_nil. split; [lia|].
      apply stops_at_request; [exact Hc|]. rewrite app_nil_r. exact Hs.
  - rewrite yielded_request, yielded_raises, yielded_nil. split; [lia|].
    apply stops_at_request; [exact Hc|]. apply stops_at_last. exact Hc.
Qed.

Lemma collect_yields (evs : list (event K)) xs :
  collect evs = Ok xs -> xs = yields evs.
Proof.
  revert xs. induction evs as [|[k|x|e] evs IH]; intros xs H; simpl in H.
  - inversion H. reflexivity.
  - apply IH. exact H.
  - destruct (collect evs) as [ys|e]; simpl in H; [|discriminate].
    inversion H; subst. unfold yields. simpl. f_equal. apply IH. reflexivity.
  - discriminate.
Qed.

Lemma limited_intro n (evs : list (event K)) :
  Spec.yielded evs <= n -> Spec.stops_at n 0 evs -> Spec.limited n evs.
Proof.
  intros Hy Hs. repeat split.
  - exact Hy.
  - exact Hs.
  - intros pre kwargs post H.
    destruct (Z.lt_ge_cases (Spec.yielded pre) n) as [Hlt|Hge]; [exact Hlt|].
    assert (Hnil : PageRequest kwargs :: post = []) by (apply (Hs pre _ H); lia).
    discriminate Hnil.
  - intros xs H. apply collect_yields in H. subst xs. exact Hy.
Qed.

Lemma pages_loop_is_limited n (kwargs : K) pages :
  1 <= n -> Spec.limited n (pages_loop cls (Some n) kwargs pages 0).
Proof.
  intros Hn.
  destruct (pages_loop_limited n kwargs pages Hn 0 ltac:(lia)) as [Hy Hs].
  apply limited_intro; [lia|exact Hs].
Qed.

Lemma raises_is_limited n e : 1 <= n -> Spec.limited n [@Raises F K e].
Proof.
  intros Hn. apply limited_intro.
  - rewrite yielded_raises, yielded_nil. lia.
  - apply stops_at_last. lia.
Qed.

End Loop.

(** C2.  With [limit(n)], n >= 1, iterating a query or a scan yields at
    most [n] items over the whole paginated traversal, and the n-th item
    is the last event of the iteration, also in the middle of a page: no
    item is pulled and no page is requested after it.  [all()] therefore
    returns at most [n] items. *)
Theorem C2_limit_stops_iteration :
  forall n : Z,
    1 <= n ->
    (forall paginate (self : Query.DynamoQueryBuilder),
        Query.limit_val self = Some n ->
        Spec.limited n (Query.__iter__ paginate self)
        /\ forall xs, Query.all paginate self = Ok xs -> Z.of_nat (length xs) <= n)
    /\ (forall paginate (self : Scan.DynamoScanBuilder),
        Scan.limit_val self = Some n ->
        Spec.limited n (Scan.__iter__ paginate self)
        /\ forall xs, Scan.all paginate self = Ok xs -> Z.of_nat (length xs) <= n).
Proof.
  intros n Hn. split; intros paginate self Hl.
  - assert (H : Spec.limited n (Query.__iter__ paginate self)).
    { unfold Query.__iter__. rewrite Hl.
      destruct (Query.iter_kwargs self) as [kwargs|e].
      - apply pages_loop_is_limited. exact Hn.
      - apply raises_is_limited. exact Hn. }
    split; [exact H|]. intros xs Hxs. apply H. exact Hxs.
  - assert (H : Spec.limited n (Scan.__iter__ paginate self)).
    { unfold Scan.__iter__. rewrite Hl.
      destruct (Scan.iter_kwargs self) as [kwargs|e].
      - apply pages_loop_is_limited. exact Hn.
      - apply raises_is_limited. exact Hn. }
    split; [exact H|]. intros xs Hxs. apply H. exact Hxs.
Qed.

End LimitedIteration.

(** ** A limit of zero *)

Section ZeroLimit.
Context `{F : PyFloat} `{T : !PyText} `{V : !Base.ValidationLayer}
  `{B : !Conditions.ConditionExpressionBuilder}.
Import Iteration.

Section Loop.
Context {K : Type}.
Variable cls : Base.ModelClass Base.annotation_t.

Lemma items_loop_ext l1 l2 items :
  (forall c, limit_reached l1 c = limit_reached l2 c) ->
  forall count, @items_loop F V K cls l1 items count = items_loop cls l2 items count.
Proof.
  intros Hl. induction items as [|it rest IH]; intros count; simpl; [reflexivity|].
  rewrite Hl, IH. reflexivity.
Qed.

Lemma pages_loop_ext l1 l2 (kwargs : K) pages :
  (forall c, limit_reached l1 c = limit_reached l2 c) ->
  forall count, pages_loop cls l1 kwargs pages count = pages_loop cls l2 kwargs pages count.
Proof.
  intros Hl. induction pages as [|[items|e] rest IH]; intros count; simpl; try reflexivity.
  rewrite (items_loop_ext l1 l2 items Hl).
  destruct (items_loop cls l2 items count) as [evs [c|]]; [rewrite IH|]; reflexivity.
Qed.

Lemma zero_is_no_limit c : limit_reached (Some 0) c = limit_reached None c.
Proof. reflexivity. Qed.

Lemma mapM_app_ok {A C} (f : A -> result exn C) (a b : list A) xs :
  mapM f (a ++ b) = Ok xs ->
  exists xa xb, mapM f a = Ok xa /\ mapM f b = Ok xb /\ xs = xa ++ xb.
Proof.
  revert xs. induction a as [|x a IH]; intros xs H; simpl in H.
  - exists [], xs. repeat split. exact H.
  - simpl. destruct (f x) as [y|e]; [|discriminate].
    fold (@mapM exn A C f) in *.
    destruct (mapM f (a ++ b)) as [ys|e] eqn:E; [|discriminate].
    inversion H; subst.
    destruct (IH ys eq_refl) as [xa [xb [Ha [Hb Hs]]]].
    rewrite Ha. exists (y :: xa), xb. subst ys. repeat split. exact Hb.
Qed.

(** Without a limit, a page whose items all turn into instances is
    yielded whole. *)
Lemma items_loop_unlimited l items xs :
  (forall c, limit_reached l c = false) ->
  mapM (Spec.materialize cls) items = Ok xs ->
  forall count,
    @items_loop F V K cls l items count
    = (map Yield xs, Some (count + Z.of_nat (length xs))).
Proof.
  intros Hl. revert xs. induction items as [|it rest IH]; intros xs H count; simpl in H.
  - inversion H; subst. simpl. f_equal. f_equal. lia.
  - unfold Spec.materialize in H at 1. simpl.
    destruct (try! raw_data <- Serializer.from_dynamo it;
              Base._deserialize_item cls raw_data) as [x|e]; [|discriminate].
    fold (Spec.materialize cls) in H.
    fold (@mapM exn _ _ (Spec.materialize cls)) in H.
    destruct (mapM (Spec.materialize cls) rest) as [ys|e] eqn:E; [|discriminate].
    inversion H; subst. rewrite Hl, (IH ys eq_refl). simpl.
    f_equal. f_equal. lia.
Qed.

Lemma collect_yield_all (xs : list Base.Instance) (evs : list (event K)) :
  collect (map Yield xs ++ evs) = (try! ys <- collect evs; Ok (xs ++ ys)).
Proof.
  induction xs as [|x xs IH]; simpl.
  - destruct (collect evs); reflexivity.
  - rewrite IH. destruct (collect evs); reflexivity.
Qed.

Lemma pages_loop_unlimited l (kwargs : K) pages :
  (forall c, limit_reached l c = false) ->
  forall items xs count,
    Spec.all_items pages = Some items ->
    mapM (Spec.materialize cls) items = Ok xs ->
    collect (pages_loop cls l kwargs pages count) = Ok xs.
Proof.
  intros Hl. induction pages as [|[its|e] rest IH]; intros items xs count Ha Hm; simpl in Ha.
  - inversion Ha; subst. inversion Hm. reflexivity.
  - destruct (Spec.all_items rest) as [l'|] eqn:E; [|discriminate].
    inversion Ha; subst.
    apply mapM_app_ok in Hm. destruct Hm as [xa [xb [Hxa [Hxb Hs]]]]. subst xs.
    cbn [pages_loop]. rewrite (items_loop_unlimited l its xa Hl Hxa count).
    cbn [collect]. rewrite collect_yield_all.
    rewrite (IH l' xb _ eq_refl Hxb). reflexivity.
  - discriminate.
Qed.

End Loop.

Lemma query_kwargs_zero (self : Query.DynamoQueryBuilder) :
  Query.iter_kwargs (Query.limit self 0) = Query.iter_kwargs (Spec.query_without_limit self).
Proof. reflexivity. Qed.

Lemma scan_kwargs_zero (self : Scan.DynamoScanBuilder) :
  Scan.iter_kwargs (Scan.limit self 0) = Scan.iter_kwargs (Spec.scan_without_limit self).
Proof. reflexivity. Qed.

Lemma query_kwargs_no_limit (self : Query.DynamoQueryBuilder) kwargs :
  Query.iter_kwargs (Spec.query_without_limit self) = Ok kwargs -> Query.Limit kwargs = None.
Proof.
  unfold Query.iter_kwargs. intros H.
  destruct (Query.filter_params _ _ _); simpl in H; [|discriminate].
  inversion H. reflexivity.
Qed.

Lemma scan_kwargs_no_limit (self : Scan.DynamoScanBuilder) kwargs :
  Scan.iter_kwargs (Spec.scan_without_limit self) = Ok kwargs -> Scan.Limit kwargs = None.
Proof.
  unfold Scan.iter_kwargs. intros H. simpl in H.
  destruct (Scan.filter_conditions self), (Scan.user_filter_condition self);
    try (inversion H; reflexivity);
    destruct (Conditions.compile_condition _); simpl in H;
    try discriminate; inversion H; reflexivity.
Qed.

(** C10.  [limit(0)] behaves as no limit: the stored 0 is falsy, so the
    request carries no [Limit] at all and the iteration is, event for
    event, the one of a builder on which no limit was set; when every page
    is delivered and every item turns into an instance, [all()] returns
    every item of every page. *)
Theorem C10_limit_zero_is_no_limit :
  (forall paginate (self : Query.DynamoQueryBuilder),
      Query.iter_kwargs (Query.limit self 0) = Query.iter_kwargs (Spec.query_without_limit self)
      /\ (forall kwargs, Query.iter_kwargs (Query.limit self 0) = Ok kwargs ->
                         Query.Limit kwargs = None)
      /\ Query.__iter__ paginate (Query.limit self 0)
         = Query.__iter__ paginate (Spec.query_without_limit self)
      /\ (forall kwargs items xs,
             Query.iter_kwargs (Query.limit self 0) = Ok kwargs ->
             Spec.all_items (paginate kwargs) = Some items ->
             mapM (Spec.materialize (Query.model_cls self)) items = Ok xs ->
             Query.all paginate (Query.limit self 0) = Ok xs))
  /\ (forall paginate (self : Scan.DynamoScanBuilder),
      Scan.iter_kwargs (Scan.limit self 0) = Scan.iter_kwargs (Spec.scan_without_limit self)
      /\ (forall kwargs, Scan.iter_kwargs (Scan.limit self 0) = Ok kwargs ->
                         Scan.Limit kwargs = None)
      /\ Scan.__iter__ paginate (Scan.limit self 0)
         = Scan.__iter__ paginate (Spec.scan_without_limit self)
      /\ (forall kwargs items xs,
             Scan.iter_kwargs (Scan.limit self 0) = Ok kwargs ->
             Spec.all_items (paginate kwargs) = Some items ->
             mapM (Spec.materialize (Scan.model_cls self)) items = Ok xs ->
             Scan.all paginate (Scan.limit self 0) = Ok xs)).
Proof.
  split; intros paginate self.
  - split; [apply query_kwargs_zero|]. split.
    { intros kwargs H. rewrite query_kwargs_zero in H.
      eapply query_kwargs_no_limit. exact H. }
    split.
    { unfold Query.__iter__. rewrite query_kwargs_zero.
      destruct (Query.iter_kwargs (Spec.query_without_limit self)); [|reflexivity].
      apply pages_loop_ext. apply zero_is_no_limit. }
    intros kwargs items xs Hk Ha Hm.
    unfold Query.all, Query.__iter__. rewrite Hk.
    eapply pages_loop_unlimited; [reflexivity|exact Ha|exact Hm].
  - split; [apply scan_kwargs_zero|]. split.
    { intros kwargs H. rewrite scan_kwargs_zero in H.
      eapply scan_kwargs_no_limit. exact H. }
    split.
    { unfold Scan.__iter__. rewrite scan_kwargs_zero.
      destruct (Scan.iter_kwargs (Spec.scan_without_limit self)); [|reflexivity].
      apply pages_loop_ext. apply zero_is_no_limit. }
    intros kwargs items xs Hk Ha Hm.
    unfold Scan.all, Scan.__iter__. rewrite Hk.
    eapply pages_loop_unlimited; [reflexivity|exact Ha|exact Hm].
Qed.

End ZeroLimit.

Section IterationExamples.
#[local] Existing Instance Reference.decimal_floats.
#[local] Existing Instance Reference.type_tags.
#[local] Existing Instance Reference.strict_layer.
#[local] Existing Instance Reference.equality_builder.
Import Iteration.

Example room_query_is_constructed :
  Query.__init__ Reference.Message (PStr "general") None = Ok Reference.room_query.
Proof. reflexivity. Qed.

Example table_scan_is_constructed :
  Scan.__init__ Reference.Message None = Ok Reference.table_scan.
Proof. reflexivity. Qed.

(** A limit of 2 ends the iteration in the middle of the first page: one
    page was requested, the second is never fetched. *)
Example limit_two_stops_mid_page :
  let evs := Query.__iter__ (fun _ => Reference.two_pages)
                            (Query.limit Reference.room_query 2) in
  yields evs = [Reference.instance_of_message "09:00"; Reference.instance_of_message "10:00"]
  /\ length (requests evs) = 1%nat
  /\ Query.Limit <$> requests evs = [Some 2].
Proof. vm_compute. repeat split. Qed.

(** A limit of 0 drains both pages, with no [Limit] in the requests. *)
Example limit_zero_drains_everything :
  let evs := Scan.__iter__ (fun _ => Reference.two_pages)
                           (Scan.limit Reference.table_scan 0) in
  yields evs = Reference.instance_of_message <$> ["09:00"; "10:00"; "11:00"; "12:00"]
  /\ Scan.Limit <$> requests evs = [None; None].
Proof. vm_compute. repeat split. Qed.

Lemma C10_witness :
  Scan.all (fun _ => Reference.two_pages) (Scan.limit Reference.table_scan 0)
  = Ok (Reference.instance_of_message <$> ["09:00"; "10:00"; "11:00"; "12:00"]).
Proof.
  destruct (Scan.iter_kwargs (Scan.limit Reference.table_scan 0)) as [kwargs|e] eqn:E;
    [|vm_compute in E; discriminate E].
  apply (proj2 (proj2 (proj2 (proj2 C10_limit_zero_is_no_limit
                                (fun _ => Reference.two_pages) Reference.table_scan)))
               kwargs
               [Reference.message "general" "09:00"; Reference.message "general" "10:00";
                Reference.message "general" "11:00"; Reference.message "general" "12:00"]
               _ E eq_refl eq_refl).
Defined.

Lemma C2_witness :
  1 <= 2
  /\ Spec.limited 2 (Query.__iter__ (fun _ => Reference.two_pages)
                                    (Query.limit Reference.room_query 2)).
Proof.
  split; [lia|].
  apply (C2_limit_stops_iteration 2 ltac:(lia)). reflexivity.
Defined.

End IterationExamples.

(** ** Queries on a registered subtype *)

Section DiscriminatorIsolation.
Context `{F : PyFloat} `{T : !PyText} `{V : !Base.ValidationLayer}
  `{B : !Conditions.ConditionExpressionBuilder}.
Import Iteration.



Section Loop.
Context {K : Type}.
Variable cls : Base.ModelClass Base.annotation_t.
Variable P : Base.Instance -> Prop.
Hypothesis materialized : forall it x, Spec.materialize cls it = Ok x -> P x.







End Loop.


Lemma str_truthy_some s : s <> "" -> Config.str_truthy (Some s) = true.
Proof.
  intros Hs. simpl. apply negb_true_iff. apply String.eqb_neq. exact Hs.
Qed.


End DiscriminatorIsolation.

Section DiscriminatorExamples.
#[local] Existing Instance Reference.decimal_floats.
#[local] Existing Instance Reference.type_tags.
#[local] Existing Instance Reference.strict_layer.
#[local] Existing Instance Reference.equality_builder.
Import Iteration.

Example user_is_registered :
  Base.register Reference.MyTable "USER" Reference.User_declared
  = Ok (Reference.MyTable_with_User, Reference.User).
Proof. reflexivity. Qed.

Example order_is_registered_next :
  fst <$> (match Base.register Reference.MyTable_with_User "ORDER" Reference.Order_declared with
           | Ok p => Some p
           | Raise _ => None
           end)
  = Some Reference.MyTable_with_both.
Proof. vm_compute. reflexivity. Qed.

Example user_query_is_constructed :
  Query.__init__ Reference.User (PStr "123") None = Ok Reference.user_query.
Proof. reflexivity. Qed.

(** Whatever the page holds, the instances of a query on [User] are users. *)
Example user_query_yields_users :
  Base.instance_of <$> yields (Query.__iter__ (fun _ => Reference.mixed_page) Reference.user_query)
  = ["User"; "User"].
Proof. vm_compute. reflexivity. Qed.

(** The metaclass gives [User], declared under [MyTable] without a
    [Meta], the configuration of the base, with the base as its parent. *)
Example user_is_declared :
  Metaclass.__new__ "User" [Samples.MyTable_base] None
    [("pk", Fields.no_extra); ("entity_type", Fields.no_extra); ("name", Fields.no_extra)]
  = Ok (Some (Base._meta Reference.User_declared)).
Proof. reflexivity. Qed.

(** The metaclass gives [Admin], declared with a [Meta] of its own, a
    configuration without discriminator field. *)
Example admin_is_declared :
  Metaclass.__new__ "Admin" [Samples.MyTable_base] (Some Samples.Admin_Meta)
    Samples.Admin_fields
  = Ok (Some (Base._meta Samples.Admin_declared)).
Proof. vm_compute. reflexivity. Qed.


(** A registration under the empty value succeeds, and leaves the query
    of the subtype without filter as well. *)
Example empty_value_gives_no_filter :
  match Base.register Reference.MyTable "" Reference.User_declared with
  | Ok (_, A) =>
      match Query.__init__ A (PStr "123") None with
      | Ok b => Some (Query.filter_conditions b)
      | Raise _ => None
      end
  | Raise _ => None
  end = Some [].
Proof. vm_compute. reflexivity. Qed.


End DiscriminatorExamples.

(** ** Updates: what [execute] returns, and when it fails locally *)

Section UpdateExecution.
Context `{F : PyFloat} `{T : !PyText} `{V : !Base.ValidationLayer}
  `{B : !Conditions.ConditionExpressionBuilder}.
Import Updates.

Lemma execute_after_request update_item (self : UpdateBuilder) params response :
  prepare_request self = Ok params ->
  update_item params = Ok response ->
  execute update_item self = (returned self response, [params]).
Proof.
  intros Hp Hu. unfold execute. rewrite Hp, Hu. reflexivity.
Qed.

(** C4 (amended).  Once the store has answered an update, [execute] hands
    back a model instance in one case only: the mode is ALL_NEW and the
    response carries attributes, which are then decoded and resolved
    through polymorphic item resolution.  For every other mode, UPDATED_NEW
    included, and for a response without attributes, it hands back the raw
    response unchanged. *)
Theorem C4_execute_returns_model_for_all_new_only :
  forall update_item (self : UpdateBuilder) params response,
    prepare_request self = Ok params ->
    update_item params = Ok response ->
    (forall attributes,
        _return_values self = ALL_NEW ->
        Attributes response = Some attributes ->
        fst (execute update_item self)
        = (try! raw_data <- Serializer.from_dynamo attributes;
           try! x <- Base._deserialize_item (model_cls self) raw_data;
           Ok (ReturnsModel x)))
    /\ (_return_values self <> ALL_NEW \/ Attributes response = None ->
        fst (execute update_item self) = Ok (ReturnsResponse response))
    /\ snd (execute update_item self) = [params].
Proof.
  intros update_item self params response Hp Hu.
  rewrite (execute_after_request update_item self params response Hp Hu). simpl.
  unfold returned. repeat split.
  - intros attributes Hr Ha. rewrite Hr, Ha. reflexivity.
  - intros [Hr|Ha].
    + destruct (_return_values self); try reflexivity. congruence.
    + rewrite Ha. destruct (_return_values self); reflexivity.
Qed.

Lemma group_actions_stops cls (l : list UpdateAction) :
  forall i a e g,
    nth_error l i = Some a ->
    validate a cls = Raise e ->
    (exists e', group_actions cls l g = Raise e')
    /\ ((forall j a', (j < i)%nat -> nth_error l j = Some a' ->
                     is_ok (validate a' cls) = true) ->
        group_actions cls l g = Raise e).
Proof.
  induction l as [|a0 l IH]; intros i a e g Hi Hv.
  - destruct i; discriminate Hi.
  - destruct i as [|i]; simpl in Hi.
    + inversion Hi; subst a0. simpl. rewrite Hv. simpl.
      split; [eexists; reflexivity|reflexivity].
    + simpl. destruct (validate a0 cls) as [v0|e0] eqn:E0; simpl.
      * match goal with
        | |- context [group_actions cls l ?g'] =>
            destruct (IH i a e g' Hi Hv) as [H1 H2]
        end.
        split; [exact H1|]. intros Hall. apply H2.
        intros j a' Hj Hn. apply (Hall (S j) a'); [lia|exact Hn].
      * split; [eexists; reflexivity|]. intros Hall.
        specialize (Hall 0%nat a0 ltac:(lia) eq_refl). rewrite E0 in Hall. discriminate.
Qed.

Lemma compile_stops (self : UpdateBuilder) i a e :
  nth_error (actions self) i = Some a ->
  validate a (model_cls self) = Raise e ->
  (exists e', _compile self = Raise e')
  /\ ((forall j a', (j < i)%nat -> nth_error (actions self) j = Some a' ->
                   is_ok (validate a' (model_cls self)) = true) ->
      _compile self = Raise e).
Proof.
  intros Hi Hv. unfold _compile.
  destruct (actions self) as [|a0 l] eqn:Ea; [destruct i; discriminate|].
  match goal with
  | |- context [group_actions ?c ?l' ?g] =>
      destruct (group_actions_stops c l' i a e g Hi Hv) as [[e' H1] H2]
  end.
  split.
  - exists e'. rewrite H1. reflexivity.
  - intros Hall. rewrite (H2 Hall). reflexivity.
Qed.

(** An increment whose coerced value is neither a number nor a set does
    not validate. *)
Lemma add_refused (a : UpdateAction) cls field v' :
  kind a = Add ->
  _get_field_info a cls = Some field ->
  Base.validate_python (Base.annotation field) (value a) = Ok v' ->
  is_number v' = false ->
  is_set v' = false ->
  validate a cls = Raise (add_type_error a v').
Proof.
  intros Hk Hf Hv Hn Hs. unfold validate. rewrite Hk, Hf.
  unfold validate_against. rewrite Hv. simpl. rewrite Hn, Hs. reflexivity.
Qed.

(** C6 (amended).  An update that contains an increment whose value, once
    coerced against the declared type of its field, is neither a number nor
    a set, fails locally: [execute] raises and no request is sent.  The
    exception is the one of the first step that fails; when the key
    serializes and every earlier action validates, it is the value error
    that names the field and says that ADD supports only numbers and sets. *)
Theorem C6_add_of_non_number_fails_locally :
  forall update_item (self : UpdateBuilder) (i : nat) (a : UpdateAction)
         (field : Base.FieldInfo Base.annotation_t) (v' : pyval),
    nth_error (actions self) i = Some a ->
    kind a = Add ->
    _get_field_info a (model_cls self) = Some field ->
    Base.validate_python (Base.annotation field) (value a) = Ok v' ->
    is_number v' = false ->
    is_set v' = false ->
    (exists e, execute update_item self = (Raise e, []))
    /\ (is_ok (Serializer.to_dynamo (key_dict self)) = true ->
        (forall j a', (j < i)%nat -> nth_error (actions self) j = Some a' ->
                      is_ok (validate a' (model_cls self)) = true) ->
        execute update_item self
        = (Raise (ValueError ("Invalid type for ADD operation on field '"
                              +:+ field_name a +:+ "'. "
                              +:+ "DynamoDB ADD supports only Numbers and Sets. "
                              +:+ "Got: " +:+ type_name v')), [])).
Proof.
  intros update_item self i a field v' Hi Hk Hf Hv Hn Hs.
  pose proof (add_refused a (model_cls self) field v' Hk Hf Hv Hn Hs) as Hr.
  destruct (compile_stops self i a _ Hi Hr) as [[e' H1] H2].
  unfold execute, prepare_request. split.
  - destruct (Serializer.to_dynamo (key_dict self)) as [k|e]; simpl.
    + rewrite H1. simpl. eexists; reflexivity.
    + eexists; reflexivity.
  - intros Hkey Hall.
    destruct (Serializer.to_dynamo (key_dict self)) as [k|e]; simpl; [|discriminate].
    rewrite (H2 Hall). reflexivity.
Qed.

End UpdateExecution.

Section UpdateExamples.
#[local] Existing Instance Reference.decimal_floats.
#[local] Existing Instance Reference.type_tags.
#[local] Existing Instance Reference.strict_layer.
#[local] Existing Instance Reference.equality_builder.
Import Updates.

Example bump_views_compiles :
  UpdateExpression <$> (match _compile Reference.bump_views with
                        | Ok c => Some c
                        | Raise _ => None
                        end)
  = Some "ADD #u_n0 :u_v0".
Proof. vm_compute. reflexivity. Qed.

(** With ALL_NEW the returned attributes become a [Message]. *)
Example all_new_returns_a_model :
  fst (execute (fun _ => Ok Reference.updated_message)
               (return_values Reference.bump_views ALL_NEW))
  = Ok (ReturnsModel
          {| Base.instance_of := "Message";
             Base.fields := [("pk", PStr "general"); ("sent_at", PStr "09:00");
                             ("views", PInt 8)] |}).
Proof. vm_compute. reflexivity. Qed.

(** C4, as stated, fails for UPDATED_NEW: the response carries the new
    attributes and the raw response is handed back, not a model. *)
Lemma C4_counterexample :
  Attributes Reference.updated_message <> None
  /\ fst (execute (fun _ => Ok Reference.updated_message)
                  (return_values Reference.bump_views UPDATED_NEW))
     = Ok (ReturnsResponse Reference.updated_message)
  /\ forall x,
       fst (execute (fun _ => Ok Reference.updated_message)
                    (return_values Reference.bump_views UPDATED_NEW))
       <> Ok (ReturnsModel x).
Proof.
  split; [discriminate|].
  assert (H : fst (execute (fun _ => Ok Reference.updated_message)
                           (return_values Reference.bump_views UPDATED_NEW))
              = Ok (ReturnsResponse Reference.updated_message))
    by (vm_compute; reflexivity).
  split; [exact H|]. intros x Hx. rewrite H in Hx. discriminate Hx.
Qed.

Lemma C4_witness :
  fst (execute (fun _ => Ok Reference.updated_message)
               (return_values Reference.bump_views UPDATED_NEW))
  = Ok (ReturnsResponse Reference.updated_message).
Proof.
  set (self := return_values Reference.bump_views UPDATED_NEW).
  destruct (prepare_request self) as [params|e] eqn:E; [|vm_compute in E; discriminate E].
  apply (C4_execute_returns_model_for_all_new_only
           (fun _ => Ok Reference.updated_message) self params
           Reference.updated_message E eq_refl).
  left. discriminate.
Defined.

(** An increment of a text field fails before any request. *)
Example add_to_text_fails_locally :
  execute (fun _ => Ok Reference.updated_message) Reference.add_to_text
  = (Raise (ValueError ("Invalid type for ADD operation on field 'body'. "
                        +:+ "DynamoDB ADD supports only Numbers and Sets. Got: str")), []).
Proof. vm_compute. reflexivity. Qed.

(** C6, as stated, fails when an earlier action fails first: the update
    holds an increment of a text field by a text value, and what is raised
    names another field with another message. *)
Lemma C6_counterexample :
  let a := {| kind := Add; field_name := "body"; value := PStr "x" |} in
  nth_error (actions Reference.bad_set_then_add) 1 = Some a
  /\ validate a Reference.Message = Raise (add_type_error a (PStr "x"))
  /\ execute (fun _ => Ok Reference.updated_message) Reference.bad_set_then_add
     = (Raise (ValueError ("Validation failed for field 'views': "
                           +:+ "1 validation error: invalid input type")), [])
  /\ fst (execute (fun _ => Ok Reference.updated_message) Reference.bad_set_then_add)
     <> Raise (add_type_error a (PStr "x")).
Proof.
  intros a. split; [reflexivity|]. split; [reflexivity|].
  assert (H : execute (fun _ => Ok Reference.updated_message) Reference.bad_set_then_add
              = (Raise (ValueError ("Validation failed for field 'views': "
                                    +:+ "1 validation error: invalid input type")), []))
    by (vm_compute; reflexivity).
  split; [exact H|]. rewrite H. simpl. intros Hx. vm_compute in Hx. discriminate Hx.
Qed.

Lemma C6_witness :
  execute (fun _ => Ok Reference.updated_message) Reference.add_to_text
  = (Raise (ValueError ("Invalid type for ADD operation on field 'body'. "
                        +:+ "DynamoDB ADD supports only Numbers and Sets. " +:+ "Got: str")), []).
Proof.
  apply (proj2 (C6_add_of_non_number_fails_locally
                  (fun _ => Ok Reference.updated_message) Reference.add_to_text 0
                  {| kind := Add; field_name := "body"; value := PStr "x" |}
                  (Reference.field Reference.str_t) (PStr "x")
                  eq_refl eq_refl eq_refl eq_refl eq_refl eq_refl)).
  - reflexivity.
  - intros j a' Hj. lia.
Defined.

End UpdateExamples.

(** ** Polymorphic item resolution *)

Section ItemResolution.
Context `{F : PyFloat} `{V : !Base.ValidationLayer}.

Lemma raw_get_absent raw field :
  Serializer.dict_get raw field = None -> Base.raw_get raw field = PNone.
Proof. intros H. unfold Base.raw_get. rewrite H. reflexivity. Qed.

Lemma get_entity_class_unregistered config v :
  hashable v = true ->
  Spec.unregistered config v ->
  Config.get_entity_class config v = Ok None.
Proof.
  intros Hh Hu. unfold Config.get_entity_class. rewrite Hh. simpl.
  destruct (Config.registry_key v) as [s|] eqn:E; [|reflexivity].
  rewrite (Hu s E). reflexivity.
Qed.

(** C7 (amended).  Polymorphic item resolution instantiates the invoking
    type itself when the schema is not a polymorphic base, and when it is
    one and the discriminator value of the map is absent, falsy, or a
    hashable value the registry has no entity for.  Resolution adds no
    error of its own in these cases: its outcome, an instance or an
    exception, is the outcome of instantiating the invoking type. *)
Theorem C7_resolution_falls_back_to_invoking_type :
  forall (cls : Base.ModelClass Base.annotation_t) (raw_data : list (string * pyval)),
    (Spec.polymorphic_base (Base._meta cls) = false ->
     Base._deserialize_item cls raw_data = Base.instantiate (Base.__name__ cls) raw_data)
    /\ (forall field,
          Spec.polymorphic_base (Base._meta cls) = true ->
          Config.discriminator_field (Base._meta cls) = Some field ->
          Serializer.dict_get raw_data field = None
          \/ truthy (Base.raw_get raw_data field) = false
          \/ (hashable (Base.raw_get raw_data field) = true
              /\ Spec.unregistered (Base._meta cls) (Base.raw_get raw_data field)) ->
          Base._deserialize_item cls raw_data
          = Base.instantiate (Base.__name__ cls) raw_data).
Proof.
  intros cls raw_data. unfold Spec.polymorphic_base, Base._deserialize_item. split.
  - intros Hb. rewrite Hb. reflexivity.
  - intros field Hb Hf Hcase. rewrite Hb, Hf. simpl.
    destruct Hcase as [Habs|[Hfalsy|[Hh Hu]]].
    + rewrite (raw_get_absent _ _ Habs). reflexivity.
    + rewrite Hfalsy. reflexivity.
    + destruct (truthy (Base.raw_get raw_data field)); [|reflexivity].
      rewrite (get_entity_class_unregistered _ _ Hh Hu). reflexivity.
Qed.

End ItemResolution.

Section ItemResolutionExamples.
#[local] Existing Instance Reference.decimal_floats.
#[local] Existing Instance Reference.type_tags.
#[local] Existing Instance Reference.strict_layer.

Example known_discriminator_gives_subtype :
  Base.instance_of <$>
    (match Base._deserialize_item Reference.MyTable_with_User
             [("pk", PStr "123"); ("entity_type", PStr "USER"); ("name", PStr "Alice")] with
     | Ok x => Some x
     | Raise _ => None
     end) = Some "User".
Proof. vm_compute. reflexivity. Qed.

Example unknown_discriminator_gives_base :
  Base.instance_of <$>
    (match Base._deserialize_item Reference.MyTable_with_User
             [("pk", PStr "789"); ("entity_type", PStr "UNKNOWN")] with
     | Ok x => Some x
     | Raise _ => None
     end) = Some "MyTable".
Proof. vm_compute. reflexivity. Qed.

(** C7, as stated, fails on a field map that lacks the required primary
    key: the discriminator value is unregistered, the base type is
    selected, and its instantiation raises the validation error. *)
Lemma C7_counterexample :
  Spec.unregistered (Base._meta Reference.MyTable_with_User) (PStr "UNKNOWN")
  /\ Base._deserialize_item Reference.MyTable_with_User [("entity_type", PStr "UNKNOWN")]
     = Raise (PydanticValidationError "1 validation error for MyTable: Field required").
Proof.
  split; [|vm_compute; reflexivity].
  intros s Hs. inversion Hs; subst s. vm_compute. reflexivity.
Qed.

(** A discriminator attribute that is a list cannot be looked up. *)
Example list_discriminator_is_unhashable :
  Base._deserialize_item Reference.MyTable_with_User
    [("pk", PStr "123"); ("entity_type", PList [PStr "USER"])]
  = Raise (TypeError "unhashable type: 'list'").
Proof. vm_compute. reflexivity. Qed.

Lemma C7_witness :
  Base._deserialize_item Reference.MyTable_with_User
    [("pk", PStr "789"); ("entity_type", PStr "UNKNOWN")]
  = Base.instantiate "MyTable" [("pk", PStr "789"); ("entity_type", PStr "UNKNOWN")].
Proof.
  apply (proj2 (C7_resolution_falls_back_to_invoking_type
                  (V := Reference.strict_layer)
                  Reference.MyTable_with_User
                  [("pk", PStr "789"); ("entity_type", PStr "UNKNOWN")])
               "entity_type" eq_refl eq_refl).
  right. right. split; [reflexivity|].
  intros s Hs. inversion Hs; subst s. vm_compute. reflexivity.
Defined.

End ItemResolutionExamples.

(** ** Switching the index of a query *)

Section UsingIndex.
Context `{F : PyFloat} `{T : !PyText} `{V : !Base.ValidationLayer}
  `{B : !Conditions.ConditionExpressionBuilder}.

(** C8 (amended).  For an index defined in the schema, [using_index]
    succeeds; it binds ["#pk"] to the partition key of the index and leaves
    the table of values as it is, so [":pk"] still holds the value
    serialized at construction.  Besides the active index and the resolved
    key field names, the only other change is the ["#sk"] name placeholder:
    when it is present and the index has a sort key, it is re-bound to that
    sort key.  Every other name placeholder and the rest of the builder are
    unchanged. *)
Theorem C8_using_index_reseeds_key_names_only :
  forall (self : Query.DynamoQueryBuilder) (index : string) (gsi : Config.GSIDefinition),
    Config.get_gsi (Query.config self) index = Some gsi ->
    exists b : Query.DynamoQueryBuilder,
      Query.using_index self index = Ok b
      /\ Query.expression_names b !! "#pk" = Some (Config.gsi_pk_name gsi)
      /\ Query.expression_values b !! ":pk" = Query.expression_values self !! ":pk"
      /\ Query.index_name b = Some index
      /\ Query.pk_name b = Config.gsi_pk_name gsi
      /\ Query.sk_name b = Config.gsi_sk_name gsi
      /\ Spec.same_outside_keys self b
      /\ (forall k, k <> "#pk" -> k <> "#sk" ->
            Query.expression_names b !! k = Query.expression_names self !! k)
      /\ Query.expression_names b !! "#sk"
         = (if Config.str_truthy (Config.gsi_sk_name gsi)
               && bool_decide (is_Some (Query.expression_names self !! "#sk"))
            then Config.gsi_sk_name gsi
            else Query.expression_names self !! "#sk").
Proof.
  intros self index gsi Hg. unfold Query.using_index. rewrite Hg.
  eexists. split; [reflexivity|]. simpl.
  assert (Hsk : (<["#pk" := Config.gsi_pk_name gsi]> (Query.expression_names self)) !! "#sk"
                = Query.expression_names self !! "#sk")
    by (apply lookup_insert_ne; discriminate).
  rewrite Hsk.
  destruct (Config.str_truthy (Config.gsi_sk_name gsi)
            && bool_decide (is_Some (Query.expression_names self !! "#sk"))) eqn:Hc.
  - apply andb_true_iff in Hc. destruct Hc as [Ht _].
    destruct (Config.gsi_sk_name gsi) as [sk|] eqn:Es; [|discriminate Ht]. simpl.
    split. { rewrite lookup_insert_ne by discriminate. apply lookup_insert_eq. }
    repeat split; try reflexivity.
    + intros k Hk1 Hk2. rewrite !lookup_insert_ne by congruence. reflexivity.
    + apply lookup_insert_eq.
  - split. { apply lookup_insert_eq. }
    repeat split; try reflexivity.
    + intros k Hk1 Hk2. rewrite lookup_insert_ne by congruence. reflexivity.
    + exact Hsk.
Qed.

End UsingIndex.

Section UsingIndexExamples.
#[local] Existing Instance Reference.decimal_floats.
#[local] Existing Instance Reference.type_tags.
#[local] Existing Instance Reference.strict_layer.
#[local] Existing Instance Reference.equality_builder.

(** C8, as stated, fails once a sort-key predicate is set: switching to
    an index with a sort key re-binds ["#sk"] too. *)
Lemma C8_counterexample :
  (try! b <- Query.eq Reference.room_query (PStr "10:00");
   try! b' <- Query.using_index b "DateIndex";
   Ok (Query.expression_names b !! "#sk", Query.expression_names b' !! "#sk"))
  = Ok (Some "sent_at", Some "hour").
Proof. vm_compute. reflexivity. Qed.

Lemma C8_witness :
  exists b : Query.DynamoQueryBuilder,
    Query.using_index Reference.room_query "DateIndex" = Ok b
    /\ Query.expression_names b !! "#pk" = Some "day"
    /\ Query.expression_values b !! ":pk" = Some (Serializer.WS "general").
Proof.
  destruct (C8_using_index_reseeds_key_names_only
              Reference.room_query "DateIndex" Reference.by_date eq_refl)
    as [b [H1 [H2 [H3 _]]]].
  exists b. split; [exact H1|]. split; [exact H2|]. rewrite H3. reflexivity.
Defined.

End UsingIndexExamples.

(** ** Serializer: the round trip *)

Section RoundTrip.
Context `{F : PyFloat} `{T : !PyText}.
Import Serializer.

Lemma mapM_map {A A' C} (f : A' -> result exn C) (g : A -> A') (h : A -> C)
    (P : A -> bool) (xs : list A) :
  Forall (fun x => P x = true -> f (g x) = Ok (h x)) xs ->
  forallb P xs = true ->
  mapM f (map g xs) = Ok (map h xs).
Proof.
  induction 1 as [|x xs Hx _ IH]; intros Hall; [reflexivity|].
  simpl in Hall. apply andb_true_iff in Hall. destruct Hall as [Hp Hall].
  cbn [map mapM]. rewrite (Hx Hp).
  change (match mapM f (map g xs) with
          | Ok ys => Ok (h x :: ys)
          | Raise e => Raise e
          end = Ok (h x :: map h xs)).
  rewrite (IH Hall). reflexivity.
Qed.

Lemma mapM_items_map {A A' C} (f : A' -> result exn C) (g : A -> A') (h : A -> C)
    (P : A -> bool) (kvs : list (string * A)) :
  Forall (fun kv => P (snd kv) = true -> f (g (snd kv)) = Ok (h (snd kv))) kvs ->
  forallb (fun kv => P (snd kv)) kvs = true ->
  mapM_items f (map (fun kv => (fst kv, g (snd kv))) kvs)
  = Ok (map (fun kv => (fst kv, h (snd kv))) kvs).
Proof.
  induction 1 as [|[k v] kvs Hx _ IH]; intros Hall; [reflexivity|].
  simpl in Hall. apply andb_true_iff in Hall. destruct Hall as [Hp Hall].
  cbn [map mapM_items fst snd]. simpl in Hx. rewrite (Hx Hp).
  change (match mapM_items f (map (fun kv => (fst kv, g (snd kv))) kvs) with
          | Ok ys => Ok ((k, h v) :: ys)
          | Raise e => Raise e
          end = Ok ((k, h v) :: map (fun kv => (fst kv, h (snd kv))) kvs)).
  rewrite (IH Hall). reflexivity.
Qed.

Lemma map_items_id {A} (kvs : list (string * A)) :
  map (fun kv => (fst kv, snd kv)) kvs = kvs.
Proof. induction kvs as [|[k v] kvs IH]; simpl; congruence. Qed.

Lemma number_ok_finite d :
  Spec.number_ok d = true ->
  create_decimal d = Ok d
  /\ _serialize_n d = Ok d
  /\ mod1_is_zero d = Ok (Spec.whole d).
Proof.
  destruct d as [s c e| |]; simpl; try discriminate.
  intros H. apply andb_true_iff in H. destruct H as [Hc Hm].
  unfold _serialize_n, create_decimal. cbn [context_accepts] in Hc |- *.
  rewrite Hc. simpl. repeat split.
  destruct (c =? 0)%N eqn:Ez; [reflexivity|].
  simpl in Hm. apply Z.ltb_lt in Hm.
  replace (default_prec <=? adjusted c e) with false by (symmetry; apply Z.leb_gt; exact Hm).
  simpl. destruct (0 <=? e); reflexivity.
Qed.

Lemma int_of_decimal_of_int z : Decimal_to_int (Decimal_of_int z) = z.
Proof.
  unfold Decimal_to_int, Decimal_of_int. simpl.
  rewrite N2Z.inj_abs_N, Z.mul_1_r.
  destruct (z <? 0) eqn:E; [apply Z.ltb_lt in E|apply Z.ltb_ge in E]; lia.
Qed.

Lemma whole_int z : Spec.whole (Decimal_of_int z) = true.
Proof.
  unfold Spec.whole, Decimal_of_int.
  change (0 <=? 0) with true. rewrite orb_true_r. reflexivity.
Qed.

(** Members of a set of fresh texts are added one after the other. *)
Lemma existsb_member_text t seen :
  existsb (member_eqb (PStr t)) (map PStr seen) = existsb (String.eqb t) seen.
Proof. induction seen as [|s seen IH]; simpl; [reflexivity|]. rewrite IH. reflexivity. Qed.

Lemma fresh_texts_are_texts seen xs :
  Spec.fresh_texts seen xs = true -> xs = map PStr (map Spec.text_of xs).
Proof.
  revert seen. induction xs as [|x xs IH]; intros seen H; [reflexivity|].
  simpl in H. destruct x; try discriminate.
  apply andb_true_iff in H. destruct H as [_ H].
  simpl. f_equal. eapply IH. exact H.
Qed.

Lemma set_comprehension_fresh seen xs :
  Spec.fresh_texts seen xs = true ->
  set_comprehension _prepare_for_dynamo (map PStr seen) xs = Ok (map PStr seen ++ xs).
Proof.
  revert seen. induction xs as [|x xs IH]; intros seen H; simpl.
  - rewrite app_nil_r. reflexivity.
  - simpl in H. destruct x; try discriminate.
    apply andb_true_iff in H. destruct H as [Hn H].
    cbn [_prepare_for_dynamo]. unfold set_add. cbn [hashable negb].
    rewrite existsb_member_text. apply negb_true_iff in Hn. rewrite Hn.
    specialize (IH (seen ++ [s]) H). rewrite map_app in IH. simpl in IH.
    fold (set_comprehension _prepare_for_dynamo).
    rewrite IH. rewrite <- app_assoc. reflexivity.
Qed.

Lemma set_of_list_fresh seen xs :
  Spec.fresh_texts seen xs = true ->
  set_of_list (map PStr seen) xs = Ok (map PStr seen ++ xs).
Proof.
  revert seen. induction xs as [|x xs IH]; intros seen H; simpl.
  - rewrite app_nil_r. reflexivity.
  - simpl in H. destruct x; try discriminate.
    apply andb_true_iff in H. destruct H as [Hn H].
    unfold set_add. cbn [hashable negb].
    rewrite existsb_member_text. apply negb_true_iff in Hn. rewrite Hn. simpl.
    specialize (IH (seen ++ [s]) H). rewrite map_app in IH. simpl in IH.
    rewrite IH. rewrite <- app_assoc. reflexivity.
Qed.

Lemma texts_not_numbers seen x xs :
  Spec.fresh_texts seen (x :: xs) = true ->
  all_valid _is_number (x :: xs) = Ok false
  /\ all_valid _is_string (x :: xs) = Ok true
  /\ mapM member_string (x :: xs) = Ok (map Spec.text_of (x :: xs)).
Proof.
  intros H. split; [|split].
  - simpl in H. destruct x; try discriminate. reflexivity.
  - revert seen H. generalize (x :: xs) as l. clear x xs.
    induction l as [|y l IH]; intros seen H; [reflexivity|].
    simpl in H. destruct y; try discriminate.
    apply andb_true_iff in H. destruct H as [_ H]. simpl. eapply IH. exact H.
  - revert seen H. generalize (x :: xs) as l. clear x xs.
    induction l as [|y l IH]; intros seen H; [reflexivity|].
    simpl in H. destruct y; try discriminate.
    apply andb_true_iff in H. destruct H as [_ H].
    cbn [mapM map member_string Spec.text_of].
    change (match mapM member_string l with
            | Ok ys => Ok (s :: ys)
            | Raise e => Raise e
            end = Ok (s :: map Spec.text_of l)).
    rewrite (IH _ H). reflexivity.
Qed.

Lemma prepare_plain v :
  Spec.plain v = true -> _prepare_for_dynamo v = Ok (Spec.prepared v).
Proof.
  induction v using pyval_nested_ind; intros Hp; try reflexivity; try discriminate Hp.
  - (* set *)
    destruct fr; [discriminate Hp|]. cbn [Spec.plain] in Hp.
    cbn [_prepare_for_dynamo Spec.prepared].
    pose proof (set_comprehension_fresh [] xs Hp) as Hs. cbn [map app] in Hs.
    rewrite Hs. reflexivity.
  - (* list *)
    cbn [Spec.plain] in Hp. cbn [_prepare_for_dynamo Spec.prepared].
    rewrite <- (map_id xs) at 1.
    rewrite (mapM_map _prepare_for_dynamo (fun x => x) Spec.prepared Spec.plain xs H Hp).
    reflexivity.
  - (* dict *)
    cbn [Spec.plain] in Hp. cbn [_prepare_for_dynamo Spec.prepared].
    rewrite <- (map_items_id kvs) at 1.
    rewrite (mapM_items_map _prepare_for_dynamo (fun x => x) Spec.prepared Spec.plain kvs H Hp).
    reflexivity.
Qed.

Lemma serialize_plain v :
  Spec.plain v = true -> serialize (Spec.prepared v) = Ok (Spec.encoded v).
Proof.
  induction v using pyval_nested_ind; intros Hp; try reflexivity; try discriminate Hp.
  - (* int *)
    cbn [Spec.plain] in Hp. destruct (number_ok_finite _ Hp) as [_ [Hs _]].
    cbn [Spec.prepared serialize Spec.encoded]. rewrite Hs. reflexivity.
  - (* float *)
    cbn [Spec.plain] in Hp. destruct (number_ok_finite _ Hp) as [_ [Hs _]].
    cbn [Spec.prepared serialize Spec.encoded]. rewrite Hs. reflexivity.
  - (* set *)
    destruct fr; [discriminate Hp|]. cbn [Spec.plain] in Hp.
    destruct xs as [|x xs]; [reflexivity|].
    destruct (texts_not_numbers [] x xs Hp) as [Hn [Hs Hm]].
    cbn [Spec.prepared serialize Spec.encoded _is_type_set].
    rewrite Hn. cbn [Res.bind]. rewrite Hs. cbn [Res.bind]. rewrite Hm. reflexivity.
  - (* list *)
    cbn [Spec.plain] in Hp. cbn [Spec.prepared serialize Spec.encoded].
    rewrite (mapM_map serialize Spec.prepared Spec.encoded Spec.plain xs H Hp). reflexivity.
  - (* dict *)
    cbn [Spec.plain] in Hp. cbn [Spec.prepared serialize Spec.encoded].
    rewrite (mapM_items_map serialize Spec.prepared Spec.encoded Spec.plain kvs H Hp).
    reflexivity.
Qed.

Lemma deserialize_plain v :
  Spec.plain v = true -> deserialize (Spec.encoded v) = Ok (Spec.decoded v).
Proof.
  induction v using pyval_nested_ind; intros Hp; try reflexivity; try discriminate Hp.
  - cbn [Spec.plain] in Hp. destruct (number_ok_finite _ Hp) as [Hc _].
    cbn [Spec.encoded deserialize Spec.decoded]. unfold _deserialize_n. rewrite Hc. reflexivity.
  - cbn [Spec.plain] in Hp. destruct (number_ok_finite _ Hp) as [Hc _].
    cbn [Spec.encoded deserialize Spec.decoded]. unfold _deserialize_n. rewrite Hc. reflexivity.
  - destruct fr; [discriminate Hp|]. cbn [Spec.plain] in Hp.
    destruct xs as [|x xs]; [reflexivity|].
    cbn [Spec.encoded deserialize Spec.decoded].
    rewrite <- (fresh_texts_are_texts [] (x :: xs) Hp).
    pose proof (set_of_list_fresh [] (x :: xs) Hp) as Hs. cbn [map app] in Hs.
    rewrite Hs. reflexivity.
  - cbn [Spec.plain] in Hp. cbn [Spec.encoded deserialize Spec.decoded].
    rewrite (mapM_map deserialize Spec.encoded Spec.decoded Spec.plain xs H Hp). reflexivity.
  - cbn [Spec.plain] in Hp. cbn [Spec.encoded deserialize Spec.decoded].
    rewrite (mapM_items_map deserialize Spec.encoded Spec.decoded Spec.plain kvs H Hp).
    reflexivity.
Qed.

Lemma restore_plain v :
  float_repr_roundtrip ->
  Spec.plain v = true -> _restore_to_python (Spec.decoded v) = Ok (Spec.narrow v).
Proof.
  intros Hlaw.
  induction v using pyval_nested_ind; intros Hp; try reflexivity; try discriminate Hp.
  - cbn [Spec.plain] in Hp. destruct (number_ok_finite _ Hp) as [_ [_ Hm]].
    cbn [Spec.decoded _restore_to_python Spec.narrow]. rewrite Hm, whole_int.
    cbn [Res.bind]. rewrite int_of_decimal_of_int. reflexivity.
  - cbn [Spec.plain] in Hp. destruct (number_ok_finite _ Hp) as [_ [_ Hm]].
    cbn [Spec.decoded _restore_to_python Spec.narrow]. rewrite Hm. cbn [Res.bind].
    destruct (Spec.whole (float_to_decimal x)); [reflexivity|].
    rewrite Hlaw. reflexivity.
  - cbn [Spec.plain] in Hp. cbn [Spec.decoded _restore_to_python Spec.narrow].
    rewrite (mapM_map _restore_to_python Spec.decoded Spec.narrow Spec.plain xs H Hp).
    reflexivity.
  - cbn [Spec.plain] in Hp. cbn [Spec.decoded _restore_to_python Spec.narrow].
    rewrite (mapM_items_map _restore_to_python Spec.decoded Spec.narrow Spec.plain kvs H Hp).
    reflexivity.
Qed.

Lemma narrow_without_whole_float v :
  Spec.no_whole_float v = true -> Spec.narrow v = v.
Proof.
  induction v using pyval_nested_ind; intros Hw; try reflexivity.
  - cbn [Spec.no_whole_float] in Hw. cbn [Spec.narrow].
    apply negb_true_iff in Hw. rewrite Hw. reflexivity.
  - cbn [Spec.no_whole_float] in Hw. cbn [Spec.narrow]. f_equal.
    induction H as [|y ys Hy _ IH]; [reflexivity|].
    simpl in Hw. apply andb_true_iff in Hw. destruct Hw as [H1 H2].
    simpl. rewrite (Hy H1), (IH H2). reflexivity.
  - cbn [Spec.no_whole_float] in Hw. cbn [Spec.narrow]. f_equal.
    induction H as [|[k y] ys Hy _ IH]; [reflexivity|].
    simpl in Hw. apply andb_true_iff in Hw. destruct Hw as [H1 H2].
    simpl in *. rewrite (Hy H1), (IH H2). reflexivity.
Qed.

Lemma prepared_empty_set v :
  Spec.plain v = true -> is_empty_set (Spec.prepared v) = is_empty_set v.
Proof. destruct v; try reflexivity. Qed.

(** C1 (amended).  For a value built from None, booleans, integers and
    floats within the numeric limits, text, lists, string-keyed maps and
    sets of text, other than an empty set as the field itself, decoding
    the encoded item gives the item back with every float of zero
    fractional part replaced by the integer it denotes; the round trip is
    therefore exact in type and value when the value holds no such float. *)
Theorem C1_roundtrip_of_plain_values :
  float_repr_roundtrip ->
  forall (k : string) (v : pyval),
    Spec.plain v = true ->
    is_empty_set v = false ->
    (try! w <- to_dynamo [(k, v)]; from_dynamo w) = Ok [(k, Spec.narrow v)]
    /\ (Spec.no_whole_float v = true ->
        (try! w <- to_dynamo [(k, v)]; from_dynamo w) = Ok [(k, v)]).
Proof.
  intros Hlaw k v Hp He.
  assert (H : (try! w <- to_dynamo [(k, v)]; from_dynamo w) = Ok [(k, Spec.narrow v)]).
  { unfold to_dynamo. cbn [mapM_items]. rewrite (prepare_plain v Hp).
    cbn [Res.bind to_dynamo_loop]. unfold serialize_or.
    rewrite (serialize_plain v Hp). cbn [Res.bind].
    rewrite (prepared_empty_set v Hp), He. cbn [negb dict_set to_dynamo_loop].
    cbn [Res.bind]. unfold from_dynamo. cbn [mapM_items]. rewrite (deserialize_plain v Hp).
    cbn [Res.bind mapM_items]. rewrite (restore_plain v Hlaw Hp). reflexivity. }
  split; [exact H|].
  intros Hw. rewrite H, (narrow_without_whole_float v Hw). reflexivity.
Qed.

End RoundTrip.

Section RoundTripExamples.
#[local] Existing Instance Reference.decimal_floats.
#[local] Existing Instance Reference.type_tags.
Import Serializer.

Lemma reference_floats_roundtrip : @float_repr_roundtrip Reference.decimal_floats.
Proof. intros x. reflexivity. Qed.

(** The float 10.0 (text [10.0]) travels as the number [10.0] and comes
    back as the integer 10. *)
Example whole_float_comes_back_as_int :
  to_dynamo [("score", PFloat (DFinite false 100 (-1)))]
  = Ok [("score", WN (DFinite false 100 (-1)))]
  /\ from_dynamo [("score", WN (DFinite false 100 (-1)))] = Ok [("score", PInt 10)].
Proof. split; reflexivity. Qed.

(** C1, as stated, fails for a UUID, a supported scalar that is not a
    float: it is encoded as text and comes back as text. *)
Lemma C1_counterexample :
  (try! w <- to_dynamo [("id", PUUID "550e8400-e29b-41d4-a716-446655440000")];
   from_dynamo w)
  = Ok [("id", PStr "550e8400-e29b-41d4-a716-446655440000")]
  /\ (try! w <- to_dynamo [("id", PUUID "550e8400-e29b-41d4-a716-446655440000")];
      from_dynamo w)
     <> Ok [("id", PUUID "550e8400-e29b-41d4-a716-446655440000")].
Proof.
  split; [reflexivity|]. intros H. vm_compute in H. discriminate H.
Qed.

(** Other values that do not come back as they went: a Decimal, a set of
    integers, bytes, a frozenset, an enum member, an empty set. *)
Example decimal_comes_back_as_float :
  (try! w <- to_dynamo [("price", PDecimal (DFinite false 9999 (-2)))]; from_dynamo w)
  = Ok [("price", PFloat (DFinite false 9999 (-2)))].
Proof. reflexivity. Qed.

Example integer_set_comes_back_as_decimals :
  (try! w <- to_dynamo [("ids", PSet false [PInt 1; PInt 2])]; from_dynamo w)
  = Ok [("ids", PSet false [PDecimal (DFinite false 1 0); PDecimal (DFinite false 2 0)])].
Proof. reflexivity. Qed.

Example bytes_come_back_wrapped :
  (try! w <- to_dynamo [("blob", PBytes ["a"%char])]; from_dynamo w)
  = Ok [("blob", PBinary ["a"%char])].
Proof. reflexivity. Qed.

Example frozenset_comes_back_as_set :
  (try! w <- to_dynamo [("perms", PSet true [PStr "read"; PStr "write"])]; from_dynamo w)
  = Ok [("perms", PSet false [PStr "read"; PStr "write"])].
Proof. reflexivity. Qed.

Example enum_comes_back_as_its_value :
  (try! w <- to_dynamo [("status", PEnum "Status" false (PStr "active"))]; from_dynamo w)
  = Ok [("status", PStr "active")].
Proof. reflexivity. Qed.

Example empty_set_does_not_come_back :
  (try! w <- to_dynamo [("tags", PSet false [])]; from_dynamo w) = Ok [].
Proof. reflexivity. Qed.

(** An integer of 29 digits is encoded, and cannot be decoded. *)
Example large_integer_is_not_decoded :
  (try! w <- to_dynamo [("n", PInt (10 ^ 28))]; from_dynamo w)
  = Raise (DecimalException "InvalidOperation").
Proof. vm_compute. reflexivity. Qed.

Lemma C1_witness :
  (try! w <- to_dynamo
               [("user", PDict [("name", PStr "Alice"); ("age", PInt 25);
                                ("score", PFloat (DFinite false 100 (-1)));
                                ("scores", PList [PFloat (DFinite false 955 (-1)); PNone]);
                                ("tags", PSet false [PStr "a"; PStr "b"]);
                                ("active", PBool true)])];
   from_dynamo w)
  = Ok [("user", PDict [("name", PStr "Alice"); ("age", PInt 25);
                        ("score", PInt 10);
                        ("scores", PList [PFloat (DFinite false 955 (-1)); PNone]);
                        ("tags", PSet false [PStr "a"; PStr "b"]);
                        ("active", PBool true)])].
Proof.
  exact (proj1 (C1_roundtrip_of_plain_values reference_floats_roundtrip "user"
                  (PDict [("name", PStr "Alice"); ("age", PInt 25);
                          ("score", PFloat (DFinite false 100 (-1)));
                          ("scores", PList [PFloat (DFinite false 955 (-1)); PNone]);
                          ("tags", PSet false [PStr "a"; PStr "b"]);
                          ("active", PBool true)])
                  eq_refl eq_refl)).
Defined.

End RoundTripExamples.

(** * Further properties of the code *)

Section SerializerFacts.
Context `{F : PyFloat} `{T : !PyText}.
Import Serializer.

Lemma dict_set_fresh {V} (d : list (string * V)) k v :
  ~ In k (map fst d) -> dict_set d k v = d ++ [(k, v)].
Proof.
  induction d as [|[k' v'] d IH]; simpl; intros H; [reflexivity|].
  destruct (k' =? k)%string eqn:E.
  - apply String.eqb_eq in E. tauto.
  - f_equal. apply IH. tauto.
Qed.

Lemma in_dict_set {V} (d : list (string * V)) k v k' v' :
  In (k', v') (dict_set d k v) -> (k', v') = (k, v) \/ In (k', v') d.
Proof.
  induction d as [|[k0 v0] d IH]; simpl.
  - intros [H|[]]. left. congruence.
  - destruct (k0 =? k)%string; simpl; intros [H|H]; auto.
    destruct (IH H); auto.
Qed.

Lemma mapM_items_ok_map {A C} (f : A -> result exn C) (h : A -> C) (kvs : list (string * A)) :
  Forall (fun kv => f (snd kv) = Ok (h (snd kv))) kvs ->
  mapM_items f kvs = Ok (map (fun kv => (fst kv, h (snd kv))) kvs).
Proof.
  induction 1 as [|[k v] kvs Hx _ IH]; [reflexivity|].
  simpl in Hx. cbn [mapM_items map fst snd]. rewrite Hx.
  change (match mapM_items f kvs with
          | Ok ys => Ok ((k, h v) :: ys)
          | Raise e => Raise e
          end = Ok ((k, h v) :: map (fun kv => (fst kv, h (snd kv))) kvs)).
  rewrite IH. reflexivity.
Qed.

Lemma mapM_items_cons {A C} (f : A -> result exn C) k v (kvs : list (string * A)) :
  mapM_items f ((k, v) :: kvs)
  = (try! y <- f v; try! ys <- mapM_items f kvs; Ok ((k, y) :: ys)).
Proof. cbn [mapM_items Res.bind]. destruct (f v); reflexivity. Qed.

Lemma mapM_cons {A C} (f : A -> result exn C) x (xs : list A) :
  mapM f (x :: xs) = (try! y <- f x; try! ys <- mapM f xs; Ok (y :: ys)).
Proof. cbn [mapM Res.bind]. destruct (f x); reflexivity. Qed.

(** *** The cursor *)

Lemma key_number s c e :
  Derived.key_attribute (WN (DFinite s c e)) = true ->
  e = 0 /\ context_accepts (DFinite s c 0) = true
  /\ mod1_is_zero (DFinite s c 0) = Ok true
  /\ Decimal_of_int (Decimal_to_int (DFinite s c 0)) = DFinite s c 0.
Proof.
  cbn [Derived.key_attribute]. intros H.
  apply andb_true_iff in H. destruct H as [H Hok].
  apply andb_true_iff in H. destruct H as [He Hz].
  apply Z.eqb_eq in He. subst e.
  cbn [Spec.number_ok] in Hok. apply andb_true_iff in Hok. destruct Hok as [Hc Hp].
  split; [reflexivity|]. split; [exact Hc|]. split.
  - cbn [mod1_is_zero]. destruct (c =? 0)%N eqn:E; [reflexivity|].
    simpl in Hp. apply Z.ltb_lt in Hp.
    destruct (default_prec <=? adjusted c 0) eqn:E2; [apply Z.leb_le in E2; lia|].
    reflexivity.
  - unfold Decimal_to_int, Decimal_of_int. cbn [Z.leb Z.compare].
    change (0 <=? 0) with true. cbv iota. rewrite Z.pow_0_r, Z.mul_1_r.
    destruct s.
    + destruct (c =? 0)%N eqn:E; [discriminate|]. apply N.eqb_neq in E.
      assert ((- Z.of_N c <? 0) = true) as -> by (apply Z.ltb_lt; lia).
      f_equal. rewrite Zabs2N.inj_opp. apply Zabs2N.id.
    + assert ((Z.of_N c <? 0) = false) as -> by (apply Z.ltb_ge; lia).
      f_equal. apply Zabs2N.id.
Qed.

Lemma decode_key_attribute w :
  Derived.key_attribute w = true ->
  (try! v <- deserialize w; _restore_to_python v) = Ok (Derived.key_value w).
Proof.
  destruct w as [| |d| | | | | | |]; try discriminate; try reflexivity.
  destruct d as [s c e| |]; try discriminate.
  intros H. destruct (key_number s c e H) as (-> & Hc & Hm & _).
  cbn [deserialize]. unfold _deserialize_n, create_decimal. rewrite Hc.
  cbn [Res.bind _restore_to_python]. rewrite Hm. reflexivity.
Qed.

Lemma encode_key_value w :
  Derived.key_attribute w = true ->
  _prepare_for_dynamo (Derived.key_value w) = Ok (Derived.key_value w)
  /\ is_empty_set (Derived.key_value w) = false
  /\ forall wrap, serialize_or (Derived.key_value w) wrap = Ok w.
Proof.
  destruct w as [| |d| | | | | | |]; try discriminate;
    try (intros _; repeat split; reflexivity).
  destruct d as [s c e| |]; try discriminate.
  intros H. destruct (key_number s c e H) as (-> & Hc & _ & Hd).
  repeat split. intros wrap. unfold serialize_or.
  cbn [Derived.key_value serialize]. rewrite Hd.
  unfold _serialize_n, create_decimal. rewrite Hc. reflexivity.
Qed.

Lemma from_dynamo_cons k w (rest : list (string * wire)) :
  from_dynamo ((k, w) :: rest)
  = match deserialize w with
    | Raise e => Raise e
    | Ok v =>
        match mapM_items deserialize rest with
        | Raise e => Raise e
        | Ok vs => mapM_items _restore_to_python ((k, v) :: vs)
        end
    end.
Proof.
  unfold from_dynamo. cbn [mapM_items]. destruct (deserialize w); [|reflexivity].
  destruct (mapM_items deserialize rest); reflexivity.
Qed.

Lemma from_dynamo_key (key : list (string * wire)) :
  forallb (fun kv => Derived.key_attribute (snd kv)) key = true ->
  from_dynamo key = Ok (map (fun kv => (fst kv, Derived.key_value (snd kv))) key).
Proof.
  intros H. unfold from_dynamo.
  assert (Hd : exists vs, mapM_items deserialize key = Ok vs
             /\ mapM_items _restore_to_python vs
                = Ok (map (fun kv => (fst kv, Derived.key_value (snd kv))) key)).
  { induction key as [|[k w] key IH]; [exists []; split; reflexivity|].
    simpl in H. apply andb_true_iff in H. destruct H as [Hw H].
    destruct (IH H) as (vs & Hvs & Hrs).
    pose proof (decode_key_attribute w Hw) as Hk.
    destruct (deserialize w) as [v|e] eqn:E; [|discriminate]. simpl in Hk.
    exists ((k, v) :: vs). split.
    - rewrite mapM_items_cons, E, Hvs. reflexivity.
    - rewrite mapM_items_cons, Hk, Hrs. reflexivity. }
  destruct Hd as (vs & -> & Hrs). exact Hrs.
Qed.

Lemma loop_key (key : list (string * wire)) :
  forallb (fun kv => Derived.key_attribute (snd kv)) key = true ->
  List.NoDup (map fst key) ->
  forall result,
    (forall k, In k (map fst key) -> ~ In k (map fst result)) ->
    to_dynamo_loop (map (fun kv => (fst kv, Derived.key_value (snd kv))) key) result
    = Ok (result ++ key).
Proof.
  induction key as [|[k w] key IH]; intros H Hnd result Hfresh.
  - simpl. rewrite app_nil_r. reflexivity.
  - simpl in H. apply andb_true_iff in H. destruct H as [Hw H].
    apply List.NoDup_cons_iff in Hnd. destruct Hnd as [Hk Hnd].
    destruct (encode_key_value w Hw) as (_ & He & Hs).
    cbn [map to_dynamo_loop fst snd]. rewrite Hs. cbn [Res.bind]. rewrite He. cbn [negb].
    rewrite dict_set_fresh by (apply Hfresh; left; reflexivity).
    rewrite IH; [rewrite <- app_assoc; reflexivity|exact H|exact Hnd|].
    intros k' Hk' Hin. rewrite map_app in Hin. apply in_app_or in Hin.
    destruct Hin as [Hin|[Hin|[]]].
    + apply (Hfresh k'); [right; exact Hk'|exact Hin].
    + simpl in Hin. subst k'. exact (Hk Hk').
Qed.

(** X1.  A cursor round trip: the cursor [serialize_cursor] makes of a
    last evaluated key whose attributes are text, binary or integers is
    turned back into that very key by [deserialize_cursor]. *)
Theorem X1_cursor_roundtrip :
  forall key : list (string * wire),
    List.NoDup (map fst key) ->
    forallb (fun kv => Derived.key_attribute (snd kv)) key = true ->
    exists cursor,
      serialize_cursor key = Ok cursor
      /\ map fst cursor = map fst key
      /\ deserialize_cursor cursor = Ok key.
Proof.
  intros key Hnd Hk.
  exists (map (fun kv => (fst kv, Derived.key_value (snd kv))) key).
  split; [apply from_dynamo_key; exact Hk|].
  split; [rewrite map_map; reflexivity|].
  unfold deserialize_cursor, to_dynamo.
  rewrite (mapM_items_ok_map _prepare_for_dynamo (fun v => v)).
  - cbn [Res.bind]. rewrite map_items_id.
    rewrite (loop_key key Hk Hnd []); [reflexivity|]. intros k _ [].
  - apply List.Forall_forall. intros [k v] Hin. cbn [snd].
    apply in_map_iff in Hin. destruct Hin as ([k' w] & Heq & Hin).
    cbn [fst snd] in Heq. inversion Heq; subst k v.
    assert (Hw : Derived.key_attribute w = true).
    { rewrite forallb_forall in Hk. apply (Hk (k', w) Hin). }
    apply (encode_key_value w Hw).
Qed.


(** *** What [to_dynamo] keeps *)

Lemma set_add_non_empty (s : list pyval) x s' : set_add s x = Ok s' -> s' <> [].
Proof.
  unfold set_add. destruct (negb (hashable x)); [discriminate|].
  destruct (existsb (member_eqb x) s) eqn:E; intros H; inversion H; subst.
  - destruct s'; [discriminate|]. discriminate.
  - destruct s; discriminate.
Qed.

Lemma set_comprehension_non_empty (f : pyval -> result exn pyval) xs :
  forall s s', set_comprehension f s xs = Ok s' -> s <> [] -> s' <> [].
Proof.
  induction xs as [|x xs IH]; intros s s' H Hs; cbn [set_comprehension] in H.
  - inversion H; subst. exact Hs.
  - destruct (f x) as [y|e]; [|discriminate].
    destruct (set_add s y) as [s1|e] eqn:E; [|discriminate].
    apply (IH s1 s' H). eapply set_add_non_empty. exact E.
Qed.

Lemma dropped_enum c m v : Derived.dropped (PEnum c m v) = is_empty_set v.
Proof.
  destruct v; reflexivity.
Qed.

Lemma prepare_empty_set_iff v v' :
  _prepare_for_dynamo v = Ok v' -> is_empty_set v' = Derived.dropped v.
Proof.
  destruct v as [| | | | | | | | | | |c m v|fr xs|xs|xs|kvs|]; cbn [_prepare_for_dynamo];
    intros H; try (inversion H; subst; reflexivity).
  - destruct (mixin_data m v) as [[]|]; inversion H; subst; symmetry; apply dropped_enum.
  - destruct xs as [|x xs].
    + inversion H; subst. reflexivity.
    + destruct (set_comprehension _prepare_for_dynamo [] (x :: xs)) as [s|e] eqn:E;
        [|discriminate].
      inversion H; subst. cbn [Derived.dropped].
      cbn [set_comprehension] in E.
      destruct (_prepare_for_dynamo x) as [y|e]; [|discriminate].
      destruct (set_add [] y) as [s1|e] eqn:E1; [|discriminate].
      pose proof (set_comprehension_non_empty _ _ _ _ E (set_add_non_empty _ _ _ E1)) as Hs.
      destruct s; [contradiction|reflexivity].
  - destruct (mapM _prepare_for_dynamo xs); inversion H; reflexivity.
  - destruct (mapM_items _prepare_for_dynamo kvs); inversion H; reflexivity.
Qed.

Lemma serialize_or_ok v wrap w : serialize_or v wrap = Ok w -> serialize v = Ok w.
Proof.
  unfold serialize_or. destruct (serialize v) as [w'|e]; [congruence|].
  destruct e; discriminate.
Qed.

Lemma prepared_names (data clean : list (string * pyval)) :
  mapM_items _prepare_for_dynamo data = Ok clean ->
  map fst clean = map fst data
  /\ map fst (List.filter (fun kv => negb (is_empty_set (snd kv))) clean)
     = map fst (List.filter (fun kv => negb (Derived.dropped (snd kv))) data).
Proof.
  revert clean. induction data as [|[k v] data IH]; intros clean H.
  - inversion H; subst. split; reflexivity.
  - rewrite mapM_items_cons in H.
    destruct (_prepare_for_dynamo v) as [v'|e] eqn:E; [|discriminate]. cbn [Res.bind] in H.
    destruct (mapM_items _prepare_for_dynamo data) as [rest|e]; [|discriminate].
    inversion H; subst. destruct (IH rest eq_refl) as [Hk Hf].
    split; [cbn [map fst]; congruence|].
    cbn [List.filter snd]. rewrite (prepare_empty_set_iff v v' E).
    destruct (Derived.dropped v); cbn [negb map fst]; congruence.
Qed.

Lemma loop_names (clean : list (string * pyval)) :
  List.NoDup (map fst clean) ->
  forall result w,
    (forall k, In k (map fst clean) -> ~ In k (map fst result)) ->
    to_dynamo_loop clean result = Ok w ->
    map fst w
    = map fst result
      ++ map fst (List.filter (fun kv => negb (is_empty_set (snd kv))) clean).
Proof.
  induction clean as [|[k v] clean IH]; intros Hnd result w Hfresh H.
  - inversion H; subst. cbn. rewrite app_nil_r. reflexivity.
  - apply List.NoDup_cons_iff in Hnd. destruct Hnd as [Hk Hnd].
    cbn [to_dynamo_loop] in H.
    destruct (serialize_or v (field_error k v)) as [s|e]; [|discriminate].
    cbn [Res.bind] in H. cbn [List.filter snd].
    destruct (is_empty_set v); cbn [negb] in *.
    + apply (IH Hnd result w); [|exact H].
      intros k' Hk'. apply Hfresh. right. exact Hk'.
    + rewrite dict_set_fresh in H by (apply Hfresh; left; reflexivity).
      rewrite (IH Hnd _ w) with (2 := H).
      * rewrite map_app. cbn [map fst]. rewrite <- app_assoc. reflexivity.
      * intros k' Hk' Hin. rewrite map_app in Hin. apply in_app_or in Hin.
        destruct Hin as [Hin|[Hin|[]]].
        -- apply (Hfresh k'); [right; exact Hk'|exact Hin].
        -- cbn in Hin. subst k'. exact (Hk Hk').
Qed.

(** X2.  [to_dynamo] keeps the names and the order of the fields: the
    encoded item has one attribute for each field that is not dropped as an
    empty set, under the same name and in the same order. *)
Theorem X2_to_dynamo_keeps_names_and_order :
  forall (data : list (string * pyval)) (w : list (string * wire)),
    List.NoDup (map fst data) ->
    to_dynamo data = Ok w ->
    map fst w
    = map fst (List.filter (fun kv => negb (Derived.dropped (snd kv))) data).
Proof.
  intros data w Hnd H. unfold to_dynamo in H.
  destruct (mapM_items _prepare_for_dynamo data) as [clean|e] eqn:E; [|discriminate].
  cbn [Res.bind] in H. destruct (prepared_names data clean E) as [Hk Hf].
  rewrite <- Hf. apply (loop_names clean) with (result := []).
  - rewrite Hk. exact Hnd.
  - intros k _ [].
  - exact H.
Qed.

(** *** No empty set is sent *)

Lemma mapM_length {A C} (f : A -> result exn C) (xs : list A) l :
  mapM f xs = Ok l -> length l = length xs.
Proof.
  revert l. induction xs as [|x xs IH]; intros l H.
  - inversion H; reflexivity.
  - rewrite mapM_cons in H. destruct (f x); [|discriminate]. cbn [Res.bind] in H.
    destruct (mapM f xs) as [ys|e]; [|discriminate]. inversion H; subst.
    cbn [length]. f_equal. apply IH. reflexivity.
Qed.

Lemma serialize_non_empty v w :
  serialize v = Ok w -> is_empty_set v = false -> Derived.empty_set_attribute w = false.
Proof.
  destruct v as [| |z|x|d| | | | | | |c m v0|fr xs|xs|xs|kvs|]; cbn [serialize];
    intros H He; try discriminate; try (inversion H; subst; reflexivity).
  - destruct (_serialize_n (Decimal_of_int z)); inversion H; reflexivity.
  - destruct (_serialize_n d); inversion H; reflexivity.
  - destruct (mixin_data m v0) as [[]|]; try discriminate;
      try (inversion H; subst; reflexivity).
    destruct (_serialize_n _); inversion H; reflexivity.
  - destruct xs as [|x xs]; [discriminate|].
    assert (Hl : forall {C} (f : pyval -> result exn C) l, mapM f (x :: xs) = Ok l -> l <> []).
    { intros C f l Hm Hn. apply mapM_length in Hm. subst l. discriminate. }
    destruct (_is_type_set (PSet fr (x :: xs)) _is_number) as [[|]|e]; [| |discriminate];
      cbn [Res.bind] in H.
    { destruct (mapM member_number (x :: xs)) as [l|e] eqn:E; [|discriminate].
      inversion H; subst. destruct l; [exfalso; exact (Hl _ _ _ E eq_refl)|reflexivity]. }
    destruct (_is_type_set (PSet fr (x :: xs)) _is_string) as [[|]|e]; [| |discriminate];
      cbn [Res.bind] in H.
    { destruct (mapM member_string (x :: xs)) as [l|e] eqn:E; [|discriminate].
      inversion H; subst. destruct l; [exfalso; exact (Hl _ _ _ E eq_refl)|reflexivity]. }
    destruct (_is_type_set (PSet fr (x :: xs)) _is_binary) as [[|]|e]; [| |discriminate];
      cbn [Res.bind] in H; [|discriminate].
    destruct (mapM member_binary (x :: xs)) as [l|e] eqn:E; [|discriminate].
    inversion H; subst. destruct l; [exfalso; exact (Hl _ _ _ E eq_refl)|reflexivity].
  - destruct (mapM serialize xs); inversion H; reflexivity.
  - destruct (mapM serialize xs); inversion H; reflexivity.
  - destruct (mapM_items serialize kvs); inversion H; reflexivity.
Qed.

Lemma loop_non_empty (clean : list (string * pyval)) :
  forall result w,
    (forall k x, In (k, x) result -> Derived.empty_set_attribute x = false) ->
    to_dynamo_loop clean result = Ok w ->
    forall k x, In (k, x) w -> Derived.empty_set_attribute x = false.
Proof.
  induction clean as [|[k v] clean IH]; intros result w Hr H.
  - inversion H; subst. exact Hr.
  - cbn [to_dynamo_loop] in H.
    destruct (serialize_or v (field_error k v)) as [s|e] eqn:E; [|discriminate].
    cbn [Res.bind] in H. destruct (is_empty_set v) eqn:Ev; cbn [negb] in H.
    + apply (IH result w Hr H).
    + apply (IH _ w) with (2 := H). intros k' x Hin.
      apply in_dict_set in Hin. destruct Hin as [Heq|Hin]; [|apply (Hr k' x Hin)].
      inversion Heq; subst. eapply serialize_non_empty; [|exact Ev].
      eapply serialize_or_ok. exact E.
Qed.

(** X3.  [to_dynamo] never emits an attribute that is a set without
    members: no entry of an encoded item is an empty NS, SS or BS. *)
Theorem X3_to_dynamo_emits_no_empty_set :
  forall (data : list (string * pyval)) (w : list (string * wire)),
    to_dynamo data = Ok w ->
    forall k x, In (k, x) w -> Derived.empty_set_attribute x = false.
Proof.
  intros data w H. unfold to_dynamo in H.
  destruct (mapM_items _prepare_for_dynamo data) as [clean|e]; [|discriminate].
  cbn [Res.bind] in H. apply (loop_non_empty clean [] w); [intros k x []|exact H].
Qed.

End SerializerFacts.

Section SerializerErrors.
Context `{F : PyFloat} `{T : !PyText}.
Import Serializer.

Lemma mapM_raises {A C} (f : A -> result exn C) (Q : exn -> Prop) (xs : list A) e :
  Forall (fun x => forall e, f x = Raise e -> Q e) xs ->
  mapM f xs = Raise e -> Q e.
Proof.
  induction 1 as [|x xs Hx _ IH]; intros H; [discriminate|].
  cbn [mapM] in H. destruct (f x) as [y|e'] eqn:E.
  - destruct (mapM f xs) as [ys|e'']; [discriminate|]. inversion H; subst. apply IH. reflexivity.
  - inversion H; subst. apply Hx. reflexivity.
Qed.

Lemma mapM_items_raises {A C} (f : A -> result exn C) (Q : exn -> Prop)
    (kvs : list (string * A)) e :
  Forall (fun kv => forall e, f (snd kv) = Raise e -> Q e) kvs ->
  mapM_items f kvs = Raise e -> Q e.
Proof.
  induction 1 as [|[k v] kvs Hx _ IH]; intros H; [discriminate|].
  cbn [mapM_items] in H. cbn [snd] in Hx. destruct (f v) as [y|e'] eqn:E.
  - destruct (mapM_items f kvs) as [ys|e'']; [discriminate|].
    inversion H; subst. apply IH. reflexivity.
  - inversion H; subst. apply Hx. reflexivity.
Qed.

Lemma forall_raises {A C} (f : A -> result exn C) (Q : exn -> Prop) (xs : list A) :
  (forall x e, f x = Raise e -> Q e) ->
  Forall (fun x => forall e, f x = Raise e -> Q e) xs.
Proof. intros H. apply List.Forall_forall. intros x _. apply H. Qed.

Lemma set_add_raises (s : list pyval) x e :
  set_add s x = Raise e -> Derived.encoding_error e.
Proof.
  unfold set_add. destruct (negb (hashable x)).
  - intros H. inversion H; subst. constructor.
  - destruct (existsb (member_eqb x) s); discriminate.
Qed.

Lemma set_comprehension_raises (f : pyval -> result exn pyval) xs :
  Forall (fun x => forall e, f x = Raise e -> Derived.encoding_error e) xs ->
  forall s e, set_comprehension f s xs = Raise e -> Derived.encoding_error e.
Proof.
  induction 1 as [|x xs Hx _ IH]; intros s e H; [discriminate|].
  cbn [set_comprehension] in H. destruct (f x) as [y|e'] eqn:E.
  - destruct (set_add s y) as [s1|e''] eqn:E1.
    + apply (IH s1 e H).
    + inversion H; subst. eapply set_add_raises. exact E1.
  - inversion H; subst. apply Hx. reflexivity.
Qed.

Lemma prepare_raises v :
  forall e, _prepare_for_dynamo v = Raise e -> Derived.encoding_error e.
Proof.
  induction v as [| | | | | | | | | | |c m v IH|fr xs IH|xs IH|xs IH|kvs IH|]
    using pyval_nested_ind; intros e H; cbn [_prepare_for_dynamo] in H; try discriminate.
  - destruct (mixin_data m v) as [[]|]; try discriminate. inversion H; subst. constructor.
  - destruct (set_comprehension _prepare_for_dynamo [] xs) as [s|e'] eqn:E; [discriminate|].
    inversion H; subst. eapply set_comprehension_raises; [exact IH|exact E].
  - destruct (mapM _prepare_for_dynamo xs) as [l|e'] eqn:E; [discriminate|].
    inversion H; subst. eapply mapM_raises; [exact IH|exact E].
  - destruct (mapM_items _prepare_for_dynamo kvs) as [l|e'] eqn:E; [discriminate|].
    inversion H; subst. eapply mapM_items_raises; [exact IH|exact E].
Qed.

Lemma serialize_n_raises d e : _serialize_n d = Raise e -> Derived.encoder_error e.
Proof.
  unfold _serialize_n, create_decimal. destruct (context_accepts d); cbn [Res.bind].
  - destruct d as [s c x|[|]|]; intros H; inversion H; subst; left; eexists; reflexivity.
  - intros H. inversion H; subst. right. eexists. reflexivity.
Qed.

Lemma all_valid_raises (validator : pyval -> result exn bool) xs e :
  (forall x e, validator x = Raise e -> Derived.encoder_error e) ->
  all_valid validator xs = Raise e -> Derived.encoder_error e.
Proof.
  intros Hv. induction xs as [|x xs IH]; cbn [all_valid]; [discriminate|].
  destruct (validator x) as [[|]|e'] eqn:E; cbn [Res.bind]; [exact IH|discriminate|].
  intros H. inversion H; subst. eapply Hv. exact E.
Qed.

Lemma is_number_raises x e : _is_number x = Raise e -> Derived.encoder_error e.
Proof.
  destruct x; cbn; by_enum_case; intros H; inversion H; subst; left; eexists; reflexivity.
Qed.

Lemma is_string_raises x e : _is_string x = Raise e -> Derived.encoder_error e.
Proof. destruct x; cbn; by_enum_case; discriminate. Qed.

Lemma is_binary_raises x e : _is_binary x = Raise e -> Derived.encoder_error e.
Proof. destruct x; discriminate. Qed.

Lemma member_number_raises x e : member_number x = Raise e -> Derived.encoder_error e.
Proof.
  unfold member_number. destruct (as_number x).
  - apply serialize_n_raises.
  - intros H. inversion H; subst. left. eexists. reflexivity.
Qed.

Lemma member_string_raises x e : member_string x = Raise e -> Derived.encoder_error e.
Proof.
  unfold member_string. destruct (as_text x); intros H; inversion H; subst.
  left. eexists. reflexivity.
Qed.

Lemma member_binary_raises x e : member_binary x = Raise e -> Derived.encoder_error e.
Proof. destruct x; cbn; intros H; inversion H; subst; left; eexists; reflexivity. Qed.

Lemma unsupported_is_type_error v : Derived.encoder_error (unsupported_type v).
Proof. left. eexists. reflexivity. Qed.

Lemma serialize_raises v : forall e, serialize v = Raise e -> Derived.encoder_error e.
Proof.
  induction v as [| |z|x|d| | | | | | |c m v IH|fr xs IH|xs IH|xs IH|kvs IH|]
    using pyval_nested_ind; intros e H; cbn [serialize] in H; try discriminate;
    try (inversion H; subst; apply unsupported_is_type_error).
  - destruct (_serialize_n (Decimal_of_int z)) eqn:E; [discriminate|].
    inversion H; subst. eapply serialize_n_raises. exact E.
  - inversion H; subst. left. eexists. reflexivity.
  - destruct (_serialize_n d) eqn:E; [discriminate|].
    inversion H; subst. eapply serialize_n_raises. exact E.
  - destruct (mixin_data m v) as [[]|]; try discriminate;
      try (inversion H; subst; first [apply unsupported_is_type_error
                                     |left; eexists; reflexivity]).
    destruct (_serialize_n _) eqn:E; [discriminate|].
    inversion H; subst. eapply serialize_n_raises. exact E.
  - unfold _is_type_set in H.
    destruct (all_valid _is_number xs) as [[|]|e'] eqn:E1; cbn [Res.bind] in H.
    + destruct (mapM member_number xs) as [l|e'] eqn:E; [discriminate|].
      inversion H; subst. eapply mapM_raises; [|exact E].
      apply forall_raises. apply member_number_raises.
    + destruct (all_valid _is_string xs) as [[|]|e'] eqn:E2; cbn [Res.bind] in H.
      * destruct (mapM member_string xs) as [l|e'] eqn:E; [discriminate|].
        inversion H; subst. eapply mapM_raises; [|exact E].
        apply forall_raises. apply member_string_raises.
      * destruct (all_valid _is_binary xs) as [[|]|e'] eqn:E3; cbn [Res.bind] in H.
        -- destruct (mapM member_binary xs) as [l|e'] eqn:E; [discriminate|].
           inversion H; subst. eapply mapM_raises; [|exact E].
           apply forall_raises. apply member_binary_raises.
        -- inversion H; subst. apply unsupported_is_type_error.
        -- inversion H; subst. eapply all_valid_raises; [|exact E3]. apply is_binary_raises.
      * inversion H; subst. eapply all_valid_raises; [|exact E2]. apply is_string_raises.
    + inversion H; subst. eapply all_valid_raises; [|exact E1]. apply is_number_raises.
  - destruct (mapM serialize xs) as [l|e'] eqn:E; [discriminate|].
    inversion H; subst. eapply mapM_raises; [exact IH|exact E].
  - destruct (mapM serialize xs) as [l|e'] eqn:E; [discriminate|].
    inversion H; subst. eapply mapM_raises; [exact IH|exact E].
  - destruct (mapM_items serialize kvs) as [l|e'] eqn:E; [discriminate|].
    inversion H; subst. eapply mapM_items_raises; [exact IH|exact E].
Qed.

Lemma serialize_or_raises v (wrap : exn -> exn) e :
  (forall m, Derived.encoding_error (wrap (TypeError m))) ->
  serialize_or v wrap = Raise e -> Derived.encoding_error e.
Proof.
  intros Hw. unfold serialize_or.
  destruct (serialize v) as [w|e'] eqn:E; [discriminate|].
  destruct (serialize_raises v e' E) as [[m ->]|[s ->]]; intros H; inversion H; subst.
  - apply Hw.
  - constructor.
Qed.

Lemma loop_raises (clean : list (string * pyval)) :
  forall result e, to_dynamo_loop clean result = Raise e -> Derived.encoding_error e.
Proof.
  induction clean as [|[k v] clean IH]; intros result e H; [discriminate|].
  cbn [to_dynamo_loop] in H.
  destruct (serialize_or v (field_error k v)) as [s|e'] eqn:E; cbn [Res.bind] in H.
  - destruct (negb (is_empty_set v)); eapply IH; exact H.
  - inversion H; subst. eapply serialize_or_raises; [|exact E].
    intros m. unfold field_error. constructor.
Qed.

(** X4.  The exceptions of the encoding direction.  When [to_dynamo] or
    [to_dynamo_value] raises, the exception is a
    [DynamoSerializationError] wrapping the [TypeError] of the wire
    encoder, the [TypeError] of an unhashable member met while a set is
    rebuilt, or a signal of the decimal context: a [TypeError] of the wire
    encoder never reaches the caller unwrapped, while the signals of the
    decimal context do. *)
Theorem X4_encoding_errors :
  (forall (value : pyval) (e : exn),
      to_dynamo_value value = Raise e -> Derived.encoding_error e)
  /\ (forall (data : list (string * pyval)) (e : exn),
      to_dynamo data = Raise e -> Derived.encoding_error e).
Proof.
  split.
  - intros value e H. unfold to_dynamo_value in H.
    destruct (_prepare_for_dynamo value) as [clean|e'] eqn:E; cbn [Res.bind] in H.
    + eapply serialize_or_raises; [|exact H]. intros m. constructor.
    + inversion H; subst. eapply prepare_raises. exact E.
  - intros data e H. unfold to_dynamo in H.
    destruct (mapM_items _prepare_for_dynamo data) as [clean|e'] eqn:E; cbn [Res.bind] in H.
    + eapply loop_raises. exact H.
    + inversion H; subst. eapply mapM_items_raises; [|exact E].
      apply List.Forall_forall. intros kv _. apply prepare_raises.
Qed.

(** *** The decoding direction *)

Lemma wire_nested_ind (P : wire -> Prop) :
  (forall b, P (WNULL b)) -> (forall b, P (WBOOL b)) -> (forall d, P (WN d)) ->
  (forall s, P (WS s)) -> (forall b, P (WB b)) -> (forall xs, P (WSS xs)) ->
  (forall xs, P (WNS xs)) -> (forall xs, P (WBS xs)) ->
  (forall xs, Forall P xs -> P (WL xs)) ->
  (forall kvs, Forall (fun kv => P (snd kv)) kvs -> P (WM kvs)) ->
  forall w, P w.
Proof.
  intros HNULL HBOOL HN HS HB HSS HNS HBS HL HM.
  fix IH 1.
  intros [b|b|d|s|b|xs|xs|xs|xs|kvs];
    [apply HNULL|apply HBOOL|apply HN|apply HS|apply HB|apply HSS|apply HNS|apply HBS| |].
  - apply HL. induction xs as [|x xs IHxs]; constructor; [apply IH|exact IHxs].
  - apply HM. induction kvs as [|kv kvs IHkvs]; constructor; [apply IH|exact IHkvs].
Qed.

Lemma set_of_list_ok (xs : list pyval) :
  Forall (fun x => hashable x = true) xs ->
  forall s, exists s', set_of_list s xs = Ok s'.
Proof.
  induction 1 as [|x xs Hx _ IH]; intros s; [exists s; reflexivity|].
  cbn [set_of_list]. unfold set_add. rewrite Hx. cbn [negb].
  destruct (existsb (member_eqb x) s); cbn [Res.bind]; apply IH.
Qed.

Lemma deserialize_n_raises d e : _deserialize_n d = Raise e -> Derived.decimal_error e.
Proof.
  unfold _deserialize_n, create_decimal. destruct (context_accepts d); cbn [Res.bind];
    intros H; inversion H; subst. eexists. reflexivity.
Qed.

Lemma deserialize_n_hashable (xs : list Decimal) l :
  mapM _deserialize_n xs = Ok l -> Forall (fun x => hashable x = true) l.
Proof.
  revert l. induction xs as [|x xs IH]; intros l H.
  - inversion H; subst. constructor.
  - cbn [mapM] in H. destruct (_deserialize_n x) as [y|e] eqn:E; [|discriminate].
    destruct (mapM _deserialize_n xs) as [ys|e]; [|discriminate].
    inversion H; subst. constructor; [|apply IH; reflexivity].
    unfold _deserialize_n in E. destruct (create_decimal x); inversion E; reflexivity.
Qed.

Lemma deserialize_raises w : forall e, deserialize w = Raise e -> Derived.decimal_error e.
Proof.
  induction w as [b|b|d|s|b|xs|xs|xs|xs IH|kvs IH] using wire_nested_ind;
    intros e H; cbn [deserialize] in H; try discriminate.
  - eapply deserialize_n_raises. exact H.
  - destruct (set_of_list_ok (map PStr xs)) with (s := @nil pyval) as [s' Hs].
    { apply List.Forall_forall. intros x Hx. apply in_map_iff in Hx.
      destruct Hx as (t & <- & _). reflexivity. }
    rewrite Hs in H. discriminate.
  - destruct (mapM _deserialize_n xs) as [l|e'] eqn:E; cbn [Res.bind] in H.
    + destruct (set_of_list_ok l (deserialize_n_hashable xs l E) []) as [s' Hs].
      rewrite Hs in H. discriminate.
    + inversion H; subst. eapply mapM_raises; [|exact E].
      apply forall_raises. apply deserialize_n_raises.
  - destruct (set_of_list_ok (map PBinary xs)) with (s := @nil pyval) as [s' Hs].
    { apply List.Forall_forall. intros x Hx. apply in_map_iff in Hx.
      destruct Hx as (t & <- & _). reflexivity. }
    rewrite Hs in H. discriminate.
  - destruct (mapM deserialize xs) as [l|e'] eqn:E; [discriminate|].
    inversion H; subst. eapply mapM_raises; [exact IH|exact E].
  - destruct (mapM_items deserialize kvs) as [l|e'] eqn:E; [discriminate|].
    inversion H; subst. eapply mapM_items_raises; [exact IH|exact E].
Qed.

Lemma mod1_raises d e : mod1_is_zero d = Raise e -> Derived.decimal_error e.
Proof.
  destruct d as [s c x|s|]; cbn [mod1_is_zero]; try discriminate.
  - destruct (c =? 0)%N; [discriminate|].
    destruct (default_prec <=? adjusted c x).
    + intros H. inversion H. eexists. reflexivity.
    + destruct (0 <=? x); discriminate.
  - intros H. inversion H. eexists. reflexivity.
Qed.

Lemma restore_raises v : forall e, _restore_to_python v = Raise e -> Derived.decimal_error e.
Proof.
  induction v as [| | | |d| | | | | | |c m v IH|fr xs IH|xs IH|xs IH|kvs IH|]
    using pyval_nested_ind; intros e H; cbn [_restore_to_python] in H; try discriminate.
  - destruct (mod1_is_zero d) as [[|]|e'] eqn:E; cbn [Res.bind] in H; try discriminate.
    inversion H; subst. eapply mod1_raises. exact E.
  - destruct (mapM _restore_to_python xs) as [l|e'] eqn:E; [discriminate|].
    inversion H; subst. eapply mapM_raises; [exact IH|exact E].
  - destruct (mapM_items _restore_to_python kvs) as [l|e'] eqn:E; [discriminate|].
    inversion H; subst. eapply mapM_items_raises; [exact IH|exact E].
Qed.

(** X5.  [from_dynamo] returns one entry per attribute, under the same
    names and in the same order; the only exceptions it raises are signals
    of the decimal contexts (a number outside the limits of the wire, or
    too large for the test [value % 1 == 0]). *)
Theorem X5_from_dynamo_names_and_errors :
  forall item : list (string * wire),
    (forall d, from_dynamo item = Ok d -> map fst d = map fst item)
    /\ (forall e, from_dynamo item = Raise e ->
                  exists signal, e = DecimalException signal).
Proof.
  intros item. unfold from_dynamo. split.
  - intros d H.
    destruct (mapM_items deserialize item) as [python_data|e] eqn:E; [|discriminate].
    cbn [Res.bind] in H.
    rewrite (mapM_items_keys _ _ _ H), (mapM_items_keys _ _ _ E). reflexivity.
  - intros e H.
    destruct (mapM_items deserialize item) as [python_data|e'] eqn:E; cbn [Res.bind] in H.
    + eapply (mapM_items_raises _ Derived.decimal_error); [|exact H].
      apply List.Forall_forall. intros kv _. apply restore_raises.
    + inversion H; subst. eapply (mapM_items_raises _ Derived.decimal_error); [|exact E].
      apply List.Forall_forall. intros kv _. apply deserialize_raises.
Qed.

End SerializerErrors.

Section TranslationScope.
Context `{F : PyFloat}.

(** X6.  The translation scope is transparent for a result and for any
    exception that is not a transport fault; what leaves it is never a
    transport fault, so a scope around a scope changes nothing: the fault
    is translated once, with the table name of the inner scope. *)
Theorem X6_translation_scope_composes :
  forall (A : Type) (outer inner : option string) (body : result exn A),
    (forall a, body = Ok a -> handle_dynamo_errors inner body = Ok a)
    /\ (forall e, body = Raise e -> is_ClientError e = false ->
                  handle_dynamo_errors inner body = Raise e)
    /\ (forall e, handle_dynamo_errors inner body = Raise e -> is_ClientError e = false)
    /\ handle_dynamo_errors outer (handle_dynamo_errors inner body)
       = handle_dynamo_errors inner body.
Proof.
  intros A outer inner body.
  assert (Hnot : forall e, handle_dynamo_errors inner body = Raise e -> is_ClientError e = false).
  { intros e H. destruct body as [a|e0]; [discriminate|]. cbn in H. inversion H; subst.
    destruct e0 as [| | | | |response text| |]; try reflexivity.
    cbn [escaping].
    destruct (translate_is_typed inner response text) as [Ht _].
    destruct (translate_client_error inner response text); try discriminate. reflexivity. }
  split; [intros a ->; reflexivity|].
  split; [intros e -> He; destruct e; try reflexivity; discriminate|].
  split; [exact Hnot|].
  destruct (handle_dynamo_errors inner body) as [a|e] eqn:E; [reflexivity|].
  pose proof (Hnot e eq_refl) as He.
  cbn. destruct e; try reflexivity; discriminate.
Qed.

End TranslationScope.

Section Registration.
Context `{F : PyFloat} `{V : !Base.ValidationLayer}.

(** What a successful registration leaves on the base. *)
Lemma register_base (base sub base' sub' : Base.ModelClass Base.annotation_t) (v : string) :
  Base.register base v sub = Ok (base', sub') ->
  Config.entity_registry (Base._meta base) !! v = None
  /\ Base.__name__ base' = Base.__name__ base
  /\ Config.entity_registry (Base._meta base')
     = <[v := Base.__name__ sub]> (Config.entity_registry (Base._meta base))
  /\ Config.is_base_entity (Base._meta base') = Config.is_base_entity (Base._meta base)
  /\ Config.discriminator_field (Base._meta base')
     = Config.discriminator_field (Base._meta base).
Proof.
  unfold Base.register. intros H.
  destruct (negb (Config.is_polymorphic (Base._meta base))); [discriminate|].
  destruct (negb (Base.issubclass sub base)); [discriminate|].
  unfold Config.register_entity in H.
  destruct (Config.entity_registry (Base._meta base) !! v) as [existing|] eqn:Hreg;
    [discriminate|].
  cbn [Res.bind] in H. injection H as <- _.
  destruct (Base.__name__ sub =? Base.__name__ base)%string; repeat split.
Qed.

(** X7.  After [base.register(value)(sub)] succeeds on a polymorphic
    base, under a value that is not empty, the value was free before, an
    item whose discriminator field holds that value is instantiated from
    the base as [sub], the other values resolve as before, and
    registering anything under the same value again raises [ValueError]. *)
Theorem X7_registered_value_resolves :
  forall (base sub base' sub' : Base.ModelClass Base.annotation_t)
         (disc_field disc_value : string),
    Config.is_base_entity (Base._meta base) = true ->
    Config.discriminator_field (Base._meta base) = Some disc_field ->
    disc_field <> "" ->
    disc_value <> "" ->
    Base.register base disc_value sub = Ok (base', sub') ->
    Config.entity_registry (Base._meta base) !! disc_value = None
    /\ (forall raw,
           Base.raw_get raw disc_field = PStr disc_value ->
           Base._deserialize_item base' raw = Base.instantiate (Base.__name__ sub) raw)
    /\ (forall v, v <> disc_value ->
           Config.get_entity_class (Base._meta base') (PStr v)
           = Config.get_entity_class (Base._meta base) (PStr v))
    /\ (forall other, exists message,
           Base.register base' disc_value other = Raise (ValueError message)).
Proof.
  intros base sub base' sub' f v Hbase Hf Hfne Hvne H.
  destruct (register_base _ _ _ _ _ H) as (Hfree & Hname & Hreg & Hbe & Hdf).
  split; [exact Hfree|]. split; [|split].
  - intros raw Hraw. unfold Base._deserialize_item.
    rewrite Hbe, Hdf, Hbase, Hf. cbn [default].
    rewrite (str_truthy_some f Hfne). cbn [andb]. change (id f) with f. rewrite Hraw.
    cbn [truthy].
    assert ((v =? "")%string = false) as -> by (apply String.eqb_neq; exact Hvne).
    cbn [negb]. unfold Config.get_entity_class.
    cbn [hashable negb Res.bind Config.registry_key].
    rewrite Hreg, lookup_insert_eq. reflexivity.
  - intros v' Hv'. unfold Config.get_entity_class. cbn [hashable negb Config.registry_key].
    rewrite Hreg, lookup_insert_ne by congruence. reflexivity.
  - intros other. unfold Base.register.
    assert (Hp : Config.is_polymorphic (Base._meta base') = true).
    { unfold Config.is_polymorphic. rewrite Hdf, Hf. reflexivity. }
    rewrite Hp. cbn [negb].
    destruct (negb (Base.issubclass other base')); [eexists; reflexivity|].
    unfold Config.register_entity. rewrite Hreg, lookup_insert_eq. cbn [Res.bind].
    eexists. reflexivity.
Qed.

End Registration.

Section CompiledConditions.
Context `{F : PyFloat} `{T : !PyText} `{B : !Conditions.ConditionExpressionBuilder}.
Import Conditions.

Lemma serialize_values_spec (l : list (string * pyval)) :
  forall acc m,
    serialize_values l acc = Ok m ->
    (forall ph, is_Some (m !! ph) <-> In ph (map fst l) \/ is_Some (acc !! ph))
    /\ (forall ph w, m !! ph = Some w ->
          (exists v, In (ph, v) l /\ Serializer.to_dynamo_value v = Ok w)
          \/ acc !! ph = Some w).
Proof.
  induction l as [|[ph0 v0] l IH]; intros acc m H.
  - inversion H; subst. split.
    + intros ph. cbn. tauto.
    + intros ph w Hw. right. exact Hw.
  - cbn [serialize_values] in H.
    destruct (Serializer.to_dynamo_value v0) as [w0|e] eqn:E; [|discriminate].
    cbn [Res.bind] in H. destruct (IH _ _ H) as [Hdom Hval]. split.
    + intros ph. rewrite Hdom. cbn [map fst In].
      destruct (decide (ph0 = ph)) as [->|Hne].
      * rewrite lookup_insert_eq. split; [intros _; left; left; reflexivity|].
        intros _. right. eexists. reflexivity.
      * rewrite lookup_insert_ne by exact Hne. tauto.
    + intros ph w Hw. destruct (Hval ph w Hw) as [(v & Hin & Hv)|Hacc].
      * left. exists v. split; [right; exact Hin|exact Hv].
      * destruct (decide (ph0 = ph)) as [->|Hne].
        -- rewrite lookup_insert_eq in Hacc. inversion Hacc; subst.
           left. exists v0. split; [left; reflexivity|exact E].
        -- rewrite lookup_insert_ne in Hacc by exact Hne. right. exact Hacc.
Qed.

(** X8.  A compiled condition carries the expression text of the
    builder, the name table exactly when the builder made name
    placeholders, and the value table exactly when it made value
    placeholders; the value table binds the builder's placeholders and no
    other, each to the wire form [to_dynamo_value] gives one of its
    values. *)
Theorem X8_compiled_condition_tables :
  forall (condition : Condition) (p : ConditionParams),
    compile_condition condition = Ok p ->
    exists raw expression,
      _extract_raw condition = Ok raw
      /\ build_expression raw = Ok expression
      /\ ConditionExpression p = condition_expression expression
      /\ (ExpressionAttributeNames p = None <-> attribute_name_placeholders expression = [])
      /\ (forall names, ExpressionAttributeNames p = Some names ->
            names = list_to_map (attribute_name_placeholders expression))
      /\ (ExpressionAttributeValues p = None <-> attribute_value_placeholders expression = [])
      /\ (forall values, ExpressionAttributeValues p = Some values ->
            (forall ph, is_Some (values !! ph)
                        <-> In ph (map fst (attribute_value_placeholders expression)))
            /\ (forall ph w, values !! ph = Some w ->
                  exists v, In (ph, v) (attribute_value_placeholders expression)
                            /\ Serializer.to_dynamo_value v = Ok w)).
Proof.
  intros condition p H. unfold compile_condition in H.
  destruct (_extract_raw condition) as [raw|e] eqn:Hraw; [|discriminate].
  cbn [Res.bind] in H.
  destruct (build_expression raw) as [expression|e] eqn:Hbuild; [|discriminate].
  cbn [Res.bind] in H.
  exists raw, expression. split; [reflexivity|]. split; [exact Hbuild|].
  assert (Hnames :
            forall t : option (gmap string string),
              t = match attribute_name_placeholders expression with
                  | [] => None
                  | l => Some (list_to_map l)
                  end ->
              (t = None <-> attribute_name_placeholders expression = [])
              /\ (forall names, t = Some names ->
                    names = list_to_map (attribute_name_placeholders expression))).
  { intros t ->. destruct (attribute_name_placeholders expression) as [|np nps].
    - split; [tauto|]. intros names Hn. discriminate.
    - split; [split; discriminate|]. intros names Hn. inversion Hn. reflexivity. }
  destruct (attribute_value_placeholders expression) as [|vp vps] eqn:Hv.
  - cbn [Res.bind] in H. inversion H; subst p. clear H.
    cbn [ConditionExpression ExpressionAttributeNames ExpressionAttributeValues].
    split; [reflexivity|].
    destruct (Hnames _ eq_refl) as [Hn1 Hn2].
    split; [exact Hn1|]. split; [exact Hn2|]. split; [tauto|].
    intros values Hvalues. discriminate.
  - destruct (serialize_values (vp :: vps) ∅) as [m|e] eqn:Hs; [|discriminate].
    cbn [Res.bind] in H. inversion H; subst p. clear H.
    cbn [ConditionExpression ExpressionAttributeNames ExpressionAttributeValues].
    split; [reflexivity|].
    destruct (Hnames _ eq_refl) as [Hn1 Hn2].
    split; [exact Hn1|]. split; [exact Hn2|]. split; [split; discriminate|].
    intros values Heq. inversion Heq; subst values.
    destruct (serialize_values_spec _ _ _ Hs) as [Hdom Hval]. split.
    + intros ph. rewrite Hdom. rewrite lookup_empty. split; [|tauto].
      intros [Hin|Hs']; [exact Hin|]. destruct Hs' as [x Hx]. discriminate.
    + intros ph w Hw. destruct (Hval ph w Hw) as [Hex|Hacc]; [exact Hex|].
      rewrite lookup_empty in Hacc. discriminate.
Qed.

End CompiledConditions.

Section FilterChains.
Context `{F : PyFloat} `{T : !PyText} `{V : !Base.ValidationLayer}
  `{B : !Conditions.ConditionExpressionBuilder}.
Import Conditions.

Lemma query_filter_step (self : Query.DynamoQueryBuilder) c r :
  _extract_raw c = Ok r ->
  Query.filter self c
  = Ok (Derived.query_with_filter self
          match Query.user_filter_condition self with
          | Some existing => Boto3And existing r
          | None => r
          end).
Proof.
  intros Hr. unfold Query.filter.
  assert (Hw : wrap_condition c = Ok r) by (destruct c; exact Hr).
  rewrite Hw. cbn [Res.bind].
  destruct (Query.user_filter_condition self); reflexivity.
Qed.

Lemma scan_filter_step (self : Scan.DynamoScanBuilder) c r :
  _extract_raw c = Ok r ->
  Scan.filter self c
  = Ok (Derived.scan_with_filter self
          match Scan.user_filter_condition self with
          | Some existing => Boto3And existing r
          | None => r
          end).
Proof.
  intros Hr. unfold Scan.filter.
  assert (Hw : wrap_condition c = Ok r) by (destruct c; exact Hr).
  rewrite Hw. cbn [Res.bind].
  destruct (Scan.user_filter_condition self); reflexivity.
Qed.

Lemma query_filters_fold cs :
  forall rs (self : Query.DynamoQueryBuilder) r0,
    mapM _extract_raw cs = Ok rs ->
    Derived.query_filters (Derived.query_with_filter self r0) cs
    = Ok (Derived.query_with_filter self (fold_left Boto3And rs r0)).
Proof.
  induction cs as [|c cs IH]; intros rs self r0 H.
  - inversion H; subst. reflexivity.
  - cbn [mapM] in H. destruct (_extract_raw c) as [r|e] eqn:E; [|discriminate].
    destruct (mapM _extract_raw cs) as [rs'|e]; [|discriminate]. inversion H; subst.
    cbn [Derived.query_filters]. rewrite (query_filter_step _ c r E). cbn [Res.bind].
    cbn [Query.user_filter_condition Derived.query_with_filter fold_left].
    apply (IH rs' self (Boto3And r0 r) eq_refl).
Qed.

Lemma scan_filters_fold cs :
  forall rs (self : Scan.DynamoScanBuilder) r0,
    mapM _extract_raw cs = Ok rs ->
    Derived.scan_filters (Derived.scan_with_filter self r0) cs
    = Ok (Derived.scan_with_filter self (fold_left Boto3And rs r0)).
Proof.
  induction cs as [|c cs IH]; intros rs self r0 H.
  - inversion H; subst. reflexivity.
  - cbn [mapM] in H. destruct (_extract_raw c) as [r|e] eqn:E; [|discriminate].
    destruct (mapM _extract_raw cs) as [rs'|e]; [|discriminate]. inversion H; subst.
    cbn [Derived.scan_filters]. rewrite (scan_filter_step _ c r E). cbn [Res.bind].
    cbn [Scan.user_filter_condition Derived.scan_with_filter fold_left].
    apply (IH rs' self (Boto3And r0 r) eq_refl).
Qed.

(** X9.  Successive calls of [filter] are combined with AND in call
    order: on a query or scan builder without a user filter, filtering by
    [c], then by each condition of [cs], leaves the builder as it was but
    for the user filter, which is the left-nested conjunction of the
    conditions; conditions passed wrapped and conditions passed as raw
    boto3 objects count alike. *)
Theorem X9_filters_are_anded_in_call_order :
  forall (c : Condition) (cs : list Condition) (r : Boto3Condition) (rs : list Boto3Condition),
    _extract_raw c = Ok r ->
    mapM _extract_raw cs = Ok rs ->
    (forall self : Query.DynamoQueryBuilder,
        Query.user_filter_condition self = None ->
        Derived.query_filters self (c :: cs)
        = Ok (Derived.query_with_filter self (fold_left Boto3And rs r)))
    /\ (forall self : Scan.DynamoScanBuilder,
        Scan.user_filter_condition self = None ->
        Derived.scan_filters self (c :: cs)
        = Ok (Derived.scan_with_filter self (fold_left Boto3And rs r))).
Proof.
  intros c cs r rs Hr Hrs. split; intros self Hnone.
  - cbn [Derived.query_filters]. rewrite (query_filter_step self c r Hr), Hnone.
    cbn [Res.bind]. apply query_filters_fold. exact Hrs.
  - cbn [Derived.scan_filters]. rewrite (scan_filter_step self c r Hr), Hnone.
    cbn [Res.bind]. apply scan_filters_fold. exact Hrs.
Qed.

End FilterChains.

Section SortKeyConditions.
Context `{F : PyFloat} `{T : !PyText} `{V : !Base.ValidationLayer}
  `{B : !Conditions.ConditionExpressionBuilder}.

Lemma one_bound_shape f :
  In f Derived.one_bound_methods ->
  exists condition, forall self v,
    f self v = Query.sort_key_condition self condition [(":sk", v)].
Proof.
  unfold Derived.one_bound_methods. cbn [In].
  intros [<-|[<-|[<-|[<-|[<-|[<-|[<-|[]]]]]]]]; eexists; intros; reflexivity.
Qed.

Lemma sort_key_condition_again (self q : Query.DynamoQueryBuilder) c1 c2 a b :
  Query.sort_key_condition self c1 [(":sk", a)] = Ok q ->
  Query.sort_key_condition q c2 [(":sk", b)]
  = Query.sort_key_condition self c2 [(":sk", b)].
Proof.
  unfold Query.sort_key_condition.
  destruct (negb (Config.str_truthy (Query.sk_name self))) eqn:Hsk; [discriminate|].
  cbn [Query.put_values].
  destruct (Serializer.to_dynamo_value (Query._serialize_query_value a)) as [wa|e];
    [|discriminate].
  cbn [Res.bind]. intros H. inversion H; subst q. clear H.
  cbn [Query.sk_name Query.expression_values Query.expression_names Query.model_cls
       Query.pk_val Query.limit_val Query.scan_forward Query.index_name
       Query.filter_conditions Query.filter_values Query.filter_names
       Query.user_filter_condition Query.pk_name].
  rewrite Hsk.
  destruct (Serializer.to_dynamo_value (Query._serialize_query_value b)) as [wb|e];
    [|reflexivity].
  cbn [Res.bind]. rewrite !insert_insert_eq. reflexivity.
Qed.

(** X10.  A later sort-key condition replaces an earlier one: for the
    methods that take one bound ([starts_with], [gt], [lt], [ge], [le],
    [eq], [ne]), calling one on the builder another has returned gives the
    same builder, or the same exception, as calling it on the original
    builder. *)
Theorem X10_last_sort_key_condition_wins :
  forall f g,
    In f Derived.one_bound_methods ->
    In g Derived.one_bound_methods ->
    forall (self q : Query.DynamoQueryBuilder) (a b : pyval),
      f self a = Ok q ->
      g q b = g self b.
Proof.
  intros f g Hf Hg self q a b H.
  destruct (one_bound_shape f Hf) as [c1 H1].
  destruct (one_bound_shape g Hg) as [c2 H2].
  rewrite !H2. rewrite H1 in H. eapply sort_key_condition_again. exact H.
Qed.

End SortKeyConditions.

Section BuilderChains.
Context `{F : PyFloat} `{T : !PyText} `{V : !Base.ValidationLayer}
  `{B : !Conditions.ConditionExpressionBuilder}.

Lemma put_values_keeps (vs : list (string * pyval)) :
  forall m m' ph,
    ~ In ph (map fst vs) ->
    Query.put_values vs m = Ok m' ->
    m' !! ph = m !! ph.
Proof.
  induction vs as [|[p v] vs IH]; intros m m' ph Hnot H.
  - inversion H; subst. reflexivity.
  - cbn [Query.put_values] in H.
    destruct (Serializer.to_dynamo_value (Query._serialize_query_value v)) as [w|e];
      [|discriminate].
    cbn [Res.bind] in H. rewrite (IH _ _ ph) with (2 := H).
    + apply lookup_insert_ne. intros ->. apply Hnot. left. reflexivity.
    + intros Hin. apply Hnot. right. exact Hin.
Qed.

Lemma well_keyed_refl (q : Query.DynamoQueryBuilder) :
  Query.expression_names q !! "#pk" = Some (Query.pk_name q) ->
  Derived.keys_of_schema q ->
  Derived.well_keyed q q.
Proof. intros H1 H2. repeat split; auto. Qed.

Lemma sort_key_condition_keeps (q0 self q : Query.DynamoQueryBuilder) condition vs :
  ~ In ":pk" (map fst vs) ->
  Derived.well_keyed q0 self ->
  Query.sort_key_condition self condition vs = Ok q ->
  Derived.well_keyed q0 q.
Proof.
  intros Hnot (Hc & Hp & Hn & Hv & Hk & Hf1 & Hf2 & Hf3) H.
  unfold Query.sort_key_condition in H.
  destruct (negb (Config.str_truthy (Query.sk_name self))); [discriminate|].
  destruct (Query.put_values vs (Query.expression_values self)) as [values|e] eqn:E;
    [|discriminate].
  cbn [Res.bind] in H. inversion H; subst q. clear H.
  unfold Derived.well_keyed, Derived.keys_of_schema. cbn.
  repeat split; auto.
  - rewrite lookup_insert_ne by discriminate. exact Hn.
  - rewrite <- Hv. eapply put_values_keeps; [exact Hnot|exact E].
Qed.

Lemma apply_call_keeps (q0 self q : Query.DynamoQueryBuilder) c :
  Derived.well_keyed q0 self ->
  Derived.apply_call self c = Ok q ->
  Derived.well_keyed q0 q.
Proof.
  intros Hw H. pose proof Hw as (Hc & Hp & Hn & Hv & Hk & Hf1 & Hf2 & Hf3).
  destruct c; cbn [Derived.apply_call] in H;
    try (eapply sort_key_condition_keeps; [|exact Hw|exact H];
         cbn; intuition discriminate).
  - injection H as <-. repeat split; auto.
  - injection H as <-. repeat split; auto.
  - unfold Query.filter in H.
    destruct (Conditions.wrap_condition condition); [|discriminate]. cbn [Res.bind] in H.
    destruct (Query.user_filter_condition self); cbn in H; injection H as <-;
      repeat split; auto.
  - unfold Query.using_index in H.
    destruct (Config.get_gsi (Query.config self) index_name) as [gsi|] eqn:Hg; [|discriminate].
    injection H as <-.
    unfold Derived.well_keyed, Derived.keys_of_schema. cbn.
    repeat split; auto.
    + destruct (Config.str_truthy (Config.gsi_sk_name gsi)
                && bool_decide (is_Some (<["#pk" := Config.gsi_pk_name gsi]>
                                           (Query.expression_names self) !! "#sk"))).
      * rewrite lookup_insert_ne by discriminate. apply lookup_insert_eq.
      * apply lookup_insert_eq.
    + right. exists index_name, gsi. repeat split. exact Hg.
Qed.

Lemma chain_keeps calls :
  forall q0 self q : Query.DynamoQueryBuilder,
    Derived.well_keyed q0 self ->
    Derived.chain self calls = Ok q ->
    Derived.well_keyed q0 q.
Proof.
  induction calls as [|c calls IH]; intros q0 self q Hw H.
  - inversion H; subst. exact Hw.
  - cbn [Derived.chain] in H.
    destruct (Derived.apply_call self c) as [q1|e] eqn:E; [|discriminate].
    cbn [Res.bind] in H. apply (IH q0 q1 q); [|exact H].
    eapply apply_call_keeps; [exact Hw|exact E].
Qed.

Lemma init_is_well_keyed cls pk index (q0 : Query.DynamoQueryBuilder) :
  Query.__init__ cls pk index = Ok q0 ->
  Query.model_cls q0 = cls
  /\ Query.pk_val q0 = pk
  /\ Query.expression_values q0 !! ":pk"
     = match Serializer.to_dynamo_value pk with Ok w => Some w | Raise _ => None end
  /\ Derived.well_keyed q0 q0.
Proof.
  unfold Query.__init__. intros H.
  destruct (if Config.str_truthy index
            then match Config.get_gsi (Base._meta cls) (default "" index) with
                 | Some gsi => Ok (Config.gsi_pk_name gsi, Config.gsi_sk_name gsi)
                 | None => Raise (Query.gsi_not_defined (default "" index) cls)
                 end
            else Ok (Config.pk_name (Base._meta cls), Config.sk_name (Base._meta cls)))
    as [keys|e] eqn:Hkeys; [|discriminate].
  cbn [Res.bind] in H.
  destruct (Serializer.to_dynamo_value pk) as [w|e]; [|discriminate].
  cbn [Res.bind] in H.
  assert (Hschema : forall q : Query.DynamoQueryBuilder,
             Query.model_cls q = cls -> Query.pk_name q = fst keys ->
             Query.sk_name q = snd keys -> Derived.keys_of_schema q).
  { intros q Hc Hpk Hsk. unfold Derived.keys_of_schema. rewrite Hc, Hpk, Hsk.
    destruct (Config.str_truthy index).
    - destruct (Config.get_gsi (Base._meta cls) (default "" index)) as [gsi|] eqn:Hg;
        [|discriminate].
      inversion Hkeys; subst keys. right. exists (default "" index), gsi. auto.
    - inversion Hkeys; subst keys. left. auto. }
  destruct (Config.str_truthy (Config.discriminator_value (Base._meta cls))
            && Config.str_truthy (Config.discriminator_field (Base._meta cls))).
  - unfold Query._add_discriminator_filter, Query.config in H.
    cbn [Query.model_cls Query.pk_val Query.sk_condition Query.limit_val
         Query.scan_forward Query.index_name Query.filter_conditions
         Query.filter_values Query.filter_names Query.user_filter_condition
         Query.pk_name Query.sk_name Query.expression_values Query.expression_names] in H.
    assert (Hdone : forall q : Query.DynamoQueryBuilder,
               Query.model_cls q = cls -> Query.pk_val q = pk ->
               Query.pk_name q = fst keys -> Query.sk_name q = snd keys ->
               Query.expression_values q = {[":pk" := w]} ->
               Query.expression_names q = {["#pk" := fst keys]} ->
               Query.model_cls q = cls /\ Query.pk_val q = pk
               /\ Query.expression_values q !! ":pk" = Some w
               /\ Derived.well_keyed q q).
    { intros q Hc Hp Hpk Hsk Hv Hn. split; [exact Hc|]. split; [exact Hp|]. split.
      - rewrite Hv. apply lookup_singleton_eq.
      - apply well_keyed_refl; [|apply Hschema; assumption].
        rewrite Hn, Hpk. apply lookup_singleton_eq. }
    destruct (Config.discriminator_field (Base._meta cls)) as [disc_field|];
      [|injection H as <-; apply Hdone; reflexivity].
    destruct (Config.discriminator_value (Base._meta cls)) as [disc_value|];
      [|injection H as <-; apply Hdone; reflexivity].
    destruct (Serializer.to_dynamo_value (PStr disc_value)) as [wd|e]; [|discriminate].
    cbn [Res.bind] in H. injection H as <-. apply Hdone; reflexivity.
  - injection H as <-. split; [reflexivity|]. split; [reflexivity|]. split.
    + apply lookup_singleton_eq.
    + apply well_keyed_refl; [apply lookup_singleton_eq|apply Hschema; reflexivity].
Qed.

(** X11.  What no chain of builder calls changes.  On a query builder as
    constructed, after any sequence of sort-key conditions, [limit],
    [reverse], [filter] and [using_index], the builder still has its class
    and partition key value, ["#pk"] is bound to the partition key name in
    use, which with the sort key name is that of the table or of an index
    of the schema, [":pk"] is bound to the encoded partition key value,
    and the discriminator filter is as the constructor left it. *)
Theorem X11_builder_chain_invariant :
  forall (cls : Base.ModelClass Base.annotation_t) (pk : pyval) (index : option string)
         (calls : list Derived.call) (q0 q : Query.DynamoQueryBuilder),
    Query.__init__ cls pk index = Ok q0 ->
    Derived.chain q0 calls = Ok q ->
    Query.model_cls q = cls
    /\ Query.pk_val q = pk
    /\ Query.expression_names q !! "#pk" = Some (Query.pk_name q)
    /\ (exists w, Serializer.to_dynamo_value pk = Ok w
                  /\ Query.expression_values q !! ":pk" = Some w)
    /\ Derived.keys_of_schema q
    /\ Query.filter_conditions q = Query.filter_conditions q0
    /\ Query.filter_names q = Query.filter_names q0
    /\ Query.filter_values q = Query.filter_values q0.
Proof.
  intros cls pk index calls q0 q Hinit Hchain.
  destruct (init_is_well_keyed cls pk index q0 Hinit) as (Hc0 & Hp0 & Hv0 & Hw0).
  destruct (chain_keeps calls q0 q0 q Hw0 Hchain)
    as (Hc & Hp & Hn & Hv & Hk & Hf1 & Hf2 & Hf3).
  split; [congruence|]. split; [congruence|]. split; [exact Hn|]. split.
  - rewrite Hv, Hv0. unfold Query.__init__ in Hinit.
    destruct (Serializer.to_dynamo_value pk) as [w|e].
    + exists w. split; reflexivity.
    + destruct (if Config.str_truthy index
                then match Config.get_gsi (Base._meta cls) (default "" index) with
                     | Some gsi => Ok (Config.gsi_pk_name gsi, Config.gsi_sk_name gsi)
                     | None => Raise (Query.gsi_not_defined (default "" index) cls)
                     end
                else Ok (Config.pk_name (Base._meta cls), Config.sk_name (Base._meta cls)));
        discriminate.
  - repeat split; assumption.
Qed.

End BuilderChains.

Section ReadingResults.
Context `{F : PyFloat} `{T : !PyText} `{V : !Base.ValidationLayer}
  `{B : !Conditions.ConditionExpressionBuilder}.
Import Iteration.

Lemma next_of_collected {K} (evs : list (event K)) xs :
  collect evs = Ok xs -> next_or_none evs = Ok (head xs).
Proof.
  revert xs. induction evs as [|[k|x|e] evs IH]; intros xs H; cbn [collect] in H.
  - inversion H; subst. reflexivity.
  - cbn [next_or_none]. apply IH. exact H.
  - destruct (collect evs) as [ys|e]; [|discriminate]. inversion H; subst. reflexivity.
  - discriminate.
Qed.

(** X12.  [first], [one] and [all] agree.  On a builder with a limit
    set, [first()] returns the head of the list [all()] returns, when
    [all()] returns one; on a builder without limit, [first()] is
    [first()] after [limit(1)]; [one()] returns the item [first()]
    returns, and raises [ValueError] when [first()] returns [None]. *)
Theorem X12_first_one_and_all_agree :
  (forall paginate (self : Query.DynamoQueryBuilder),
      (forall n xs, Query.limit_val self = Some n ->
                    Query.all paginate self = Ok xs ->
                    Query.first paginate self = Ok (head xs))
      /\ (Query.limit_val self = None ->
          Query.first paginate self = Query.first paginate (Query.limit self 1))
      /\ (forall x, Query.one paginate self = Ok x <-> Query.first paginate self = Ok (Some x))
      /\ (Query.first paginate self = Ok None ->
          Query.one paginate self = Raise (ValueError "No items found for this query")))
  /\ (forall paginate (self : Scan.DynamoScanBuilder),
      (forall n xs, Scan.limit_val self = Some n ->
                    Scan.all paginate self = Ok xs ->
                    Scan.first paginate self = Ok (head xs))
      /\ (Scan.limit_val self = None ->
          Scan.first paginate self = Scan.first paginate (Scan.limit self 1))
      /\ (forall x, Scan.one paginate self = Ok x <-> Scan.first paginate self = Ok (Some x))
      /\ (Scan.first paginate self = Ok None ->
          Scan.one paginate self = Raise (ValueError "No items found for this scan"))).
Proof.
  split; intros paginate self.
  - split; [|split; [|split]].
    + intros n xs Hl Ha. unfold Query.first. rewrite Hl.
      apply next_of_collected. exact Ha.
    + intros Hl. unfold Query.first. rewrite Hl. reflexivity.
    + intros x. unfold Query.one.
      destruct (Query.first paginate self) as [[y|]|e]; cbn [Res.bind];
        split; intros H; inversion H; subst; reflexivity.
    + intros H. unfold Query.one. rewrite H. reflexivity.
  - split; [|split; [|split]].
    + intros n xs Hl Ha. unfold Scan.first. rewrite Hl.
      apply next_of_collected. exact Ha.
    + intros Hl. unfold Scan.first. rewrite Hl. reflexivity.
    + intros x. unfold Scan.one.
      destruct (Scan.first paginate self) as [[y|]|e]; cbn [Res.bind];
        split; intros H; inversion H; subst; reflexivity.
    + intros H. unfold Scan.one. rewrite H. reflexivity.
Qed.

Section Loop.
Context {K : Type}.
Variable cls : Base.ModelClass Base.annotation_t.

Lemma materialize_step (it : list (string * Serializer.wire)) :
  (try! raw_data <- Serializer.from_dynamo it; Base._deserialize_item cls raw_data)
  = Spec.materialize cls it.
Proof. reflexivity. Qed.

Lemma items_loop_first n items :
  1 <= n ->
  forall count xs,
    count < n ->
    mapM (Spec.materialize cls) (take (Z.to_nat (n - count)) items) = Ok xs ->
    @items_loop F V K cls (Some n) items count
    = (map Yield xs,
       if n - count <=? Z.of_nat (length items)
       then None
       else Some (count + Z.of_nat (length items))).
Proof.
  intros Hn. induction items as [|it items IH]; intros count xs Hc Hm.
  - rewrite take_nil in Hm. inversion Hm; subst. cbn [items_loop map length].
    assert ((n - count <=? Z.of_nat 0) = false) as -> by (apply Z.leb_gt; lia).
    rewrite Z.add_0_r. reflexivity.
  - assert (Hk : Z.to_nat (n - count) = S (Z.to_nat (n - (count + 1)))) by lia.
    rewrite Hk in Hm. cbn [take] in Hm. cbn [mapM] in Hm.
    destruct (Spec.materialize cls it) as [x|e] eqn:Ex; [|discriminate].
    destruct (mapM (Spec.materialize cls) (take (Z.to_nat (n - (count + 1))) items))
      as [xs'|e] eqn:Exs; [|discriminate].
    inversion Hm; subst xs. clear Hm.
    cbn [items_loop]. rewrite materialize_step, Ex.
    unfold limit_reached.
    assert ((n =? 0) = false) as -> by (apply Z.eqb_neq; lia). cbn [negb andb].
    destruct (n <=? count + 1) eqn:El.
    + apply Z.leb_le in El.
      assert (Z.to_nat (n - (count + 1)) = 0%nat) as Hz by lia.
      rewrite Hz in Exs. rewrite take_0 in Exs. inversion Exs; subst xs'.
      assert ((n - count <=? Z.of_nat (length (it :: items))) = true) as ->
          by (apply Z.leb_le; cbn [length]; lia).
      reflexivity.
    + apply Z.leb_gt in El. rewrite (IH (count + 1) xs' El Exs).
      cbn [map length].
      replace (n - count <=? Z.of_nat (S (length items)))
        with (n - (count + 1) <=? Z.of_nat (length items)).
      * destruct (n - (count + 1) <=? Z.of_nat (length items)); [reflexivity|].
        do 2 f_equal. lia.
      * destruct (n - (count + 1) <=? Z.of_nat (length items)) eqn:E1;
          symmetry; [apply Z.leb_le; apply Z.leb_le in E1|apply Z.leb_gt; apply Z.leb_gt in E1];
          lia.
Qed.

Lemma pages_loop_first n (kwargs : K) pages :
  1 <= n ->
  forall count items xs,
    count < n ->
    Spec.all_items pages = Some items ->
    mapM (Spec.materialize cls) (take (Z.to_nat (n - count)) items) = Ok xs ->
    collect (pages_loop cls (Some n) kwargs pages count) = Ok xs.
Proof.
  intros Hn. induction pages as [|[its|e] pages IH]; intros count items xs Hc Ha Hm.
  - inversion Ha; subst. rewrite take_nil in Hm. inversion Hm; subst. reflexivity.
  - cbn [Spec.all_items] in Ha.
    destruct (Spec.all_items pages) as [l|] eqn:El; [|discriminate].
    inversion Ha; subst items. clear Ha.
    rewrite take_app in Hm.
    destruct (mapM_app_ok _ _ _ _ Hm) as (xa & xb & Hxa & Hxb & ->).
    cbn [pages_loop]. rewrite (items_loop_first n its Hn count xa Hc Hxa).
    destruct (n - count <=? Z.of_nat (length its)) eqn:E.
    + apply Z.leb_le in E.
      assert ((Z.to_nat (n - count) - length its)%nat = 0%nat) as Hz by lia.
      rewrite Hz, take_0 in Hxb. inversion Hxb; subst xb.
      cbn [collect]. rewrite collect_yield_all. cbn [collect Res.bind]. reflexivity.
    + apply Z.leb_gt in E. cbn [collect]. rewrite collect_yield_all.
      rewrite (IH (count + Z.of_nat (length its)) l xb); [reflexivity|lia|reflexivity|].
      replace (Z.to_nat (n - (count + Z.of_nat (length its))))
        with (Z.to_nat (n - count) - length its)%nat by lia.
      exact Hxb.
  - discriminate.
Qed.
End Loop.

(** X13.  With [limit(n)], n >= 1, [all()] returns exactly the first [n]
    items of the pages, in order (all of them when there are fewer): when
    every page is delivered and the first [n] items turn into instances,
    the list is made of these instances, whatever the later items are. *)
Theorem X13_all_returns_the_first_n_items :
  forall n : Z,
    1 <= n ->
    (forall paginate (self : Query.DynamoQueryBuilder) kwargs items xs,
        Query.limit_val self = Some n ->
        Query.iter_kwargs self = Ok kwargs ->
        Spec.all_items (paginate kwargs) = Some items ->
        mapM (Spec.materialize (Query.model_cls self)) (take (Z.to_nat n) items) = Ok xs ->
        Query.all paginate self = Ok xs)
    /\ (forall paginate (self : Scan.DynamoScanBuilder) kwargs items xs,
        Scan.limit_val self = Some n ->
        Scan.iter_kwargs self = Ok kwargs ->
        Spec.all_items (paginate kwargs) = Some items ->
        mapM (Spec.materialize (Scan.model_cls self)) (take (Z.to_nat n) items) = Ok xs ->
        Scan.all paginate self = Ok xs).
Proof.
  intros n Hn. split; intros paginate self kwargs items xs Hl Hk Ha Hm.
  - unfold Query.all, Query.__iter__. rewrite Hk, Hl.
    apply (pages_loop_first _ n kwargs _ Hn 0 items xs); [lia|exact Ha|].
    rewrite Z.sub_0_r. exact Hm.
  - unfold Scan.all, Scan.__iter__. rewrite Hk, Hl.
    apply (pages_loop_first _ n kwargs _ Hn 0 items xs); [lia|exact Ha|].
    rewrite Z.sub_0_r. exact Hm.
Qed.

(** *** No transport fault leaves an iteration *)

Lemma escaping_is_translated table (e : exn) : is_ClientError (escaping table e) = false.
Proof.
  destruct e as [| | | | |response text| |]; try reflexivity. cbn [escaping].
  destruct (translate_is_typed table response text) as [Ht _].
  destruct (translate_client_error table response text); try discriminate. reflexivity.
Qed.

Section Loop.
Context {K : Type}.
Variable cls : Base.ModelClass Base.annotation_t.

Lemma items_loop_raises l items :
  forall count evs r,
    @items_loop F V K cls l items count = (evs, r) ->
    forall e, In (Raises e) evs -> is_ClientError e = false.
Proof.
  induction items as [|it items IH]; intros count evs r H e Hin; cbn [items_loop] in H.
  - inversion H; subst. destruct Hin.
  - destruct (try! raw_data <- Serializer.from_dynamo it;
              Base._deserialize_item cls raw_data) as [x|e'].
    + destruct (limit_reached l (count + 1)).
      * inversion H; subst. destruct Hin as [Hin|[]]. discriminate.
      * destruct (items_loop cls l items (count + 1)) as [evs' r'] eqn:E.
        inversion H; subst. destruct Hin as [Hin|Hin]; [discriminate|].
        eapply IH; [exact E|exact Hin].
    + inversion H; subst. destruct Hin as [Hin|[]]. inversion Hin; subst.
      apply escaping_is_translated.
Qed.

Lemma pages_loop_raises l (kwargs : K) pages :
  forall count e,
    In (Raises e) (pages_loop cls l kwargs pages count) -> is_ClientError e = false.
Proof.
  induction pages as [|[its|e'] pages IH]; intros count e Hin; cbn [pages_loop] in Hin.
  - destruct Hin.
  - destruct (items_loop cls l its count) as [evs r] eqn:E.
    destruct Hin as [Hin|Hin]; [discriminate|].
    apply in_app_or in Hin. destruct Hin as [Hin|Hin].
    + eapply items_loop_raises; [exact E|exact Hin].
    + destruct r as [count'|]; [|destruct Hin]. eapply IH. exact Hin.
  - destruct Hin as [Hin|[Hin|[]]]; [discriminate|]. inversion Hin; subst.
    apply escaping_is_translated.
Qed.
End Loop.

Lemma collect_raises {K} (evs : list (event K)) e :
  collect evs = Raise e -> In (Raises e) evs.
Proof.
  induction evs as [|[k|x|e'] evs IH]; cbn [collect]; intros H.
  - discriminate.
  - right. apply IH. exact H.
  - destruct (collect evs) as [xs|e'']; [discriminate|]. inversion H; subst.
    right. apply IH. reflexivity.
  - inversion H; subst. left. reflexivity.
Qed.

(** X14.  No transport fault leaves an iteration.  Once the arguments of
    the request are built, no exception a query or scan iteration ends
    with is a botocore [ClientError], whether it comes from a page fetch
    or from turning an item into an instance; so [all()] never raises
    one. *)
Theorem X14_iteration_raises_no_transport_fault :
  (forall paginate (self : Query.DynamoQueryBuilder) kwargs,
      Query.iter_kwargs self = Ok kwargs ->
      (forall e, In (Raises e) (Query.__iter__ paginate self) -> is_ClientError e = false)
      /\ (forall e, Query.all paginate self = Raise e -> is_ClientError e = false))
  /\ (forall paginate (self : Scan.DynamoScanBuilder) kwargs,
      Scan.iter_kwargs self = Ok kwargs ->
      (forall e, In (Raises e) (Scan.__iter__ paginate self) -> is_ClientError e = false)
      /\ (forall e, Scan.all paginate self = Raise e -> is_ClientError e = false)).
Proof.
  split; intros paginate self kwargs Hk.
  - assert (H : forall e, In (Raises e) (Query.__iter__ paginate self) ->
                          is_ClientError e = false).
    { unfold Query.__iter__. rewrite Hk. apply pages_loop_raises. }
    split; [exact H|]. intros e He. apply H. apply collect_raises. exact He.
  - assert (H : forall e, In (Raises e) (Scan.__iter__ paginate self) ->
                          is_ClientError e = false).
    { unfold Scan.__iter__. rewrite Hk. apply pages_loop_raises. }
    split; [exact H|]. intros e He. apply H. apply collect_raises. exact He.
Qed.

End ReadingResults.

Section Pages.
Context `{F : PyFloat} `{T : !PyText} `{V : !Base.ValidationLayer}
  `{B : !Conditions.ConditionExpressionBuilder}.

Lemma to_dynamo_key (key : list (string * Serializer.wire)) :
  List.NoDup (map fst key) ->
  forallb (fun kv => Derived.key_attribute (snd kv)) key = true ->
  Serializer.to_dynamo (map (fun kv => (fst kv, Derived.key_value (snd kv))) key) = Ok key.
Proof.
  intros Hnd Hk. unfold Serializer.to_dynamo.
  rewrite (mapM_items_ok_map Serializer._prepare_for_dynamo (fun v => v)).
  - cbn [Res.bind]. rewrite map_items_id.
    rewrite (loop_key key Hk Hnd []); [reflexivity|]. intros k _ [].
  - apply List.Forall_forall. intros [k v] Hin. cbn [snd].
    apply in_map_iff in Hin. destruct Hin as ([k' w] & Heq & Hin).
    cbn [fst snd] in Heq. inversion Heq; subst k v.
    assert (Hw : Derived.key_attribute w = true).
    { rewrite forallb_forall in Hk. apply (Hk (k', w) Hin). }
    apply (encode_key_value w Hw).
Qed.

Lemma cursor_of_key (key : list (string * Serializer.wire)) :
  List.NoDup (map fst key) ->
  forallb (fun kv => Derived.key_attribute (snd kv)) key = true ->
  key <> [] ->
  exists cursor,
    Serializer.from_dynamo key = Ok cursor
    /\ Pagination.dict_truthy (Some cursor) = true
    /\ Serializer.to_dynamo cursor = Ok key.
Proof.
  intros Hnd Hk Hne.
  exists (map (fun kv => (fst kv, Derived.key_value (snd kv))) key).
  split; [apply from_dynamo_key; exact Hk|]. split.
  - destruct key; [contradiction|reflexivity].
  - apply to_dynamo_key; assumption.
Qed.

(** X15.  What [page] returns.  When the single request of [page]
    succeeds and the page is returned, its items are the instances of all
    the items of the response, in order, whatever limit the builder has;
    [count] is their number; and [has_more] holds exactly when the response
    carries a non-empty [LastEvaluatedKey], whose decoding is then the
    cursor. *)
Theorem X15_page_result :
  (forall query (self : Query.DynamoQueryBuilder) start_key kwargs response p,
      Query.page_kwargs self start_key = Ok kwargs ->
      query kwargs = Ok response ->
      Query.page query self start_key = Ok p ->
      mapM (Spec.materialize (Query.model_cls self)) (default [] (Query.Items response))
      = Ok (Pagination.items p)
      /\ Pagination.count p = Z.of_nat (length (default [] (Query.Items response)))
      /\ (Pagination.has_more p = true
          <-> Pagination.dict_truthy (Query.LastEvaluatedKey response) = true)
      /\ (forall cursor, Pagination.last_evaluated_key p = Some cursor ->
            Serializer.from_dynamo (default [] (Query.LastEvaluatedKey response)) = Ok cursor))
  /\ (forall scan (self : Scan.DynamoScanBuilder) start_key kwargs response p,
      Scan.page_kwargs self start_key = Ok kwargs ->
      scan kwargs = Ok response ->
      Scan.page scan self start_key = Ok p ->
      mapM (Spec.materialize (Scan.model_cls self)) (default [] (Scan.Items response))
      = Ok (Pagination.items p)
      /\ Pagination.count p = Z.of_nat (length (default [] (Scan.Items response)))
      /\ (Pagination.has_more p = true
          <-> Pagination.dict_truthy (Scan.LastEvaluatedKey response) = true)
      /\ (forall cursor, Pagination.last_evaluated_key p = Some cursor ->
            Serializer.from_dynamo (default [] (Scan.LastEvaluatedKey response)) = Ok cursor)).
Proof.
  split.
  - intros query self start_key kwargs response p Hk Hq Hp.
    unfold Query.page in Hp. rewrite Hk in Hp. cbn [Res.bind] in Hp.
    rewrite Hq in Hp. cbn [handle_dynamo_errors Res.bind] in Hp.
    unfold Query.page_result in Hp.
    change (fun it => try! raw_data <- Serializer.from_dynamo it;
                      Base._deserialize_item (Query.model_cls self) raw_data)
      with (Spec.materialize (Query.model_cls self)) in Hp.
    destruct (mapM (Spec.materialize (Query.model_cls self))
                (default [] (Query.Items response))) as [items|e] eqn:Hi; [|discriminate].
    cbn [Res.bind] in Hp.
    destruct (Pagination.dict_truthy (Query.LastEvaluatedKey response)) eqn:Ht.
    + destruct (Serializer.from_dynamo (default [] (Query.LastEvaluatedKey response)))
        as [c|e] eqn:Hc; [|discriminate].
      cbn [Res.bind] in Hp. injection Hp as <-.
      cbn [Pagination.items Pagination.count Pagination.has_more
           Pagination.last_evaluated_key].
      split; [reflexivity|]. split; [rewrite (mapM_length _ _ _ Hi); reflexivity|].
      split; [tauto|]. intros cursor Heq. inversion Heq; subst. reflexivity.
    + cbn [Res.bind] in Hp. injection Hp as <-.
      cbn [Pagination.items Pagination.count Pagination.has_more
           Pagination.last_evaluated_key].
      split; [reflexivity|]. split; [rewrite (mapM_length _ _ _ Hi); reflexivity|].
      split; [split; discriminate|]. intros cursor Heq. discriminate.
  - intros scan self start_key kwargs response p Hk Hq Hp.
    unfold Scan.page in Hp. rewrite Hk in Hp. cbn [Res.bind] in Hp.
    rewrite Hq in Hp. cbn [handle_dynamo_errors Res.bind] in Hp.
    unfold Scan.page_result in Hp.
    change (fun it => try! raw_data <- Serializer.from_dynamo it;
                      Base._deserialize_item (Scan.model_cls self) raw_data)
      with (Spec.materialize (Scan.model_cls self)) in Hp.
    destruct (mapM (Spec.materialize (Scan.model_cls self))
                (default [] (Scan.Items response))) as [items|e] eqn:Hi; [|discriminate].
    cbn [Res.bind] in Hp.
    destruct (Pagination.dict_truthy (Scan.LastEvaluatedKey response)) eqn:Ht.
    + destruct (Serializer.from_dynamo (default [] (Scan.LastEvaluatedKey response)))
        as [c|e] eqn:Hc; [|discriminate].
      cbn [Res.bind] in Hp. injection Hp as <-.
      cbn [Pagination.items Pagination.count Pagination.has_more
           Pagination.last_evaluated_key].
      split; [reflexivity|]. split; [rewrite (mapM_length _ _ _ Hi); reflexivity|].
      split; [tauto|]. intros cursor Heq. inversion Heq; subst. reflexivity.
    + cbn [Res.bind] in Hp. injection Hp as <-.
      cbn [Pagination.items Pagination.count Pagination.has_more
           Pagination.last_evaluated_key].
      split; [reflexivity|]. split; [rewrite (mapM_length _ _ _ Hi); reflexivity|].
      split; [split; discriminate|]. intros cursor Heq. discriminate.
Qed.

(** X16.  Paging resumes where the store stopped.  When a page is made
    of a response whose [LastEvaluatedKey] is a non-empty key of text,
    binary or integer attributes, the page has more, and passing its
    cursor as [start_key] of the next [page] call, on any builder whose
    arguments can be built, sends that very key as [ExclusiveStartKey]. *)
Theorem X16_next_page_starts_at_the_last_key :
  forall key : list (string * Serializer.wire),
    List.NoDup (map fst key) ->
    forallb (fun kv => Derived.key_attribute (snd kv)) key = true ->
    key <> [] ->
    (forall (self next : Query.DynamoQueryBuilder) response p kwargs,
        Query.LastEvaluatedKey response = Some key ->
        Query.page_result self response = Ok p ->
        Query.iter_kwargs next = Ok kwargs ->
        Pagination.has_more p = true
        /\ Query.page_kwargs next (Pagination.last_evaluated_key p)
           = Ok {| Query.request_kwargs := kwargs; Query.ExclusiveStartKey := Some key |})
    /\ (forall (cls : Base.ModelClass Base.annotation_t) (next : Scan.DynamoScanBuilder)
               response p kwargs,
        Scan.LastEvaluatedKey response = Some key ->
        Scan.page_result cls response = Ok p ->
        Scan.iter_kwargs next = Ok kwargs ->
        Pagination.has_more p = true
        /\ Scan.page_kwargs next (Pagination.last_evaluated_key p)
           = Ok {| Scan.request_kwargs := kwargs; Scan.ExclusiveStartKey := Some key |}).
Proof.
  intros key Hnd Hk Hne.
  destruct (cursor_of_key key Hnd Hk Hne) as (cursor & Hfrom & Htruthy & Hto).
  assert (Hkey : Pagination.dict_truthy (Some key) = true)
    by (destruct key; [contradiction|reflexivity]).
  split.
  - intros self next response p kwargs Hl Hp Hkw.
    unfold Query.page_result in Hp.
    destruct (mapM _ (default [] (Query.Items response))) as [items|e]; [|discriminate].
    cbn [Res.bind] in Hp. rewrite Hl, Hkey in Hp. cbn [default] in Hp.
    change (id key) with key in Hp. rewrite Hfrom in Hp. cbn [Res.bind] in Hp.
    injection Hp as <-. split; [reflexivity|].
    unfold Query.page_kwargs. rewrite Hkw. cbn [Res.bind Pagination.last_evaluated_key].
    rewrite Htruthy. cbn [default]. change (id cursor) with cursor. rewrite Hto. reflexivity.
  - intros cls next response p kwargs Hl Hp Hkw.
    unfold Scan.page_result in Hp.
    destruct (mapM _ (default [] (Scan.Items response))) as [items|e]; [|discriminate].
    cbn [Res.bind] in Hp. rewrite Hl, Hkey in Hp. cbn [default] in Hp.
    change (id key) with key in Hp. rewrite Hfrom in Hp. cbn [Res.bind] in Hp.
    injection Hp as <-. split; [reflexivity|].
    unfold Scan.page_kwargs. rewrite Hkw. cbn [Res.bind Pagination.last_evaluated_key].
    rewrite Htruthy. cbn [default]. change (id cursor) with cursor. rewrite Hto. reflexivity.
Qed.

(** X17.  [Model.scan_page(limit, start_key, index_name)] is
    [Model.scan(index_name).limit(limit).page(start_key)]: the class
    method builds, by statements of its own, the request the scan builder
    builds, and reads the response the same way; it raises what the
    builder chain raises. *)
Theorem X17_scan_page_is_the_builder_page :
  forall scan (cls : Base.ModelClass Base.annotation_t) (limit : option Z)
         (start_key : option (list (string * pyval))) (index_name : option string),
    Model.scan_page scan cls limit start_key index_name
    = (try! builder <- Model.scan cls index_name;
       Scan.page scan
         (match limit with
          | Some count => Scan.limit builder count
          | None => builder
          end)
         start_key).
Proof.
  intros scan cls limit start_key index_name.
  unfold Model.scan_page, Model.scan_page_kwargs, Model.scan, Scan.__init__.
  destruct (Config.str_truthy index_name
            && negb (Config.has_gsi (Base._meta cls) (default "" index_name))) eqn:Hg;
    [reflexivity|].
  assert (Hlim : forall b : Scan.DynamoScanBuilder,
             Scan.limit_val b = None ->
             Scan.iter_kwargs (match limit with
                               | Some count => Scan.limit b count
                               | None => b
                               end)
             = match Scan.iter_kwargs b with
               | Ok kw =>
                   Ok {| Scan.TableName := Scan.TableName kw;
                         Scan.IndexName := Scan.IndexName kw;
                         Scan.Limit := if Iteration.limit_truthy limit then limit else None;
                         Scan.FilterExpression := Scan.FilterExpression kw;
                         Scan.ExpressionAttributeNames := Scan.ExpressionAttributeNames kw;
                         Scan.ExpressionAttributeValues := Scan.ExpressionAttributeValues kw |}
               | Raise e => Raise e
               end).
  { intros b Hb. destruct limit as [count|].
    - unfold Scan.iter_kwargs.
      cbn [Scan.limit Scan.limit_val Scan.index_name Scan.filter_conditions
           Scan.user_filter_condition Scan.filter_names Scan.filter_values Scan.config
           Scan.model_cls].
      destruct (Scan.filter_conditions b), (Scan.user_filter_condition b);
        try reflexivity;
        destruct (Conditions.compile_condition _); reflexivity.
    - unfold Scan.iter_kwargs. rewrite Hb. cbn [Iteration.limit_truthy].
      destruct (Scan.filter_conditions b), (Scan.user_filter_condition b);
        try reflexivity;
        destruct (Conditions.compile_condition _); reflexivity. }
  destruct (Config.str_truthy (Config.discriminator_value (Base._meta cls))
            && Config.str_truthy (Config.discriminator_field (Base._meta cls))) eqn:Hd.
  - apply andb_true_iff in Hd. destruct Hd as [Hv Hf].
    destruct (Config.discriminator_value (Base._meta cls)) as [dv|] eqn:Edv; [|discriminate].
    destruct (Config.discriminator_field (Base._meta cls)) as [df|] eqn:Edf; [|discriminate].
    unfold Scan._add_discriminator_filter, Scan.config. cbn [Scan.model_cls].
    rewrite Edv, Edf. cbn [default]. change (id dv) with dv. change (id df) with df.
    destruct (Serializer.to_dynamo_value (PStr dv)) as [w|e]; [|reflexivity].
    cbn [Res.bind]. unfold Scan.page, Scan.page_kwargs.
    rewrite Hlim by reflexivity. unfold Scan.iter_kwargs, Scan.config.
    cbn [Scan.limit_val Scan.index_name Scan.filter_conditions Scan.user_filter_condition
         Scan.filter_names Scan.filter_values Scan.model_cls app Res.bind
         Iteration.join_and Scan.TableName Scan.IndexName Scan.FilterExpression
         Scan.ExpressionAttributeNames Scan.ExpressionAttributeValues fst snd].
    rewrite !insert_empty.
    assert (Hm : forall b : Scan.DynamoScanBuilder,
               Scan.model_cls b = cls ->
               Scan.model_cls (match limit with
                               | Some count => Scan.limit b count
                               | None => b
                               end) = cls)
      by (intros b Hb; destruct limit; exact Hb).
    rewrite Hm by reflexivity.
    destruct (if Pagination.dict_truthy start_key
              then try! k <- Serializer.to_dynamo (default [] start_key); Ok (Some k)
              else Ok None) as [key|e]; [|reflexivity].
    cbn [Res.bind]. reflexivity.
  - cbn [Res.bind]. unfold Scan.page, Scan.page_kwargs.
    rewrite Hlim by reflexivity. unfold Scan.iter_kwargs, Scan.config.
    cbn [Scan.limit_val Scan.index_name Scan.filter_conditions Scan.user_filter_condition
         Scan.filter_names Scan.filter_values Scan.model_cls app Res.bind
         Iteration.join_and Scan.TableName Scan.IndexName Scan.FilterExpression
         Scan.ExpressionAttributeNames Scan.ExpressionAttributeValues fst snd].
    assert (Hm : forall b : Scan.DynamoScanBuilder,
               Scan.model_cls b = cls ->
               Scan.model_cls (match limit with
                               | Some count => Scan.limit b count
                               | None => b
                               end) = cls)
      by (intros b Hb; destruct limit; exact Hb).
    rewrite Hm by reflexivity.
    destruct (if Pagination.dict_truthy start_key
              then try! k <- Serializer.to_dynamo (default [] start_key); Ok (Some k)
              else Ok None) as [key|e]; [|reflexivity].
    cbn [Res.bind]. reflexivity.
Qed.

End Pages.

Section UpdateCompilation.
Context `{F : PyFloat} `{T : !PyText} `{V : !Base.ValidationLayer}
  `{B : !Conditions.ConditionExpressionBuilder}.
Import Updates.

Lemma group_actions_cons cls a (l : list UpdateAction) g :
  group_actions cls (a :: l) g
  = (try! v <- validate a cls;
     group_actions cls l (Derived.put (Derived.clause_of (kind a) v) (Derived.stored a v) g)).
Proof.
  cbn [group_actions]. destruct (validate a cls) as [v|e]; [|reflexivity].
  cbn [Res.bind]. f_equal.
  unfold Derived.put, Derived.clause_of, Derived.stored.
  destruct (kind a); try reflexivity. destruct v; reflexivity.
Qed.

Lemma group_actions_app cls (l1 l2 : list UpdateAction) :
  forall g,
    group_actions cls (l1 ++ l2) g
    = (try! g1 <- group_actions cls l1 g; group_actions cls l2 g1).
Proof.
  induction l1 as [|a l1 IH]; intros g; [reflexivity|].
  rewrite <- app_comm_cons, !group_actions_cons.
  destruct (validate a cls); [|reflexivity]. cbn [Res.bind]. apply IH.
Qed.

Lemma compile_of_groups (s1 s2 : UpdateBuilder) :
  _condition s1 = _condition s2 ->
  actions s1 <> [] ->
  actions s2 <> [] ->
  (forall g, group_actions (model_cls s1) (actions s1) g
             = group_actions (model_cls s2) (actions s2) g) ->
  _compile s1 = _compile s2.
Proof.
  intros Hc H1 H2 Hg. unfold _compile. rewrite Hc.
  specialize (Hg {| set_actions := []; remove_actions := [];
                    add_actions := []; delete_actions := [] |}).
  destruct (actions s1) as [|a1 l1]; [contradiction|].
  destruct (actions s2) as [|a2 l2]; [contradiction|].
  rewrite Hg. reflexivity.
Qed.

(** X18.  Setting a field to [None] is removing it: after any chain of
    actions, [set(field, None)] compiles to what [remove(field)] compiles
    to, the same expression and tables or the same exception. *)
Theorem X18_set_none_is_remove :
  forall (self : UpdateBuilder) (field : string),
    _compile (set self field PNone) = _compile (remove self field).
Proof.
  intros self field. apply compile_of_groups.
  - reflexivity.
  - cbn. intros H. apply app_eq_nil in H. destruct H; discriminate.
  - cbn. intros H. apply app_eq_nil in H. destruct H; discriminate.
  - intros g. cbn [set remove append_action with_actions actions model_cls].
    rewrite !group_actions_app.
    destruct (group_actions (model_cls self) (actions self) g) as [g1|e]; [|reflexivity].
    cbn [Res.bind]. rewrite !group_actions_cons. reflexivity.
Qed.

Lemma put_comm k1 k2 (a b : UpdateAction) g :
  k1 <> k2 ->
  Derived.put k1 a (Derived.put k2 b g) = Derived.put k2 b (Derived.put k1 a g).
Proof. destruct k1, k2; intros H; try reflexivity; contradiction. Qed.

(** X19.  The compiled update does not depend on the order in which
    actions of different clauses were chained: when an update compiles,
    exchanging two neighbouring actions that go to different clauses (SET,
    REMOVE, ADD, DELETE) gives the same expression and the same tables. *)
Theorem X19_clause_order_is_fixed :
  forall (self : UpdateBuilder) (before after : list UpdateAction) (a b : UpdateAction)
         (compiled : Compiled),
    Derived.clause (model_cls self) a <> Derived.clause (model_cls self) b ->
    _compile (with_actions self (before ++ a :: b :: after)) = Ok compiled ->
    _compile (with_actions self (before ++ b :: a :: after)) = Ok compiled.
Proof.
  intros self before after a b compiled Hne H. rewrite <- H. symmetry.
  assert (Hval : exists va vb, validate a (model_cls self) = Ok va
                               /\ validate b (model_cls self) = Ok vb).
  { unfold _compile in H. cbn [with_actions actions model_cls] in H.
    destruct (before ++ a :: b :: after) as [|x l] eqn:El.
    { apply app_eq_nil in El. destruct El; discriminate. }
    rewrite <- El in H. clear El.
    destruct (group_actions (model_cls self) (before ++ a :: b :: after) _) as [g|e] eqn:Eg;
      [|discriminate].
    rewrite group_actions_app in Eg.
    destruct (group_actions (model_cls self) before _) as [g1|e]; [|discriminate].
    cbn [Res.bind] in Eg. rewrite group_actions_cons in Eg.
    destruct (validate a (model_cls self)) as [va|e]; [|discriminate].
    cbn [Res.bind] in Eg. rewrite group_actions_cons in Eg.
    destruct (validate b (model_cls self)) as [vb|e]; [|discriminate].
    exists va, vb. split; reflexivity. }
  destruct Hval as (va & vb & Ha & Hb).
  apply compile_of_groups.
  - reflexivity.
  - cbn. intros E. apply app_eq_nil in E. destruct E; discriminate.
  - cbn. intros E. apply app_eq_nil in E. destruct E; discriminate.
  - intros g. cbn [with_actions actions model_cls].
    rewrite !group_actions_app.
    destruct (group_actions (model_cls self) before g) as [g1|e]; [|reflexivity].
    cbn [Res.bind]. rewrite !group_actions_cons, Ha, Hb. cbn [Res.bind].
    rewrite !group_actions_cons, Ha, Hb. cbn [Res.bind].
    rewrite put_comm; [reflexivity|].
    intros Heq. apply Hne. unfold Derived.clause. rewrite Ha, Hb. congruence.
Qed.

(** X20.  An update without actions sends nothing: [execute] on a
    builder with no action raises, without any request, the error of the
    key when the key cannot be encoded, and otherwise [ValueError] "No
    update actions specified". *)
Theorem X20_update_without_actions_sends_nothing :
  forall update_item (self : UpdateBuilder),
    actions self = [] ->
    snd (execute update_item self) = []
    /\ match Serializer.to_dynamo (key_dict self) with
       | Ok _ => fst (execute update_item self)
                 = Raise (ValueError "No update actions specified")
       | Raise e => fst (execute update_item self) = Raise e
       end.
Proof.
  intros update_item self H. unfold execute, prepare_request, _compile. rewrite H.
  destruct (Serializer.to_dynamo (key_dict self)); cbn [Res.bind fst snd]; split; reflexivity.
Qed.

End UpdateCompilation.

Section ClassMethods.
Context `{F : PyFloat} `{T : !PyText} `{V : !Base.ValidationLayer}
  `{B : !Conditions.ConditionExpressionBuilder}.

Lemma has_gsi_get_gsi (m : Config.ModelOptions) index :
  Config.has_gsi m index = true -> exists gsi, Config.get_gsi m index = Some gsi.
Proof.
  unfold Config.has_gsi, Config.get_gsi. intros H.
  apply bool_decide_eq_true in H. destruct H as [gsi H]. exists gsi. exact H.
Qed.

(** X21.  [Model.query_index(index, pk)] is
    [Model.query(pk).using_index(index)]: for an index of the schema with
    a non-empty name, both give the same builder, or raise the same
    exception. *)
Theorem X21_query_index_is_query_using_index :
  forall (cls : Base.ModelClass Base.annotation_t) (index_name : string) (pk_val : pyval),
    index_name <> "" ->
    Config.has_gsi (Base._meta cls) index_name = true ->
    Model.query_index cls index_name pk_val
    = (try! builder <- Model.query cls pk_val; Query.using_index builder index_name).
Proof.
  intros cls index pk Hne Hhas.
  destruct (has_gsi_get_gsi _ _ Hhas) as [gsi Hgsi].
  unfold Model.query_index, Model.query, Query.__init__. rewrite Hhas. cbn [negb].
  rewrite (str_truthy_some index Hne). cbn [Config.str_truthy default].
  change (id index) with index. rewrite Hgsi. cbn [Res.bind fst snd].
  destruct (Serializer.to_dynamo_value pk) as [w|e]; [|reflexivity]. cbn [Res.bind].
  assert (Hnames : forall old : string,
             (let names := <["#pk" := Config.gsi_pk_name gsi]> ({["#pk" := old]} : gmap string string) in
              if Config.str_truthy (Config.gsi_sk_name gsi)
                 && bool_decide (is_Some (names !! "#sk"))
              then <["#sk" := default "" (Config.gsi_sk_name gsi)]> names
              else names)
             = {["#pk" := Config.gsi_pk_name gsi]}).
  { intros old. cbv zeta. rewrite insert_singleton_eq.
    rewrite lookup_singleton_ne by discriminate.
    rewrite bool_decide_eq_false_2 by (intros [x Hx]; discriminate).
    rewrite andb_false_r. reflexivity. }
  destruct (Config.str_truthy (Config.discriminator_value (Base._meta cls))
            && Config.str_truthy (Config.discriminator_field (Base._meta cls))).
  - unfold Query._add_discriminator_filter, Query.config. cbn [Query.model_cls].
    destruct (Config.discriminator_field (Base._meta cls)) as [df|];
      [destruct (Config.discriminator_value (Base._meta cls)) as [dv|]|].
    + destruct (Serializer.to_dynamo_value (PStr dv)) as [wd|e]; [|reflexivity].
      cbn [Res.bind]. unfold Query.using_index, Query.config. cbn [Query.model_cls].
      rewrite Hgsi. cbn [Query.expression_names]. rewrite Hnames. reflexivity.
    + cbn [Res.bind]. unfold Query.using_index, Query.config. cbn [Query.model_cls].
      rewrite Hgsi. cbn [Query.expression_names]. rewrite Hnames. reflexivity.
    + cbn [Res.bind]. unfold Query.using_index, Query.config. cbn [Query.model_cls].
      rewrite Hgsi. cbn [Query.expression_names]. rewrite Hnames. reflexivity.
  - cbn [Res.bind]. unfold Query.using_index, Query.config. cbn [Query.model_cls].
    rewrite Hgsi. cbn [Query.expression_names]. rewrite Hnames. reflexivity.
Qed.

(** X22.  [get], [delete] and [update] address the same item: for the
    same class, partition key and sort key, the [Key] of the requests of
    [Model.get], of [Model.delete] and of an update execution is the same
    encoding of the same key dictionary, which holds the sort key exactly
    when the sort key is truthy and the schema has one. *)
Theorem X22_get_delete_update_share_the_key :
  forall (cls : Base.ModelClass Base.annotation_t) (pk sk : pyval),
    Model.key_dict cls pk sk = Updates.key_dict (Model.update cls pk sk)
    /\ Model.key_dict cls pk sk
       = (if truthy sk && Config.str_truthy (Config.sk_name (Base._meta cls))
          then Serializer.dict_set [(Config.pk_name (Base._meta cls), pk)]
                 (default "" (Config.sk_name (Base._meta cls))) sk
          else [(Config.pk_name (Base._meta cls), pk)])
    /\ (forall p, Model.get_params cls pk sk = Ok p ->
          Serializer.to_dynamo (Model.key_dict cls pk sk) = Ok (Model.get_Key p))
    /\ (forall condition d, Model.delete_params cls pk sk condition = Ok d ->
          Serializer.to_dynamo (Model.key_dict cls pk sk) = Ok (Model.delete_Key d))
    /\ (forall (self : Updates.UpdateBuilder) params,
          Updates.model_cls self = cls -> Updates.pk self = pk -> Updates.sk self = sk ->
          Updates.prepare_request self = Ok params ->
          Serializer.to_dynamo (Model.key_dict cls pk sk) = Ok (Updates.Key params)).
Proof.
  intros cls pk sk. split; [reflexivity|]. split; [reflexivity|]. split; [|split].
  - intros p H. unfold Model.get_params in H.
    destruct (Serializer.to_dynamo (Model.key_dict cls pk sk)); [|discriminate].
    cbn [Res.bind] in H. injection H as <-. reflexivity.
  - intros condition d H. unfold Model.delete_params in H.
    destruct (Serializer.to_dynamo (Model.key_dict cls pk sk)); [|discriminate].
    cbn [Res.bind] in H.
    destruct condition as [c|]; [destruct (Conditions.compile_condition c)|];
      cbn [Res.bind] in H; try discriminate; injection H as <-; reflexivity.
  - intros self params Hc Hp Hs H. unfold Updates.prepare_request in H.
    assert (Hk : Updates.key_dict self = Model.key_dict cls pk sk).
    { unfold Updates.key_dict, Model.key_dict. rewrite Hc, Hp, Hs. reflexivity. }
    rewrite Hk in H.
    destruct (Serializer.to_dynamo (Model.key_dict cls pk sk)); [|discriminate].
    cbn [Res.bind] in H. destruct (Updates._compile self); [|discriminate].
    cbn [Res.bind] in H. injection H as <-. reflexivity.
Qed.

(** X23.  [Model.update_item] without a usable partition key sends
    nothing: when the key dictionary has no entry for the partition key,
    or a falsy one, it raises [ValueError] before any request; otherwise it
    is the execution of the builder holding the key, the actions, the
    condition when it is truthy, and the return mode. *)
Theorem X23_update_item_needs_a_partition_key :
  forall client (cls : Base.ModelClass Base.annotation_t) (key : list (string * pyval))
         (actions : list Updates.UpdateAction) (condition : option Conditions.Condition)
         (return_values : Updates.ReturnValues),
    let pk := Base.raw_get key (Config.pk_name (Base._meta cls)) in
    let sk := if Config.str_truthy (Config.sk_name (Base._meta cls))
              then Base.raw_get key (default "" (Config.sk_name (Base._meta cls)))
              else PNone in
    (truthy pk = false ->
       Model.update_item client cls key actions condition return_values
       = (Raise (ValueError ("Key missing partition key '"
                             +:+ Config.pk_name (Base._meta cls) +:+ "'")), []))
    /\ (Serializer.dict_get key (Config.pk_name (Base._meta cls)) = None -> truthy pk = false)
    /\ (truthy pk = true ->
          Model.update_item client cls key actions condition return_values
          = Updates.execute client
              {| Updates.model_cls := cls; Updates.pk := pk; Updates.sk := sk;
                 Updates.actions := actions;
                 Updates._condition :=
                   if Updates.condition_truthy condition then condition else None;
                 Updates._return_values := return_values |}).
Proof.
  intros client cls key actions condition return_values pk sk.
  split; [|split].
  - intros H. unfold Model.update_item. fold pk. rewrite H. reflexivity.
  - intros H. unfold pk, Base.raw_get. rewrite H. reflexivity.
  - intros H. unfold Model.update_item. fold pk. rewrite H. cbn [negb]. fold sk.
    destruct (Updates.condition_truthy condition); reflexivity.
Qed.

End ClassMethods.

Section MetaclassKeys.
Context `{F : PyFloat}.
Import Metaclass.

Lemma scan_field_keys name st f e st' :
  scan_field name st f e = Ok st' ->
  (if Fields._dynamo_pk e
   then pk_name st = None /\ pk_name st' = Some f /\ sk_name st' = sk_name st
   else pk_name st' = pk_name st
        /\ if Fields._dynamo_sk e
           then sk_name st = None /\ sk_name st' = Some f
           else sk_name st' = sk_name st)
  /\ (if Fields._dynamo_discriminator e
      then discriminator_field st = None /\ discriminator_field st' = Some f
      else discriminator_field st' = discriminator_field st).
Proof.
  unfold scan_field. intros H.
  destruct (Fields._dynamo_pk e) eqn:Epk.
  - destruct (pk_name st) eqn:Ep; [discriminate|]. cbn [Res.bind] in H.
    destruct (Fields._dynamo_discriminator e).
    + destruct (discriminator_field st) eqn:Ed; [discriminate|]. cbn [Res.bind] in H.
      destruct (match Fields._dynamo_gsi_pk e with
                | Some i => set_gsi_pk name i f (gsi_keys st)
                | None => Ok (gsi_keys st)
                end) as [g1|]; [|discriminate]. cbn [Res.bind] in H.
      destruct (match Fields._dynamo_gsi_sk e with
                | Some i => set_gsi_sk name i f g1
                | None => Ok g1
                end) as [g2|]; [|discriminate]. cbn [Res.bind] in H.
      injection H as <-. cbn. auto.
    + cbn [Res.bind] in H.
      destruct (match Fields._dynamo_gsi_pk e with
                | Some i => set_gsi_pk name i f (gsi_keys st)
                | None => Ok (gsi_keys st)
                end) as [g1|]; [|discriminate]. cbn [Res.bind] in H.
      destruct (match Fields._dynamo_gsi_sk e with
                | Some i => set_gsi_sk name i f g1
                | None => Ok g1
                end) as [g2|]; [|discriminate]. cbn [Res.bind] in H.
      injection H as <-. cbn. auto.
  - assert (Hsk : exists keys,
               (if Fields._dynamo_sk e
                then match sk_name st with
                     | Some _ => Raise (only_one name "field defined with SortKey()")
                     | None => Ok (pk_name st, Some f)
                     end
                else Ok (pk_name st, sk_name st)) = Ok keys
               /\ fst keys = pk_name st
               /\ if Fields._dynamo_sk e
                  then sk_name st = None /\ snd keys = Some f
                  else snd keys = sk_name st).
    { destruct (Fields._dynamo_sk e).
      - destruct (sk_name st) eqn:Es; [discriminate|]. eexists. split; [reflexivity|]. auto.
      - eexists. split; [reflexivity|]. auto. }
    destruct Hsk as (keys & Hk & Hk1 & Hk2). rewrite Hk in H. cbn [Res.bind] in H.
    destruct (Fields._dynamo_discriminator e).
    + destruct (discriminator_field st) eqn:Ed; [discriminate|]. cbn [Res.bind] in H.
      destruct (match Fields._dynamo_gsi_pk e with
                | Some i => set_gsi_pk name i f (gsi_keys st)
                | None => Ok (gsi_keys st)
                end) as [g1|]; [|discriminate]. cbn [Res.bind] in H.
      destruct (match Fields._dynamo_gsi_sk e with
                | Some i => set_gsi_sk name i f g1
                | None => Ok g1
                end) as [g2|]; [|discriminate]. cbn [Res.bind] in H.
      injection H as <-. cbn. split; [split; [exact Hk1|]|auto].
      destruct (Fields._dynamo_sk e); exact Hk2.
    + cbn [Res.bind] in H.
      destruct (match Fields._dynamo_gsi_pk e with
                | Some i => set_gsi_pk name i f (gsi_keys st)
                | None => Ok (gsi_keys st)
                end) as [g1|]; [|discriminate]. cbn [Res.bind] in H.
      destruct (match Fields._dynamo_gsi_sk e with
                | Some i => set_gsi_sk name i f g1
                | None => Ok g1
                end) as [g2|]; [|discriminate]. cbn [Res.bind] in H.
      injection H as <-. cbn. split; [split; [exact Hk1|]|auto].
      destruct (Fields._dynamo_sk e); exact Hk2.
Qed.

Lemma scan_fields_keys name fields :
  forall st st',
    scan_fields name fields st = Ok st' ->
    (forall x, pk_name st = Some x -> pk_name st' = Some x)
    /\ (forall x, sk_name st = Some x -> sk_name st' = Some x)
    /\ (forall x, discriminator_field st = Some x -> discriminator_field st' = Some x)
    /\ (forall f e, In (f, e) fields -> Fields._dynamo_pk e = true -> pk_name st' = Some f)
    /\ (forall f e, In (f, e) fields -> Fields._dynamo_pk e = false ->
                    Fields._dynamo_sk e = true -> sk_name st' = Some f)
    /\ (forall f e, In (f, e) fields -> Fields._dynamo_discriminator e = true ->
                    discriminator_field st' = Some f)
    /\ ((forall f e, In (f, e) fields -> Fields._dynamo_pk e = false) ->
        pk_name st' = pk_name st).
Proof.
  induction fields as [|[f e] fields IH]; intros st st' H.
  - injection H as <-. repeat split; auto; intros ? ? [].
  - cbn [scan_fields] in H.
    destruct (scan_field name st f e) as [st1|err] eqn:E1; [|discriminate].
    cbn [Res.bind] in H.
    destruct (IH st1 st' H) as (Mp & Ms & Md & Ip & Is & Id & Np).
    destruct (scan_field_keys name st f e st1 E1) as [Hk Hd].
    split; [|split; [|split; [|split; [|split; [|split]]]]].
    + intros x Hx. apply Mp. destruct (Fields._dynamo_pk e).
      * destruct Hk as (Hn & _). congruence.
      * destruct Hk as (Hp & _). congruence.
    + intros x Hx. apply Ms. destruct (Fields._dynamo_pk e).
      * destruct Hk as (_ & _ & Hs). congruence.
      * destruct Hk as (_ & Hs). destruct (Fields._dynamo_sk e).
        -- destruct Hs as (Hn & _). congruence.
        -- congruence.
    + intros x Hx. apply Md. destruct (Fields._dynamo_discriminator e).
      * destruct Hd as (Hn & _). congruence.
      * congruence.
    + intros f' e' [Heq|Hin] Hpk; [|eapply Ip; eassumption].
      injection Heq as <- <-. apply Mp. rewrite Hpk in Hk. apply Hk.
    + intros f' e' [Heq|Hin] Hpk Hsk; [|eapply Is; eassumption].
      injection Heq as <- <-. apply Ms. rewrite Hpk, Hsk in Hk. apply Hk.
    + intros f' e' [Heq|Hin] Hdisc; [|eapply Id; eassumption].
      injection Heq as <- <-. apply Md. rewrite Hdisc in Hd. apply Hd.
    + intros Hnone. rewrite Np by (intros f' e' Hin; apply (Hnone f' e'); right; exact Hin).
      rewrite (Hnone f e (or_introl eq_refl)) in Hk. apply Hk.
Qed.

(** X24.  The keys the metaclass reads off the fields.  When a class
    with a [Meta] is accepted, every field marked [Key()] is its partition
    key, every field marked [SortKey()] (and not [Key()]) is its sort key
    and every field marked [Discriminator()] is its discriminator field,
    so each marker is on at most one field; without a [Key()] field the
    partition key is that of the first base that has a configuration; and
    the class is a polymorphic base exactly when it has a discriminator
    field, with an empty registry. *)
Theorem X24_metaclass_reads_the_keys :
  forall (name : string) (bases : list BaseClass) (Meta : MetaClass)
         (model_fields : list (string * Fields.Extra)) (m : Config.ModelOptions),
    __new__ name bases (Some Meta) model_fields = Ok (Some m) ->
    (forall f e, In (f, e) model_fields -> Fields._dynamo_pk e = true -> f <> "" ->
                 Config.pk_name m = f)
    /\ (forall f e, In (f, e) model_fields -> Fields._dynamo_pk e = false ->
                    Fields._dynamo_sk e = true -> Config.sk_name m = Some f)
    /\ (forall f e, In (f, e) model_fields -> Fields._dynamo_discriminator e = true ->
                    Config.discriminator_field m = Some f)
    /\ ((forall f e, In (f, e) model_fields -> Fields._dynamo_pk e = false) ->
        exists base base_meta,
          first_base (fun _ => true) bases = Some (base, base_meta)
          /\ Config.pk_name m = Config.pk_name base_meta)
    /\ Config.is_base_entity m = Config.is_polymorphic m
    /\ Config.entity_registry m = ∅
    /\ Some (Config.table_name m) = meta_table_name Meta.
Proof.
  intros name bases Meta fields m H. unfold __new__ in H.
  destruct (name =? "DynamoModel")%string; [discriminate|].
  destruct (existsb base_pending bases); [discriminate|].
  destruct (meta_table_name Meta) as [table|] eqn:Et; [|discriminate].
  unfold declared_options in H.
  destruct (scan_fields name fields _) as [st|e] eqn:Es; [|discriminate].
  cbn [Res.bind] in H.
  destruct (negb (Config.str_truthy (fst (inherit_keys bases st)))) eqn:Ek; [discriminate|].
  destruct (build_gsi_definitions name (gsi_keys st) ∅) as [defs|e]; [|discriminate].
  cbn [Res.bind] in H. injection H as <-.
  destruct (scan_fields_keys name fields _ st Es) as (_ & _ & _ & Ip & Is & Id & Np).
  cbn [pk_name] in Np.
  cbn [Config.pk_name Config.sk_name Config.discriminator_field Config.is_base_entity
       Config.entity_registry Config.table_name Config.is_polymorphic].
  split; [|split; [|split; [|split; [|split; [|split]]]]]; try reflexivity.
  - intros f e Hin Hpk Hne. unfold inherit_keys. rewrite (Ip f e Hin Hpk).
    rewrite (str_truthy_some f Hne). reflexivity.
  - intros f e Hin Hpk Hsk. unfold inherit_keys. rewrite (Is f e Hin Hpk Hsk).
    destruct (negb (Config.str_truthy (pk_name st))); [|reflexivity].
    destruct (first_base (fun _ => true) bases) as [[b bm]|]; reflexivity.
  - intros f e Hin Hd. exact (Id f e Hin Hd).
  - intros Hnone. unfold inherit_keys in *. rewrite (Np Hnone) in *.
    cbn [Config.str_truthy negb] in *.
    destruct (first_base (fun _ => true) bases) as [[b bm]|]; [|discriminate].
    exists b, bm. split; reflexivity.
Qed.

End MetaclassKeys.

Section MetaclassIndexes.
Context `{F : PyFloat}.
Import Metaclass.

Local Abbreviation look g i := (default (None, None) (Serializer.dict_get g i)).

Lemma dict_get_set_other {V} (d : list (string * V)) k1 k2 v :
  Serializer.dict_get (Serializer.dict_set d k1 v) k2
  = if (k1 =? k2)%string then Some v else Serializer.dict_get d k2.
Proof.
  induction d as [|[k' v'] d IH]; cbn [Serializer.dict_set Serializer.dict_get].
  - destruct (k1 =? k2)%string; reflexivity.
  - destruct (k' =? k1)%string eqn:E1; cbn [Serializer.dict_get].
    + apply String.eqb_eq in E1. subst k'.
      destruct (k1 =? k2)%string; reflexivity.
    + destruct (k' =? k2)%string eqn:E2; [|exact IH].
      apply String.eqb_eq in E2. subst k'. rewrite String.eqb_sym, E1. reflexivity.
Qed.

Lemma dict_set_names {V} (d : list (string * V)) k v :
  map fst (Serializer.dict_set d k v)
  = if existsb (String.eqb k) (map fst d) then map fst d else map fst d ++ [k].
Proof.
  induction d as [|[k' v'] d IH]; cbn [Serializer.dict_set map fst existsb]; [reflexivity|].
  rewrite (String.eqb_sym k k'). destruct (k' =? k)%string eqn:E; cbn [map fst orb].
  { apply String.eqb_eq in E. subst k'. reflexivity. }
  rewrite IH. destruct (existsb (String.eqb k) (map fst d)); reflexivity.
Qed.

Lemma dict_set_nodup {V} (d : list (string * V)) k v :
  List.NoDup (map fst d) -> List.NoDup (map fst (Serializer.dict_set d k v)).
Proof.
  intros H. rewrite dict_set_names.
  destruct (existsb (String.eqb k) (map fst d)) eqn:E; [exact H|].
  apply NoDup_ListNoDup. apply NoDup_app. split; [apply NoDup_ListNoDup; exact H|]. split.
  - intros x Hx Hk. apply list_elem_of_singleton in Hk. subst x.
    apply list_elem_of_In in Hx.
    assert (existsb (String.eqb k) (map fst d) = true).
    { apply existsb_exists. exists k. split; [exact Hx|apply String.eqb_refl]. }
    congruence.
  - apply NoDup_singleton.
Qed.

Lemma dict_get_absent {V} (d : list (string * V)) k :
  ~ In k (map fst d) -> Serializer.dict_get d k = None.
Proof.
  induction d as [|[k' v'] d IH]; cbn [Serializer.dict_get map fst]; intros H; [reflexivity|].
  destruct (k' =? k)%string eqn:E.
  - apply String.eqb_eq in E. exfalso. apply H. left. exact E.
  - apply IH. intros Hin. apply H. right. exact Hin.
Qed.

Lemma set_gsi_pk_spec name i f g g' :
  set_gsi_pk name i f g = Ok g' ->
  fst (look g i) = None
  /\ (List.NoDup (map fst g) -> List.NoDup (map fst g'))
  /\ forall j, look g' j = if (i =? j)%string then (Some f, snd (look g i)) else look g j.
Proof.
  unfold set_gsi_pk. destruct (fst (look g i)) eqn:E; [discriminate|].
  intros H. injection H as <-. split; [reflexivity|]. split; [apply dict_set_nodup|].
  intros j. rewrite dict_get_set_other. destruct (i =? j)%string; reflexivity.
Qed.

Lemma set_gsi_sk_spec name i f g g' :
  set_gsi_sk name i f g = Ok g' ->
  snd (look g i) = None
  /\ (List.NoDup (map fst g) -> List.NoDup (map fst g'))
  /\ forall j, look g' j = if (i =? j)%string then (fst (look g i), Some f) else look g j.
Proof.
  unfold set_gsi_sk. destruct (snd (look g i)) eqn:E; [discriminate|].
  intros H. injection H as <-. split; [reflexivity|]. split; [apply dict_set_nodup|].
  intros j. rewrite dict_get_set_other. destruct (i =? j)%string; reflexivity.
Qed.

Lemma scan_field_gsi_steps name st f e st' :
  scan_field name st f e = Ok st' ->
  exists g1,
    match Fields._dynamo_gsi_pk e with
    | Some i => set_gsi_pk name i f (gsi_keys st)
    | None => Ok (gsi_keys st)
    end = Ok g1
    /\ match Fields._dynamo_gsi_sk e with
       | Some i => set_gsi_sk name i f g1
       | None => Ok g1
       end = Ok (gsi_keys st').
Proof.
  unfold scan_field. intros H.
  destruct (if Fields._dynamo_pk e then _ else _) as [keys|]; [|discriminate].
  cbn [Res.bind] in H.
  destruct (if Fields._dynamo_discriminator e then _ else _) as [disc|]; [|discriminate].
  cbn [Res.bind] in H.
  destruct (match Fields._dynamo_gsi_pk e with
            | Some i => set_gsi_pk name i f (gsi_keys st)
            | None => Ok (gsi_keys st)
            end) as [g1|] eqn:E1; [|discriminate].
  cbn [Res.bind] in H.
  destruct (match Fields._dynamo_gsi_sk e with
            | Some i => set_gsi_sk name i f g1
            | None => Ok g1
            end) as [g2|] eqn:E2; [|discriminate].
  cbn [Res.bind] in H. injection H as <-. exists g1. split; [reflexivity|exact E2].
Qed.

Lemma scan_field_gsi name st f e st' :
  scan_field name st f e = Ok st' ->
  (List.NoDup (map fst (gsi_keys st)) -> List.NoDup (map fst (gsi_keys st')))
  /\ forall j,
       (Fields._dynamo_gsi_pk e = Some j ->
          fst (look (gsi_keys st) j) = None /\ fst (look (gsi_keys st') j) = Some f)
       /\ (Fields._dynamo_gsi_pk e <> Some j ->
          fst (look (gsi_keys st') j) = fst (look (gsi_keys st) j))
       /\ (Fields._dynamo_gsi_sk e = Some j ->
          snd (look (gsi_keys st) j) = None /\ snd (look (gsi_keys st') j) = Some f)
       /\ (Fields._dynamo_gsi_sk e <> Some j ->
          snd (look (gsi_keys st') j) = snd (look (gsi_keys st) j)).
Proof.
  intros H. destruct (scan_field_gsi_steps name st f e st' H) as (g1 & H1 & H2).
  assert (P1 : (List.NoDup (map fst (gsi_keys st)) -> List.NoDup (map fst g1))
               /\ forall j,
                    (Fields._dynamo_gsi_pk e = Some j ->
                       fst (look (gsi_keys st) j) = None /\ fst (look g1 j) = Some f)
                    /\ (Fields._dynamo_gsi_pk e <> Some j ->
                          fst (look g1 j) = fst (look (gsi_keys st) j))
                    /\ snd (look g1 j) = snd (look (gsi_keys st) j)).
  { destruct (Fields._dynamo_gsi_pk e) as [i|].
    - destruct (set_gsi_pk_spec _ _ _ _ _ H1) as (Hn & Hd & Hl). split; [exact Hd|].
      intros j. rewrite Hl. split; [|split].
      + intros Heq. injection Heq as ->. rewrite String.eqb_refl. auto.
      + intros Hne. destruct (i =? j)%string eqn:E; [|reflexivity].
        apply String.eqb_eq in E. congruence.
      + destruct (i =? j)%string eqn:E; [|reflexivity].
        apply String.eqb_eq in E. subst j. reflexivity.
    - injection H1 as <-. split; [auto|]. intros j. split; [discriminate|]. auto. }
  destruct P1 as [Hd1 P1].
  assert (P2 : (List.NoDup (map fst g1) -> List.NoDup (map fst (gsi_keys st')))
               /\ forall j,
                    (Fields._dynamo_gsi_sk e = Some j ->
                       snd (look g1 j) = None /\ snd (look (gsi_keys st') j) = Some f)
                    /\ (Fields._dynamo_gsi_sk e <> Some j ->
                          snd (look (gsi_keys st') j) = snd (look g1 j))
                    /\ fst (look (gsi_keys st') j) = fst (look g1 j)).
  { destruct (Fields._dynamo_gsi_sk e) as [i|].
    - destruct (set_gsi_sk_spec _ _ _ _ _ H2) as (Hn & Hd & Hl). split; [exact Hd|].
      intros j. rewrite Hl. split; [|split].
      + intros Heq. injection Heq as ->. rewrite String.eqb_refl. auto.
      + intros Hne. destruct (i =? j)%string eqn:E; [|reflexivity].
        apply String.eqb_eq in E. congruence.
      + destruct (i =? j)%string eqn:E; [|reflexivity].
        apply String.eqb_eq in E. subst j. reflexivity.
    - injection H2 as <-. split; [auto|]. intros j. split; [discriminate|]. auto. }
  destruct P2 as [Hd2 P2].
  split; [auto|]. intros j.
  destruct (P1 j) as (A1 & A2 & A3). destruct (P2 j) as (B1 & B2 & B3).
  split; [|split; [|split]].
  - intros Heq. destruct (A1 Heq). split; [assumption|congruence].
  - intros Hne. rewrite B3. apply A2. exact Hne.
  - intros Heq. destruct (B1 Heq). split; [congruence|assumption].
  - intros Hne. rewrite (B2 Hne). exact A3.
Qed.

Lemma scan_fields_gsi name fields :
  forall st st',
    scan_fields name fields st = Ok st' ->
    (List.NoDup (map fst (gsi_keys st)) -> List.NoDup (map fst (gsi_keys st')))
    /\ (forall j x, fst (look (gsi_keys st) j) = Some x -> fst (look (gsi_keys st') j) = Some x)
    /\ (forall j x, snd (look (gsi_keys st) j) = Some x -> snd (look (gsi_keys st') j) = Some x)
    /\ (forall f e j, In (f, e) fields -> Fields._dynamo_gsi_pk e = Some j ->
                      fst (look (gsi_keys st') j) = Some f)
    /\ (forall f e j, In (f, e) fields -> Fields._dynamo_gsi_sk e = Some j ->
                      snd (look (gsi_keys st') j) = Some f)
    /\ (forall j x, fst (look (gsi_keys st') j) = Some x ->
          fst (look (gsi_keys st) j) = Some x
          \/ exists e, In (x, e) fields /\ Fields._dynamo_gsi_pk e = Some j)
    /\ (forall j x, snd (look (gsi_keys st') j) = Some x ->
          snd (look (gsi_keys st) j) = Some x
          \/ exists e, In (x, e) fields /\ Fields._dynamo_gsi_sk e = Some j).
Proof.
  induction fields as [|[f e] fields IH]; intros st st' H.
  - injection H as <-. repeat split; auto; intros ? ? ? [].
  - cbn [scan_fields] in H.
    destruct (scan_field name st f e) as [st1|err] eqn:E1; [|discriminate].
    cbn [Res.bind] in H.
    destruct (IH st1 st' H) as (Hd & Mp & Ms & Fp & Fs & Bp & Bs).
    destruct (scan_field_gsi name st f e st1 E1) as [Hd1 Hstep].
    split; [auto|]. split; [|split; [|split; [|split; [|split]]]].
    + intros j x Hx. apply Mp. destruct (Hstep j) as (A1 & A2 & _).
      destruct (decide (Fields._dynamo_gsi_pk e = Some j)) as [Heq|Hne].
      * destruct (A1 Heq). congruence.
      * rewrite (A2 Hne). exact Hx.
    + intros j x Hx. apply Ms. destruct (Hstep j) as (_ & _ & A3 & A4).
      destruct (decide (Fields._dynamo_gsi_sk e = Some j)) as [Heq|Hne].
      * destruct (A3 Heq). congruence.
      * rewrite (A4 Hne). exact Hx.
    + intros f' e' j [Heq|Hin] Hj; [|eapply Fp; eassumption].
      injection Heq as <- <-. apply Mp. destruct (Hstep j) as (A1 & _). apply (A1 Hj).
    + intros f' e' j [Heq|Hin] Hj; [|eapply Fs; eassumption].
      injection Heq as <- <-. apply Ms. destruct (Hstep j) as (_ & _ & A3 & _). apply (A3 Hj).
    + intros j x Hx. destruct (Bp j x Hx) as [H1|(e' & Hin & He')].
      * destruct (Hstep j) as (A1 & A2 & _).
        destruct (decide (Fields._dynamo_gsi_pk e = Some j)) as [Heq|Hne].
        -- destruct (A1 Heq) as [_ Hf]. right. exists e. split; [left; congruence|exact Heq].
        -- left. rewrite <- (A2 Hne). exact H1.
      * right. exists e'. split; [right; exact Hin|exact He'].
    + intros j x Hx. destruct (Bs j x Hx) as [H1|(e' & Hin & He')].
      * destruct (Hstep j) as (_ & _ & A3 & A4).
        destruct (decide (Fields._dynamo_gsi_sk e = Some j)) as [Heq|Hne].
        -- destruct (A3 Heq) as [_ Hf]. right. exists e. split; [left; congruence|exact Heq].
        -- left. rewrite <- (A4 Hne). exact H1.
      * right. exists e'. split; [right; exact Hin|exact He'].
Qed.

Lemma build_gsi_definitions_spec name g :
  List.NoDup (map fst g) ->
  forall acc defs,
    build_gsi_definitions name g acc = Ok defs ->
    (forall i p s, Serializer.dict_get g i = Some (p, s) ->
       exists pk, p = Some pk
                  /\ defs !! i
                     = Some {| Config.gsi_index_name := i; Config.gsi_pk_name := pk;
                               Config.gsi_pk_type := "S"; Config.gsi_sk_name := s;
                               Config.gsi_sk_type := "S";
                               Config.gsi_projection_type := "ALL" |})
    /\ (forall i, Serializer.dict_get g i = None -> defs !! i = acc !! i).
Proof.
  induction g as [|[k [p s]] g IH]; intros Hnd acc defs H.
  - injection H as <-. split; [discriminate|reflexivity].
  - apply List.NoDup_cons_iff in Hnd. destruct Hnd as [Hk Hnd].
    cbn [build_gsi_definitions] in H. destruct p as [pk|]; [|discriminate].
    destruct (IH Hnd _ _ H) as [Hsome Hnone]. split.
    + intros i p' s' Hi. cbn [Serializer.dict_get] in Hi.
      destruct (k =? i)%string eqn:E.
      * apply String.eqb_eq in E. subst i. injection Hi as <- <-. exists pk.
        split; [reflexivity|].
        rewrite (Hnone k (dict_get_absent g k Hk)). apply lookup_insert_eq.
      * apply (Hsome i p' s' Hi).
    + intros i Hi. cbn [Serializer.dict_get] in Hi.
      destruct (k =? i)%string eqn:E; [discriminate|].
      rewrite (Hnone i Hi). apply lookup_insert_ne.
      intros ->. rewrite String.eqb_refl in E. discriminate.
Qed.

(** X25.  The indexes the metaclass reads off the fields.  When a class
    with a [Meta] is accepted, every field marked [GSIKey(i)] is the
    partition key of an index [i] of the class and every field marked
    [GSISortKey(i)] is its sort key, so an index has at most one of each;
    and every index of the class is one of these: it is stored under its
    own name, its partition key is a field marked [GSIKey] for it (an
    index with a sort key field alone is refused), and its sort key, when
    it has one, a field marked [GSISortKey] for it. *)
Theorem X25_metaclass_reads_the_indexes :
  forall (name : string) (bases : list BaseClass) (Meta : MetaClass)
         (model_fields : list (string * Fields.Extra)) (m : Config.ModelOptions),
    __new__ name bases (Some Meta) model_fields = Ok (Some m) ->
    (forall f e i, In (f, e) model_fields -> Fields._dynamo_gsi_pk e = Some i ->
       exists gsi, Config.get_gsi m i = Some gsi /\ Config.gsi_pk_name gsi = f)
    /\ (forall f e i, In (f, e) model_fields -> Fields._dynamo_gsi_sk e = Some i ->
          exists gsi, Config.get_gsi m i = Some gsi /\ Config.gsi_sk_name gsi = Some f)
    /\ (forall i gsi, Config.get_gsi m i = Some gsi ->
          Config.gsi_index_name gsi = i
          /\ (exists e, In (Config.gsi_pk_name gsi, e) model_fields
                        /\ Fields._dynamo_gsi_pk e = Some i)
          /\ (forall s, Config.gsi_sk_name gsi = Some s ->
                exists e, In (s, e) model_fields /\ Fields._dynamo_gsi_sk e = Some i)).
Proof.
  intros name bases Meta fields m H. unfold __new__ in H.
  destruct (name =? "DynamoModel")%string; [discriminate|].
  destruct (existsb base_pending bases); [discriminate|].
  destruct (meta_table_name Meta) as [table|]; [|discriminate].
  unfold declared_options in H.
  destruct (scan_fields name fields _) as [st|e] eqn:Es; [|discriminate].
  cbn [Res.bind] in H.
  destruct (negb (Config.str_truthy (fst (inherit_keys bases st)))); [discriminate|].
  destruct (build_gsi_definitions name (gsi_keys st) ∅) as [defs|e] eqn:Eb; [|discriminate].
  cbn [Res.bind] in H. injection H as <-.
  unfold Config.get_gsi. cbn [Config.gsi_definitions].
  destruct (scan_fields_gsi name fields _ st Es) as (Hd & _ & _ & Fp & Fs & Bp & Bs).
  cbn [gsi_keys map] in Hd. specialize (Hd (List.NoDup_nil _)).
  destruct (build_gsi_definitions_spec name (gsi_keys st) Hd ∅ defs Eb) as [Hsome Hnone].
  split; [|split].
  - intros f e i Hin Hi. specialize (Fp f e i Hin Hi).
    destruct (Serializer.dict_get (gsi_keys st) i) as [[p s]|] eqn:Eg; [|discriminate].
    cbn in Fp. subst p. destruct (Hsome i _ _ Eg) as (pk & Hpk & Hdef).
    injection Hpk as <-. eexists. split; [exact Hdef|reflexivity].
  - intros f e i Hin Hi. specialize (Fs f e i Hin Hi).
    destruct (Serializer.dict_get (gsi_keys st) i) as [[p s]|] eqn:Eg; [|discriminate].
    cbn in Fs. subst s. destruct (Hsome i _ _ Eg) as (pk & Hpk & Hdef).
    eexists. split; [exact Hdef|reflexivity].
  - intros i gsi Hg.
    destruct (Serializer.dict_get (gsi_keys st) i) as [[p s]|] eqn:Eg.
    + destruct (Hsome i _ _ Eg) as (pk & -> & Hdef). rewrite Hdef in Hg.
      injection Hg as <-. cbn [Config.gsi_index_name Config.gsi_pk_name Config.gsi_sk_name].
      split; [reflexivity|]. split.
      * destruct (Bp i pk) as [H0|Hex]; [rewrite Eg; reflexivity|discriminate|exact Hex].
      * intros s' ->. destruct (Bs i s') as [H0|Hex];
          [rewrite Eg; reflexivity|discriminate|exact Hex].
    + rewrite (Hnone i Eg), lookup_empty in Hg. discriminate.
Qed.

End MetaclassIndexes.

Section WellFormedRequests.
Context `{F : PyFloat} `{T : !PyText} `{V : !Base.ValidationLayer}
  `{B : !Conditions.ConditionExpressionBuilder}.

Lemma put_values_binds (vs : list (string * pyval)) :
  forall m m',
    Query.put_values vs m = Ok m' ->
    (forall ph, is_Some (m !! ph) -> is_Some (m' !! ph))
    /\ (forall ph, In ph (map fst vs) -> is_Some (m' !! ph)).
Proof.
  induction vs as [|[p v] vs IH]; intros m m' H.
  - injection H as <-. split; [auto|intros ph []].
  - cbn [Query.put_values] in H.
    destruct (Serializer.to_dynamo_value (Query._serialize_query_value v)) as [w|e];
      [|discriminate].
    cbn [Res.bind] in H. destruct (IH _ _ H) as [Hm Hb].
    assert (Hins : forall ph, is_Some (m !! ph) \/ ph = p -> is_Some (m' !! ph)).
    { intros ph Hph. apply Hm. destruct (decide (p = ph)) as [->|Hne].
      - rewrite lookup_insert_eq. eexists. reflexivity.
      - rewrite lookup_insert_ne by exact Hne. destruct Hph; [assumption|congruence]. }
    split.
    + intros ph Hph. apply Hins. left. exact Hph.
    + intros ph [Hph|Hph]; [apply Hins; right; symmetry; exact Hph|apply Hb; exact Hph].
Qed.

Lemma bounds_bound_mono condition (m m' : gmap string Serializer.wire) :
  (forall ph, is_Some (m !! ph) -> is_Some (m' !! ph)) ->
  Derived.bounds_bound condition m -> Derived.bounds_bound condition m'.
Proof.
  unfold Derived.bounds_bound. intros Hm.
  destruct (condition =? "#sk BETWEEN :low AND :high")%string; [intros [? ?]; split|]; auto.
Qed.

Lemma sort_key_condition_binds (self q : Query.DynamoQueryBuilder) condition vs :
  condition <> "" ->
  (forall m : gmap string Serializer.wire,
      (forall ph, In ph (map fst vs) -> is_Some (m !! ph)) ->
      Derived.bounds_bound condition m) ->
  Query.sort_key_condition self condition vs = Ok q ->
  Derived.sort_key_bound q.
Proof.
  intros Hne Hb H. unfold Query.sort_key_condition in H.
  destruct (negb (Config.str_truthy (Query.sk_name self))); [discriminate|].
  destruct (Query.put_values vs (Query.expression_values self)) as [values|e] eqn:E;
    [|discriminate].
  cbn [Res.bind] in H. injection H as <-.
  unfold Derived.sort_key_bound. cbn [Query.sk_condition Query.expression_names
                                       Query.expression_values].
  split; [exact Hne|]. split.
  - rewrite lookup_insert_eq. eexists. reflexivity.
  - apply Hb. apply (put_values_binds vs _ _ E).
Qed.

Lemma apply_call_binds (self q : Query.DynamoQueryBuilder) c :
  Derived.sort_key_bound self ->
  Derived.apply_call self c = Ok q ->
  Derived.sort_key_bound q.
Proof.
  intros Hs H.
  destruct c; cbn [Derived.apply_call] in H;
    try (eapply sort_key_condition_binds; [| |exact H];
         [discriminate
         |intros m Hm; unfold Derived.bounds_bound; cbn [String.eqb Ascii.eqb Bool.eqb];
          first [apply Hm; left; reflexivity
                |split; apply Hm; [left|right; left]; reflexivity]]).
  - injection H as <-. exact Hs.
  - injection H as <-. exact Hs.
  - unfold Query.filter in H.
    destruct (Conditions.wrap_condition condition); [|discriminate]. cbn [Res.bind] in H.
    destruct (Query.user_filter_condition self); cbn in H; injection H as <-; exact Hs.
  - unfold Query.using_index in H.
    destruct (Config.get_gsi (Query.config self) index_name) as [gsi|]; [|discriminate].
    injection H as <-. unfold Derived.sort_key_bound in *.
    cbn [Query.sk_condition Query.expression_names Query.expression_values].
    destruct (Query.sk_condition self) as [condition|]; [|exact I].
    destruct Hs as (Hne & Hn & Hb). split; [exact Hne|]. split; [|exact Hb].
    assert (Hpk : is_Some (<["#pk" := Config.gsi_pk_name gsi]>
                             (Query.expression_names self) !! "#sk")).
    { rewrite lookup_insert_ne by discriminate. exact Hn. }
    destruct (Config.str_truthy (Config.gsi_sk_name gsi)
              && bool_decide (is_Some (<["#pk" := Config.gsi_pk_name gsi]>
                                         (Query.expression_names self) !! "#sk")));
      [|exact Hpk].
    rewrite lookup_insert_eq. eexists. reflexivity.
Qed.

Lemma chain_binds calls :
  forall self q : Query.DynamoQueryBuilder,
    Derived.sort_key_bound self ->
    Derived.chain self calls = Ok q ->
    Derived.sort_key_bound q.
Proof.
  induction calls as [|c calls IH]; intros self q Hs H.
  - injection H as <-. exact Hs.
  - cbn [Derived.chain] in H.
    destruct (Derived.apply_call self c) as [q1|e] eqn:E; [|discriminate].
    cbn [Res.bind] in H. apply (IH q1 q); [|exact H].
    eapply apply_call_binds; [exact Hs|exact E].
Qed.

Lemma init_has_no_sort_key_condition cls pk index (q0 : Query.DynamoQueryBuilder) :
  Query.__init__ cls pk index = Ok q0 -> Query.sk_condition q0 = None.
Proof.
  unfold Query.__init__. intros H.
  destruct (if Config.str_truthy index then _ else _) as [keys|e]; [|discriminate].
  cbn [Res.bind] in H.
  destruct (Serializer.to_dynamo_value pk) as [w|e]; [|discriminate].
  cbn [Res.bind] in H.
  destruct (Config.str_truthy (Config.discriminator_value (Base._meta cls))
            && Config.str_truthy (Config.discriminator_field (Base._meta cls)));
    [|injection H as <-; reflexivity].
  unfold Query._add_discriminator_filter, Query.config in H. cbn [Query.model_cls] in H.
  destruct (Config.discriminator_field (Base._meta cls));
    [|injection H as <-; reflexivity].
  destruct (Config.discriminator_value (Base._meta cls));
    [|injection H as <-; reflexivity].
  destruct (Serializer.to_dynamo_value (PStr s0)); [|discriminate].
  cbn [Res.bind] in H. injection H as <-. reflexivity.
Qed.

Lemma filter_params_keeps (self : Query.DynamoQueryBuilder) names values fe names' values' :
  Query.filter_params self names values = Ok (fe, names', values') ->
  (forall ph, is_Some (names !! ph) -> is_Some (names' !! ph))
  /\ (forall ph, is_Some (values !! ph) -> is_Some (values' !! ph)).
Proof.
  unfold Query.filter_params. intros H.
  destruct (Query.filter_conditions self) as [|part parts],
           (Query.user_filter_condition self) as [condition|];
    try (injection H as <- <- <-; split; auto).
  - destruct (Conditions.compile_condition (Conditions.DynCondition condition)) as [p|e];
      [|discriminate].
    cbn [Res.bind] in H. injection H as _ <- <-. split; intros ph Hph.
    + destruct (Conditions.ExpressionAttributeNames p); [|exact Hph].
      apply lookup_union_is_Some. right. exact Hph.
    + destruct (Conditions.ExpressionAttributeValues p); [|exact Hph].
      apply lookup_union_is_Some. right. exact Hph.
  - destruct (Conditions.compile_condition (Conditions.DynCondition condition)) as [p|e];
      [|discriminate].
    cbn [Res.bind] in H. injection H as _ <- <-. split; intros ph Hph.
    + destruct (Conditions.ExpressionAttributeNames p); [|exact Hph].
      apply lookup_union_is_Some. right. exact Hph.
    + destruct (Conditions.ExpressionAttributeValues p); [|exact Hph].
      apply lookup_union_is_Some. right. exact Hph.
Qed.

(** X27.  Every placeholder of the key condition is bound in the
    request.  For a query builder as constructed and taken through any
    chain of calls, the request of the iteration has the key condition
    ["#pk = :pk"], followed by [" AND "] and the sort-key condition when
    there is one, and binds ["#pk"] and [":pk"], and with a sort-key
    condition ["#sk"] and the value placeholders of that condition. *)
Theorem X27_key_condition_placeholders_are_bound :
  forall (cls : Base.ModelClass Base.annotation_t) (pk : pyval) (index : option string)
         (calls : list Derived.call) (q0 q : Query.DynamoQueryBuilder)
         (kwargs : Query.QueryKwargs),
    Query.__init__ cls pk index = Ok q0 ->
    Derived.chain q0 calls = Ok q ->
    Query.iter_kwargs q = Ok kwargs ->
    is_Some (Query.ExpressionAttributeNames kwargs !! "#pk")
    /\ is_Some (Query.ExpressionAttributeValues kwargs !! ":pk")
    /\ match Query.sk_condition q with
       | None => Query.KeyConditionExpression kwargs = "#pk = :pk"
       | Some condition =>
           Query.KeyConditionExpression kwargs = "#pk = :pk AND " +:+ condition
           /\ is_Some (Query.ExpressionAttributeNames kwargs !! "#sk")
           /\ Derived.bounds_bound condition (Query.ExpressionAttributeValues kwargs)
       end.
Proof.
  intros cls pk index calls q0 q kwargs Hinit Hchain Hk.
  destruct (init_is_well_keyed cls pk index q0 Hinit) as (_ & _ & Hv0 & Hw0).
  destruct (chain_keeps calls q0 q0 q Hw0 Hchain) as (_ & _ & Hn & Hv & _).
  assert (Hs : Derived.sort_key_bound q).
  { apply (chain_binds calls q0 q); [|exact Hchain].
    unfold Derived.sort_key_bound.
    rewrite (init_has_no_sort_key_condition cls pk index q0 Hinit). exact I. }
  assert (Hpkv : is_Some (Query.expression_values q !! ":pk")).
  { rewrite Hv, Hv0. unfold Query.__init__ in Hinit.
    destruct (Serializer.to_dynamo_value pk) as [w|e]; [eexists; reflexivity|].
    destruct (if Config.str_truthy index then _ else _); discriminate. }
  unfold Query.iter_kwargs in Hk.
  destruct (Query.filter_params q (Query.filter_names q ∪ Query.expression_names q)
              (Query.filter_values q ∪ Query.expression_values q))
    as [[[fe names] values]|e] eqn:Ef; [|discriminate].
  cbn [Res.bind] in Hk. injection Hk as <-.
  cbn [Query.ExpressionAttributeNames Query.ExpressionAttributeValues
       Query.KeyConditionExpression fst snd].
  destruct (filter_params_keeps _ _ _ _ _ _ Ef) as [Kn Kv].
  assert (Hnames : forall ph, is_Some (Query.expression_names q !! ph) ->
                              is_Some (names !! ph)).
  { intros ph Hph. apply Kn. apply lookup_union_is_Some. right. exact Hph. }
  assert (Hvalues : forall ph, is_Some (Query.expression_values q !! ph) ->
                               is_Some (values !! ph)).
  { intros ph Hph. apply Kv. apply lookup_union_is_Some. right. exact Hph. }
  split; [apply Hnames; rewrite Hn; eexists; reflexivity|].
  split; [apply Hvalues; exact Hpkv|].
  unfold Derived.sort_key_bound in Hs.
  destruct (Query.sk_condition q) as [condition|]; [|reflexivity].
  destruct Hs as (Hne & Hsk & Hb).
  rewrite (str_truthy_some condition Hne). split; [reflexivity|].
  split; [apply Hnames; exact Hsk|].
  eapply bounds_bound_mono; [exact Hvalues|exact Hb].
Qed.

End WellFormedRequests.

(** ** Examples *)

Section SerializerSamples.
#[local] Existing Instance Reference.decimal_floats.
#[local] Existing Instance Reference.type_tags.
Import Serializer.

Lemma X1_witness :
  exists cursor,
    serialize_cursor [("pk", WS "general"); ("seq", WN (DFinite false 42 0))] = Ok cursor
    /\ map fst cursor = ["pk"; "seq"]
    /\ deserialize_cursor cursor
       = Ok [("pk", WS "general"); ("seq", WN (DFinite false 42 0))].
Proof.
  apply (X1_cursor_roundtrip [("pk", WS "general"); ("seq", WN (DFinite false 42 0))]).
  - repeat constructor; cbn; intuition discriminate.
  - reflexivity.
Defined.

Lemma X2_witness :
  map fst [("active", WBOOL true); ("views", WN (DFinite false 3 0))]
  = ["active"; "views"].
Proof.
  apply (X2_to_dynamo_keeps_names_and_order
           [("tags", PSet false []); ("active", PBool true); ("views", PInt 3)]
           [("active", WBOOL true); ("views", WN (DFinite false 3 0))]).
  - repeat constructor; cbn; intuition discriminate.
  - reflexivity.
Defined.

Lemma X3_witness :
  Derived.empty_set_attribute (WSS ["a"]) = false.
Proof.
  apply (X3_to_dynamo_emits_no_empty_set
           [("tags", PSet false [PStr "a"]); ("old", PSet false [])]
           [("tags", WSS ["a"])] eq_refl "tags").
  left. reflexivity.
Defined.

End SerializerSamples.

Section BuilderSamples.
#[local] Existing Instance Reference.decimal_floats.
#[local] Existing Instance Reference.type_tags.
#[local] Existing Instance Reference.strict_layer.
#[local] Existing Instance Reference.equality_builder.

Lemma X7_witness :
  Config.entity_registry (Base._meta Reference.MyTable) !! "USER" = None
  /\ Base._deserialize_item Reference.MyTable_with_User
       [("pk", PStr "123"); ("entity_type", PStr "USER")]
     = Base.instantiate "User" [("pk", PStr "123"); ("entity_type", PStr "USER")].
Proof.
  pose proof (X7_registered_value_resolves
                Reference.MyTable Reference.User_declared
                Reference.MyTable_with_User Reference.User
                "entity_type" "USER"
                eq_refl eq_refl ltac:(discriminate) ltac:(discriminate) eq_refl) as H.
  destruct H as (H1 & H2 & _). split; [exact H1|].
  apply (H2 [("pk", PStr "123"); ("entity_type", PStr "USER")]). reflexivity.
Defined.

Lemma X8_witness :
  exists raw expression,
    Conditions._extract_raw
      (Conditions.DynCondition (Conditions.Boto3Comparison "views" "=" [PInt 1])) = Ok raw
    /\ Conditions.build_expression raw = Ok expression
    /\ Conditions.condition_expression expression = "#n0 = :v0".
Proof.
  assert (Hc : Conditions.compile_condition
                 (Conditions.DynCondition (Conditions.Boto3Comparison "views" "=" [PInt 1]))
               = Ok {| Conditions.ConditionExpression := "#n0 = :v0";
                       Conditions.ExpressionAttributeNames := Some {["#n0" := "views"]};
                       Conditions.ExpressionAttributeValues :=
                         Some {[":v0" := Serializer.WN (DFinite false 1 0)]} |})
    by (vm_compute; reflexivity).
  destruct (X8_compiled_condition_tables _ _ Hc) as (raw & expression & H1 & H2 & H3 & _).
  exists raw, expression. repeat split; [exact H1|exact H2|symmetry; exact H3].
Defined.

Lemma X9_witness :
  Derived.query_filters Reference.room_query
    [Conditions.DynCondition (Conditions.Boto3Comparison "views" "=" [PInt 1]);
     Conditions.DynCondition (Conditions.Boto3Comparison "body" "=" [PStr "x"])]
  = Ok (Derived.query_with_filter Reference.room_query
          (Conditions.Boto3And (Conditions.Boto3Comparison "views" "=" [PInt 1])
                               (Conditions.Boto3Comparison "body" "=" [PStr "x"]))).
Proof.
  apply (proj1 (X9_filters_are_anded_in_call_order
                  (Conditions.DynCondition (Conditions.Boto3Comparison "views" "=" [PInt 1]))
                  [Conditions.DynCondition (Conditions.Boto3Comparison "body" "=" [PStr "x"])]
                  (Conditions.Boto3Comparison "views" "=" [PInt 1])
                  [Conditions.Boto3Comparison "body" "=" [PStr "x"]]
                  eq_refl eq_refl)).
  reflexivity.
Defined.

Lemma X10_witness :
  exists q,
    Query.gt Reference.room_query (PStr "09:00") = Ok q
    /\ Query.eq q (PStr "10:00") = Query.eq Reference.room_query (PStr "10:00").
Proof.
  destruct (Query.gt Reference.room_query (PStr "09:00")) as [q|e] eqn:E;
    [|vm_compute in E; discriminate E].
  exists q. split; [reflexivity|].
  apply (X10_last_sort_key_condition_wins Query.gt Query.eq
           ltac:(cbn; tauto) ltac:(cbn; tauto)
           Reference.room_query q (PStr "09:00") (PStr "10:00") E).
Defined.

Lemma X11_witness :
  exists q,
    Derived.chain Reference.room_query
      [Derived.Gt (PStr "09:00"); Derived.Limit 5; Derived.UsingIndex "DateIndex"] = Ok q
    /\ Query.expression_names q !! "#pk" = Some (Query.pk_name q)
    /\ Query.pk_val q = PStr "general".
Proof.
  destruct (Derived.chain Reference.room_query
              [Derived.Gt (PStr "09:00"); Derived.Limit 5; Derived.UsingIndex "DateIndex"])
    as [q|e] eqn:E; [|vm_compute in E; discriminate E].
  exists q. split; [reflexivity|].
  destruct (X11_builder_chain_invariant (V := Reference.strict_layer)
              Reference.Message (PStr "general") None
              [Derived.Gt (PStr "09:00"); Derived.Limit 5; Derived.UsingIndex "DateIndex"]
              Reference.room_query q eq_refl E) as (_ & H2 & H3 & _).
  split; [exact H3|exact H2].
Defined.

End BuilderSamples.

Section ReadingSamples.
#[local] Existing Instance Reference.decimal_floats.
#[local] Existing Instance Reference.type_tags.
#[local] Existing Instance Reference.strict_layer.
#[local] Existing Instance Reference.equality_builder.

Lemma X13_witness :
  1 <= 2
  /\ Query.all (fun _ => Reference.two_pages) (Query.limit Reference.room_query 2)
     = Ok [Reference.instance_of_message "09:00"; Reference.instance_of_message "10:00"].
Proof.
  split; [lia|].
  destruct (Query.iter_kwargs (Query.limit Reference.room_query 2)) as [kwargs|e] eqn:E;
    [|vm_compute in E; discriminate E].
  apply (proj1 (X13_all_returns_the_first_n_items 2 ltac:(lia))
               (fun _ => Reference.two_pages) (Query.limit Reference.room_query 2) kwargs
               [Reference.message "general" "09:00"; Reference.message "general" "10:00";
                Reference.message "general" "11:00"; Reference.message "general" "12:00"]
               _ eq_refl E eq_refl eq_refl).
Defined.

Lemma X16_witness :
  exists kwargs,
    Query.page_kwargs Reference.room_query
      (Some [("pk", PStr "general"); ("sent_at", PStr "10:00")])
    = Ok {| Query.request_kwargs := kwargs;
            Query.ExclusiveStartKey := Some (Reference.message "general" "10:00") |}.
Proof.
  destruct (Query.iter_kwargs Reference.room_query) as [kwargs|e] eqn:E;
    [|vm_compute in E; discriminate E].
  exists kwargs.
  assert (Hkey : List.NoDup (map fst (Reference.message "general" "10:00")))
    by (repeat constructor; cbn; intuition discriminate).
  apply (proj1 (X16_next_page_starts_at_the_last_key
                  (Reference.message "general" "10:00") Hkey eq_refl ltac:(discriminate))
               Reference.room_query Reference.room_query
               {| Query.Items := Some [Reference.message "general" "09:00";
                                       Reference.message "general" "10:00"];
                  Query.LastEvaluatedKey := Some (Reference.message "general" "10:00") |}
               {| Pagination.items := [Reference.instance_of_message "09:00";
                                       Reference.instance_of_message "10:00"];
                  Pagination.last_evaluated_key :=
                    Some [("pk", PStr "general"); ("sent_at", PStr "10:00")];
                  Pagination.count := 2 |}
               kwargs eq_refl eq_refl E).
Defined.

End ReadingSamples.

Section UpdateSamples.
#[local] Existing Instance Reference.decimal_floats.
#[local] Existing Instance Reference.type_tags.
#[local] Existing Instance Reference.strict_layer.
#[local] Existing Instance Reference.equality_builder.
Import Updates.

Lemma X19_witness :
  _compile (set (add (__init__ Reference.Message (PStr "general") (PStr "09:00"))
                     "views" (PInt 1)) "body" (PStr "x"))
  = _compile (add (set (__init__ Reference.Message (PStr "general") (PStr "09:00"))
                       "body" (PStr "x")) "views" (PInt 1)).
Proof.
  match goal with
  | |- _ = ?swapped => destruct swapped as [compiled|e] eqn:E
  end; [|vm_compute in E; discriminate E].
  apply (X19_clause_order_is_fixed (V := Reference.strict_layer)
           (__init__ (V := Reference.strict_layer) Reference.Message
              (PStr "general") (PStr "09:00")) [] []
           {| kind := Set_; field_name := "body"; value := PStr "x" |}
           {| kind := Add; field_name := "views"; value := PInt 1 |}
           compiled ltac:(vm_compute; discriminate) E).
Defined.

Lemma X20_witness :
  fst (execute (fun _ => Ok Reference.updated_message)
               (__init__ Reference.Message (PStr "general") (PStr "09:00")))
  = Raise (ValueError "No update actions specified").
Proof.
  apply (proj2 (X20_update_without_actions_sends_nothing
                  (fun _ => Ok Reference.updated_message)
                  (__init__ (V := Reference.strict_layer) Reference.Message
                     (PStr "general") (PStr "09:00")) eq_refl)).
Defined.

End UpdateSamples.

Section ClassMethodSamples.
#[local] Existing Instance Reference.decimal_floats.
#[local] Existing Instance Reference.type_tags.
#[local] Existing Instance Reference.strict_layer.
#[local] Existing Instance Reference.equality_builder.

Lemma X21_witness :
  Model.query_index Reference.Message "DateIndex" (PStr "general")
  = Query.using_index Reference.room_query "DateIndex".
Proof.
  apply (X21_query_index_is_query_using_index (V := Reference.strict_layer)
           Reference.Message "DateIndex" (PStr "general")
           ltac:(discriminate) ltac:(vm_compute; reflexivity)).
Defined.

End ClassMethodSamples.

Section MetaclassSamples.
#[local] Existing Instance Reference.decimal_floats.
#[local] Existing Instance Reference.type_tags.
#[local] Existing Instance Reference.strict_layer.
#[local] Existing Instance Reference.equality_builder.

Example invoice_is_declared :
  Metaclass.__new__ "Invoice" [Samples.DynamoModel] (Some Samples.Invoice_Meta)
    Samples.Invoice_fields
  = Ok (Some Samples.Invoice_options).
Proof. vm_compute. reflexivity. Qed.

Lemma X24_witness :
  Config.pk_name Samples.Invoice_options = "invoice_id"
  /\ Config.sk_name Samples.Invoice_options = Some "issued".
Proof.
  assert (H : Metaclass.__new__ "Invoice" [Samples.DynamoModel] (Some Samples.Invoice_Meta)
                Samples.Invoice_fields
              = Ok (Some Samples.Invoice_options)) by (vm_compute; reflexivity).
  destruct (X24_metaclass_reads_the_keys _ _ _ _ _ H) as (Hpk & Hsk & _).
  split.
  - apply (Hpk "invoice_id" (Fields.Key Fields.no_extra));
      [left; reflexivity|reflexivity|discriminate].
  - apply (Hsk "issued" (Fields.SortKey Fields.no_extra));
      [right; left; reflexivity|reflexivity|reflexivity].
Defined.

Lemma X25_witness :
  exists gsi,
    Config.get_gsi Samples.Invoice_options "ByCustomer" = Some gsi
    /\ Config.gsi_pk_name gsi = "customer".
Proof.
  assert (H : Metaclass.__new__ "Invoice" [Samples.DynamoModel] (Some Samples.Invoice_Meta)
                Samples.Invoice_fields
              = Ok (Some Samples.Invoice_options)) by (vm_compute; reflexivity).
  apply (proj1 (X25_metaclass_reads_the_indexes _ _ _ _ _ H)
               "customer" (Fields.GSIKey "ByCustomer" Fields.no_extra) "ByCustomer");
    [right; right; left; reflexivity|reflexivity].
Defined.

End MetaclassSamples.

Section RequestSamples.
#[local] Existing Instance Reference.decimal_floats.
#[local] Existing Instance Reference.type_tags.
#[local] Existing Instance Reference.strict_layer.
#[local] Existing Instance Reference.equality_builder.

Lemma X27_witness :
  exists q kwargs,
    Derived.chain Reference.room_query
      [Derived.Between (PStr "09:00") (PStr "11:00"); Derived.Limit 5] = Ok q
    /\ Query.iter_kwargs q = Ok kwargs
    /\ Query.KeyConditionExpression kwargs = "#pk = :pk AND #sk BETWEEN :low AND :high"
    /\ is_Some (Query.ExpressionAttributeValues kwargs !! ":low")
    /\ is_Some (Query.ExpressionAttributeValues kwargs !! ":high").
Proof.
  destruct (Derived.chain Reference.room_query
              [Derived.Between (PStr "09:00") (PStr "11:00"); Derived.Limit 5])
    as [q|e] eqn:E; [|vm_compute in E; discriminate E].
  assert (Hq : Query.sk_condition q = Some "#sk BETWEEN :low AND :high")
    by (vm_compute in E; injection E as <-; reflexivity).
  assert (Hk : exists kwargs, Query.iter_kwargs q = Ok kwargs)
    by (vm_compute in E; injection E as <-; eexists; vm_compute; reflexivity).
  destruct Hk as [kwargs Hk].
  exists q, kwargs. split; [reflexivity|]. split; [exact Hk|].
  pose proof (X27_key_condition_placeholders_are_bound
                (V := Reference.strict_layer) Reference.Message (PStr "general") None
                [Derived.Between (PStr "09:00") (PStr "11:00"); Derived.Limit 5]
                Reference.room_query q kwargs eq_refl E Hk) as H.
  rewrite Hq in H. destruct H as (_ & _ & Hc & _ & Hlow & Hhigh).
  split; [exact Hc|]. split; [exact Hlow|exact Hhigh].
Defined.

End RequestSamples.

Section FurtherSamples.
#[local] Existing Instance Reference.decimal_floats.
#[local] Existing Instance Reference.type_tags.
#[local] Existing Instance Reference.strict_layer.
#[local] Existing Instance Reference.equality_builder.

Lemma X4_witness :
  exists e,
    Serializer.to_dynamo_value (PSet false [PList [PInt 1]]) = Raise e
    /\ Derived.encoding_error e.
Proof.
  destruct (Serializer.to_dynamo_value (PSet false [PList [PInt 1]])) as [w|e] eqn:E;
    [vm_compute in E; discriminate E|].
  exists e. split; [reflexivity|].
  apply (proj1 X4_encoding_errors (PSet false [PList [PInt 1]]) e E).
Defined.

Lemma X5_witness :
  map fst [("pk", PStr "general"); ("sent_at", PStr "09:00")] = ["pk"; "sent_at"].
Proof.
  apply (proj1 (X5_from_dynamo_names_and_errors (Reference.message "general" "09:00"))
               [("pk", PStr "general"); ("sent_at", PStr "09:00")] eq_refl).
Defined.

Lemma X6_witness :
  handle_dynamo_errors (Some "messages") (Raise (ValueError "no") : result exn Z)
  = Raise (ValueError "no")
  /\ is_ClientError (TableNotFoundError "messages" (Some Samples.missing_table)) = false.
Proof.
  split.
  - apply (proj1 (proj2 (X6_translation_scope_composes Z None (Some "messages")
                           (Raise (ValueError "no"))))
                 (ValueError "no") eq_refl eq_refl).
  - apply (proj1 (proj2 (proj2 (X6_translation_scope_composes Z None (Some "messages")
                                  (Raise Samples.missing_table))))).
    vm_compute. reflexivity.
Defined.

Lemma X12_witness :
  Query.first (fun _ => Reference.two_pages) (Query.limit Reference.room_query 2)
  = Ok (Some (Reference.instance_of_message "09:00")).
Proof.
  apply (proj1 (proj1 X12_first_one_and_all_agree
                      (fun _ => Reference.two_pages) (Query.limit Reference.room_query 2))
               2 [Reference.instance_of_message "09:00"; Reference.instance_of_message "10:00"]
               eq_refl).
  vm_compute. reflexivity.
Defined.

Lemma X14_witness :
  exists e,
    Query.all (fun _ => [Iteration.PageRaises Samples.missing_table]) Reference.room_query
    = Raise e
    /\ is_ClientError e = false.
Proof.
  destruct (Query.all (fun _ => [Iteration.PageRaises Samples.missing_table])
                      Reference.room_query) as [xs|e] eqn:E;
    [vm_compute in E; discriminate E|].
  exists e. split; [reflexivity|].
  destruct (Query.iter_kwargs Reference.room_query) as [kwargs|e'] eqn:K;
    [|vm_compute in K; discriminate K].
  apply (proj2 (proj1 X14_iteration_raises_no_transport_fault
                      (fun _ => [Iteration.PageRaises Samples.missing_table])
                      Reference.room_query kwargs K) e E).
Defined.

Lemma X15_witness :
  exists p,
    Query.page (fun _ => Ok Samples.first_page) Reference.room_query None = Ok p
    /\ Pagination.count p = 2
    /\ Pagination.has_more p = true.
Proof.
  destruct (Query.page (fun _ => Ok Samples.first_page) Reference.room_query None)
    as [p|e] eqn:E; [|vm_compute in E; discriminate E].
  destruct (Query.page_kwargs Reference.room_query None) as [kwargs|e] eqn:K;
    [|vm_compute in K; discriminate K].
  exists p.
  destruct (proj1 X15_page_result (fun _ => Ok Samples.first_page) Reference.room_query
                  None kwargs Samples.first_page p K eq_refl E) as (_ & Hcount & Hmore & _).
  split; [reflexivity|]. split; [exact Hcount|]. apply Hmore. reflexivity.
Defined.

Lemma X22_witness :
  exists p,
    Model.get_params Reference.Message (PStr "general") (PStr "09:00") = Ok p
    /\ Serializer.to_dynamo
         (Updates.key_dict (Model.update Reference.Message (PStr "general") (PStr "09:00")))
       = Ok (Model.get_Key p).
Proof.
  destruct (Model.get_params (V := Reference.strict_layer) Reference.Message
              (PStr "general") (PStr "09:00"))
    as [p|e] eqn:E; [|vm_compute in E; discriminate E].
  exists p. split; [reflexivity|].
  destruct (X22_get_delete_update_share_the_key (V := Reference.strict_layer)
              Reference.Message (PStr "general") (PStr "09:00")) as (Hsame & _ & Hget & _).
  rewrite <- Hsame. apply Hget. exact E.
Defined.

Lemma X23_witness :
  Model.update_item (fun _ => Ok Reference.updated_message) Reference.Message
    [("sent_at", PStr "09:00")] (Updates.actions Reference.bump_views) None Updates.NONE
  = (Raise (ValueError "Key missing partition key 'pk'"), []).
Proof.
  apply (proj1 (X23_update_item_needs_a_partition_key (V := Reference.strict_layer)
                  (fun _ => Ok Reference.updated_message) Reference.Message
                  [("sent_at", PStr "09:00")] (Updates.actions Reference.bump_views)
                  None Updates.NONE)).
  reflexivity.
Defined.

End FurtherSamples.

Section SubtypeScans.
Context `{F : PyFloat} `{T : !PyText} `{V : !Base.ValidationLayer}
  `{B : !Conditions.ConditionExpressionBuilder}.
Import Iteration.




End SubtypeScans.

Section SubtypeScanSamples.
#[local] Existing Instance Reference.decimal_floats.
#[local] Existing Instance Reference.type_tags.
#[local] Existing Instance Reference.strict_layer.
#[local] Existing Instance Reference.equality_builder.
Import Iteration.


End SubtypeScanSamples.

Section UpdatePlaceholders.
Context `{F : PyFloat} `{T : !PyText} `{V : !Base.ValidationLayer}
  `{B : !Conditions.ConditionExpressionBuilder}.
Import Updates.

Lemma counter_text_inj i j : counter_text i = counter_text j -> i = j.
Proof.
  unfold counter_text. intros H.
  apply (f_equal NilEmpty.uint_of_string) in H. rewrite !NilEmpty.usu in H.
  injection H as H. apply (f_equal Nat.of_uint) in H.
  rewrite !DecimalNat.Unsigned.of_to in H. exact H.
Qed.

Lemma name_placeholder_inj i j :
  Derived.name_placeholder i = Derived.name_placeholder j -> i = j.
Proof.
  unfold Derived.name_placeholder. cbn. intros H. injection H as H.
  apply counter_text_inj. exact H.
Qed.

Lemma value_placeholder_inj i j :
  Derived.value_placeholder i = Derived.value_placeholder j -> i = j.
Proof.
  unfold Derived.value_placeholder. cbn. intros H. injection H as H.
  apply counter_text_inj. exact H.
Qed.

Lemma numbered_empty {A} (ph : nat -> string) : Derived.numbered ph (∅ : gmap string A) [].
Proof.
  split; [apply map_size_empty|]. intros k x. rewrite lookup_empty. split; [discriminate|].
  intros (i & _ & H). destruct i; discriminate.
Qed.

Lemma numbered_snoc {A} (ph : nat -> string) (m : gmap string A) (l : list A) (x : A) :
  (forall i j, ph i = ph j -> i = j) ->
  Derived.numbered ph m l ->
  Derived.numbered ph (<[ph (length l) := x]> m) (l ++ [x]).
Proof.
  intros Hinj [Hsize Hm].
  assert (Hfresh : m !! ph (length l) = None).
  { destruct (m !! ph (length l)) as [y|] eqn:E; [|reflexivity].
    apply Hm in E. destruct E as (i & Hi & Hl). apply Hinj in Hi. subst i.
    rewrite lookup_ge_None_2 in Hl by lia. discriminate. }
  split.
  - rewrite map_size_insert_None by exact Hfresh. rewrite length_app. cbn. lia.
  - intros k y. destruct (decide (k = ph (length l))) as [->|Hne].
    + rewrite lookup_insert_eq. split.
      * intros H. exists (length l). split; [reflexivity|].
        rewrite lookup_app_r by lia. rewrite Nat.sub_diag. exact H.
      * intros (i & Hi & Hl). apply Hinj in Hi. subst i.
        rewrite lookup_app_r in Hl by lia. rewrite Nat.sub_diag in Hl. exact Hl.
    + rewrite lookup_insert_ne by congruence. rewrite Hm. split.
      * intros (i & Hi & Hl). exists i. split; [exact Hi|].
        apply lookup_app_l_Some. exact Hl.
      * intros (i & Hi & Hl). exists i. split; [exact Hi|].
        apply lookup_app_Some in Hl. destruct Hl as [Hl|[Hge Hl]]; [exact Hl|].
        destruct (i - length l)%nat as [|d] eqn:E; [|destruct d; discriminate].
        exfalso. apply Hne. rewrite Hi. f_equal. lia.
Qed.

Lemma clause_texts_cons with_value sep a l n v :
  Derived.clause_texts with_value sep (a :: l) n v
  = (if with_value
     then Derived.name_placeholder n +:+ sep +:+ Derived.value_placeholder v
     else Derived.name_placeholder n)
    :: Derived.clause_texts with_value sep l (S n) (S v).
Proof.
  unfold Derived.clause_texts. cbn [imap]. rewrite !Nat.add_0_r. f_equal.
  apply imap_ext. intros i x _. cbn. rewrite !Nat.add_succ_r. reflexivity.
Qed.

Lemma clause_texts_without_value sep l n v v' :
  Derived.clause_texts false sep l n v = Derived.clause_texts false sep l n v'.
Proof. reflexivity. Qed.

Lemma clauses_of_spec with_value sep (l : list UpdateAction) :
  forall st ns ws cs st',
    Derived.tables_of st ns ws ->
    clauses_of with_value sep l st = Ok (cs, st') ->
    exists ws',
      mapM Serializer.to_dynamo_value (if with_value then value <$> l else []) = Ok ws'
      /\ length ws' = (if with_value then length l else 0%nat)
      /\ Derived.tables_of st' (ns ++ (field_name <$> l)) (ws ++ ws')
      /\ cs = Derived.clause_texts with_value sep l (length ns) (length ws).
Proof.
  induction l as [|a l IH]; intros st ns ws cs st' Hst H.
  - cbn in H. injection H as <- <-. exists []. rewrite !app_nil_r.
    split; [destruct with_value; reflexivity|]. split; [destruct with_value; reflexivity|].
    split; [exact Hst|reflexivity].
  - destruct Hst as (Hn & Hv & Hnames & Hvalues).
    cbn [clauses_of get_name_ph] in H.
    pose proof (numbered_snoc _ _ _ (field_name a) name_placeholder_inj Hnames) as Hnames1.
    destruct with_value.
    + unfold get_value_ph in H. cbn [values names name_counter value_counter] in H.
      destruct (Serializer.to_dynamo_value (value a)) as [w|e] eqn:Ew; [|discriminate].
      cbn [Res.bind fst snd] in H.
      match type of H with
      | context [clauses_of true sep l ?st2] =>
          destruct (clauses_of true sep l st2) as [[cs2 st3]|e] eqn:E; [|discriminate];
          assert (Hst2 : Derived.tables_of st2 (ns ++ [field_name a]) (ws ++ [w]))
      end.
      { pose proof (numbered_snoc _ _ _ w value_placeholder_inj Hvalues) as Hvalues1.
        split; [|split; [|split]]; cbn [name_counter value_counter names values].
        - rewrite length_app, Hn. cbn. lia.
        - rewrite length_app, Hv. cbn. lia.
        - unfold Derived.name_placeholder in *. rewrite Hn. exact Hnames1.
        - unfold Derived.value_placeholder in *. rewrite Hv. exact Hvalues1. }
      cbn [Res.bind fst snd] in H. injection H as <- <-.
      destruct (IH _ _ _ _ _ Hst2 E) as (ws' & Hws' & Hlen & Hst3 & Hcs).
      exists (w :: ws'). split.
      { change (mapM Serializer.to_dynamo_value (value <$> l) = Ok ws') in Hws'.
        rewrite fmap_cons, mapM_cons, Ew. cbn [Res.bind]. rewrite Hws'. reflexivity. }
      split; [cbn; rewrite Hlen; reflexivity|]. split.
      { rewrite fmap_cons, (cons_middle (field_name a)), (cons_middle w), !app_assoc.
        exact Hst3. }
      rewrite clause_texts_cons. rewrite Hcs, !length_app. cbn [length].
      rewrite !Nat.add_1_r. unfold Derived.name_placeholder, Derived.value_placeholder.
      rewrite Hn, Hv. reflexivity.
    + cbn [Res.bind fst snd] in H.
      match type of H with
      | context [clauses_of false sep l ?st1] =>
          destruct (clauses_of false sep l st1) as [[cs2 st3]|e] eqn:E; [|discriminate];
          assert (Hst1 : Derived.tables_of st1 (ns ++ [field_name a]) ws)
      end.
      { split; [|split; [|split]]; cbn [name_counter value_counter names values].
        - rewrite length_app, Hn. cbn. lia.
        - exact Hv.
        - unfold Derived.name_placeholder in *. rewrite Hn. exact Hnames1.
        - exact Hvalues. }
      cbn [Res.bind fst snd] in H. injection H as <- <-.
      destruct (IH _ _ _ _ _ Hst1 E) as (ws' & Hws' & Hlen & Hst3 & Hcs).
      exists ws'. split; [exact Hws'|]. split; [exact Hlen|]. split.
      { rewrite fmap_cons, (cons_middle (field_name a)), !app_assoc. exact Hst3. }
      rewrite clause_texts_cons. rewrite Hcs, !length_app. cbn [length].
      rewrite !Nat.add_1_r. unfold Derived.name_placeholder. rewrite Hn. reflexivity.
Qed.

Lemma clause_part_spec keyword with_value sep (l : list UpdateAction) parts st ns ws r :
  Derived.tables_of st ns ws ->
  clause_part keyword with_value sep l parts st = Ok r ->
  exists ws',
    mapM Serializer.to_dynamo_value (if with_value then value <$> l else []) = Ok ws'
    /\ length ws' = (if with_value then length l else 0%nat)
    /\ Derived.tables_of (snd r) (ns ++ (field_name <$> l)) (ws ++ ws')
    /\ fst r = parts ++ Derived.part keyword with_value sep l (length ns) (length ws).
Proof.
  intros Hst H. destruct l as [|a l].
  - cbn in H. injection H as <-. exists []. cbn. rewrite !app_nil_r.
    split; [destruct with_value; reflexivity|]. split; [destruct with_value; reflexivity|].
    split; [exact Hst|reflexivity].
  - unfold clause_part in H.
    destruct (clauses_of with_value sep (a :: l) st) as [[cs st']|e] eqn:E; [|discriminate].
    cbn [Res.bind fst snd] in H. injection H as <-.
    destruct (clauses_of_spec _ _ _ _ _ _ _ _ Hst E) as (ws' & Hws' & Hlen & Hst' & Hcs).
    exists ws'. split; [exact Hws'|]. split; [exact Hlen|]. split; [exact Hst'|].
    cbn [fst Derived.part]. rewrite Hcs. reflexivity.
Qed.

Lemma group_actions_total cls (l : list UpdateAction) :
  forall g g',
    group_actions cls l g = Ok g' ->
    length (Derived.named g') = (length (Derived.named g) + length l)%nat.
Proof.
  induction l as [|a l IH]; intros g g' H.
  - injection H as <-. cbn. lia.
  - rewrite group_actions_cons in H.
    destruct (validate a cls) as [v|e]; [|discriminate]. cbn [Res.bind] in H.
    rewrite (IH _ _ H). unfold Derived.named.
    destruct (kind a), v; cbn [Derived.clause_of Derived.put set_actions remove_actions
                                add_actions delete_actions];
      rewrite !length_app; cbn [length]; lia.
Qed.

Lemma default_non_empty {A} (m : gmap string A) : default ∅ (non_empty m) = m.
Proof.
  unfold non_empty. destruct (bool_decide (m = ∅)) eqn:E; [|reflexivity].
  apply bool_decide_eq_true in E. subst m. reflexivity.
Qed.

Lemma mapM_app_both {A C} (f : A -> result exn C) (a b : list A) xa xb :
  mapM f a = Ok xa -> mapM f b = Ok xb -> mapM f (a ++ b) = Ok (xa ++ xb).
Proof.
  revert xa. induction a as [|x a IH]; intros xa Ha Hb.
  - injection Ha as <-. exact Hb.
  - rewrite mapM_cons in Ha. destruct (f x) as [y|e] eqn:E; [|discriminate].
    cbn [Res.bind] in Ha. destruct (mapM f a) as [ya|e] eqn:Ea; [|discriminate].
    injection Ha as <-. cbn [app]. rewrite mapM_cons, E. cbn [Res.bind].
    rewrite (IH ya eq_refl Hb). reflexivity.
Qed.

(** X29.  The placeholders of an update are fresh and bound.  When an
    update without condition compiles, the update expression is the
    closed form over the grouped actions: the clauses SET, REMOVE, ADD and
    DELETE in this order, the k-th action in clause order under the name
    placeholder [#u_n{k}] and the j-th action carrying a value under
    [:u_v{j}]; the name table binds exactly these name placeholders, each
    to the field of its action, the value table exactly these value
    placeholders, each to the encoded value of its action; distinct
    actions never share a placeholder, and no action is lost. *)
Theorem X29_update_placeholders_are_fresh_and_bound :
  forall (self : UpdateBuilder) (compiled : Compiled),
    condition_truthy (_condition self) = false ->
    _compile self = Ok compiled ->
    exists g ws,
      group_actions (model_cls self) (actions self)
        {| set_actions := []; remove_actions := []; add_actions := []; delete_actions := [] |}
      = Ok g
      /\ mapM Serializer.to_dynamo_value (value <$> Derived.valued g) = Ok ws
      /\ UpdateExpression compiled = Derived.update_expression g
      /\ Derived.numbered Derived.name_placeholder
           (default ∅ (ExpressionAttributeNames compiled)) (field_name <$> Derived.named g)
      /\ Derived.numbered Derived.value_placeholder
           (default ∅ (ExpressionAttributeValues compiled)) ws
      /\ length (Derived.named g) = length (actions self)
      /\ (forall i j, Derived.name_placeholder i = Derived.name_placeholder j -> i = j)
      /\ (forall i j, Derived.value_placeholder i = Derived.value_placeholder j -> i = j).
Proof.
  intros self compiled Hc H. unfold _compile in H.
  destruct (actions self) as [|a0 l0] eqn:Ha; [discriminate|]. rewrite <- Ha in *.
  match type of H with
  | context [group_actions ?c ?l ?g0] =>
      destruct (group_actions c l g0) as [g|e] eqn:Eg; [|discriminate]
  end.
  cbn [Res.bind] in H.
  assert (H0 : Derived.tables_of
                 {| names := ∅; values := ∅; name_counter := 0; value_counter := 0 |}
                 [] []).
  { split; [reflexivity|]. split; [reflexivity|]. split; apply numbered_empty. }
  destruct (clause_part "SET" true " = " (set_actions g) [] _) as [r1|e] eqn:E1;
    [|discriminate].
  cbn [Res.bind] in H.
  destruct (clause_part_spec _ _ _ _ _ _ _ _ _ H0 E1) as (w1 & Hw1 & Hl1 & T1 & P1).
  destruct (clause_part "REMOVE" false "" (remove_actions g) (fst r1) (snd r1))
    as [r2|e] eqn:E2; [|discriminate].
  cbn [Res.bind] in H.
  destruct (clause_part_spec _ _ _ _ _ _ _ _ _ T1 E2) as (w2 & Hw2 & Hl2 & T2 & P2).
  destruct (clause_part "ADD" true " " (add_actions g) (fst r2) (snd r2))
    as [r3|e] eqn:E3; [|discriminate].
  cbn [Res.bind] in H.
  destruct (clause_part_spec _ _ _ _ _ _ _ _ _ T2 E3) as (w3 & Hw3 & Hl3 & T3 & P3).
  destruct (clause_part "DELETE" true " " (delete_actions g) (fst r3) (snd r3))
    as [r4|e] eqn:E4; [|discriminate].
  cbn [Res.bind] in H.
  destruct (clause_part_spec _ _ _ _ _ _ _ _ _ T3 E4) as (w4 & Hw4 & Hl4 & T4 & P4).
  rewrite Hc in H. injection H as <-.
  cbn [UpdateExpression ExpressionAttributeNames ExpressionAttributeValues].
  rewrite !default_non_empty.
  destruct w2 as [|? ?]; [|discriminate Hl2]. rewrite app_nil_r in *.
  cbn [app length] in *.
  exists g, (w1 ++ w3 ++ w4). split; [reflexivity|]. split.
  { unfold Derived.valued. rewrite !fmap_app.
    apply mapM_app_both; [exact Hw1|]. apply mapM_app_both; [exact Hw3|exact Hw4]. }
  destruct T4 as (_ & _ & Hnames & Hvalues).
  split.
  { unfold Derived.update_expression. rewrite P4, P3, P2, P1.
    rewrite !length_app, !length_fmap, Hl1, Hl3. cbn [app length].
    rewrite <- !app_assoc. reflexivity. }
  split.
  { unfold Derived.named. rewrite !fmap_app, !app_assoc. cbn [app] in Hnames. exact Hnames. }
  split; [rewrite <- !app_assoc in Hvalues; exact Hvalues|].
  split.
  { rewrite (group_actions_total _ _ _ _ Eg). reflexivity. }
  split; [exact name_placeholder_inj|exact value_placeholder_inj].
Qed.

End UpdatePlaceholders.

Section UpdatePlaceholderSamples.
#[local] Existing Instance Reference.decimal_floats.
#[local] Existing Instance Reference.type_tags.
#[local] Existing Instance Reference.strict_layer.
#[local] Existing Instance Reference.equality_builder.
Import Updates.

Lemma X29_witness :
  exists compiled,
    _compile Samples.three_clauses = Ok compiled
    /\ UpdateExpression compiled = "SET #u_n0 = :u_v0 REMOVE #u_n1 ADD #u_n2 :u_v1".
Proof.
  destruct (_compile Samples.three_clauses) as [compiled|e] eqn:E;
    [|vm_compute in E; discriminate E].
  exists compiled. split; [reflexivity|].
  destruct (X29_update_placeholders_are_fresh_and_bound (V := Reference.strict_layer)
              Samples.three_clauses compiled eq_refl E) as (g & ws & Hg & _ & He & _).
  rewrite He. vm_compute in Hg. injection Hg as <-. vm_compute. reflexivity.
Defined.

End UpdatePlaceholderSamples.

Section RegistrationExamples.
#[local] Existing Instance Reference.decimal_floats.
#[local] Existing Instance Reference.type_tags.
#[local] Existing Instance Reference.strict_layer.
#[local] Existing Instance Reference.equality_builder.

(** [issubclass] holds of the class itself: a base can be registered on
    itself, and is then base and registered entity at once. *)
Example base_registers_on_itself :
  Base.register Reference.MyTable "BASE" Reference.MyTable
  = Ok (Samples.MyTable_on_itself, Samples.MyTable_on_itself).
Proof. vm_compute. reflexivity. Qed.

(** A class that derives from a registered entity cannot be created: the
    marker of the registration is found on it, and is not its own. *)
Example subclass_of_registered_entity_is_refused :
  Metaclass.__new__ "Admin" [Samples.User_base; Samples.MyTable_base] None
    [("pk", Fields.no_extra)]
  = Raise (AttributeError "_pending_parent_model").
Proof. reflexivity. Qed.

(** Under the empty value the registration succeeds, and an item whose
    discriminator is empty is still instantiated as the base. *)
Example empty_value_falls_back_to_base :
  match Base.register Reference.MyTable "" Reference.User_declared with
  | Ok (base', _) =>
      Base.instance_of <$>
        (match Base._deserialize_item base' [("pk", PStr "1"); ("entity_type", PStr "")] with
         | Ok x => Some x
         | Raise _ => None
         end)
  | Raise _ => None
  end = Some "MyTable".
Proof. vm_compute. reflexivity. Qed.

(** A scan of [Admin], declared with a [Meta] of its own, has no filter. *)
Example admin_scan_has_no_filter :
  Scan.filter_conditions
    <$> (match Scan.__init__ Samples.Admin None with
         | Ok b => Some b
         | Raise _ => None
         end) = Some [].
Proof. vm_compute. reflexivity. Qed.

End RegistrationExamples.

Section EnumMemberExamples.
#[local] Existing Instance Reference.decimal_floats.
#[local] Existing Instance Reference.type_tags.
#[local] Existing Instance Reference.strict_layer.
#[local] Existing Instance Reference.equality_builder.
Import Serializer Updates.

(** A member of an [IntEnum] is a number for ADD; a member of a plain
    enum is none, and the message names its class. *)
Example add_of_enum_members :
  validate {| kind := Add; field_name := "level"; value := PEnum "Level" true (PInt 2) |}
           Reference.Message
  = Ok (PEnum "Level" true (PInt 2))
  /\ validate {| kind := Add; field_name := "colour"; value := PEnum "Colour" false (PInt 2) |}
              Reference.Message
     = Raise (ValueError ("Invalid value for ADD operation. "
                          +:+ "DynamoDB ADD supports only Numbers and Sets. "
                          +:+ "Got: Colour")).
Proof. split; reflexivity. Qed.

(** A member of an enum class that mixes float in does not reach the
    encoder: the float test comes first, and the signal of the decimal
    module is raised as it is. *)
Example float_enum_member_is_no_number :
  to_dynamo [("ratio", PEnum "Ratio" true (PFloat (DFinite false 5 (-1))))]
  = Raise (DecimalException "InvalidOperation").
Proof. reflexivity. Qed.

(** Inside a tuple, which is not prepared, a member of an [IntEnum] is
    encoded as the number it is, and a member of a plain enum is refused. *)
Example enum_members_in_a_tuple :
  to_dynamo_value (PTuple [PEnum "Level" true (PInt 2)])
  = Ok (WL [WN (DFinite false 2 0)])
  /\ is_ok (to_dynamo_value (PTuple [PEnum "Colour" false (PInt 2)])) = false.
Proof. split; reflexivity. Qed.

End EnumMemberExamples.
